(** * Referential-integrity bookkeeping of the student-management back end

    A shallow embedding of the Express/Mongoose controllers
    ([studentController], [courseController], [classController],
    [departmentController]) and of the four Mongoose models they work on.

    Conventions of the embedding.
    - A collection is the list of its documents in insertion order.
    - An [ObjectId] is kept as the canonical (lower-case hexadecimal)
      string that [toString()] produces.  The handlers of the controller
      modules take the ids of a request in that canonical form.  The
      module [Raw] has the handlers of students and of enrolment,
      withdrawal and course update on the strings that a request holds:
      there a query and an assignment cast the string to an ObjectId
      ([castObjectId], a [CastError] where it is not one), and a
      comparison compares the string as it was sent.  The two agree on
      canonical ids, and the theorems that depend on the spelling of an
      id are stated over [Raw].  The empty string stands for an absent
      (falsy) value of a string field of a request.
    - Counters and capacities are JavaScript numbers holding integers:
      [Z].  The rates of the statistics are doubles ([spec_float], with
      the rounding of IEEE 754 binary64).
    - A handler is a function from the store to the new store and the
      response; an exception thrown by [save()] is the [Thrown] case of
      a [Result] and is mapped to a response by the handler's [catch]
      block.
    - [Document.save()] runs the schema validators of the document;
      [Model.updateMany()] with [$inc] does not.
    - Strings are compared after the schema setters ([trim], [uppercase],
      [lowercase]) both when a document is built and when a filter is cast. *)

From Stdlib Require Import List String Ascii ZArith QArith Qround Bool Lia.
From Stdlib Require Import SpecFloat Permutation Sorted.
Import ListNotations.

Local Open Scope string_scope.
Local Open Scope Z_scope.
Local Open Scope list_scope.

(** ** Strings: the schema setters *)

Definition Id := string.

Definition isSpace (c : ascii) : bool :=
  let n := nat_of_ascii c in
  (Nat.eqb n 32 || (Nat.leb 9 n && Nat.leb n 13))%bool.

Fixpoint trimStart (s : string) : string :=
  match s with
  | EmptyString => EmptyString
  | String c r => if isSpace c then trimStart r else s
  end.

Fixpoint trimEnd (s : string) : string :=
  match s with
  | EmptyString => EmptyString
  | String c r =>
      match trimEnd r with
      | EmptyString => if isSpace c then EmptyString else String c EmptyString
      | r' => String c r'
      end
  end.

Definition trim (s : string) : string := trimEnd (trimStart s).

Definition upperChar (c : ascii) : ascii :=
  let n := nat_of_ascii c in
  if (Nat.leb 97 n && Nat.leb n 122)%bool then ascii_of_nat (n - 32) else c.

Definition lowerChar (c : ascii) : ascii :=
  let n := nat_of_ascii c in
  if (Nat.leb 65 n && Nat.leb n 90)%bool then ascii_of_nat (n + 32) else c.

Fixpoint mapString (f : ascii -> ascii) (s : string) : string :=
  match s with
  | EmptyString => EmptyString
  | String c r => String (f c) (mapString f r)
  end.

Definition toUpperCase : string -> string := mapString upperChar.
Definition toLowerCase : string -> string := mapString lowerChar.

(** [!x] on a string field of a request body. *)
Definition falsy (s : string) : bool := String.eqb s EmptyString.

(** [Array.prototype.includes] on arrays of ids. *)
Definition includes (l : list Id) (x : Id) : bool := existsb (String.eqb x) l.

(** ** Numbers *)

(** The counters and the totals of the reports are JavaScript numbers that
    hold integers: [Z].  A rate of a report is computed by the aggregation
    pipeline in double precision: an IEEE 754 binary64, with the
    operations of [SpecFloat] that round to nearest, ties to even. *)
Definition double := spec_float.

Definition ofZ (n : Z) : double := binary_normalize 53 1024 n 0 false.

(** [$multiply] of two doubles. *)
Definition multiply (x y : double) : double := SFmul 53 1024 x y.

Definition zero : double := ofZ 0.
Definition hundred : double := ofZ 100.

(** The rational that a finite double is. *)
Definition valueOf (x : double) : option Q :=
  match x with
  | S754_zero _ => Some 0%Q
  | S754_finite s m e =>
      Some ((if s then -1 else 1) * inject_Z (Zpos m) * Qpower 2 e)%Q
  | S754_infinity _ | S754_nan => None
  end.

(** ** The models *)

(** What [save()] throws: a Mongoose [ValidationError] with the messages of
    the failed validators, or another error (the driver's duplicate-key
    error of a unique index). *)
Inductive SaveError :=
| ValidationError (messages : list string)
| OtherError (message : string).

Module Department.

Inductive Status := Active | Inactive | UnderMaintenance.

Record doc := {
  _id : Id;
  departmentName : string;
  departmentCode : string;
  totalFaculty : Z;
  totalStudents : Z;
  status : Status
}.

Definition setTotalStudents (n : Z) (d : doc) : doc :=
  {| _id := _id d; departmentName := departmentName d;
     departmentCode := departmentCode d; totalFaculty := totalFaculty d;
     totalStudents := n; status := status d |}.

(** The [min] validators of [departmentSchema]. *)
Definition validate (d : doc) : list string :=
  (if totalFaculty d <? 0 then ["Total faculty cannot be negative"] else [])
  ++ (if totalStudents d <? 0 then ["Total students cannot be negative"] else []).

Definition isActive (d : doc) : bool :=
  match status d with Active => true | _ => false end.

Definition statusRank (s : Status) : Z :=
  match s with Active => 0 | Inactive => 1 | UnderMaintenance => 2 end.

End Department.

Module Class.

Inductive Status := Active | Inactive | Completed.

Record doc := {
  _id : Id;
  className : string;
  section : string;
  capacity : Z;
  currentStrength : Z;
  department : Id;
  status : Status
}.

Definition setCurrentStrength (n : Z) (c : doc) : doc :=
  {| _id := _id c; className := className c; section := section c;
     capacity := capacity c; currentStrength := n;
     department := department c; status := status c |}.

(** The [min]/[max] validators of [classSchema]. *)
Definition validate (c : doc) : list string :=
  (if capacity c <? 1 then ["Capacity must be at least 1"] else [])
  ++ (if 100 <? capacity c then ["Capacity cannot exceed 100"] else [])
  ++ (if currentStrength c <? 0 then ["Current strength cannot be negative"] else []).

(** [classSchema.virtual('isFull')] *)
Definition isFull (c : doc) : bool := capacity c <=? currentStrength c.

Definition isActive (c : doc) : bool :=
  match status c with Active => true | _ => false end.

Definition statusRank (s : Status) : Z :=
  match s with Active => 0 | Completed => 1 | Inactive => 2 end.

End Class.

Module Course.

Inductive Status := Active | Inactive | Completed | Cancelled.
Inductive CourseType := Core | Elective | Lab | Project | Thesis.
Inductive Semester := Fall | Spring | Summer | Winter.

Record doc := {
  _id : Id;
  courseName : string;
  courseCode : string;
  department : Id;
  prerequisites : list Id;
  semester : Semester;
  maxStudents : option Z;          (* not required, no default *)
  enrolledStudents : Z;
  courseType : CourseType;
  status : Status
}.

Definition setEnrolledStudents (n : Z) (c : doc) : doc :=
  {| _id := _id c; courseName := courseName c; courseCode := courseCode c;
     department := department c; prerequisites := prerequisites c;
     semester := semester c; maxStudents := maxStudents c;
     enrolledStudents := n; courseType := courseType c; status := status c |}.

(** The [min]/[max] validators of [courseSchema]; validators do not run
    on an undefined [maxStudents]. *)
Definition validate (c : doc) : list string :=
  match maxStudents c with
  | Some m =>
      (if m <? 1 then ["Maximum students must be at least 1"] else [])
      ++ (if 100 <? m then ["Maximum students cannot exceed 100"] else [])
  | None => []
  end
  ++ (if enrolledStudents c <? 0 then ["Enrolled students cannot be negative"] else []).

(** [course.enrolledStudents >= course.maxStudents]; a comparison with
    [undefined] is false. *)
Definition isFull (c : doc) : bool :=
  match maxStudents c with
  | Some m => m <=? enrolledStudents c
  | None => false
  end.

Definition isActive (c : doc) : bool :=
  match status c with Active => true | _ => false end.

Definition typeRank (t : CourseType) : Z :=
  match t with Core => 0 | Elective => 1 | Lab => 2 | Project => 3 | Thesis => 4 end.

(** The alphabetical order of the semester names. *)
Definition semesterRank (s : Semester) : Z :=
  match s with Fall => 0 | Spring => 1 | Summer => 2 | Winter => 3 end.

End Course.

Module Student.

Inductive Status := Active | Inactive | Graduated | Suspended.
Inductive Gender := Male | Female | Other.

Record doc := {
  _id : Id;
  name : string;
  rollNumber : string;
  email : string;
  gender : Gender;
  class : Id;
  department : Id;
  courses : list Id;
  status : Status
}.

Definition setCourses (l : list Id) (s : doc) : doc :=
  {| _id := _id s; name := name s; rollNumber := rollNumber s;
     email := email s; gender := gender s; class := class s;
     department := department s; courses := l; status := status s |}.

(** The setters of [rollNumber] and [email] in [studentSchema]. *)
Definition castRollNumber (s : string) : string := toUpperCase (trim s).
Definition castEmail (s : string) : string := toLowerCase (trim s).

(** [Student.findOne({ rollNumber: r })] and [Student.findOne({ email: e })]:
    the value of the filter goes through the setter of its path. *)
Definition findOneByRollNumber (r : string) (l : list doc) : option doc :=
  find (fun s => String.eqb (rollNumber s) (castRollNumber r)) l.

Definition findOneByEmail (e : string) (l : list doc) : option doc :=
  find (fun s => String.eqb (email s) (castEmail e)) l.

Definition hasStatus (x : Status) (s : doc) : bool :=
  match x, status s with
  | Active, Active | Inactive, Inactive
  | Graduated, Graduated | Suspended, Suspended => true
  | _, _ => false
  end.

Definition hasGender (g : Gender) (s : doc) : bool :=
  match g, gender s with
  | Male, Male | Female, Female | Other, Other => true
  | _, _ => false
  end.

End Student.

(** ** Request bodies *)

(** The body of [POST /api/students] and one element of the array of
    [POST /api/students/bulk].  [otherErrors] holds the messages of the
    schema validators on the paths that are not modelled (phone, address,
    dateOfBirth, academicYear, guardianInfo) and of the [match] and
    [minlength] validators of name, rollNumber and email: it is empty when
    they all pass. *)
Module StudentData.

Record body := {
  name : string;
  rollNumber : string;
  email : string;
  gender : Student.Gender;
  class : option Id;
  department : option Id;
  courses : option (list Id);
  status : option Student.Status;
  otherErrors : list string
}.

End StudentData.

(** The body of [PUT /api/students/:id]: every key is optional. *)
Module StudentPatch.

Record body := {
  name : option string;
  rollNumber : option string;
  email : option string;
  gender : option Student.Gender;
  class : option Id;
  department : option Id;
  courses : option (list Id);
  status : option Student.Status;
  otherErrors : list string
}.

End StudentPatch.

(** The body of [POST /api/courses]. *)
Module CourseData.

Record body := {
  courseName : string;
  courseCode : string;
  department : option Id;
  prerequisites : option (list Id);
  semester : Course.Semester;
  maxStudents : option Z;
  enrolledStudents : option Z;
  courseType : option Course.CourseType;
  status : option Course.Status;
  otherErrors : list string
}.

End CourseData.

(** The body of [PUT /api/courses/:id]. *)
Module CoursePatch.

Record body := {
  courseName : option string;
  courseCode : option string;
  department : option Id;
  prerequisites : option (list Id);
  semester : option Course.Semester;
  maxStudents : option Z;
  enrolledStudents : option Z;
  courseType : option Course.CourseType;
  status : option Course.Status;
  otherErrors : list string
}.

End CoursePatch.

(** ** The entity store *)

Record Store := {
  departments : list Department.doc;
  classes : list Class.doc;
  courses : list Course.doc;
  students : list Student.doc
}.

Definition withDepartments (l : list Department.doc) (st : Store) : Store :=
  {| departments := l; classes := classes st; courses := courses st;
     students := students st |}.

Definition withClasses (l : list Class.doc) (st : Store) : Store :=
  {| departments := departments st; classes := l; courses := courses st;
     students := students st |}.

Definition withCourses (l : list Course.doc) (st : Store) : Store :=
  {| departments := departments st; classes := classes st; courses := l;
     students := students st |}.

Definition withStudents (l : list Student.doc) (st : Store) : Store :=
  {| departments := departments st; classes := classes st;
     courses := courses st; students := l |}.

Definition emptyStore : Store :=
  {| departments := []; classes := []; courses := []; students := [] |}.

(** Operations of a Mongoose model on its collection, for a document type
    [D] with identifier [key]. *)
Section Collection.

Context {D : Type} (key : D -> Id).

Definition findById (id : Id) (l : list D) : option D :=
  find (fun d => String.eqb (key d) id) l.

(** [find({ _id: { $in: ids } })] *)
Definition findIn (ids : list Id) (l : list D) : list D :=
  filter (fun d => includes ids (key d)) l.

(** The write of [doc.save()] on a document that was loaded from the
    collection: [updateOne({ _id: doc._id }, ...)]. *)
Fixpoint updateOne (d : D) (l : list D) : list D :=
  match l with
  | [] => []
  | x :: r => if String.eqb (key x) (key d) then d :: r else x :: updateOne d r
  end.

Fixpoint findByIdAndDelete (id : Id) (l : list D) : list D :=
  match l with
  | [] => []
  | x :: r => if String.eqb (key x) id then r else x :: findByIdAndDelete id r
  end.

(** [updateMany({ _id: { $in: ids } }, upd)]: no validator runs. *)
Definition updateMany (ids : list Id) (upd : D -> D) (l : list D) : list D :=
  map (fun d => if includes ids (key d) then upd d else d) l.

Definition countDocuments (p : D -> bool) (l : list D) : nat :=
  List.length (filter p l).

End Collection.

(** The result of an awaited [save()]. *)
Inductive Result (A : Type) :=
| Saved (a : A)
| Thrown (e : SaveError).

Arguments Saved {A} a.
Arguments Thrown {A} e.

(** [save()] of a loaded document: validate, then write. *)
Definition saveClass (c : Class.doc) (st : Store) : Result Store :=
  match Class.validate c with
  | [] => Saved (withClasses (updateOne Class._id c (classes st)) st)
  | msgs => Thrown (ValidationError msgs)
  end.

Definition saveDepartment (d : Department.doc) (st : Store) : Result Store :=
  match Department.validate d with
  | [] => Saved (withDepartments (updateOne Department._id d (departments st)) st)
  | msgs => Thrown (ValidationError msgs)
  end.

(** The unique index on [courseCode]. *)
Definition courseKeyTaken (c : Course.doc) (l : list Course.doc) : bool :=
  existsb (fun x => negb (String.eqb (Course._id x) (Course._id c))
                    && String.eqb (Course.courseCode x) (Course.courseCode c))%bool l.

Definition saveCourse (errs : list string) (c : Course.doc) (st : Store)
  : Result Store :=
  match (errs ++ Course.validate c)%list with
  | [] =>
      if courseKeyTaken c (courses st)
      then Thrown (OtherError "E11000 duplicate key error")
      else Saved (withCourses (updateOne Course._id c (courses st)) st)
  | msgs => Thrown (ValidationError msgs)
  end.

(** The unique indexes on [rollNumber] and [email]. *)
Definition studentKeyTaken (s : Student.doc) (l : list Student.doc) : bool :=
  existsb (fun x => negb (String.eqb (Student._id x) (Student._id s))
                    && (String.eqb (Student.rollNumber x) (Student.rollNumber s)
                        || String.eqb (Student.email x) (Student.email s)))%bool l.

(** [save()] of a loaded student whose validators pass ([errs] are the
    messages of the failed ones). *)
Definition saveStudent (errs : list string) (s : Student.doc) (st : Store)
  : Result Store :=
  match errs with
  | [] =>
      if studentKeyTaken s (students st)
      then Thrown (OtherError "E11000 duplicate key error")
      else Saved (withStudents (updateOne Student._id s (students st)) st)
  | msgs => Thrown (ValidationError msgs)
  end.

(** [save()] of a document made by [new Model(...)]: validate, then insert;
    the [_id] index and the unique indexes reject a duplicate. *)
Definition insertStudent (errs : list string) (s : Student.doc) (st : Store)
  : Result Store :=
  match errs with
  | [] =>
      if (existsb (fun x => String.eqb (Student._id x) (Student._id s)) (students st)
          || studentKeyTaken s (students st))%bool
      then Thrown (OtherError "E11000 duplicate key error")
      else Saved (withStudents (students st ++ [s]) st)
  | msgs => Thrown (ValidationError msgs)
  end.

Definition insertCourse (errs : list string) (c : Course.doc) (st : Store)
  : Result Store :=
  match (errs ++ Course.validate c)%list with
  | [] =>
      if (existsb (fun x => String.eqb (Course._id x) (Course._id c)) (courses st)
          || courseKeyTaken c (courses st))%bool
      then Thrown (OtherError "E11000 duplicate key error")
      else Saved (withCourses (courses st ++ [c]) st)
  | msgs => Thrown (ValidationError msgs)
  end.

(** ** Responses *)

(** The [error] member of an unsuccessful response, one constructor per
    message of the controllers; a template string keeps its arguments. *)
Inductive ErrorMessage :=
| RollNumberExists            (* 'Roll number already exists' *)
| EmailExists                 (* 'Email already exists' *)
| ClassNotFound               (* 'Class not found' *)
| ClassFull                   (* 'Class is full. No more seats available' *)
| DepartmentNotFound          (* 'Department not found' *)
| CoursesNotFound             (* 'One or more courses not found' *)
| CoursesFull (courseCodes : list string)   (* `Course(s) ${...} are full` *)
| StudentNotFound             (* 'Student not found' *)
| NewClassNotFound            (* 'New class not found' *)
| NewClassFull                (* 'New class is full' *)
| NewDepartmentNotFound       (* 'New department not found' *)
| StudentsArrayRequired       (* 'Students array is required' *)
| TooManyStudents             (* 'Cannot process more than 100 students at once' *)
| CourseCodeExists            (* 'Course with this code already exists' *)
| PrerequisitesNotFound       (* 'One or more prerequisites not found' *)
| MaxStudentsBelowEnrolled (enrolled : Z)
    (* `Maximum students cannot be less than currently enrolled (${...})` *)
| SelfPrerequisite            (* 'Course cannot be a prerequisite of itself' *)
| CourseNotFound              (* 'Course not found' *)
| CourseHasStudents (studentCount : nat)
    (* `Cannot delete course with ${studentCount} enrolled students. Remove students first.` *)
| CourseIsPrerequisite (courseNames : list string)
    (* `Course is a prerequisite for: ${courseNames}. Update those courses first.` *)
| StudentIdRequired           (* 'Student ID is required' *)
| CourseFull                  (* 'Course is full' *)
| AlreadyEnrolled             (* 'Student is already enrolled in this course' *)
| PrerequisitesNotMet         (* 'Student does not meet course prerequisites' *)
| NotEnrolled                 (* 'Student is not enrolled in this course' *)
| ClassHasStudents (studentCount : nat)
    (* `Cannot delete class with ${studentCount} students. Remove students first.` *)
| DepartmentInUse (classCount studentCount courseCount : nat)
    (* `Cannot delete department. It has ${classCount} classes, ${studentCount} students, and ${courseCount} courses.` *)
| ValidationFailed (messages : list string)  (* 'Validation Error', messages *)
| ServerError (thrown : SaveError).          (* 'Server Error', error.message *)

(** One entry of [results.success] and of [results.errors] of the bulk
    endpoint. *)
Record BulkSuccess := {
  bulkId : Id;
  bulkName : string;
  bulkRollNumber : string
}.

Inductive BulkReason :=
| MissingRequiredFields       (* 'Missing required fields' *)
| DuplicateRollOrEmail        (* 'Duplicate roll number or email' *)
| SaveFailed (thrown : SaveError).   (* error.message of the inner catch *)

Record BulkError := {
  bulkStudent : StudentData.body;
  bulkReason : BulkReason
}.

(** The reports of the statistics endpoints.  Totals and counts are
    integers; a rate is a double.  The [$avg]/[$round] members
    (averageClassSize, averageCreditHours, averageFaculty, averageStudents)
    and the credit-hour and establishment-year extremes are left out. *)
Record ClassOverview := {
  totalClasses : Z;
  activeClasses : Z;
  classTotalCapacity : Z;
  classTotalStudents : Z;
  classAvailableSeats : Z;
  maxClassSize : Z;
  minClassSize : Z;
  overallUtilization : double
}.

Record DepartmentClassRow := {
  dcDepartment : Id;
  dcDepartmentName : string;
  dcDepartmentCode : string;
  classCount : Z;
  dcTotalCapacity : Z;
  dcTotalStudents : Z;
  dcAvailableSeats : Z;
  utilizationRate : double
}.

Record CourseOverview := {
  totalCourses : Z;
  activeCourses : Z;
  courseTotalCapacity : Z;
  courseTotalEnrolled : Z;
  courseAvailableSeats : Z;
  enrollmentRate : double
}.

Record DepartmentCourseRow := {
  dkDepartment : Id;
  dkDepartmentName : string;
  dkDepartmentCode : string;
  courseCount : Z;
  dkTotalCapacity : Z;
  dkTotalEnrolled : Z;
  dkAvailableSeats : Z;
  dkEnrollmentRate : double
}.

Record StudentOverview := {
  totalStudentsCount : Z;
  activeStudents : Z;
  inactiveStudents : Z;
  graduatedStudents : Z;
  suspendedStudents : Z;
  maleStudents : Z;
  femaleStudents : Z;
  otherStudents : Z
}.

Record StudentDepartmentRow := {
  sdDepartmentName : string;
  sdDepartmentCode : string;
  sdStudentCount : Z
}.

Record StudentClassRow := {
  scClass : Id;
  scClassName : string;
  scSection : string;
  scStudentCount : Z;
  scCapacity : Z;
  percentageFull : double
}.

Record DepartmentOverview := {
  totalDepartments : Z;
  activeDepartments : Z;
  inactiveDepartments : Z;
  sumTotalFaculty : Z;
  sumTotalStudents : Z;
  studentToFacultyRatio : double
}.

Record DepartmentDetailRow := {
  ddDepartmentName : string;
  ddDepartmentCode : string;
  ddTotalFaculty : Z;
  ddTotalStudents : Z;
  ddClassCount : Z;
  ddCourseCount : Z
}.

(** The members of a response besides [success]. *)
Inductive Content :=
| Error (error : ErrorMessage)
| StudentCreated (data : option Student.doc)
| StudentUpdated (data : option Student.doc)
| StudentDeleted (id : Id) (name rollNumber : string)
| BulkProcessed (processed : nat) (successful failed : nat)
    (successes : list BulkSuccess) (errors : list BulkError)
| CourseCreated (data : option Course.doc)
| CourseUpdated (data : option Course.doc)
| CourseDeleted (id : Id) (courseName courseCode : string)
| Enrolled (student course : Id)
| Withdrawn (student course : Id)
| ClassDeleted (id : Id) (className section : string)
| DepartmentDeleted (id : Id) (departmentName departmentCode : string)
| ClassStats (overview : ClassOverview) (departmentWise : list DepartmentClassRow)
    (statusDistribution : list (Class.Status * Z))
| CourseStats (overview : CourseOverview) (departmentWise : list DepartmentCourseRow)
    (typeDistribution : list (Course.CourseType * Z * Z))
    (semesterStats : list (Course.Semester * Z * Z))
| StudentStats (overview : StudentOverview)
    (departmentStats : list StudentDepartmentRow)
    (classStats : list StudentClassRow)
| DepartmentStats (overview : DepartmentOverview)
    (detailedStats : list DepartmentDetailRow)
    (statusDistribution : list (Department.Status * Z)).

(** [res.status(code).json({ success, ... })] *)
Record Response := {
  status : Z;
  success : bool;
  content : Content
}.

Definition fail (code : Z) (e : ErrorMessage) : Response :=
  {| status := code; success := false; content := Error e |}.

Definition ok (code : Z) (c : Content) : Response :=
  {| status := code; success := true; content := c |}.

(** The error taxonomy of the interface: what each message reports. *)
Module Taxonomy.

Inductive kind :=
| ValidationError | NotFound | Conflict | CapacityExceeded
| PrerequisiteUnmet | StorageError.

Definition classify (e : ErrorMessage) : kind :=
  match e with
  | RollNumberExists | EmailExists | CourseCodeExists => Conflict
  | AlreadyEnrolled | NotEnrolled => Conflict
  | CourseHasStudents _ | CourseIsPrerequisite _ => Conflict
  | ClassHasStudents _ | DepartmentInUse _ _ _ => Conflict
  | ClassNotFound | DepartmentNotFound | CoursesNotFound => NotFound
  | StudentNotFound | NewClassNotFound | NewDepartmentNotFound => NotFound
  | PrerequisitesNotFound | CourseNotFound => NotFound
  | ClassFull | NewClassFull | CoursesFull _ | CourseFull => CapacityExceeded
  | PrerequisitesNotMet => PrerequisiteUnmet
  | StudentsArrayRequired | TooManyStudents | StudentIdRequired => ValidationError
  | MaxStudentsBelowEnrolled _ | SelfPrerequisite => ValidationError
  | ValidationFailed _ => ValidationError
  | ServerError _ => StorageError
  end.

End Taxonomy.

(** The kind of error a response carries, if it is an error. *)
Definition errorKind (r : Response) : option Taxonomy.kind :=
  match content r with
  | Error e => Some (Taxonomy.classify e)
  | _ => None
  end.

(** ** The control flow of a handler *)

(** A step of a handler body either goes on with a value, leaves the
    handler with a response ([return res.status(..).json(..)]), or throws. *)
Inductive Outcome (A : Type) :=
| Continue (a : A)
| Return (r : Response)
| Throw (e : SaveError).

Arguments Continue {A} a.
Arguments Return {A} r.
Arguments Throw {A} e.

Definition Handler (A : Type) := Store -> Store * Outcome A.

Definition ret {A} (a : A) : Handler A := fun st => (st, Continue a).

Definition bind {A B} (h : Handler A) (k : A -> Handler B) : Handler B :=
  fun st =>
    match h st with
    | (st', Continue a) => k a st'
    | (st', Return r) => (st', Return r)
    | (st', Throw e) => (st', Throw e)
    end.

Notation "x <- h ;; k" := (bind h (fun x => k))
  (at level 61, h at next level, right associativity).
Notation "h ;;; k" := (bind h (fun _ => k))
  (at level 61, right associativity).

Definition reply {A} (r : Response) : Handler A := fun st => (st, Return r).

(** A read of the store. *)
Definition query {A} (f : Store -> A) : Handler A := fun st => (st, Continue (f st)).

(** A write that cannot throw. *)
Definition modify (f : Store -> Store) : Handler unit := fun st => (f st, Continue tt).

(** [await doc.save()] *)
Definition await (f : Store -> Result Store) : Handler unit :=
  fun st =>
    match f st with
    | Saved st' => (st', Continue tt)
    | Thrown e => (st, Throw e)
    end.

Definition when (b : bool) (h : Handler unit) : Handler unit :=
  if b then h else ret tt.

(** [try { body } catch (error) { handler }] around a whole handler. *)
Definition tryCatch (body : Handler Response) (handler : SaveError -> Response)
  : Store -> Store * Response :=
  fun st =>
    match body st with
    | (st', Continue r) => (st', r)
    | (st', Return r) => (st', r)
    | (st', Throw e) => (st', handler e)
    end.

(** The [catch] block of the create and update handlers. *)
Definition catchValidation (e : SaveError) : Response :=
  match e with
  | ValidationError msgs => fail 400 (ValidationFailed msgs)
  | _ => fail 500 (ServerError e)
  end.

(** The [catch] block of the other handlers. *)
Definition catchAll (e : SaveError) : Response := fail 500 (ServerError e).

Definition findByIdOpt {D} (key : D -> Id) (o : option Id) (l : list D) : option D :=
  match o with
  | Some id => findById key id l
  | None => None
  end.

Definition nonEmpty {A} (l : list A) : bool :=
  match l with [] => false | _ => true end.

(** [req.body.xs && req.body.xs.length > 0] on an array key. *)
Definition hasCourses (o : option (list Id)) : bool :=
  match o with Some l => nonEmpty l | None => false end.

Definition requested (o : option (list Id)) : list Id :=
  match o with Some l => l | None => [] end.

(** A reference that is absent or empty fails the [required] validator. *)
Definition missingId (o : option Id) : bool :=
  match o with Some id => falsy id | None => true end.

(** [req.body.x && req.body.x !== current] on a string key. *)
Definition changed (o : option string) (current : string) : option string :=
  match o with
  | Some x => if (negb (falsy x) && negb (String.eqb x current))%bool
              then Some x else None
  | None => None
  end.

(** ** Aggregation pipelines *)

(** [$sum] of a field over a group. *)
Definition sumOf {A} (f : A -> Z) (l : list A) : Z :=
  fold_right (fun x acc => f x + acc) 0 l.

(** [$sum: { $cond: [p, 1, 0] }] *)
Definition countWhere {A} (p : A -> bool) (l : list A) : Z :=
  sumOf (fun x => if p x then 1 else 0) l.

(** [$max] and [$min] of a field over the group [x :: l]. *)
Definition maxOf {A} (f : A -> Z) (x : A) (l : list A) : Z :=
  fold_right (fun y m => Z.max (f y) m) (f x) l.

Definition minOf {A} (f : A -> Z) (x : A) (l : list A) : Z :=
  fold_right (fun y m => Z.min (f y) m) (f x) l.

(** [$divide] of two integers: the quotient in double precision; the
    pipeline fails on a zero divisor. *)
Definition divide (a b : Z) : option double :=
  if b =? 0 then None else Some (SFdiv 53 1024 (ofZ a) (ofZ b)).

(** [{ $multiply: [{ $divide: [a, b] }, 100] }] where [b] is not zero: the
    quotient is rounded to a double, and so is its product with 100. *)
Definition percent (a b : Z) : double :=
  multiply (SFdiv 53 1024 (ofZ a) (ofZ b)) hundred.

(** The same under [{ $cond: [{ $eq: [b, 0] }, 0, ...] }]. *)
Definition guardedPercent (a b : Z) : double :=
  if b =? 0 then zero else percent a b.

(** The first document of every group of [$group], groups in the order of
    their first document. *)
Fixpoint firstsBy {A} (same : A -> A -> bool) (l : list A) : list A :=
  match l with
  | [] => []
  | x :: r => x :: filter (fun y => negb (same y x)) (firstsBy same r)
  end.

(** [$sort: { f: -1 }], keeping the order of equal keys. *)
Fixpoint insertDesc {A} (f : A -> Z) (x : A) (l : list A) : list A :=
  match l with
  | [] => [x]
  | y :: r => if f y <=? f x then x :: l else y :: insertDesc f x r
  end.

Definition sortDesc {A} (f : A -> Z) (l : list A) : list A :=
  fold_right (insertDesc f) [] l.

(** [$sort: { f: 1 }] *)
Fixpoint insertAsc {A} (f : A -> Z) (x : A) (l : list A) : list A :=
  match l with
  | [] => [x]
  | y :: r => if f x <=? f y then x :: l else y :: insertAsc f x r
  end.

Definition sortAsc {A} (f : A -> Z) (l : list A) : list A :=
  fold_right (insertAsc f) [] l.

(** A stage that computes one row per input, failing if one fails. *)
Fixpoint project {A B} (f : A -> option B) (l : list A) : option (list B) :=
  match l with
  | [] => Some []
  | x :: r =>
      match f x, project f r with
      | Some y, Some ys => Some (y :: ys)
      | _, _ => None
      end
  end.

(** [$lookup] followed by [$unwind]: one pair per matching document. *)
Definition lookupUnwind {A B} (matches : A -> B -> bool) (l : list A) (from : list B)
  : list (A * B) :=
  flat_map (fun a => map (fun b => (a, b)) (filter (matches a) from)) l.

(** The error of a failed pipeline, as the [catch] block reports it. *)
Definition pipelineFailed : Response :=
  fail 500 (ServerError (OtherError "can't $divide by zero")).

(** ** studentController *)

Module StudentController.

(** [{ ...body, email: body.email.toLowerCase(),
       rollNumber: body.rollNumber.toUpperCase() }] *)
Definition normalised (b : StudentData.body) : StudentData.body :=
  {| StudentData.name := StudentData.name b;
     StudentData.rollNumber := toUpperCase (StudentData.rollNumber b);
     StudentData.email := toLowerCase (StudentData.email b);
     StudentData.gender := StudentData.gender b;
     StudentData.class := StudentData.class b;
     StudentData.department := StudentData.department b;
     StudentData.courses := StudentData.courses b;
     StudentData.status := StudentData.status b;
     StudentData.otherErrors := StudentData.otherErrors b |}.

(** [new Student(studentData)]: the setters and defaults of the schema;
    [id] is the ObjectId the constructor generates. *)
Definition newStudent (id : Id) (b : StudentData.body) : Student.doc :=
  {| Student._id := id;
     Student.name := trim (StudentData.name b);
     Student.rollNumber := Student.castRollNumber (StudentData.rollNumber b);
     Student.email := Student.castEmail (StudentData.email b);
     Student.gender := StudentData.gender b;
     Student.class := match StudentData.class b with Some c => c | None => EmptyString end;
     Student.department :=
       match StudentData.department b with Some d => d | None => EmptyString end;
     Student.courses :=
       match StudentData.courses b with Some l => l | None => [] end;
     Student.status :=
       match StudentData.status b with Some s => s | None => Student.Active end |}.

(** The messages of the validators that fail on [new Student(b)]. *)
Definition validateNew (b : StudentData.body) : list string :=
  ((if falsy (trim (StudentData.name b)) then ["Name is required"] else [])
   ++ (if falsy (trim (StudentData.rollNumber b)) then ["Roll number is required"] else [])
   ++ (if falsy (trim (StudentData.email b)) then ["Email is required"] else [])
   ++ (if missingId (StudentData.class b) then ["Class is required"] else [])
   ++ (if missingId (StudentData.department b) then ["Department is required"] else [])
   ++ StudentData.otherErrors b)%list.

Definition incEnrolled (k : Z) (c : Course.doc) : Course.doc :=
  Course.setEnrolledStudents (Course.enrolledStudents c + k) c.

(** [Course.updateMany({ _id: { $in: ids } }, { $inc: { enrolledStudents: k } })] *)
Definition incCourses (ids : list Id) (k : Z) (st : Store) : Store :=
  withCourses (updateMany Course._id ids (incEnrolled k) (courses st)) st.

Definition createStudentBody (newId : Id) (b : StudentData.body)
  : Handler Response :=
  existingStudent <- query (fun st =>
    Student.findOneByRollNumber (StudentData.rollNumber b) (students st)) ;;
  match existingStudent with
  | Some _ => reply (fail 400 RollNumberExists)
  | None =>
  existingEmail <- query (fun st =>
    Student.findOneByEmail (toLowerCase (StudentData.email b)) (students st)) ;;
  match existingEmail with
  | Some _ => reply (fail 400 EmailExists)
  | None =>
  classExists <- query (fun st =>
    findByIdOpt Class._id (StudentData.class b) (classes st)) ;;
  match classExists with
  | None => reply (fail 404 ClassNotFound)
  | Some classExists =>
  if Class.capacity classExists <=? Class.currentStrength classExists
  then reply (fail 400 ClassFull)
  else
  departmentExists <- query (fun st =>
    findByIdOpt Department._id (StudentData.department b) (departments st)) ;;
  match departmentExists with
  | None => reply (fail 404 DepartmentNotFound)
  | Some departmentExists =>
  coursesExist <- query (fun st =>
    findIn Course._id (requested (StudentData.courses b)) (courses st)) ;;
  if (hasCourses (StudentData.courses b)
      && negb (Nat.eqb (List.length coursesExist)
                       (List.length (requested (StudentData.courses b)))))%bool
  then reply (fail 404 CoursesNotFound)
  else
  if (hasCourses (StudentData.courses b)
      && nonEmpty (filter Course.isFull coursesExist))%bool
  then reply (fail 400
         (CoursesFull (map Course.courseCode (filter Course.isFull coursesExist))))
  else
  let studentData := normalised b in
  let student := newStudent newId studentData in
  await (insertStudent (validateNew studentData) student) ;;;
  await (saveClass
    (Class.setCurrentStrength (Class.currentStrength classExists + 1) classExists)) ;;;
  await (saveDepartment
    (Department.setTotalStudents
       (Department.totalStudents departmentExists + 1) departmentExists)) ;;;
  when (hasCourses (StudentData.courses b))
    (modify (incCourses (requested (StudentData.courses b)) 1)) ;;;
  populatedStudent <- query (fun st =>
    findById Student._id (Student._id student) (students st)) ;;
  ret (ok 201 (StudentCreated populatedStudent))
  end end end end.

Definition createStudent (newId : Id) (b : StudentData.body)
  : Store -> Store * Response :=
  tryCatch (createStudentBody newId b) catchValidation.

(** [Object.keys(req.body).forEach(key => student[key] = req.body[key])],
    through the setters of the schema. *)
Definition applyPatch (b : StudentPatch.body) (s : Student.doc) : Student.doc :=
  {| Student._id := Student._id s;
     Student.name :=
       match StudentPatch.name b with Some n => trim n | None => Student.name s end;
     Student.rollNumber :=
       match StudentPatch.rollNumber b with
       | Some r => Student.castRollNumber r
       | None => Student.rollNumber s
       end;
     Student.email :=
       match StudentPatch.email b with
       | Some e => Student.castEmail e
       | None => Student.email s
       end;
     Student.gender :=
       match StudentPatch.gender b with Some g => g | None => Student.gender s end;
     Student.class :=
       match StudentPatch.class b with Some c => c | None => Student.class s end;
     Student.department :=
       match StudentPatch.department b with
       | Some d => d
       | None => Student.department s
       end;
     Student.courses :=
       match StudentPatch.courses b with
       | Some l => l
       | None => Student.courses s
       end;
     Student.status :=
       match StudentPatch.status b with Some x => x | None => Student.status s end |}.

(** The messages of the validators that fail on the patched document. *)
Definition validatePatched (b : StudentPatch.body) (s : Student.doc) : list string :=
  ((if falsy (Student.name s) then ["Name is required"] else [])
   ++ (if falsy (Student.rollNumber s) then ["Roll number is required"] else [])
   ++ (if falsy (Student.email s) then ["Email is required"] else [])
   ++ (if falsy (Student.class s) then ["Class is required"] else [])
   ++ (if falsy (Student.department s) then ["Department is required"] else [])
   ++ StudentPatch.otherErrors b)%list.

Definition withEmail (e : string) (b : StudentPatch.body) : StudentPatch.body :=
  {| StudentPatch.name := StudentPatch.name b;
     StudentPatch.rollNumber := StudentPatch.rollNumber b;
     StudentPatch.email := Some e;
     StudentPatch.gender := StudentPatch.gender b;
     StudentPatch.class := StudentPatch.class b;
     StudentPatch.department := StudentPatch.department b;
     StudentPatch.courses := StudentPatch.courses b;
     StudentPatch.status := StudentPatch.status b;
     StudentPatch.otherErrors := StudentPatch.otherErrors b |}.

Definition withRollNumber (r : string) (b : StudentPatch.body) : StudentPatch.body :=
  {| StudentPatch.name := StudentPatch.name b;
     StudentPatch.rollNumber := Some r;
     StudentPatch.email := StudentPatch.email b;
     StudentPatch.gender := StudentPatch.gender b;
     StudentPatch.class := StudentPatch.class b;
     StudentPatch.department := StudentPatch.department b;
     StudentPatch.courses := StudentPatch.courses b;
     StudentPatch.status := StudentPatch.status b;
     StudentPatch.otherErrors := StudentPatch.otherErrors b |}.

(** The email and roll-number checks of the update; the result is the
    request body with the normalised values written back. *)
Definition checkEmail (student : Student.doc) (b : StudentPatch.body)
  : Handler StudentPatch.body :=
  match changed (StudentPatch.email b) (Student.email student) with
  | Some e =>
      existingEmail <- query (fun st =>
        find (fun s => (String.eqb (Student.email s) (Student.castEmail (toLowerCase e))
                        && negb (String.eqb (Student._id s) (Student._id student)))%bool)
             (students st)) ;;
      match existingEmail with
      | Some _ => reply (fail 400 EmailExists)
      | None => ret (withEmail (toLowerCase e) b)
      end
  | None => ret b
  end.

Definition checkRollNumber (student : Student.doc) (b : StudentPatch.body)
  : Handler StudentPatch.body :=
  match changed (StudentPatch.rollNumber b) (Student.rollNumber student) with
  | Some r =>
      existingRollNumber <- query (fun st =>
        find (fun s => (String.eqb (Student.rollNumber s)
                          (Student.castRollNumber (toUpperCase r))
                        && negb (String.eqb (Student._id s) (Student._id student)))%bool)
             (students st)) ;;
      match existingRollNumber with
      | Some _ => reply (fail 400 RollNumberExists)
      | None => ret (withRollNumber (toUpperCase r) b)
      end
  | None => ret b
  end.

(** "Handle class change" *)
Definition handleClassChange (student : Student.doc) (b : StudentPatch.body)
  : Handler unit :=
  match changed (StudentPatch.class b) (Student.class student) with
  | Some newClassId =>
      oldClass <- query (fun st => findById Class._id (Student.class student) (classes st)) ;;
      newClass <- query (fun st => findById Class._id newClassId (classes st)) ;;
      match newClass with
      | None => reply (fail 404 NewClassNotFound)
      | Some newClass =>
          if Class.capacity newClass <=? Class.currentStrength newClass
          then reply (fail 400 NewClassFull)
          else
            match oldClass with
            | Some oldClass =>
                await (saveClass
                  (Class.setCurrentStrength (Class.currentStrength oldClass - 1) oldClass))
            | None => ret tt
            end ;;;
            await (saveClass
              (Class.setCurrentStrength (Class.currentStrength newClass + 1) newClass))
      end
  | None => ret tt
  end.

(** "Handle department change" *)
Definition handleDepartmentChange (student : Student.doc) (b : StudentPatch.body)
  : Handler unit :=
  match changed (StudentPatch.department b) (Student.department student) with
  | Some newDepartmentId =>
      oldDepartment <- query (fun st =>
        findById Department._id (Student.department student) (departments st)) ;;
      newDepartment <- query (fun st =>
        findById Department._id newDepartmentId (departments st)) ;;
      match newDepartment with
      | None => reply (fail 404 NewDepartmentNotFound)
      | Some newDepartment =>
          match oldDepartment with
          | Some oldDepartment =>
              await (saveDepartment
                (Department.setTotalStudents
                   (Department.totalStudents oldDepartment - 1) oldDepartment))
          | None => ret tt
          end ;;;
          await (saveDepartment
            (Department.setTotalStudents
               (Department.totalStudents newDepartment + 1) newDepartment))
      end
  | None => ret tt
  end.

(** "Handle courses change" *)
Definition handleCoursesChange (student : Student.doc) (b : StudentPatch.body)
  : Handler unit :=
  match StudentPatch.courses b with
  | Some newCourses =>
      let oldCourses := Student.courses student in
      let coursesToRemove := filter (fun c => negb (includes newCourses c)) oldCourses in
      let coursesToAdd := filter (fun c => negb (includes oldCourses c)) newCourses in
      when (nonEmpty coursesToRemove) (modify (incCourses coursesToRemove (-1))) ;;;
      if nonEmpty coursesToAdd then
        coursesToAddData <- query (fun st => findIn Course._id coursesToAdd (courses st)) ;;
        let fullCourses := filter Course.isFull coursesToAddData in
        if nonEmpty fullCourses
        then reply (fail 400 (CoursesFull (map Course.courseCode fullCourses)))
        else modify (incCourses coursesToAdd 1)
      else ret tt
  | None => ret tt
  end.

Definition updateStudentBody (id : Id) (b : StudentPatch.body) : Handler Response :=
  student <- query (fun st => findById Student._id id (students st)) ;;
  match student with
  | None => reply (fail 404 StudentNotFound)
  | Some student =>
      b1 <- checkEmail student b ;;
      b2 <- checkRollNumber student b1 ;;
      handleClassChange student b2 ;;;
      handleDepartmentChange student b2 ;;;
      handleCoursesChange student b2 ;;;
      let student' := applyPatch b2 student in
      await (saveStudent (validatePatched b2 student') student') ;;;
      populatedStudent <- query (fun st =>
        findById Student._id (Student._id student) (students st)) ;;
      ret (ok 200 (StudentUpdated populatedStudent))
  end.

Definition updateStudent (id : Id) (b : StudentPatch.body)
  : Store -> Store * Response :=
  tryCatch (updateStudentBody id b) catchValidation.

Definition deleteStudentBody (id : Id) : Handler Response :=
  student <- query (fun st => findById Student._id id (students st)) ;;
  match student with
  | None => reply (fail 404 StudentNotFound)
  | Some student =>
      classData <- query (fun st => findById Class._id (Student.class student) (classes st)) ;;
      match classData with
      | Some classData =>
          await (saveClass
            (Class.setCurrentStrength (Class.currentStrength classData - 1) classData))
      | None => ret tt
      end ;;;
      departmentData <- query (fun st =>
        findById Department._id (Student.department student) (departments st)) ;;
      match departmentData with
      | Some departmentData =>
          await (saveDepartment
            (Department.setTotalStudents
               (Department.totalStudents departmentData - 1) departmentData))
      | None => ret tt
      end ;;;
      when (nonEmpty (Student.courses student))
        (modify (incCourses (Student.courses student) (-1))) ;;;
      modify (fun st => withStudents (findByIdAndDelete Student._id id (students st)) st) ;;;
      ret (ok 200 (StudentDeleted id (Student.name student) (Student.rollNumber student)))
  end.

Definition deleteStudent (id : Id) : Store -> Store * Response :=
  tryCatch (deleteStudentBody id) catchAll.

(** [{ id: student._id, name: student.name, rollNumber: student.rollNumber }] *)
Definition successEntry (student : Student.doc) : BulkSuccess :=
  {| bulkId := Student._id student;
     bulkName := Student.name student;
     bulkRollNumber := Student.rollNumber student |}.

(** The body of the [for (const studentData of students)] loop with its
    inner [try]/[catch]; [newIds i] is the ObjectId generated for the
    [i]-th element of the array. *)
Fixpoint bulkLoop (newIds : nat -> Id) (i : nat) (l : list StudentData.body)
    (st : Store) (successes : list BulkSuccess) (errors : list BulkError)
  : Store * (list BulkSuccess * list BulkError) :=
  match l with
  | [] => (st, (successes, errors))
  | studentData :: rest =>
      if (falsy (StudentData.name studentData)
          || falsy (StudentData.rollNumber studentData)
          || falsy (StudentData.email studentData))%bool
      then bulkLoop newIds (S i) rest st successes
             (errors ++ [{| bulkStudent := studentData;
                            bulkReason := MissingRequiredFields |}])
      else
        match find (fun s =>
                (String.eqb (Student.rollNumber s)
                   (Student.castRollNumber (StudentData.rollNumber studentData))
                 || String.eqb (Student.email s)
                      (Student.castEmail (StudentData.email studentData)))%bool)
              (students st) with
        | Some _ =>
            bulkLoop newIds (S i) rest st successes
              (errors ++ [{| bulkStudent := studentData;
                             bulkReason := DuplicateRollOrEmail |}])
        | None =>
            let student := newStudent (newIds i) (normalised studentData) in
            match insertStudent (validateNew (normalised studentData)) student st with
            | Saved st' =>
                bulkLoop newIds (S i) rest st'
                  (successes ++ [successEntry student]) errors
            | Thrown e =>
                bulkLoop newIds (S i) rest st successes
                  (errors ++ [{| bulkStudent := studentData;
                                 bulkReason := SaveFailed e |}])
            end
        end
  end.

Definition bulkCreateStudents (newIds : nat -> Id) (students : list StudentData.body)
  : Store -> Store * Response :=
  fun st =>
    if Nat.eqb (List.length students) 0
    then (st, fail 400 StudentsArrayRequired)
    else if Nat.ltb 100 (List.length students)
    then (st, fail 400 TooManyStudents)
    else
      match bulkLoop newIds 0 students st [] [] with
      | (st', (successes, errors)) =>
          (st', ok 201 (BulkProcessed (List.length students)
                          (List.length successes) (List.length errors)
                          successes errors))
      end.

(** [getStudentStats]: the three pipelines and the response. *)
Definition studentOverview (l : list Student.doc) : list StudentOverview :=
  match l with
  | [] => []
  | _ =>
      [{| totalStudentsCount := sumOf (fun _ => 1) l;
          activeStudents := countWhere (Student.hasStatus Student.Active) l;
          inactiveStudents := countWhere (Student.hasStatus Student.Inactive) l;
          graduatedStudents := countWhere (Student.hasStatus Student.Graduated) l;
          suspendedStudents := countWhere (Student.hasStatus Student.Suspended) l;
          maleStudents := countWhere (Student.hasGender Student.Male) l;
          femaleStudents := countWhere (Student.hasGender Student.Female) l;
          otherStudents := countWhere (Student.hasGender Student.Other) l |}]
  end.

Definition zeroStudentOverview : StudentOverview :=
  {| totalStudentsCount := 0; activeStudents := 0; inactiveStudents := 0;
     graduatedStudents := 0; suspendedStudents := 0; maleStudents := 0;
     femaleStudents := 0; otherStudents := 0 |}.

Definition sameDepartment (a b : Student.doc) : bool :=
  String.eqb (Student.department a) (Student.department b).

Definition sameClass (a b : Student.doc) : bool :=
  String.eqb (Student.class a) (Student.class b).

Definition departmentStats (st : Store) : list StudentDepartmentRow :=
  sortDesc sdStudentCount
    (map (fun gd =>
            {| sdDepartmentName := Department.departmentName (snd gd);
               sdDepartmentCode := Department.departmentCode (snd gd);
               sdStudentCount :=
                 countWhere (fun s => sameDepartment s (fst gd)) (students st) |})
         (lookupUnwind
            (fun g d => String.eqb (Department._id d) (Student.department g))
            (firstsBy sameDepartment (students st)) (departments st))).

Definition classStats (st : Store) : option (list StudentClassRow) :=
  option_map (sortDesc scStudentCount)
    (project (fun gc =>
                let count := countWhere (fun s => sameClass s (fst gc)) (students st) in
                match divide count (Class.capacity (snd gc)) with
                | Some q =>
                    Some {| scClass := Class._id (snd gc);
                            scClassName := Class.className (snd gc);
                            scSection := Class.section (snd gc);
                            scStudentCount := count;
                            scCapacity := Class.capacity (snd gc);
                            percentageFull := multiply q hundred |}
                | None => None
                end)
       (lookupUnwind
          (fun g c => String.eqb (Class._id c) (Student.class g))
          (firstsBy sameClass (students st)) (classes st))).

Definition getStudentStats : Store -> Store * Response :=
  fun st =>
    match classStats st with
    | Some rows =>
        (st, ok 200 (StudentStats
                       (hd zeroStudentOverview (studentOverview (students st)))
                       (departmentStats st) rows))
    | None => (st, pipelineFailed)
    end.

End StudentController.

(** ** courseController *)

Module CourseController.

(** The setters of [courseCode] in [courseSchema]. *)
Definition castCourseCode (s : string) : string := toUpperCase (trim s).

(** [new Course({ ...req.body, courseCode: req.body.courseCode.toUpperCase() })] *)
Definition newCourse (id : Id) (b : CourseData.body) : Course.doc :=
  {| Course._id := id;
     Course.courseName := trim (CourseData.courseName b);
     Course.courseCode := castCourseCode (toUpperCase (CourseData.courseCode b));
     Course.department :=
       match CourseData.department b with Some d => d | None => EmptyString end;
     Course.prerequisites :=
       match CourseData.prerequisites b with Some l => l | None => [] end;
     Course.semester := CourseData.semester b;
     Course.maxStudents := CourseData.maxStudents b;
     Course.enrolledStudents :=
       match CourseData.enrolledStudents b with Some n => n | None => 0 end;
     Course.courseType :=
       match CourseData.courseType b with Some t => t | None => Course.Core end;
     Course.status :=
       match CourseData.status b with Some s => s | None => Course.Active end |}.

Definition validateNew (b : CourseData.body) : list string :=
  ((if falsy (trim (CourseData.courseName b)) then ["Course name is required"] else [])
   ++ (if falsy (trim (CourseData.courseCode b)) then ["Course code is required"] else [])
   ++ (if missingId (CourseData.department b) then ["Department is required"] else [])
   ++ CourseData.otherErrors b)%list.

Definition createCourseBody (newId : Id) (b : CourseData.body) : Handler Response :=
  existingCourse <- query (fun st =>
    find (fun c => String.eqb (Course.courseCode c)
                     (castCourseCode (toUpperCase (CourseData.courseCode b))))
         (courses st)) ;;
  match existingCourse with
  | Some _ => reply (fail 400 CourseCodeExists)
  | None =>
  departmentExists <- query (fun st =>
    findByIdOpt Department._id (CourseData.department b) (departments st)) ;;
  match departmentExists with
  | None => reply (fail 404 DepartmentNotFound)
  | Some _ =>
  prerequisitesExist <- query (fun st =>
    findIn Course._id (requested (CourseData.prerequisites b))
      (courses st)) ;;
  if (hasCourses (CourseData.prerequisites b)
      && negb (Nat.eqb (List.length prerequisitesExist)
                 (List.length (requested (CourseData.prerequisites b)))))%bool
  then reply (fail 404 PrerequisitesNotFound)
  else
  let course := newCourse newId b in
  await (insertCourse (validateNew b) course) ;;;
  populatedCourse <- query (fun st =>
    findById Course._id (Course._id course) (courses st)) ;;
  ret (ok 201 (CourseCreated populatedCourse))
  end end.

Definition createCourse (newId : Id) (b : CourseData.body)
  : Store -> Store * Response :=
  tryCatch (createCourseBody newId b) catchValidation.

Definition withCourseCode (code : string) (b : CoursePatch.body) : CoursePatch.body :=
  {| CoursePatch.courseName := CoursePatch.courseName b;
     CoursePatch.courseCode := Some code;
     CoursePatch.department := CoursePatch.department b;
     CoursePatch.prerequisites := CoursePatch.prerequisites b;
     CoursePatch.semester := CoursePatch.semester b;
     CoursePatch.maxStudents := CoursePatch.maxStudents b;
     CoursePatch.enrolledStudents := CoursePatch.enrolledStudents b;
     CoursePatch.courseType := CoursePatch.courseType b;
     CoursePatch.status := CoursePatch.status b;
     CoursePatch.otherErrors := CoursePatch.otherErrors b |}.

(** [Object.keys(req.body).forEach(key => course[key] = req.body[key])] *)
Definition applyPatch (b : CoursePatch.body) (c : Course.doc) : Course.doc :=
  {| Course._id := Course._id c;
     Course.courseName :=
       match CoursePatch.courseName b with
       | Some n => trim n
       | None => Course.courseName c
       end;
     Course.courseCode :=
       match CoursePatch.courseCode b with
       | Some k => castCourseCode k
       | None => Course.courseCode c
       end;
     Course.department :=
       match CoursePatch.department b with
       | Some d => d
       | None => Course.department c
       end;
     Course.prerequisites :=
       match CoursePatch.prerequisites b with
       | Some l => l
       | None => Course.prerequisites c
       end;
     Course.semester :=
       match CoursePatch.semester b with Some s => s | None => Course.semester c end;
     Course.maxStudents :=
       match CoursePatch.maxStudents b with
       | Some m => Some m
       | None => Course.maxStudents c
       end;
     Course.enrolledStudents :=
       match CoursePatch.enrolledStudents b with
       | Some n => n
       | None => Course.enrolledStudents c
       end;
     Course.courseType :=
       match CoursePatch.courseType b with
       | Some t => t
       | None => Course.courseType c
       end;
     Course.status :=
       match CoursePatch.status b with Some s => s | None => Course.status c end |}.

Definition validatePatched (b : CoursePatch.body) (c : Course.doc) : list string :=
  ((if falsy (Course.courseName c) then ["Course name is required"] else [])
   ++ (if falsy (Course.courseCode c) then ["Course code is required"] else [])
   ++ (if falsy (Course.department c) then ["Department is required"] else [])
   ++ CoursePatch.otherErrors b)%list.

Definition checkCourseCode (course : Course.doc) (b : CoursePatch.body)
  : Handler CoursePatch.body :=
  match changed (CoursePatch.courseCode b) (Course.courseCode course) with
  | Some code =>
      duplicateCourse <- query (fun st =>
        find (fun c => (String.eqb (Course.courseCode c) (castCourseCode (toUpperCase code))
                        && negb (String.eqb (Course._id c) (Course._id course)))%bool)
             (courses st)) ;;
      match duplicateCourse with
      | Some _ => reply (fail 400 CourseCodeExists)
      | None => ret (withCourseCode (toUpperCase code) b)
      end
  | None => ret b
  end.

(** [req.body.maxStudents && req.body.maxStudents < course.enrolledStudents] *)
Definition maxBelowEnrolled (course : Course.doc) (b : CoursePatch.body) : bool :=
  match CoursePatch.maxStudents b with
  | Some m => (negb (m =? 0) && (m <? Course.enrolledStudents course))%bool
  | None => false
  end.

(** "Validate prerequisites" of the update. *)
Definition checkPrerequisites (course : Course.doc) (b : CoursePatch.body)
  : Handler unit :=
  match CoursePatch.prerequisites b with
  | Some prerequisites =>
      prerequisitesExist <- query (fun st =>
        findIn Course._id prerequisites (courses st)) ;;
      if negb (Nat.eqb (List.length prerequisitesExist) (List.length prerequisites))
      then reply (fail 404 PrerequisitesNotFound)
      else if includes prerequisites (Course._id course)
      then reply (fail 400 SelfPrerequisite)
      else ret tt
  | None => ret tt
  end.

Definition updateCourseBody (id : Id) (b : CoursePatch.body) : Handler Response :=
  course <- query (fun st => findById Course._id id (courses st)) ;;
  match course with
  | None => reply (fail 404 CourseNotFound)
  | Some course =>
      b1 <- checkCourseCode course b ;;
      if maxBelowEnrolled course b1
      then reply (fail 400 (MaxStudentsBelowEnrolled (Course.enrolledStudents course)))
      else
        checkPrerequisites course b1 ;;;
        let course' := applyPatch b1 course in
        await (saveCourse (validatePatched b1 course') course') ;;;
        populatedCourse <- query (fun st =>
          findById Course._id (Course._id course) (courses st)) ;;
        ret (ok 200 (CourseUpdated populatedCourse))
  end.

Definition updateCourse (id : Id) (b : CoursePatch.body)
  : Store -> Store * Response :=
  tryCatch (updateCourseBody id b) catchValidation.

Definition deleteCourseBody (id : Id) : Handler Response :=
  course <- query (fun st => findById Course._id id (courses st)) ;;
  match course with
  | None => reply (fail 404 CourseNotFound)
  | Some course =>
      studentCount <- query (fun st =>
        countDocuments (fun s => includes (Student.courses s) id) (students st)) ;;
      if Nat.ltb 0 studentCount
      then reply (fail 400 (CourseHasStudents studentCount))
      else
        dependentCourses <- query (fun st =>
          filter (fun c => includes (Course.prerequisites c) id) (courses st)) ;;
        if nonEmpty dependentCourses
        then reply (fail 400
               (CourseIsPrerequisite (map Course.courseName dependentCourses)))
        else
          modify (fun st =>
            withCourses (findByIdAndDelete Course._id id (courses st)) st) ;;;
          ret (ok 200 (CourseDeleted id (Course.courseName course)
                         (Course.courseCode course)))
  end.

Definition deleteCourse (id : Id) : Store -> Store * Response :=
  tryCatch (deleteCourseBody id) catchAll.

(** [save()] of a loaded document of which only the course list or a
    counter was modified: no unique index is touched.  The course list of a
    student carries no validator; the counter of a course carries [min: 0]. *)
Definition saveLoadedStudent (s : Student.doc) (st : Store) : Result Store :=
  Saved (withStudents (updateOne Student._id s (students st)) st).

Definition saveLoadedCourse (c : Course.doc) (st : Store) : Result Store :=
  match Course.validate c with
  | [] => Saved (withCourses (updateOne Course._id c (courses st)) st)
  | msgs => Thrown (ValidationError msgs)
  end.

Definition enrollStudentBody (id : Id) (studentId : Id) : Handler Response :=
  if falsy studentId
  then reply (fail 400 StudentIdRequired)
  else
  course <- query (fun st => findById Course._id id (courses st)) ;;
  match course with
  | None => reply (fail 404 CourseNotFound)
  | Some course =>
  if Course.isFull course
  then reply (fail 400 CourseFull)
  else
  student <- query (fun st => findById Student._id studentId (students st)) ;;
  match student with
  | None => reply (fail 404 StudentNotFound)
  | Some student =>
  if includes (Student.courses student) id
  then reply (fail 400 AlreadyEnrolled)
  else
  if (nonEmpty (Course.prerequisites course)
      && negb (forallb (fun prereqId => includes (Student.courses student) prereqId)
                 (Course.prerequisites course)))%bool
  then reply (fail 400 PrerequisitesNotMet)
  else
  await (saveLoadedStudent
    (Student.setCourses (Student.courses student ++ [id]) student)) ;;;
  await (saveLoadedCourse
    (Course.setEnrolledStudents (Course.enrolledStudents course + 1) course)) ;;;
  ret (ok 200 (Enrolled (Student._id student) (Course._id course)))
  end end.

Definition enrollStudent (id : Id) (studentId : Id) : Store -> Store * Response :=
  tryCatch (enrollStudentBody id studentId) catchAll.

Definition withdrawStudentBody (id : Id) (studentId : Id) : Handler Response :=
  if falsy studentId
  then reply (fail 400 StudentIdRequired)
  else
  course <- query (fun st => findById Course._id id (courses st)) ;;
  match course with
  | None => reply (fail 404 CourseNotFound)
  | Some course =>
  student <- query (fun st => findById Student._id studentId (students st)) ;;
  match student with
  | None => reply (fail 404 StudentNotFound)
  | Some student =>
  if negb (includes (Student.courses student) id)
  then reply (fail 400 NotEnrolled)
  else
  await (saveLoadedStudent
    (Student.setCourses
       (filter (fun courseId => negb (String.eqb courseId id)) (Student.courses student))
       student)) ;;;
  await (saveLoadedCourse
    (Course.setEnrolledStudents (Z.max 0 (Course.enrolledStudents course - 1)) course)) ;;;
  ret (ok 200 (Withdrawn (Student._id student) (Course._id course)))
  end end.

Definition withdrawStudent (id : Id) (studentId : Id) : Store -> Store * Response :=
  tryCatch (withdrawStudentBody id studentId) catchAll.

(** [getCourseStats] *)
Definition capacityOf (c : Course.doc) : Z :=
  match Course.maxStudents c with Some m => m | None => 0 end.

(** [{ $multiply: [{ $cond: [{ $eq: [cap, 0] }, 0, { $divide: [enr, cap] }] }, 100] }] *)
Definition rate (enrolled capacity : Z) : option double :=
  if capacity =? 0 then Some (multiply zero hundred)
  else option_map (fun q => multiply q hundred) (divide enrolled capacity).

Definition courseOverview (l : list Course.doc) : option (list CourseOverview) :=
  match l with
  | [] => Some []
  | _ =>
      let totalCapacity := sumOf capacityOf l in
      let totalEnrolled := sumOf Course.enrolledStudents l in
      match rate totalEnrolled totalCapacity with
      | Some r =>
          Some [{| totalCourses := sumOf (fun _ => 1) l;
                   activeCourses := countWhere Course.isActive l;
                   courseTotalCapacity := totalCapacity;
                   courseTotalEnrolled := totalEnrolled;
                   courseAvailableSeats := totalCapacity - totalEnrolled;
                   enrollmentRate := r |}]
      | None => None
      end
  end.

Definition zeroCourseOverview : CourseOverview :=
  {| totalCourses := 0; activeCourses := 0; courseTotalCapacity := 0;
     courseTotalEnrolled := 0; courseAvailableSeats := 0; enrollmentRate := zero |}.

Definition sameCourseDepartment (a b : Course.doc * Department.doc) : bool :=
  String.eqb (Course.department (fst a)) (Course.department (fst b)).

Definition departmentCourseStats (st : Store) : option (list DepartmentCourseRow) :=
  let joined :=
    lookupUnwind (fun c d => String.eqb (Department._id d) (Course.department c))
      (courses st) (departments st) in
  option_map (sortDesc courseCount)
    (project (fun g =>
                let group := filter (fun x => sameCourseDepartment x g) joined in
                let totalCapacity := sumOf (fun x => capacityOf (fst x)) group in
                let totalEnrolled :=
                  sumOf (fun x => Course.enrolledStudents (fst x)) group in
                match rate totalEnrolled totalCapacity with
                | Some r =>
                    Some {| dkDepartment := Course.department (fst g);
                            dkDepartmentName := Department.departmentName (snd g);
                            dkDepartmentCode := Department.departmentCode (snd g);
                            courseCount := sumOf (fun _ => 1) group;
                            dkTotalCapacity := totalCapacity;
                            dkTotalEnrolled := totalEnrolled;
                            dkAvailableSeats := totalCapacity - totalEnrolled;
                            dkEnrollmentRate := r |}
                | None => None
                end)
       (firstsBy sameCourseDepartment joined)).

Definition typeDistribution (l : list Course.doc)
  : list (Course.CourseType * Z * Z) :=
  map (fun g =>
         let group :=
           filter (fun c => Course.typeRank (Course.courseType c)
                            =? Course.typeRank (Course.courseType g)) l in
         (Course.courseType g, sumOf (fun _ => 1) group,
          sumOf Course.enrolledStudents group))
      (firstsBy (fun a b => Course.typeRank (Course.courseType a)
                            =? Course.typeRank (Course.courseType b)) l).

Definition semesterStats (l : list Course.doc)
  : list (Course.Semester * Z * Z) :=
  sortAsc (fun row => Course.semesterRank (fst (fst row)))
    (map (fun g =>
            let group :=
              filter (fun c => Course.semesterRank (Course.semester c)
                               =? Course.semesterRank (Course.semester g)) l in
            (Course.semester g, sumOf (fun _ => 1) group,
             sumOf Course.enrolledStudents group))
         (firstsBy (fun a b => Course.semesterRank (Course.semester a)
                               =? Course.semesterRank (Course.semester b)) l)).

Definition getCourseStats : Store -> Store * Response :=
  fun st =>
    match courseOverview (courses st), departmentCourseStats st with
    | Some stats, Some departmentWise =>
        (st, ok 200 (CourseStats (hd zeroCourseOverview stats) departmentWise
                       (typeDistribution (courses st))
                       (semesterStats (courses st))))
    | _, _ => (st, pipelineFailed)
    end.

End CourseController.

(** ** classController and departmentController: deletion *)

Module ClassController.

Definition deleteClassBody (id : Id) : Handler Response :=
  classData <- query (fun st => findById Class._id id (classes st)) ;;
  match classData with
  | None => reply (fail 404 ClassNotFound)
  | Some classData =>
      studentCount <- query (fun st =>
        countDocuments (fun s => String.eqb (Student.class s) id) (students st)) ;;
      if Nat.ltb 0 studentCount
      then reply (fail 400 (ClassHasStudents studentCount))
      else
        modify (fun st =>
          withClasses (findByIdAndDelete Class._id id (classes st)) st) ;;;
        ret (ok 200 (ClassDeleted id (Class.className classData)
                       (Class.section classData)))
  end.

Definition deleteClass (id : Id) : Store -> Store * Response :=
  tryCatch (deleteClassBody id) catchAll.

(** [getClassStats] *)
Definition classOverview (l : list Class.doc) : option (list ClassOverview) :=
  match l with
  | [] => Some []
  | c :: r =>
      let totalCapacity := sumOf Class.capacity l in
      let totalStudents := sumOf Class.currentStrength l in
      match divide totalStudents totalCapacity with
      | Some q =>
          Some [{| totalClasses := sumOf (fun _ => 1) l;
                   activeClasses := countWhere Class.isActive l;
                   classTotalCapacity := totalCapacity;
                   classTotalStudents := totalStudents;
                   classAvailableSeats := totalCapacity - totalStudents;
                   maxClassSize := maxOf Class.currentStrength c r;
                   minClassSize := minOf Class.currentStrength c r;
                   overallUtilization := multiply q hundred |}]
      | None => None
      end
  end.

Definition zeroClassOverview : ClassOverview :=
  {| totalClasses := 0; activeClasses := 0; classTotalCapacity := 0;
     classTotalStudents := 0; classAvailableSeats := 0; maxClassSize := 0;
     minClassSize := 0; overallUtilization := zero |}.

Definition sameClassDepartment (a b : Class.doc * Department.doc) : bool :=
  String.eqb (Class.department (fst a)) (Class.department (fst b)).

Definition departmentClassStats (st : Store) : option (list DepartmentClassRow) :=
  let joined :=
    lookupUnwind (fun c d => String.eqb (Department._id d) (Class.department c))
      (classes st) (departments st) in
  option_map (sortDesc classCount)
    (project (fun g =>
                let group := filter (fun x => sameClassDepartment x g) joined in
                let totalCapacity := sumOf (fun x => Class.capacity (fst x)) group in
                let totalStudents :=
                  sumOf (fun x => Class.currentStrength (fst x)) group in
                match divide totalStudents totalCapacity with
                | Some q =>
                    Some {| dcDepartment := Class.department (fst g);
                            dcDepartmentName := Department.departmentName (snd g);
                            dcDepartmentCode := Department.departmentCode (snd g);
                            classCount := sumOf (fun _ => 1) group;
                            dcTotalCapacity := totalCapacity;
                            dcTotalStudents := totalStudents;
                            dcAvailableSeats := totalCapacity - totalStudents;
                            utilizationRate := multiply q hundred |}
                | None => None
                end)
       (firstsBy sameClassDepartment joined)).

Definition statusDistribution (l : list Class.doc) : list (Class.Status * Z) :=
  map (fun g =>
         (Class.status g,
          countWhere (fun c => Class.statusRank (Class.status c)
                               =? Class.statusRank (Class.status g)) l))
      (firstsBy (fun a b => Class.statusRank (Class.status a)
                            =? Class.statusRank (Class.status b)) l).

Definition getClassStats : Store -> Store * Response :=
  fun st =>
    match classOverview (classes st), departmentClassStats st with
    | Some stats, Some departmentWise =>
        (st, ok 200 (ClassStats (hd zeroClassOverview stats) departmentWise
                       (statusDistribution (classes st))))
    | _, _ => (st, pipelineFailed)
    end.

End ClassController.

Module DepartmentController.

Definition deleteDepartmentBody (id : Id) : Handler Response :=
  department <- query (fun st => findById Department._id id (departments st)) ;;
  match department with
  | None => reply (fail 404 DepartmentNotFound)
  | Some department =>
      classCount <- query (fun st =>
        countDocuments (fun c => String.eqb (Class.department c) id) (classes st)) ;;
      studentCount <- query (fun st =>
        countDocuments (fun s => String.eqb (Student.department s) id) (students st)) ;;
      courseCount <- query (fun st =>
        countDocuments (fun c => String.eqb (Course.department c) id) (courses st)) ;;
      if (Nat.ltb 0 classCount || Nat.ltb 0 studentCount || Nat.ltb 0 courseCount)%bool
      then reply (fail 400 (DepartmentInUse classCount studentCount courseCount))
      else
        modify (fun st =>
          withDepartments (findByIdAndDelete Department._id id (departments st)) st) ;;;
        ret (ok 200 (DepartmentDeleted id (Department.departmentName department)
                       (Department.departmentCode department)))
  end.

Definition deleteDepartment (id : Id) : Store -> Store * Response :=
  tryCatch (deleteDepartmentBody id) catchAll.

(** [getDepartmentStats] *)
Definition departmentOverview (l : list Department.doc)
  : option (list DepartmentOverview) :=
  match l with
  | [] => Some []
  | _ =>
      let faculty := sumOf Department.totalFaculty l in
      let studentsTotal := sumOf Department.totalStudents l in
      let total := sumOf (fun _ => 1) l in
      let active := countWhere Department.isActive l in
      match (if faculty =? 0 then Some zero else divide studentsTotal faculty) with
      | Some ratio =>
          Some [{| totalDepartments := total;
                   activeDepartments := active;
                   inactiveDepartments := total - active;
                   sumTotalFaculty := faculty;
                   sumTotalStudents := studentsTotal;
                   studentToFacultyRatio := ratio |}]
      | None => None
      end
  end.

Definition zeroDepartmentOverview : DepartmentOverview :=
  {| totalDepartments := 0; activeDepartments := 0; inactiveDepartments := 0;
     sumTotalFaculty := 0; sumTotalStudents := 0; studentToFacultyRatio := zero |}.

Definition detailedStats (st : Store) : list DepartmentDetailRow :=
  sortDesc ddTotalStudents
    (map (fun d =>
            {| ddDepartmentName := Department.departmentName d;
               ddDepartmentCode := Department.departmentCode d;
               ddTotalFaculty := Department.totalFaculty d;
               ddTotalStudents := Department.totalStudents d;
               ddClassCount :=
                 sumOf (fun _ => 1)
                   (filter (fun c => String.eqb (Class.department c) (Department._id d))
                      (classes st));
               ddCourseCount :=
                 sumOf (fun _ => 1)
                   (filter (fun c => String.eqb (Course.department c) (Department._id d))
                      (courses st)) |})
         (departments st)).

Definition statusDistribution (l : list Department.doc)
  : list (Department.Status * Z) :=
  map (fun g =>
         (Department.status g,
          countWhere (fun d => Department.statusRank (Department.status d)
                               =? Department.statusRank (Department.status g)) l))
      (firstsBy (fun a b => Department.statusRank (Department.status a)
                            =? Department.statusRank (Department.status b)) l).

Definition getDepartmentStats : Store -> Store * Response :=
  fun st =>
    match departmentOverview (departments st) with
    | Some stats =>
        (st, ok 200 (DepartmentStats (hd zeroDepartmentOverview stats)
                       (detailedStats st) (statusDistribution (departments st))))
    | None => (st, pipelineFailed)
    end.

End DepartmentController.

(** ** The integrity properties, stated over the store *)

(** The number of students that reference a class, a department, a course. *)
Definition studentsOfClass (id : Id) (st : Store) : Z :=
  countWhere (fun s => String.eqb (Student.class s) id) (students st).

Definition studentsOfDepartment (id : Id) (st : Store) : Z :=
  countWhere (fun s => String.eqb (Student.department s) id) (students st).

Definition studentsOfCourse (id : Id) (st : Store) : Z :=
  countWhere (fun s => includes (Student.courses s) id) (students st).

(** Every counter equals the number of referencing students. *)
Definition countersMatch (st : Store) : bool :=
  (forallb (fun c => Class.currentStrength c =? studentsOfClass (Class._id c) st)
     (classes st)
   && forallb (fun d => Department.totalStudents d
                        =? studentsOfDepartment (Department._id d) st)
        (departments st)
   && forallb (fun c => Course.enrolledStudents c
                        =? studentsOfCourse (Course._id c) st)
        (courses st))%bool.

(** No counter is negative. *)
Definition countersNonNegative (st : Store) : bool :=
  (forallb (fun c => 0 <=? Class.currentStrength c) (classes st)
   && forallb (fun d => 0 <=? Department.totalStudents d) (departments st)
   && forallb (fun c => 0 <=? Course.enrolledStudents c) (courses st))%bool.




(** No course lists itself as a prerequisite. *)
Definition noSelfPrerequisite (st : Store) : Prop :=
  forall c, In c (courses st) ->
    includes (Course.prerequisites c) (Course._id c) = false.

(** The collections that a successful update leaves: one is taken from the
    old reference, where it resolves, and one is added to the new one. *)
Section Move.

Context {D : Type} (key : D -> Id) (add : Z -> D -> D).

Definition afterMove (oldId newId : Id) (l : list D) : list D :=
  match findById key newId l with
  | Some newDoc =>
      updateOne key (add 1 newDoc)
        match findById key oldId l with
        | Some oldDoc => updateOne key (add (-1) oldDoc) l
        | None => l
        end
  | None => l
  end.

End Move.

Definition addStrength (k : Z) (c : Class.doc) : Class.doc :=
  Class.setCurrentStrength (Class.currentStrength c + k) c.

Definition addStudents (k : Z) (d : Department.doc) : Department.doc :=
  Department.setTotalStudents (Department.totalStudents d + k) d.

Definition classesAfterMove : Id -> Id -> list Class.doc -> list Class.doc :=
  afterMove Class._id addStrength.

Definition departmentsAfterMove
  : Id -> Id -> list Department.doc -> list Department.doc :=
  afterMove Department._id addStudents.

Definition coursesAfterChange (oldCourses newCourses : list Id) (l : list Course.doc)
  : list Course.doc :=
  updateMany Course._id
    (filter (fun c => negb (includes oldCourses c)) newCourses)
    (StudentController.incEnrolled 1)
    (updateMany Course._id
       (filter (fun c => negb (includes newCourses c)) oldCourses)
       (StudentController.incEnrolled (-1)) l).

(** The requests that create, update and delete one student. *)
Inductive StudentRequest :=
| PostStudent (newId : Id) (body : StudentData.body)
| PutStudent (id : Id) (body : StudentPatch.body)
| DeleteStudent (id : Id).

Definition serve (q : StudentRequest) : Store -> Store * Response :=
  match q with
  | PostStudent newId body => StudentController.createStudent newId body
  | PutStudent id body => StudentController.updateStudent id body
  | DeleteStudent id => StudentController.deleteStudent id
  end.

(** The store after a sequence of requests that all succeed. *)
Fixpoint serveAll (qs : list StudentRequest) (st : Store) : option Store :=
  match qs with
  | [] => Some st
  | q :: rest =>
      if success (snd (serve q st)) then serveAll rest (fst (serve q st)) else None
  end.

(** A response that fails with the given HTTP status and kind of error. *)
Definition failsWith (r : Response) (code : Z) (k : Taxonomy.kind) : Prop :=
  status r = code /\ success r = false /\ errorKind r = Some k.

(** The counts that the message of a blocked deletion states. *)
Definition reportedCounts (r : Response) : option (list nat) :=
  match content r with
  | Error (CourseHasStudents n) => Some [n]
  | Error (ClassHasStudents n) => Some [n]
  | Error (DepartmentInUse a b c) => Some [a; b; c]
  | _ => None
  end.

(** ** What a report says of the store *)

(** Two documents of one group: they hold the same key.  [joined] is the
    collection after [$lookup] of the departments and [$unwind]: a
    document beside the department it refers to. *)
Definition sameKey {A} (key : A -> string) (a b : A) : bool :=
  String.eqb (key a) (key b).

Definition joined {A} (ref : A -> Id) (departments : list Department.doc)
    (l : list A) : list (A * Department.doc) :=
  lookupUnwind (fun a d => String.eqb (Department._id d) (ref a)) l departments.

(** The classes and the courses of a department, the students of a class. *)
Definition classesOf (id : Id) (st : Store) : list Class.doc :=
  filter (fun c => String.eqb (Class.department c) id) (classes st).

Definition coursesOf (id : Id) (st : Store) : list Course.doc :=
  filter (fun c => String.eqb (Course.department c) id) (courses st).

(** The row of the class report for the department [d]. *)
Definition classRowOf (st : Store) (d : Department.doc) (row : DepartmentClassRow)
  : Prop :=
  dcDepartment row = Department._id d
  /\ dcDepartmentName row = Department.departmentName d
  /\ dcDepartmentCode row = Department.departmentCode d
  /\ classCount row = sumOf (fun _ => 1) (classesOf (Department._id d) st)
  /\ dcTotalCapacity row = sumOf Class.capacity (classesOf (Department._id d) st)
  /\ dcTotalStudents row
     = sumOf Class.currentStrength (classesOf (Department._id d) st)
  /\ dcAvailableSeats row = dcTotalCapacity row - dcTotalStudents row
  /\ utilizationRate row = percent (dcTotalStudents row) (dcTotalCapacity row).

(** The row of the course report for the department [d]. *)
Definition courseRowOf (st : Store) (d : Department.doc) (row : DepartmentCourseRow)
  : Prop :=
  dkDepartment row = Department._id d
  /\ dkDepartmentName row = Department.departmentName d
  /\ dkDepartmentCode row = Department.departmentCode d
  /\ courseCount row = sumOf (fun _ => 1) (coursesOf (Department._id d) st)
  /\ dkTotalCapacity row
     = sumOf CourseController.capacityOf (coursesOf (Department._id d) st)
  /\ dkTotalEnrolled row
     = sumOf Course.enrolledStudents (coursesOf (Department._id d) st)
  /\ dkAvailableSeats row = dkTotalCapacity row - dkTotalEnrolled row
  /\ dkEnrollmentRate row
     = guardedPercent (dkTotalEnrolled row) (dkTotalCapacity row).

(** The row of the student report for the class [c]. *)
Definition studentRowOf (st : Store) (c : Class.doc) (row : StudentClassRow) : Prop :=
  scClass row = Class._id c
  /\ scClassName row = Class.className c
  /\ scSection row = Class.section c
  /\ scStudentCount row = studentsOfClass (Class._id c) st
  /\ scCapacity row = Class.capacity c
  /\ percentageFull row = percent (scStudentCount row) (scCapacity row).

(** The utilization figure as the specification words it: enrolled divided
    by capacity times 100, zero when the capacity is zero. *)
Definition specUtilization (enrolled capacity : Z) : Q :=
  if capacity =? 0 then 0%Q
  else (inject_Z enrolled / inject_Z capacity * 100)%Q.

(** ** Sample data *)

Module Sample.

Definition cs : Department.doc :=
  {| Department._id := "d1"; Department.departmentName := "Computer Science";
     Department.departmentCode := "CS"; Department.totalFaculty := 3;
     Department.totalStudents := 0; Department.status := Department.Active |}.

Definition classA (strength : Z) : Class.doc :=
  {| Class._id := "c1"; Class.className := "BSCS1"; Class.section := "A";
     Class.capacity := 2; Class.currentStrength := strength;
     Class.department := "d1"; Class.status := Class.Active |}.

Definition classB (strength : Z) : Class.doc :=
  {| Class._id := "c2"; Class.className := "BSCS2"; Class.section := "A";
     Class.capacity := 2; Class.currentStrength := strength;
     Class.department := "d1"; Class.status := Class.Active |}.

Definition intro (enrolled : Z) : Course.doc :=
  {| Course._id := "k1"; Course.courseName := "Programming";
     Course.courseCode := "CS101"; Course.department := "d1";
     Course.prerequisites := []; Course.semester := Course.Fall;
     Course.maxStudents := Some 1; Course.enrolledStudents := enrolled;
     Course.courseType := Course.Core; Course.status := Course.Active |}.

Definition algorithms (enrolled : Z) : Course.doc :=
  {| Course._id := "k2"; Course.courseName := "Algorithms";
     Course.courseCode := "CS201"; Course.department := "d1";
     Course.prerequisites := ["k1"]; Course.semester := Course.Spring;
     Course.maxStudents := Some 30; Course.enrolledStudents := enrolled;
     Course.courseType := Course.Core; Course.status := Course.Active |}.

Definition draft (name roll email : string) (classId : Id) (courseIds : list Id)
  : StudentData.body :=
  {| StudentData.name := name; StudentData.rollNumber := roll;
     StudentData.email := email; StudentData.gender := Student.Female;
     StudentData.class := Some classId; StudentData.department := Some "d1";
     StudentData.courses := Some courseIds; StudentData.status := None;
     StudentData.otherErrors := [] |}.

Definition ann : StudentData.body := draft "Ann Lee" "R1" "ann@uni.edu" "c1" [].
Definition bob : StudentData.body := draft "Bob Ray" "R2" "bob@uni.edu" "c1" [].
Definition cat : StudentData.body := draft "Cat Moss" "R3" "cat@uni.edu" "c1" [].

Definition student (id : Id) (b : StudentData.body) : Student.doc :=
  StudentController.newStudent id (StudentController.normalised b).

(** A department, two empty classes, two courses, no student. *)
Definition empty : Store :=
  {| departments := [cs]; classes := [classA 0; classB 0];
     courses := [intro 0; algorithms 0]; students := [] |}.

(** The ObjectIds generated for a bulk request. *)
Definition ids (i : nat) : Id := String (ascii_of_nat (97 + i)) "0".

Definition noPatch : StudentPatch.body :=
  {| StudentPatch.name := None; StudentPatch.rollNumber := None;
     StudentPatch.email := None; StudentPatch.gender := None;
     StudentPatch.class := None; StudentPatch.department := None;
     StudentPatch.courses := None; StudentPatch.status := None;
     StudentPatch.otherErrors := [] |}.

Definition dan : StudentData.body :=
  draft "Dan Roe" "R4" "dan@uni.edu" "c1" ["k1"].

(** Class c1 is at capacity with Ann and Bob. *)
Definition fullClass : Store :=
  {| departments := [Department.setTotalStudents 2 cs];
     classes := [classA 2; classB 0];
     courses := [intro 0; algorithms 0];
     students := [student "s1" ann; student "s2" bob] |}.

Definition eve : StudentData.body :=
  draft "Eve Ode" "R5" "eve@uni.edu" "c2" ["k1"].

(** Ann is in class c1; Eve is in class c2 and fills course k1. *)
Definition twoStudents : Store :=
  {| departments := [Department.setTotalStudents 2 cs];
     classes := [classA 1; classB 1];
     courses := [intro 1; algorithms 0];
     students := [student "s1" ann; student "s5" eve] |}.

(** Move to class c2 and take course k1. *)
Definition moveAndEnroll : StudentPatch.body :=
  {| StudentPatch.name := None; StudentPatch.rollNumber := None;
     StudentPatch.email := None; StudentPatch.gender := None;
     StudentPatch.class := Some "c2"; StudentPatch.department := None;
     StudentPatch.courses := Some ["k1"]; StudentPatch.status := None;
     StudentPatch.otherErrors := [] |}.

Definition databases : CourseData.body :=
  {| CourseData.courseName := "Databases"; CourseData.courseCode := "cs301";
     CourseData.department := Some "d1"; CourseData.prerequisites := Some ["k1"];
     CourseData.semester := Course.Fall; CourseData.maxStudents := Some 40;
     CourseData.enrolledStudents := None; CourseData.courseType := None;
     CourseData.status := None; CourseData.otherErrors := [] |}.

(** Rename course k2 and state its prerequisite list again. *)
Definition renameAlgorithms : CoursePatch.body :=
  {| CoursePatch.courseName := Some "Algorithms I"; CoursePatch.courseCode := None;
     CoursePatch.department := None; CoursePatch.prerequisites := Some ["k1"];
     CoursePatch.semester := None; CoursePatch.maxStudents := None;
     CoursePatch.enrolledStudents := None; CoursePatch.courseType := None;
     CoursePatch.status := None; CoursePatch.otherErrors := [] |}.

(** A class document that the schema would refuse: capacity zero. *)
Definition noSeats : Class.doc :=
  {| Class._id := "c9"; Class.className := "BSCS9"; Class.section := "A";
     Class.capacity := 0; Class.currentStrength := 0;
     Class.department := "d1"; Class.status := Class.Active |}.

End Sample.

(** ** Every write request of the interface *)

Inductive Request :=
| OneStudent (q : StudentRequest)
| PostBulk (newIds : nat -> Id) (drafts : list StudentData.body)
| PostCourse (newId : Id) (body : CourseData.body)
| PutCourse (id : Id) (body : CoursePatch.body)
| DeleteCourse (id : Id)
| PostEnroll (id studentId : Id)
| PostWithdraw (id studentId : Id)
| DeleteClass (id : Id)
| DeleteDepartment (id : Id).

Definition handle (q : Request) : Store -> Store * Response :=
  match q with
  | OneStudent q => serve q
  | PostBulk newIds drafts => StudentController.bulkCreateStudents newIds drafts
  | PostCourse newId body => CourseController.createCourse newId body
  | PutCourse id body => CourseController.updateCourse id body
  | DeleteCourse id => CourseController.deleteCourse id
  | PostEnroll id studentId => CourseController.enrollStudent id studentId
  | PostWithdraw id studentId => CourseController.withdrawStudent id studentId
  | DeleteClass id => ClassController.deleteClass id
  | DeleteDepartment id => DepartmentController.deleteDepartment id
  end.

Definition isBulk (q : Request) : bool :=
  match q with PostBulk _ _ => true | _ => false end.

(** The handlers that write once, or that write several documents whose
    validators cannot fail on stored documents that are valid. *)
Definition writesAtOnce (q : Request) : bool :=
  match q with
  | OneStudent (PostStudent _ _) => true
  | OneStudent _ => false
  | PostBulk _ _ => false
  | _ => true
  end.

(** ** Further integrity properties of the store *)

Fixpoint distinct (l : list string) : bool :=
  match l with
  | [] => true
  | x :: r => (negb (includes r x) && distinct r)%bool
  end.

Definition resolves {D} (key : D -> Id) (id : Id) (l : list D) : bool :=
  match findById key id l with Some _ => true | None => false end.

(** What the unique indexes of [studentSchema] and the [_id] index protect. *)
Definition uniqueStudentKeys (st : Store) : bool :=
  (distinct (map Student._id (students st))
   && distinct (map Student.rollNumber (students st))
   && distinct (map Student.email (students st)))%bool.

(** What the unique index of [courseSchema] and the [_id] index protect. *)
Definition uniqueCourseKeys (st : Store) : bool :=
  (distinct (map Course._id (courses st))
   && distinct (map Course.courseCode (courses st)))%bool.

(** Every prerequisite of every course is a course of the collection. *)
Definition prerequisitesResolve (st : Store) : bool :=
  forallb (fun c =>
             forallb (fun p => resolves Course._id p (courses st))
               (Course.prerequisites c))
    (courses st).

(** The class and the department of every student exist. *)
Definition studentsPlaced (st : Store) : bool :=
  forallb (fun s =>
             (resolves Class._id (Student.class s) (classes st)
              && resolves Department._id (Student.department s) (departments st))%bool)
    (students st).

(** Every stored class, department and course passes the validators of its
    schema, as a document written through [save()] does. *)
Definition validStore (st : Store) : bool :=
  (forallb (fun c => negb (nonEmpty (Class.validate c))) (classes st)
   && forallb (fun d => negb (nonEmpty (Department.validate d))) (departments st)
   && forallb (fun c => negb (nonEmpty (Course.validate c))) (courses st))%bool.

(** A body of [PUT /api/students/:id] that holds the key [courses] alone. *)
Definition coursesOnly (l : list Id) : StudentPatch.body :=
  {| StudentPatch.name := None; StudentPatch.rollNumber := None;
     StudentPatch.email := None; StudentPatch.gender := None;
     StudentPatch.class := None; StudentPatch.department := None;
     StudentPatch.courses := Some l; StudentPatch.status := None;
     StudentPatch.otherErrors := [] |}.

(** Two stores whose courses have the same ids, codes and prerequisite
    lists, in the same order. *)
Definition sameCourseKeys (st st' : Store) : Prop :=
  map Course._id (courses st') = map Course._id (courses st)
  /\ map Course.courseCode (courses st') = map Course.courseCode (courses st)
  /\ map Course.prerequisites (courses st') = map Course.prerequisites (courses st).

(** ** Dates and ages *)

(** What the code reads of a [Date]: the year, the month (0 to 11) and the
    day of the month, in local time. *)
Record Date := {
  getFullYear : Z;
  getMonth : Z;
  getDate : Z
}.

(** The getter of the virtual [age] of [studentSchema]; [today] is the
    value of [new Date()]. *)
Definition virtualAge (today : Date) (dateOfBirth : Date) : Z :=
  let birthDate := dateOfBirth in
  let age := getFullYear today - getFullYear birthDate in
  let monthDiff := getMonth today - getMonth birthDate in
  if ((monthDiff <? 0)
      || ((monthDiff =? 0) && (getDate today <? getDate birthDate)))%bool
  then age - 1 else age.

(** [calculateAge(dateOfBirth)] of the student controller: [null] without
    a date of birth. *)
Definition calculateAge (today : Date) (dateOfBirth : option Date) : option Z :=
  match dateOfBirth with
  | None => None
  | Some birthDate =>
      let age := getFullYear today - getFullYear birthDate in
      let monthDiff := getMonth today - getMonth birthDate in
      if ((monthDiff <? 0)
          || ((monthDiff =? 0) && (getDate today <? getDate birthDate)))%bool
      then Some (age - 1) else Some age
  end.

(** The [custom] validator of [dateOfBirth] in [createStudent] and
    [updateStudent]: it throws when [age < 5 || age > 100]. *)
Definition dateOfBirthAccepted (today : Date) (value : Date) : bool :=
  let birthDate := value in
  let age := getFullYear today - getFullYear birthDate in
  negb ((age <? 5) || (100 <? age))%bool.

(** The order of the calendar: by year, then by month, then by day. *)
Definition earlier (a b : Date) : Prop :=
  getFullYear a < getFullYear b
  \/ (getFullYear a = getFullYear b
      /\ (getMonth a < getMonth b
          \/ (getMonth a = getMonth b /\ getDate a < getDate b))).

(** The day and month of a date, [n] years later. *)
Definition anniversary (n : Z) (d : Date) : Date :=
  {| getFullYear := getFullYear d + n; getMonth := getMonth d; getDate := getDate d |}.

(** ** The CSV export *)

Module Csv.

(** A row is a plain object: its own keys in the order of [Object.keys],
    each with [null] (or [undefined]), written [None], or with the text that
    [String(value)] gives. *)
Definition Row := list (string * option string).

Definition keys (row : Row) : list string := map fst row.

(** [row[header]]: [undefined] for a key that the row does not have. *)
Fixpoint get (row : Row) (header : string) : option string :=
  match row with
  | [] => None
  | (key, value) :: rest => if String.eqb key header then value else get rest header
  end.

Definition quote : ascii := "034"%char.
Definition comma : ascii := ","%char.
Definition lineFeed : ascii := "010"%char.

(** [String(value).replace] with the pattern of a double quote and the
    flag [g]: every double quote is written twice. *)
Fixpoint doubleQuotes (s : string) : string :=
  match s with
  | EmptyString => EmptyString
  | String c rest =>
      if Ascii.eqb c quote
      then String quote (String quote (doubleQuotes rest))
      else String c (doubleQuotes rest)
  end.

(** [s.includes(c)] for a character. *)
Fixpoint includesChar (c : ascii) (s : string) : bool :=
  match s with
  | EmptyString => false
  | String x rest => (Ascii.eqb x c || includesChar c rest)%bool
  end.

(** The text of one value: empty for [null] and [undefined]; quotes are
    doubled, and the text is wrapped in quotes if it holds a comma. *)
Definition cell (value : option string) : string :=
  match value with
  | None => EmptyString
  | Some v =>
      let escaped := doubleQuotes v in
      if includesChar comma escaped
      then String quote (escaped ++ String quote EmptyString)%string
      else escaped
  end.

(** [convertToCSV(data)]; [Array.prototype.join] is [String.concat]. *)
Definition convertToCSV (data : list Row) : string :=
  match data with
  | [] => EmptyString
  | first :: _ =>
      let headers := keys first in
      let csvRows :=
        String.concat "," headers
        :: map (fun row =>
                  String.concat "," (map (fun header => cell (get row header)) headers))
             data in
      String.concat (String lineFeed EmptyString) csvRows
  end.

(** The number of occurrences of a character. *)
Fixpoint countChar (c : ascii) (s : string) : nat :=
  match s with
  | EmptyString => 0%nat
  | String x rest => ((if Ascii.eqb x c then 1 else 0) + countChar c rest)%nat
  end.

(** Two rows that have the same value under every key of [headers]. *)
Definition agreeOn (headers : list string) (row row' : Row) : Prop :=
  forall header, In header headers -> get row header = get row' header.

(** No header and no value under a header holds a line feed. *)
Definition singleLines (headers : list string) (data : list Row) : Prop :=
  (forall header, In header headers -> includesChar lineFeed header = false)
  /\ (forall row header v,
        In row data -> In header headers -> get row header = Some v ->
        includesChar lineFeed v = false).

End Csv.

(** ** The validation middleware *)

Module Validators.

(** One element of [validationResult(req).array()]. *)
Record error := {
  path : string;
  msg : string
}.

(** [extractedErrors]: an object from paths to arrays of messages, its keys
    in insertion order.  The paths are the field names of the validator
    chains ([email], [guardianInfo.phone], ...). *)
Definition Extracted := list (string * list string).

(** [if (!extractedErrors[p]) extractedErrors[p] = [];
     extractedErrors[p].push(m)] *)
Fixpoint push (p m : string) (extractedErrors : Extracted) : Extracted :=
  match extractedErrors with
  | [] => [(p, [m])]
  | (key, messages) :: rest =>
      if String.eqb key p then (key, messages ++ [m]) :: rest
      else (key, messages) :: push p m rest
  end.

Definition extract (errors : list error) : Extracted :=
  fold_left (fun extractedErrors err => push (path err) (msg err) extractedErrors)
    errors [].

(** What the middleware does: [next()], or a response
    [res.status(code).json({ success: false, errors })]. *)
Inductive outcome :=
| Next
| Rejected (code : Z) (errors : Extracted).

(** [validate(validations)], given the errors that the validations found. *)
Definition validate (errors : list error) : outcome :=
  match errors with
  | [] => Next
  | _ => Rejected 400 (extract errors)
  end.

(** [extractedErrors[p]] *)
Fixpoint lookup (p : string) (extractedErrors : Extracted) : option (list string) :=
  match extractedErrors with
  | [] => None
  | (key, messages) :: rest => if String.eqb key p then Some messages else lookup p rest
  end.

(** The messages of the errors of a path, in the order of the errors. *)
Definition messagesOf (p : string) (errors : list error) : list string :=
  map msg (filter (fun err => String.eqb (path err) p) errors).

End Validators.

(** ** Listing the classes, and the detail views *)

Module Listing.

(** [req.query] of [GET /api/classes]: [page] and [limit] are decimal
    numerals of positive integers where they are given. *)
Record query := {
  page : option positive;
  limit : option positive;
  status : option string;
  department : option Id
}.

Definition withPage (p : positive) (q : query) : query :=
  {| page := Some p; limit := limit q; status := status q;
     department := department q |}.

Definition statusName (s : Class.Status) : string :=
  match s with
  | Class.Active => "Active"
  | Class.Inactive => "Inactive"
  | Class.Completed => "Completed"
  end.

(** [if (status) filter.status = status;
     if (department) filter.department = department] *)
Definition matches (q : query) (c : Class.doc) : bool :=
  (match status q with
   | Some s => falsy s || String.eqb (statusName (Class.status c)) s
   | None => true
   end
   && match department q with
      | Some d => falsy d || String.eqb (Class.department c) d
      | None => true
      end)%bool.

(** [.sort({ className: 1, section: 1 })]: strings in binary order.  The
    unique index on [className] leaves no ties among stored classes; the
    list order is kept where two classes compare equal. *)
Definition inOrder (a b : Class.doc) : bool :=
  match String.compare (Class.className a) (Class.className b) with
  | Lt => true
  | Eq => String.leb (Class.section a) (Class.section b)
  | Gt => false
  end.

Fixpoint insertSorted (c : Class.doc) (l : list Class.doc) : list Class.doc :=
  match l with
  | [] => [c]
  | x :: rest => if inOrder c x then c :: l else x :: insertSorted c rest
  end.

Definition sorted (l : list Class.doc) : list Class.doc :=
  fold_right insertSorted [] l.

(** A class with the virtual fields that the handlers add. *)
Record view := {
  doc : Class.doc;
  classCode : string;
  availableSeats : Z;
  isFull : bool
}.

Definition enhance (cls : Class.doc) : view :=
  {| doc := cls;
     classCode := (Class.className cls ++ "-" ++ Class.section cls)%string;
     availableSeats := Class.capacity cls - Class.currentStrength cls;
     isFull := Class.capacity cls <=? Class.currentStrength cls |}.

(** The body of the response, with status 200 and [success: true]. *)
Record body := {
  count : nat;
  total : nat;
  pageNumber : Z;
  pageSize : Z;
  totalPages : Z;
  hasNextPage : bool;
  hasPrevPage : bool;
  data : list view
}.

(** Every class that the filter selects, in the order of the sort. *)
Definition selected (q : query) (st : Store) : list Class.doc :=
  sorted (filter (matches q) (classes st)).

Definition getAllClasses (q : query) (st : Store) : body :=
  let page := match page q with Some p => p | None => 1%positive end in
  let limit := match limit q with Some l => l | None => 10%positive end in
  let skip := (Z.pos page - 1) * Z.pos limit in
  let totalClasses := countDocuments (matches q) (classes st) in
  let totalPages := Qceiling (Z.of_nat totalClasses # limit) in
  let classes :=
    firstn (Pos.to_nat limit) (skipn (Z.to_nat skip) (selected q st)) in
  let enhancedClasses := map enhance classes in
  {| count := List.length enhancedClasses;
     total := totalClasses;
     pageNumber := Z.pos page;
     pageSize := Z.pos limit;
     totalPages := totalPages;
     hasNextPage := Z.pos page <? totalPages;
     hasPrevPage := 1 <? Z.pos page;
     data := enhancedClasses |}.

(** The pages 1 to [n]. *)
Definition pagesUpTo (n : Z) : list positive :=
  map Pos.of_nat (seq 1 (Z.to_nat n)).

End Listing.

Module Detail.

(** The answer of a detail view: the error response, or status 200 with
    the data. *)
Inductive answer (A : Type) :=
| Failed (r : Response)
| Found (data : A).

Arguments Failed {A} r.
Arguments Found {A} data.

(** [GET /api/classes/:id] *)
Record classView := {
  classData : Listing.view;
  classStudentCount : nat;
  classStudentList : list Student.doc
}.

Definition getClassById (id : Id) (st : Store) : answer classView :=
  match findById Class._id id (classes st) with
  | None => Failed (fail 404 ClassNotFound)
  | Some classData =>
      let students := filter (fun s => String.eqb (Student.class s) id) (students st) in
      Found {| classData := Listing.enhance classData;
               classStudentCount := List.length students;
               classStudentList := students |}
  end.

(** [GET /api/courses/:id]: in the data the key [enrolledStudents] holds
    the count and the list of the students that take the course, in the
    place of the counter of the document. *)
Record courseView := {
  course : Course.doc;
  courseAvailableSeats : option Z;    (* NaN without [maxStudents] *)
  courseIsFull : bool;
  enrolledCount : nat;
  enrolledList : list Student.doc
}.

Definition getCourseById (id : Id) (st : Store) : answer courseView :=
  match findById Course._id id (courses st) with
  | None => Failed (fail 404 CourseNotFound)
  | Some course =>
      let students := filter (fun s => includes (Student.courses s) id) (students st) in
      Found {| course := course;
               courseAvailableSeats :=
                 option_map (fun m => m - Course.enrolledStudents course)
                   (Course.maxStudents course);
               courseIsFull := Course.isFull course;
               enrolledCount := List.length students;
               enrolledList := students |}
  end.

(** [GET /api/departments/:id]; the virtual [age] is left out. *)
Record departmentView := {
  department : Department.doc;
  classCount : nat;
  classList : list Class.doc;
  studentCount : nat;
  studentList : list Student.doc;      (* [students.slice(0, 10)] *)
  courseCount : nat;
  courseList : list Course.doc
}.

Definition getDepartmentById (id : Id) (st : Store) : answer departmentView :=
  match findById Department._id id (departments st) with
  | None => Failed (fail 404 DepartmentNotFound)
  | Some department =>
      let classes := filter (fun c => String.eqb (Class.department c) id) (classes st) in
      let students :=
        filter (fun s => String.eqb (Student.department s) id) (students st) in
      let courses := filter (fun c => String.eqb (Course.department c) id) (courses st) in
      Found {| department := department;
               classCount := List.length classes;
               classList := classes;
               studentCount := List.length students;
               studentList := firstn 10 students;
               courseCount := List.length courses;
               courseList := courses |}
  end.

End Detail.

(** ** departmentController: creation and update *)

(** The body of [POST /api/departments] as the handler receives it: the
    validators of the route have let it through, so the name and the code
    are strings.  [otherErrors] holds the messages of the schema validators
    on the paths that are not modelled (head of department, contact,
    establishment year, description) and of the [match] validator of the
    code. *)
Module DepartmentData.

Record body := {
  departmentName : string;
  departmentCode : string;
  totalFaculty : option Z;
  totalStudents : option Z;
  status : option Department.Status;
  otherErrors : list string
}.

End DepartmentData.

(** The body of [PUT /api/departments/:id]. *)
Module DepartmentPatch.

Record body := {
  departmentName : option string;
  departmentCode : option string;
  totalFaculty : option Z;
  totalStudents : option Z;
  status : option Department.Status;
  otherErrors : list string
}.

End DepartmentPatch.

Module DepartmentWrites.

(** The [error] member of the responses of the two handlers. *)
Inductive refusal :=
| NameOrCodeExists          (* 'Department with this name or code already exists' *)
| NotFound                  (* 'Department not found' *)
| ValidationFailed (messages : list string)   (* 'Validation Error', messages *)
| ServerError (thrown : SaveError).           (* 'Server Error', error.message *)

(** [res.status(code).json(...)]: the saved document, or an error. *)
Inductive reply :=
| Stored (code : Z) (data : Department.doc)
| Refused (code : Z) (error : refusal).

(** The setters of [departmentName] and [departmentCode]. *)
Definition castDepartmentName (s : string) : string := trim s.
Definition castDepartmentCode (s : string) : string := toUpperCase (trim s).

(** The unique indexes on [departmentName] and on [departmentCode]. *)
Definition departmentKeyTaken (d : Department.doc) (l : list Department.doc) : bool :=
  existsb (fun x => negb (String.eqb (Department._id x) (Department._id d))
                    && (String.eqb (Department.departmentName x)
                          (Department.departmentName d)
                        || String.eqb (Department.departmentCode x)
                             (Department.departmentCode d)))%bool l.

(** [new Department({ ...req.body,
       departmentCode: req.body.departmentCode.toUpperCase() })] *)
Definition newDepartment (id : Id) (b : DepartmentData.body) : Department.doc :=
  {| Department._id := id;
     Department.departmentName := castDepartmentName (DepartmentData.departmentName b);
     Department.departmentCode :=
       castDepartmentCode (toUpperCase (DepartmentData.departmentCode b));
     Department.totalFaculty :=
       match DepartmentData.totalFaculty b with Some n => n | None => 0 end;
     Department.totalStudents :=
       match DepartmentData.totalStudents b with Some n => n | None => 0 end;
     Department.status :=
       match DepartmentData.status b with
       | Some s => s
       | None => Department.Active
       end |}.

Definition validateNew (b : DepartmentData.body) : list string :=
  ((if falsy (trim (DepartmentData.departmentName b))
    then ["Department name is required"] else [])
   ++ (if falsy (trim (DepartmentData.departmentCode b))
       then ["Department code is required"] else [])
   ++ DepartmentData.otherErrors b)%list.

(** [save()] of a new department: validate, then insert. *)
Definition insertDepartment (errs : list string) (d : Department.doc) (st : Store)
  : Result Store :=
  match (errs ++ Department.validate d)%list with
  | [] =>
      if (existsb (fun x => String.eqb (Department._id x) (Department._id d))
            (departments st)
          || departmentKeyTaken d (departments st))%bool
      then Thrown (OtherError "E11000 duplicate key error")
      else Saved (withDepartments (departments st ++ [d]) st)
  | msgs => Thrown (ValidationError msgs)
  end.

(** The [catch] block of the two handlers. *)
Definition caught (e : SaveError) : reply :=
  match e with
  | ValidationError msgs => Refused 400 (ValidationFailed msgs)
  | _ => Refused 500 (ServerError e)
  end.

Definition createDepartment (newId : Id) (b : DepartmentData.body) (st : Store)
  : Store * reply :=
  let existingDepartment :=
    find (fun d =>
            (String.eqb (Department.departmentName d)
               (castDepartmentName (DepartmentData.departmentName b))
             || String.eqb (Department.departmentCode d)
                  (castDepartmentCode (toUpperCase (DepartmentData.departmentCode b))))%bool)
      (departments st) in
  match existingDepartment with
  | Some _ => (st, Refused 400 NameOrCodeExists)
  | None =>
      let newDepartment := newDepartment newId b in
      match insertDepartment (validateNew b) newDepartment st with
      | Saved st' => (st', Stored 201 newDepartment)
      | Thrown e => (st, caught e)
      end
  end.

(** [Object.keys(req.body).forEach(key => department[key] = req.body[key])],
    through the setters of the schema. *)
Definition applyPatch (b : DepartmentPatch.body) (d : Department.doc)
  : Department.doc :=
  {| Department._id := Department._id d;
     Department.departmentName :=
       match DepartmentPatch.departmentName b with
       | Some n => castDepartmentName n
       | None => Department.departmentName d
       end;
     Department.departmentCode :=
       match DepartmentPatch.departmentCode b with
       | Some c => castDepartmentCode c
       | None => Department.departmentCode d
       end;
     Department.totalFaculty :=
       match DepartmentPatch.totalFaculty b with
       | Some n => n
       | None => Department.totalFaculty d
       end;
     Department.totalStudents :=
       match DepartmentPatch.totalStudents b with
       | Some n => n
       | None => Department.totalStudents d
       end;
     Department.status :=
       match DepartmentPatch.status b with
       | Some s => s
       | None => Department.status d
       end |}.

Definition validatePatched (b : DepartmentPatch.body) (d : Department.doc)
  : list string :=
  ((if falsy (Department.departmentName d)
    then ["Department name is required"] else [])
   ++ (if falsy (Department.departmentCode d)
       then ["Department code is required"] else [])
   ++ DepartmentPatch.otherErrors b)%list.

(** [save()] of the loaded department. *)
Definition savePatched (errs : list string) (d : Department.doc) (st : Store)
  : Result Store :=
  match (errs ++ Department.validate d)%list with
  | [] =>
      if departmentKeyTaken d (departments st)
      then Thrown (OtherError "E11000 duplicate key error")
      else Saved
             (withDepartments (updateOne Department._id d (departments st)) st)
  | msgs => Thrown (ValidationError msgs)
  end.

(** [x || y] on strings of which the first may be absent or empty. *)
Definition orElse (o : option string) (y : string) : string :=
  match o with
  | Some x => if falsy x then y else x
  | None => y
  end.

Definition given (o : option string) : bool :=
  match o with Some x => negb (falsy x) | None => false end.

Definition withDepartmentCode (code : string) (b : DepartmentPatch.body)
  : DepartmentPatch.body :=
  {| DepartmentPatch.departmentName := DepartmentPatch.departmentName b;
     DepartmentPatch.departmentCode := Some code;
     DepartmentPatch.totalFaculty := DepartmentPatch.totalFaculty b;
     DepartmentPatch.totalStudents := DepartmentPatch.totalStudents b;
     DepartmentPatch.status := DepartmentPatch.status b;
     DepartmentPatch.otherErrors := DepartmentPatch.otherErrors b |}.

Definition updateDepartment (id : Id) (b : DepartmentPatch.body) (st : Store)
  : Store * reply :=
  match findById Department._id id (departments st) with
  | None => (st, Refused 404 NotFound)
  | Some department =>
      let checked :=
        if (given (DepartmentPatch.departmentName b)
            || given (DepartmentPatch.departmentCode b))%bool
        then
          let departmentName :=
            orElse (DepartmentPatch.departmentName b)
              (Department.departmentName department) in
          let departmentCode :=
            toUpperCase (orElse (DepartmentPatch.departmentCode b)
                           (Department.departmentCode department)) in
          let duplicateDepartment :=
            find (fun d =>
                    ((String.eqb (Department.departmentName d)
                        (castDepartmentName departmentName)
                      || String.eqb (Department.departmentCode d)
                           (castDepartmentCode departmentCode))
                     && negb (String.eqb (Department._id d)
                                (Department._id department)))%bool)
              (departments st) in
          match duplicateDepartment with
          | Some _ => None
          | None =>
              Some (if given (DepartmentPatch.departmentCode b)
                    then withDepartmentCode departmentCode b else b)
          end
        else Some b in
      match checked with
      | None => (st, Refused 400 NameOrCodeExists)
      | Some b1 =>
          let department' := applyPatch b1 department in
          match savePatched (validatePatched b1 department') department' st with
          | Saved st' => (st', Stored 200 department')
          | Thrown e => (st, caught e)
          end
      end
  end.

End DepartmentWrites.

(** What the unique indexes of [departmentSchema] and the [_id] index
    protect. *)
Definition uniqueDepartmentKeys (st : Store) : bool :=
  (distinct (map Department._id (departments st))
   && distinct (map Department.departmentName (departments st))
   && distinct (map Department.departmentCode (departments st)))%bool.

(** The departments of [st'] carry the ids, the names and the codes of
    those of [st], in the same order. *)
Definition sameDepartmentKeys (st st' : Store) : Prop :=
  map Department._id (departments st') = map Department._id (departments st)
  /\ map Department.departmentName (departments st')
     = map Department.departmentName (departments st)
  /\ map Department.departmentCode (departments st')
     = map Department.departmentCode (departments st).

Module DepartmentSample.

Definition physics : DepartmentData.body :=
  {| DepartmentData.departmentName := "Physics";
     DepartmentData.departmentCode := "PHY";
     DepartmentData.totalFaculty := None;
     DepartmentData.totalStudents := None;
     DepartmentData.status := None;
     DepartmentData.otherErrors := [] |}.

(** The same code in lower case under another name. *)
Definition physicsAgain : DepartmentData.body :=
  {| DepartmentData.departmentName := "Applied Physics";
     DepartmentData.departmentCode := "phy";
     DepartmentData.totalFaculty := None;
     DepartmentData.totalStudents := None;
     DepartmentData.status := None;
     DepartmentData.otherErrors := [] |}.

Definition rename (name : string) : DepartmentPatch.body :=
  {| DepartmentPatch.departmentName := Some name;
     DepartmentPatch.departmentCode := None;
     DepartmentPatch.totalFaculty := None;
     DepartmentPatch.totalStudents := None;
     DepartmentPatch.status := None;
     DepartmentPatch.otherErrors := [] |}.

End DepartmentSample.

(** ** Ids as they arrive in a request *)

(** The handlers above take the ids of a request in canonical form.  A
    path parameter or a key of a body is a string, and the code treats it
    in two ways: where it queries by id ([findById], [$in]) and where it
    stores a reference, Mongoose casts the string to an ObjectId; where it
    compares ([includes], [!==], [toString() !== ...]) it compares the
    string of the request with the canonical text of the ObjectId. *)

Definition isHexDigit (c : ascii) : bool :=
  let n := nat_of_ascii c in
  ((Nat.leb 48 n && Nat.leb n 57)
   || (Nat.leb 97 n && Nat.leb n 102)
   || (Nat.leb 65 n && Nat.leb n 70))%bool.

Fixpoint allHex (s : string) : bool :=
  match s with
  | EmptyString => true
  | String c r => (isHexDigit c && allHex r)%bool
  end.

(** The cast of a string to an ObjectId: a string of 24 hexadecimal digits
    in either case gives the ObjectId, kept as its canonical text; any other
    string is a [CastError] ([None]). *)
Definition castObjectId (s : string) : option Id :=
  if (Nat.eqb (String.length s) 24 && allHex s)%bool
  then Some (toLowerCase s) else None.

Fixpoint castObjectIds (l : list string) : option (list Id) :=
  match l with
  | [] => Some []
  | s :: r =>
      match castObjectId s, castObjectIds r with
      | Some id, Some ids => Some (id :: ids)
      | _, _ => None
      end
  end.

(** The [CastError] that a query throws; its message names the value and
    the path. *)
Definition castError : SaveError := OtherError "Cast to ObjectId failed".

Definition throw {A} (e : SaveError) : Handler A := fun st => (st, Throw e).

(** A string in the canonical form of an ObjectId: the cast gives the
    string itself. *)
Definition canonical (s : string) : bool :=
  match castObjectId s with
  | Some id => String.eqb id s
  | None => false
  end.

Definition canonicalKey (o : option string) : bool :=
  match o with Some s => canonical s | None => true end.

Definition canonicalKeys (o : option (list string)) : bool :=
  match o with Some l => forallb canonical l | None => true end.

(** A request for one student that writes every id it holds in canonical
    form: the path parameter and the keys [class], [department] and
    [courses] of the body, where it has them. *)
Definition canonicalRequest (q : StudentRequest) : bool :=
  match q with
  | PostStudent _ b =>
      (canonicalKey (StudentData.class b)
       && canonicalKey (StudentData.department b)
       && canonicalKeys (StudentData.courses b))%bool
  | PutStudent id b =>
      (canonical id
       && canonicalKey (StudentPatch.class b)
       && canonicalKey (StudentPatch.department b)
       && canonicalKeys (StudentPatch.courses b))%bool
  | DeleteStudent id => canonical id
  end.

Module Raw.

(** [Model.findById(s)] on a string of the request. *)
Definition findByIdCast {D} (key : D -> Id) (collection : Store -> list D)
    (s : string) : Handler (option D) :=
  match castObjectId s with
  | Some id => query (fun st => findById key id (collection st))
  | None => throw castError
  end.

(** [courses.push(s)]: the array casts the string. *)
Definition push (l : list Id) (s : string) : Handler (list Id) :=
  match castObjectId s with
  | Some id => ret (l ++ [id])
  | None => throw castError
  end.

(** [enrollStudent], with [id] the path parameter and [studentId] the key
    of the body. *)
Definition enrollStudentBody (id : string) (studentId : string)
  : Handler Response :=
  if falsy studentId
  then reply (fail 400 StudentIdRequired)
  else
  course <- findByIdCast Course._id courses id ;;
  match course with
  | None => reply (fail 404 CourseNotFound)
  | Some course =>
  if Course.isFull course
  then reply (fail 400 CourseFull)
  else
  student <- findByIdCast Student._id students studentId ;;
  match student with
  | None => reply (fail 404 StudentNotFound)
  | Some student =>
  if includes (Student.courses student) id
  then reply (fail 400 AlreadyEnrolled)
  else
  if (nonEmpty (Course.prerequisites course)
      && negb (forallb (fun prereqId => includes (Student.courses student) prereqId)
                 (Course.prerequisites course)))%bool
  then reply (fail 400 PrerequisitesNotMet)
  else
  courses <- push (Student.courses student) id ;;
  await (CourseController.saveLoadedStudent (Student.setCourses courses student)) ;;;
  await (CourseController.saveLoadedCourse
    (Course.setEnrolledStudents (Course.enrolledStudents course + 1) course)) ;;;
  ret (ok 200 (Enrolled (Student._id student) (Course._id course)))
  end end.

Definition enrollStudent (id : string) (studentId : string)
  : Store -> Store * Response :=
  tryCatch (enrollStudentBody id studentId) catchAll.

(** [withdrawStudent] *)
Definition withdrawStudentBody (id : string) (studentId : string)
  : Handler Response :=
  if falsy studentId
  then reply (fail 400 StudentIdRequired)
  else
  course <- findByIdCast Course._id courses id ;;
  match course with
  | None => reply (fail 404 CourseNotFound)
  | Some course =>
  student <- findByIdCast Student._id students studentId ;;
  match student with
  | None => reply (fail 404 StudentNotFound)
  | Some student =>
  if negb (includes (Student.courses student) id)
  then reply (fail 400 NotEnrolled)
  else
  await (CourseController.saveLoadedStudent
    (Student.setCourses
       (filter (fun courseId => negb (String.eqb courseId id)) (Student.courses student))
       student)) ;;;
  await (CourseController.saveLoadedCourse
    (Course.setEnrolledStudents (Z.max 0 (Course.enrolledStudents course - 1)) course)) ;;;
  ret (ok 200 (Withdrawn (Student._id student) (Course._id course)))
  end end.

Definition withdrawStudent (id : string) (studentId : string)
  : Store -> Store * Response :=
  tryCatch (withdrawStudentBody id studentId) catchAll.

(** [updateCourse]: "Validate prerequisites".  The [$in] query casts every
    string of the list; the test for the course itself compares the
    strings of the list with the canonical text of the id of the course. *)
Definition checkPrerequisites (course : Course.doc) (b : CoursePatch.body)
  : Handler unit :=
  match CoursePatch.prerequisites b with
  | Some prerequisites =>
      match castObjectIds prerequisites with
      | Some ids =>
          prerequisitesExist <- query (fun st => findIn Course._id ids (courses st)) ;;
          if negb (Nat.eqb (List.length prerequisitesExist) (List.length prerequisites))
          then reply (fail 404 PrerequisitesNotFound)
          else if includes prerequisites (Course._id course)
          then reply (fail 400 SelfPrerequisite)
          else ret tt
      | None => throw castError
      end
  | None => ret tt
  end.

(** [course.department = req.body.department] with a string that does not
    cast: [save()] reports it with the failed validators. *)
Definition castErrors (b : CoursePatch.body) : list string :=
  match CoursePatch.department b with
  | Some d =>
      match castObjectId d with
      | Some _ => []
      | None => ["Cast to ObjectId failed at path department"]
      end
  | None => []
  end.

(** The body with the references that [course[key] = req.body[key]]
    stores: the ObjectIds of the strings.  A department that does not cast
    leaves the document as it is and is reported by [castErrors]; the
    prerequisites have been cast by the query before. *)
Definition casted (b : CoursePatch.body) : CoursePatch.body :=
  {| CoursePatch.courseName := CoursePatch.courseName b;
     CoursePatch.courseCode := CoursePatch.courseCode b;
     CoursePatch.department :=
       match CoursePatch.department b with
       | Some d => castObjectId d
       | None => None
       end;
     CoursePatch.prerequisites :=
       match CoursePatch.prerequisites b with
       | Some l => castObjectIds l
       | None => None
       end;
     CoursePatch.semester := CoursePatch.semester b;
     CoursePatch.maxStudents := CoursePatch.maxStudents b;
     CoursePatch.enrolledStudents := CoursePatch.enrolledStudents b;
     CoursePatch.courseType := CoursePatch.courseType b;
     CoursePatch.status := CoursePatch.status b;
     CoursePatch.otherErrors := (castErrors b ++ CoursePatch.otherErrors b)%list |}.

Definition updateCourseBody (id : string) (b : CoursePatch.body)
  : Handler Response :=
  course <- findByIdCast Course._id courses id ;;
  match course with
  | None => reply (fail 404 CourseNotFound)
  | Some course =>
      b1 <- CourseController.checkCourseCode course b ;;
      if CourseController.maxBelowEnrolled course b1
      then reply (fail 400 (MaxStudentsBelowEnrolled (Course.enrolledStudents course)))
      else
        checkPrerequisites course b1 ;;;
        let course' := CourseController.applyPatch (casted b1) course in
        await (saveCourse (CourseController.validatePatched (casted b1) course')
                 course') ;;;
        populatedCourse <- query (fun st =>
          findById Course._id (Course._id course) (courses st)) ;;
        ret (ok 200 (CourseUpdated populatedCourse))
  end.

Definition updateCourse (id : string) (b : CoursePatch.body)
  : Store -> Store * Response :=
  tryCatch (updateCourseBody id b) catchValidation.

(** [Model.findById(req.body.x)] on a key of the body; for a key that is
    absent [findById(undefined)] finds nothing. *)
Definition findByIdOptCast {D} (key : D -> Id) (collection : Store -> list D)
    (o : option string) : Handler (option D) :=
  match o with
  | Some s => findByIdCast key collection s
  | None => ret None
  end.

(** [{ _id: { $in: l } }] on strings of the request. *)
Definition castAll (l : list string) : Handler (list Id) :=
  match castObjectIds l with
  | Some ids => ret ids
  | None => throw castError
  end.

(** The reference that an assignment of a key of the body stores, and
    the message that [save()] reports for a key that does not cast. *)
Definition castKey (o : option string) : option Id :=
  match o with Some s => castObjectId s | None => None end.

Definition castKeys (o : option (list string)) : option (list Id) :=
  match o with Some l => castObjectIds l | None => None end.

Definition castFailure (path : string) (o : option string) : list string :=
  match o with
  | Some s =>
      match castObjectId s with
      | Some _ => []
      | None => [("Cast to ObjectId failed at path " ++ path)%string]
      end
  | None => []
  end.

Definition castFailures (path : string) (o : option (list string)) : list string :=
  match o with
  | Some l =>
      match castObjectIds l with
      | Some _ => []
      | None => [("Cast to ObjectId failed at path " ++ path)%string]
      end
  | None => []
  end.

(** [new Student(studentData)] stores the ObjectIds of the strings of the
    body. *)
Definition castedData (b : StudentData.body) : StudentData.body :=
  {| StudentData.name := StudentData.name b;
     StudentData.rollNumber := StudentData.rollNumber b;
     StudentData.email := StudentData.email b;
     StudentData.gender := StudentData.gender b;
     StudentData.class := castKey (StudentData.class b);
     StudentData.department := castKey (StudentData.department b);
     StudentData.courses := castKeys (StudentData.courses b);
     StudentData.status := StudentData.status b;
     StudentData.otherErrors :=
       (castFailure "class" (StudentData.class b)
        ++ castFailure "department" (StudentData.department b)
        ++ castFailures "courses" (StudentData.courses b)
        ++ StudentData.otherErrors b)%list |}.

(** [createStudent] on the strings of the body. *)
Definition createStudentBody (newId : Id) (b : StudentData.body)
  : Handler Response :=
  existingStudent <- query (fun st =>
    Student.findOneByRollNumber (StudentData.rollNumber b) (students st)) ;;
  match existingStudent with
  | Some _ => reply (fail 400 RollNumberExists)
  | None =>
  existingEmail <- query (fun st =>
    Student.findOneByEmail (toLowerCase (StudentData.email b)) (students st)) ;;
  match existingEmail with
  | Some _ => reply (fail 400 EmailExists)
  | None =>
  classExists <- findByIdOptCast Class._id classes (StudentData.class b) ;;
  match classExists with
  | None => reply (fail 404 ClassNotFound)
  | Some classExists =>
  if Class.capacity classExists <=? Class.currentStrength classExists
  then reply (fail 400 ClassFull)
  else
  departmentExists <-
    findByIdOptCast Department._id departments (StudentData.department b) ;;
  match departmentExists with
  | None => reply (fail 404 DepartmentNotFound)
  | Some departmentExists =>
  ids <- castAll (requested (StudentData.courses b)) ;;
  coursesExist <- query (fun st => findIn Course._id ids (courses st)) ;;
  if (hasCourses (StudentData.courses b)
      && negb (Nat.eqb (List.length coursesExist)
                       (List.length (requested (StudentData.courses b)))))%bool
  then reply (fail 404 CoursesNotFound)
  else
  if (hasCourses (StudentData.courses b)
      && nonEmpty (filter Course.isFull coursesExist))%bool
  then reply (fail 400
         (CoursesFull (map Course.courseCode (filter Course.isFull coursesExist))))
  else
  let studentData := StudentController.normalised (castedData b) in
  let student := StudentController.newStudent newId studentData in
  await (insertStudent (StudentController.validateNew studentData) student) ;;;
  await (saveClass
    (Class.setCurrentStrength (Class.currentStrength classExists + 1) classExists)) ;;;
  await (saveDepartment
    (Department.setTotalStudents
       (Department.totalStudents departmentExists + 1) departmentExists)) ;;;
  when (hasCourses (StudentData.courses b))
    (modify (StudentController.incCourses ids 1)) ;;;
  populatedStudent <- query (fun st =>
    findById Student._id (Student._id student) (students st)) ;;
  ret (ok 201 (StudentCreated populatedStudent))
  end end end end.

Definition createStudent (newId : Id) (b : StudentData.body)
  : Store -> Store * Response :=
  tryCatch (createStudentBody newId b) catchValidation.

(** [updateStudent]: "Handle class change".  The test compares the string
    of the body with the canonical text of the class of the student; the
    two lookups load two documents, and each [save()] writes the counter
    of the document it was called on. *)
Definition handleClassChange (student : Student.doc) (b : StudentPatch.body)
  : Handler unit :=
  match changed (StudentPatch.class b) (Student.class student) with
  | Some newClassId =>
      oldClass <- query (fun st => findById Class._id (Student.class student) (classes st)) ;;
      newClass <- findByIdCast Class._id classes newClassId ;;
      match newClass with
      | None => reply (fail 404 NewClassNotFound)
      | Some newClass =>
          if Class.capacity newClass <=? Class.currentStrength newClass
          then reply (fail 400 NewClassFull)
          else
            match oldClass with
            | Some oldClass =>
                await (saveClass
                  (Class.setCurrentStrength (Class.currentStrength oldClass - 1) oldClass))
            | None => ret tt
            end ;;;
            await (saveClass
              (Class.setCurrentStrength (Class.currentStrength newClass + 1) newClass))
      end
  | None => ret tt
  end.

(** "Handle department change" *)
Definition handleDepartmentChange (student : Student.doc) (b : StudentPatch.body)
  : Handler unit :=
  match changed (StudentPatch.department b) (Student.department student) with
  | Some newDepartmentId =>
      oldDepartment <- query (fun st =>
        findById Department._id (Student.department student) (departments st)) ;;
      newDepartment <- findByIdCast Department._id departments newDepartmentId ;;
      match newDepartment with
      | None => reply (fail 404 NewDepartmentNotFound)
      | Some newDepartment =>
          match oldDepartment with
          | Some oldDepartment =>
              await (saveDepartment
                (Department.setTotalStudents
                   (Department.totalStudents oldDepartment - 1) oldDepartment))
          | None => ret tt
          end ;;;
          await (saveDepartment
            (Department.setTotalStudents
               (Department.totalStudents newDepartment + 1) newDepartment))
      end
  | None => ret tt
  end.

(** "Handle courses change": the two filters compare strings, the queries
    cast. *)
Definition handleCoursesChange (student : Student.doc) (b : StudentPatch.body)
  : Handler unit :=
  match StudentPatch.courses b with
  | Some newCourses =>
      let oldCourses := Student.courses student in
      let coursesToRemove := filter (fun c => negb (includes newCourses c)) oldCourses in
      let coursesToAdd := filter (fun c => negb (includes oldCourses c)) newCourses in
      when (nonEmpty coursesToRemove)
        (modify (StudentController.incCourses coursesToRemove (-1))) ;;;
      if nonEmpty coursesToAdd then
        ids <- castAll coursesToAdd ;;
        coursesToAddData <- query (fun st => findIn Course._id ids (courses st)) ;;
        let fullCourses := filter Course.isFull coursesToAddData in
        if nonEmpty fullCourses
        then reply (fail 400 (CoursesFull (map Course.courseCode fullCourses)))
        else modify (StudentController.incCourses ids 1)
      else ret tt
  | None => ret tt
  end.

(** [student[key] = req.body[key]] stores the ObjectIds of the strings of
    the body; a key that does not cast leaves the reference as it is and
    is reported by [save()]. *)
Definition castedPatch (b : StudentPatch.body) : StudentPatch.body :=
  {| StudentPatch.name := StudentPatch.name b;
     StudentPatch.rollNumber := StudentPatch.rollNumber b;
     StudentPatch.email := StudentPatch.email b;
     StudentPatch.gender := StudentPatch.gender b;
     StudentPatch.class := castKey (StudentPatch.class b);
     StudentPatch.department := castKey (StudentPatch.department b);
     StudentPatch.courses := castKeys (StudentPatch.courses b);
     StudentPatch.status := StudentPatch.status b;
     StudentPatch.otherErrors :=
       (castFailure "class" (StudentPatch.class b)
        ++ castFailure "department" (StudentPatch.department b)
        ++ castFailures "courses" (StudentPatch.courses b)
        ++ StudentPatch.otherErrors b)%list |}.

Definition updateStudentBody (id : string) (b : StudentPatch.body)
  : Handler Response :=
  student <- findByIdCast Student._id students id ;;
  match student with
  | None => reply (fail 404 StudentNotFound)
  | Some student =>
      b1 <- StudentController.checkEmail student b ;;
      b2 <- StudentController.checkRollNumber student b1 ;;
      handleClassChange student b2 ;;;
      handleDepartmentChange student b2 ;;;
      handleCoursesChange student b2 ;;;
      let student' := StudentController.applyPatch (castedPatch b2) student in
      await (saveStudent
               (StudentController.validatePatched (castedPatch b2) student')
               student') ;;;
      populatedStudent <- query (fun st =>
        findById Student._id (Student._id student) (students st)) ;;
      ret (ok 200 (StudentUpdated populatedStudent))
  end.

Definition updateStudent (id : string) (b : StudentPatch.body)
  : Store -> Store * Response :=
  tryCatch (updateStudentBody id b) catchValidation.

(** [Student.findByIdAndDelete(req.params.id)] *)
Definition findByIdAndDeleteCast (s : string) : Handler unit :=
  match castObjectId s with
  | Some id =>
      modify (fun st => withStudents (findByIdAndDelete Student._id id (students st)) st)
  | None => throw castError
  end.

(** [deleteStudent]; the data of the answer holds the path parameter as
    it was sent. *)
Definition deleteStudentBody (id : string) : Handler Response :=
  student <- findByIdCast Student._id students id ;;
  match student with
  | None => reply (fail 404 StudentNotFound)
  | Some student =>
      classData <- query (fun st => findById Class._id (Student.class student) (classes st)) ;;
      match classData with
      | Some classData =>
          await (saveClass
            (Class.setCurrentStrength (Class.currentStrength classData - 1) classData))
      | None => ret tt
      end ;;;
      departmentData <- query (fun st =>
        findById Department._id (Student.department student) (departments st)) ;;
      match departmentData with
      | Some departmentData =>
          await (saveDepartment
            (Department.setTotalStudents
               (Department.totalStudents departmentData - 1) departmentData))
      | None => ret tt
      end ;;;
      when (nonEmpty (Student.courses student))
        (modify (StudentController.incCourses (Student.courses student) (-1))) ;;;
      findByIdAndDeleteCast id ;;;
      ret (ok 200 (StudentDeleted id (Student.name student) (Student.rollNumber student)))
  end.

Definition deleteStudent (id : string) : Store -> Store * Response :=
  tryCatch (deleteStudentBody id) catchAll.

(** The requests for one student, on the strings they hold. *)
Definition serve (q : StudentRequest) : Store -> Store * Response :=
  match q with
  | PostStudent newId body => createStudent newId body
  | PutStudent id body => updateStudent id body
  | DeleteStudent id => deleteStudent id
  end.

(** The store after a sequence of requests that all succeed. *)
Fixpoint serveAll (qs : list StudentRequest) (st : Store) : option Store :=
  match qs with
  | [] => Some st
  | q :: rest =>
      if success (snd (serve q st)) then serveAll rest (fst (serve q st)) else None
  end.

End Raw.

(** The sample data with ObjectIds written out: a department, two classes
    of capacity two, the course Programming with one seat and the course
    Algorithms that requires it; Ann is in the first class, Eve is in the
    second class and fills Programming. *)
Module Sample24.

Definition cs : Id := "65a1d0000000000000000001".
Definition classA : Id := "65a1c0000000000000000001".
Definition classB : Id := "65a1c0000000000000000002".
Definition intro : Id := "65a1b0000000000000000001".
Definition algorithms : Id := "65a1b0000000000000000002".
Definition ann : Id := "65a1e0000000000000000001".
Definition eve : Id := "65a1e0000000000000000005".


(** The ids of the two courses as a client may spell them. *)
Definition INTRO : string := "65A1B0000000000000000001".
Definition ALGORITHMS : string := "65A1B0000000000000000002".

Definition department (total : Z) : Department.doc :=
  {| Department._id := cs; Department.departmentName := "Computer Science";
     Department.departmentCode := "CS"; Department.totalFaculty := 3;
     Department.totalStudents := total; Department.status := Department.Active |}.

Definition class (id : Id) (name : string) (strength : Z) : Class.doc :=
  {| Class._id := id; Class.className := name; Class.section := "A";
     Class.capacity := 2; Class.currentStrength := strength;
     Class.department := cs; Class.status := Class.Active |}.

Definition course (id : Id) (name code : string) (prerequisites : list Id)
    (seats enrolled : Z) : Course.doc :=
  {| Course._id := id; Course.courseName := name; Course.courseCode := code;
     Course.department := cs; Course.prerequisites := prerequisites;
     Course.semester := Course.Fall; Course.maxStudents := Some seats;
     Course.enrolledStudents := enrolled; Course.courseType := Course.Core;
     Course.status := Course.Active |}.

Definition student (id : Id) (name roll email : string) (classId : Id)
    (courseIds : list Id) : Student.doc :=
  {| Student._id := id; Student.name := name; Student.rollNumber := roll;
     Student.email := email; Student.gender := Student.Female;
     Student.class := classId; Student.department := cs;
     Student.courses := courseIds; Student.status := Student.Active |}.

Definition programming (enrolled : Z) : Course.doc :=
  course intro "Programming" "CS101" [] 1 enrolled.

Definition algorithmsCourse (enrolled : Z) : Course.doc :=
  course algorithms "Algorithms" "CS201" [intro] 30 enrolled.

Definition annLee : Student.doc :=
  student ann "Ann Lee" "R1" "ann@uni.edu" classA [].

Definition eveOde (courseIds : list Id) : Student.doc :=
  student eve "Eve Ode" "R5" "eve@uni.edu" classB courseIds.

Definition twoStudents : Store :=
  {| departments := [department 2];
     classes := [class classA "BSCS1" 1; class classB "BSCS2" 1];
     courses := [programming 1; algorithmsCourse 0];
     students := [annLee; eveOde [intro]] |}.

(** Eve takes both courses. *)
Definition bothCourses : Store :=
  {| departments := [department 2];
     classes := [class classA "BSCS1" 1; class classB "BSCS2" 1];
     courses := [programming 1; algorithmsCourse 1];
     students := [annLee; eveOde [intro; algorithms]] |}.

(** One class of a hundred seats, twenty-nine of them taken. *)
Definition lectureHall : Class.doc :=
  {| Class._id := classA; Class.className := "BSCS1"; Class.section := "A";
     Class.capacity := 100; Class.currentStrength := 29;
     Class.department := cs; Class.status := Class.Active |}.

Definition hall : Store :=
  {| departments := [department 29]; classes := [lectureHall];
     courses := []; students := [] |}.

(** A third student, for class A, and the id that the constructor gives
    her. *)
Definition cat : Id := "65a1e0000000000000000003".

Definition catMoss : StudentData.body :=
  {| StudentData.name := "Cat Moss"; StudentData.rollNumber := "R3";
     StudentData.email := "cat@uni.edu"; StudentData.gender := Student.Female;
     StudentData.class := Some classA; StudentData.department := Some cs;
     StudentData.courses := Some [algorithms]; StudentData.status := None;
     StudentData.otherErrors := [] |}.

(** A body of [PUT /api/students/:id] that holds the key [class] alone. *)
Definition classOnly (classId : string) : StudentPatch.body :=
  {| StudentPatch.name := None; StudentPatch.rollNumber := None;
     StudentPatch.email := None; StudentPatch.gender := None;
     StudentPatch.class := Some classId; StudentPatch.department := None;
     StudentPatch.courses := None; StudentPatch.status := None;
     StudentPatch.otherErrors := [] |}.

Definition CLASSA : string := "65A1C0000000000000000001".

(** A body of [PUT /api/courses/:id] that holds the key [prerequisites]
    alone. *)
Definition prerequisitesOnly (l : list string) : CoursePatch.body :=
  {| CoursePatch.courseName := None; CoursePatch.courseCode := None;
     CoursePatch.department := None; CoursePatch.prerequisites := Some l;
     CoursePatch.semester := None; CoursePatch.maxStudents := None;
     CoursePatch.enrolledStudents := None; CoursePatch.courseType := None;
     CoursePatch.status := None; CoursePatch.otherErrors := [] |}.

End Sample24.

(** * Theorems *)

(** ** Running a handler *)

Ltac run :=
  cbv beta delta [tryCatch bind query reply ret modify await when] in *;
  cbn beta iota in *.

(** ** Creating a student in a full class *)

(** Claim C2, as amended.  When the target class of a creation request is at
    capacity, the request fails with status 400, nothing is persisted and no
    counter changes (the store is the one before the call); the failure is
    CapacityExceeded whenever the roll number and the email of the request
    are not already in use, which the handler checks first. *)
Theorem createStudent_into_full_class
    (newId : Id) (b : StudentData.body) (st : Store) (classExists : Class.doc) :
  findByIdOpt Class._id (StudentData.class b) (classes st) = Some classExists ->
  Class.capacity classExists <= Class.currentStrength classExists ->
  let r := StudentController.createStudent newId b st in
  fst r = st
  /\ status (snd r) = 400 /\ success (snd r) = false
  /\ (Student.findOneByRollNumber (StudentData.rollNumber b) (students st) = None ->
      Student.findOneByEmail (toLowerCase (StudentData.email b)) (students st) = None ->
      snd r = fail 400 ClassFull
      /\ failsWith (snd r) 400 Taxonomy.CapacityExceeded).
Proof.
  intros target full r. subst r.
  unfold StudentController.createStudent, StudentController.createStudentBody. run.
  apply Z.leb_le in full.
  destruct (Student.findOneByRollNumber _ _) eqn:Hroll;
    [cbn; repeat split; intros; discriminate|].
  destruct (Student.findOneByEmail _ _) eqn:Hemail;
    [cbn; repeat split; intros; discriminate|].
  rewrite target, full. cbn. repeat split.
Qed.

Lemma createStudent_into_full_class_witness :
  let r := StudentController.createStudent "s3" Sample.cat Sample.fullClass in
  fst r = Sample.fullClass
  /\ status (snd r) = 400 /\ success (snd r) = false
  /\ (Student.findOneByRollNumber (StudentData.rollNumber Sample.cat)
        (students Sample.fullClass) = None ->
      Student.findOneByEmail (toLowerCase (StudentData.email Sample.cat))
        (students Sample.fullClass) = None ->
      snd r = fail 400 ClassFull
      /\ failsWith (snd r) 400 Taxonomy.CapacityExceeded).
Proof.
  apply (createStudent_into_full_class "s3" Sample.cat Sample.fullClass
           (Sample.classA 2)).
  - reflexivity.
  - simpl. lia.
Defined.

(** Claim C2 as stated fails: the class of the request is at capacity, yet
    the response is the Conflict of the roll-number check, which comes
    first, and not CapacityExceeded. *)
Lemma createStudent_full_class_reports_conflict :
  let st := Sample.fullClass in
  let r := StudentController.createStudent "s3" Sample.ann st in
  findByIdOpt Class._id (StudentData.class Sample.ann) (classes st)
    = Some (Sample.classA 2)
  /\ Class.capacity (Sample.classA 2) <= Class.currentStrength (Sample.classA 2)
  /\ failsWith (snd r) 400 Taxonomy.Conflict
  /\ ~ failsWith (snd r) 400 Taxonomy.CapacityExceeded.
Proof.
  cbv zeta. split; [reflexivity|]. split; [simpl; lia|]. split.
  - vm_compute. repeat split.
  - intros (_ & _ & H). vm_compute in H. discriminate H.
Qed.

(** ** A failed update that has already moved counters *)

(** Claim C10.  There is an update request (move the student to a class
    with free seats and add a course that is full) that is answered with an
    error although the counters of both classes have been changed, the
    student document being left as it was. *)
Theorem updateStudent_fails_after_changing_counters :
  exists (id : Id) (b : StudentPatch.body) (st : Store),
    let r := StudentController.updateStudent id b st in
    success (snd r) = false
    /\ failsWith (snd r) 400 Taxonomy.CapacityExceeded
    /\ students (fst r) = students st
    /\ (exists old new,
          findById Class._id "c1" (classes st) = Some old
          /\ findById Class._id "c1" (classes (fst r)) = Some new
          /\ Class.currentStrength new = Class.currentStrength old - 1)
    /\ (exists old new,
          findById Class._id "c2" (classes st) = Some old
          /\ findById Class._id "c2" (classes (fst r)) = Some new
          /\ Class.currentStrength new = Class.currentStrength old + 1)
    /\ countersMatch st = true
    /\ countersMatch (fst r) = false.
Proof.
  exists "s1", Sample.moveAndEnroll, Sample.twoStudents. cbv zeta.
  split; [reflexivity|]. split; [vm_compute; repeat split|].
  split; [reflexivity|].
  split; [exists (Sample.classA 1), (Sample.classA 0); repeat split|].
  split; [exists (Sample.classB 1), (Sample.classB 2); repeat split|].
  split; reflexivity.
Qed.

(** ** Deleting a student *)

Lemma deleteStudent_not_found (id : Id) (st : Store) :
  findById Student._id id (students st) = None ->
  StudentController.deleteStudent id st = (st, fail 404 StudentNotFound).
Proof.
  intros H. unfold StudentController.deleteStudent,
    StudentController.deleteStudentBody. run. now rewrite H.
Qed.

Lemma validate_class_ok (c : Class.doc) :
  1 <= Class.capacity c <= 100 -> 0 <= Class.currentStrength c ->
  Class.validate c = [].
Proof.
  intros [H1 H2] H3. unfold Class.validate.
  destruct (Z.ltb_spec (Class.capacity c) 1); [lia|].
  destruct (Z.ltb_spec 100 (Class.capacity c)); [lia|].
  destruct (Z.ltb_spec (Class.currentStrength c) 0); [lia|]. reflexivity.
Qed.

Lemma validate_department_ok (d : Department.doc) :
  0 <= Department.totalFaculty d -> 0 <= Department.totalStudents d ->
  Department.validate d = [].
Proof.
  intros H1 H2. unfold Department.validate.
  destruct (Z.ltb_spec (Department.totalFaculty d) 0); [lia|].
  destruct (Z.ltb_spec (Department.totalStudents d) 0); [lia|]. reflexivity.
Qed.

(** With the class and department counters at one or more, the deletion
    takes one from each counter and removes the document. *)
Lemma deleteStudent_decrements (id : Id) (st : Store)
    (student : Student.doc) (classData : Class.doc) (departmentData : Department.doc) :
  findById Student._id id (students st) = Some student ->
  findById Class._id (Student.class student) (classes st) = Some classData ->
  findById Department._id (Student.department student) (departments st)
    = Some departmentData ->
  1 <= Class.capacity classData <= 100 -> 1 <= Class.currentStrength classData ->
  0 <= Department.totalFaculty departmentData ->
  1 <= Department.totalStudents departmentData ->
  StudentController.deleteStudent id st =
    ({| departments :=
          updateOne Department._id
            (Department.setTotalStudents
               (Department.totalStudents departmentData - 1) departmentData)
            (departments st);
        classes :=
          updateOne Class._id
            (Class.setCurrentStrength (Class.currentStrength classData - 1) classData)
            (classes st);
        courses :=
          updateMany Course._id (Student.courses student)
            (StudentController.incEnrolled (-1)) (courses st);
        students := findByIdAndDelete Student._id id (students st) |},
     ok 200 (StudentDeleted id (Student.name student) (Student.rollNumber student))).
Proof.
  intros Hs Hc Hd Hcap Hstr Hfac Htot.
  unfold StudentController.deleteStudent, StudentController.deleteStudentBody. run.
  rewrite Hs, Hc. unfold saveClass.
  rewrite validate_class_ok by (cbn; lia).
  cbn [withClasses departments classes courses students].
  rewrite Hd. unfold saveDepartment.
  rewrite validate_department_ok by (cbn; lia).
  cbn [withDepartments departments classes courses students].
  destruct (Student.courses student) as [|k ks] eqn:Hk.
  - cbn. unfold updateMany. cbn. now rewrite map_id.
  - reflexivity.
Qed.

(** Claim C3, at its failing inputs.  A student that the bulk endpoint has
    inserted sits in a class whose counter is still zero: the deletion
    answers 500 and removes nothing, where a floor at zero would let it go
    through.  Once the class and department counters are positive the
    deletion succeeds and takes the course counter from 0 to -1. *)
Theorem deleteStudent_has_no_floor :
  let bulk :=
    fst (StudentController.bulkCreateStudents Sample.ids [Sample.dan] Sample.empty) in
  let more := fst (StudentController.createStudent "s2" Sample.bob bulk) in
  findById Student._id "a0" (students bulk) = Some (Sample.student "a0" Sample.dan)
  /\ StudentController.deleteStudent "a0" bulk
     = (bulk, fail 500 (ServerError
                          (ValidationError ["Current strength cannot be negative"])))
  /\ findById Course._id "k1" (courses more) = Some (Sample.intro 0)
  /\ success (snd (StudentController.deleteStudent "a0" more)) = true
  /\ findById Course._id "k1"
       (courses (fst (StudentController.deleteStudent "a0" more)))
     = Some (Sample.intro (-1))
  /\ countersNonNegative (fst (StudentController.deleteStudent "a0" more)) = false.
Proof. cbv zeta. repeat split; vm_compute; reflexivity. Qed.

(** The sibling path of the course controller does apply the floor: on the
    same store the withdrawal leaves the course counter at zero. *)
Lemma withdrawStudent_applies_floor :
  let bulk :=
    fst (StudentController.bulkCreateStudents Sample.ids [Sample.dan] Sample.empty) in
  let r := CourseController.withdrawStudent "k1" "a0" bulk in
  success (snd r) = true
  /\ findById Course._id "k1" (courses (fst r)) = Some (Sample.intro 0).
Proof. cbv zeta. split; vm_compute; reflexivity. Qed.

(** ** The counters after a bulk insertion *)

(** Claim C1, at its failing input.  On a store whose counters match, the
    bulk endpoint reports success for a draft and inserts the student, and
    leaves every counter as it was: the class then has one student and a
    [currentStrength] of zero. *)
Theorem bulkCreateStudents_leaves_counters :
  let r := StudentController.bulkCreateStudents Sample.ids [Sample.dan] Sample.empty in
  countersMatch Sample.empty = true
  /\ success (snd r) = true
  /\ students (fst r) = [Sample.student "a0" Sample.dan]
  /\ classes (fst r) = classes Sample.empty
  /\ departments (fst r) = departments Sample.empty
  /\ courses (fst r) = courses Sample.empty
  /\ studentsOfClass "c1" (fst r) = 1
  /\ findById Class._id "c1" (classes (fst r)) = Some (Sample.classA 0)
  /\ countersMatch (fst r) = false.
Proof. cbv zeta. repeat split; vm_compute; reflexivity. Qed.

(** The single-student endpoint, on the same draft and store, does update
    the counters. *)
Lemma createStudent_updates_counters :
  let r := StudentController.createStudent "a0" Sample.dan Sample.empty in
  success (snd r) = true
  /\ students (fst r) = [Sample.student "a0" Sample.dan]
  /\ countersMatch (fst r) = true.
Proof. cbv zeta. repeat split; vm_compute; reflexivity. Qed.

(** ** Collections *)

Section CollectionFacts.

Context {D : Type} (key : D -> Id).

Lemma findById_key (id : Id) (l : list D) (d : D) :
  findById key id l = Some d -> key d = id.
Proof.
  unfold findById. intros H. apply find_some in H as [_ H].
  now apply String.eqb_eq in H.
Qed.

Lemma findById_In (id : Id) (l : list D) (d : D) :
  findById key id l = Some d -> In d l.
Proof. unfold findById. intros H. now apply find_some in H. Qed.

Lemma findById_updateOne (d x : D) (l : list D) :
  findById key (key d) l = Some x ->
  findById key (key d) (updateOne key d l) = Some d.
Proof.
  unfold findById. induction l as [|y r IH]; cbn; [discriminate|].
  destruct (String.eqb (key y) (key d)) eqn:E; cbn.
  - now rewrite String.eqb_refl.
  - rewrite E. exact IH.
Qed.

Lemma findById_updateOne_other (d : D) (id : Id) (l : list D) :
  key d <> id ->
  findById key id (updateOne key d l) = findById key id l.
Proof.
  unfold findById. intros N. induction l as [|y r IH]; cbn; [reflexivity|].
  destruct (String.eqb (key y) (key d)) eqn:E; cbn.
  - apply String.eqb_eq in E.
    destruct (String.eqb_spec (key d) id); [contradiction|].
    destruct (String.eqb_spec (key y) id); [congruence|]. reflexivity.
  - destruct (String.eqb (key y) id); [reflexivity|exact IH].
Qed.

Lemma updateOne_keys (d : D) (l : list D) :
  map key (updateOne key d l) = map key l.
Proof.
  induction l as [|y r IH]; cbn; [reflexivity|].
  destruct (String.eqb_spec (key y) (key d)); cbn; congruence.
Qed.

Lemma In_updateOne (d x : D) (l : list D) :
  In x (updateOne key d l) -> x = d \/ In x l.
Proof.
  induction l as [|y r IH]; cbn; [tauto|].
  destruct (String.eqb (key y) (key d)); cbn; intuition.
Qed.

End CollectionFacts.

Lemma includes_In (l : list Id) (x : Id) : includes l x = true <-> In x l.
Proof.
  unfold includes. rewrite existsb_exists. split.
  - intros (y & Hy & E). apply String.eqb_eq in E. now subst.
  - intros H. exists x. split; [exact H|apply String.eqb_refl].
Qed.

(** ** Enrolment *)

Section EnrolCases.

Import CourseController.

Variables (id studentId : Id) (st : Store).
Hypothesis given : falsy studentId = false.

Lemma enroll_course_missing :
  findById Course._id id (courses st) = None ->
  enrollStudent id studentId st = (st, fail 404 CourseNotFound).
Proof.
  intros Hc. unfold enrollStudent, enrollStudentBody. run.
  now rewrite given, Hc.
Qed.

Variable course : Course.doc.
Hypothesis found : findById Course._id id (courses st) = Some course.

Lemma enroll_course_full :
  Course.isFull course = true ->
  enrollStudent id studentId st = (st, fail 400 CourseFull).
Proof.
  intros Hf. unfold enrollStudent, enrollStudentBody. run.
  now rewrite given, found, Hf.
Qed.

Hypothesis seats : Course.isFull course = false.

Lemma enroll_student_missing :
  findById Student._id studentId (students st) = None ->
  enrollStudent id studentId st = (st, fail 404 StudentNotFound).
Proof.
  intros Hs. unfold enrollStudent, enrollStudentBody. run.
  now rewrite given, found, seats, Hs.
Qed.

Variable student : Student.doc.
Hypothesis known : findById Student._id studentId (students st) = Some student.

Lemma enroll_already_enrolled :
  includes (Student.courses student) id = true ->
  enrollStudent id studentId st = (st, fail 400 AlreadyEnrolled).
Proof.
  intros Hi. unfold enrollStudent, enrollStudentBody. run.
  now rewrite given, found, seats, known, Hi.
Qed.

Hypothesis fresh : includes (Student.courses student) id = false.

Lemma prerequisites_check (p : Id) :
  In p (Course.prerequisites course) ->
  includes (Student.courses student) p = false ->
  (nonEmpty (Course.prerequisites course)
   && negb (forallb (fun prereqId => includes (Student.courses student) prereqId)
              (Course.prerequisites course)))%bool = true.
Proof.
  intros Hp Hn. apply andb_true_iff. split.
  - destruct (Course.prerequisites course); [destruct Hp|reflexivity].
  - apply negb_true_iff. destruct (forallb _ _) eqn:E; [|reflexivity].
    rewrite forallb_forall in E. rewrite (E p Hp) in Hn. discriminate.
Qed.

Lemma enroll_prerequisite_missing (p : Id) :
  In p (Course.prerequisites course) ->
  includes (Student.courses student) p = false ->
  enrollStudent id studentId st = (st, fail 400 PrerequisitesNotMet).
Proof.
  intros Hp Hn. unfold enrollStudent, enrollStudentBody. run.
  rewrite given, found, seats, known, fresh.
  now rewrite (prerequisites_check p Hp Hn).
Qed.

(** What the handler does once every check has passed. *)
Lemma enroll_checks_passed :
  (nonEmpty (Course.prerequisites course)
   && negb (forallb (fun prereqId => includes (Student.courses student) prereqId)
              (Course.prerequisites course)))%bool = false ->
  let enrolled :=
    withStudents
      (updateOne Student._id
         (Student.setCourses (Student.courses student ++ [id]) student)
         (students st)) st in
  let course' :=
    Course.setEnrolledStudents (Course.enrolledStudents course + 1) course in
  enrollStudent id studentId st =
    match Course.validate course' with
    | [] => (withCourses (updateOne Course._id course' (courses st)) enrolled,
             ok 200 (Enrolled (Student._id student) (Course._id course)))
    | msgs => (enrolled, fail 500 (ServerError (ValidationError msgs)))
    end.
Proof.
  intros Hp enrolled course'. subst enrolled course'.
  unfold enrollStudent, enrollStudentBody. run.
  rewrite given, found, seats, known, fresh, Hp.
  unfold saveLoadedStudent, saveLoadedCourse.
  cbn [withStudents departments classes courses students].
  destruct (Course.validate (Course.setEnrolledStudents _ course)); reflexivity.
Qed.

End EnrolCases.

(** The decision list of [enrollStudent] for a request with a student id. *)
Lemma enrollStudent_cases (id studentId : Id) (st : Store) :
  falsy studentId = false ->
  let r := CourseController.enrollStudent id studentId st in
  (findById Course._id id (courses st) = None /\ r = (st, fail 404 CourseNotFound))
  \/ (exists course,
        findById Course._id id (courses st) = Some course
        /\ ((Course.isFull course = true /\ r = (st, fail 400 CourseFull))
            \/ (Course.isFull course = false
                /\ ((findById Student._id studentId (students st) = None
                     /\ r = (st, fail 404 StudentNotFound))
                    \/ (exists student,
                          findById Student._id studentId (students st) = Some student
                          /\ ((includes (Student.courses student) id = true
                               /\ r = (st, fail 400 AlreadyEnrolled))
                              \/ (includes (Student.courses student) id = false
                                  /\ (((exists p, In p (Course.prerequisites course)
                                        /\ includes (Student.courses student) p = false)
                                       /\ r = (st, fail 400 PrerequisitesNotMet))
                                      \/ ((forall p, In p (Course.prerequisites course) ->
                                             includes (Student.courses student) p = true)
                                          /\ ((success (snd r) = false
                                               /\ courses (fst r) = courses st)
                                              \/ (success (snd r) = true
                                                  /\ students (fst r)
                                                     = updateOne Student._id
                                                         (Student.setCourses
                                                            (Student.courses student ++ [id])
                                                            student)
                                                         (students st)
                                                  /\ courses (fst r)
                                                     = updateOne Course._id
                                                         (Course.setEnrolledStudents
                                                            (Course.enrolledStudents course + 1)
                                                            course)
                                                         (courses st)))))))))))).
Proof.
  intros given r. subst r.
  destruct (findById Course._id id (courses st)) as [course|] eqn:Hc;
    [right; exists course; split; [reflexivity|]
    |left; split; [reflexivity|now apply enroll_course_missing]].
  destruct (Course.isFull course) eqn:Hf;
    [left; split; [reflexivity|now apply (enroll_course_full _ _ _ given course)]
    |right; split; [reflexivity|]].
  destruct (findById Student._id studentId (students st)) as [student|] eqn:Hs;
    [right; exists student; split; [reflexivity|]
    |left; split; [reflexivity|now apply (enroll_student_missing _ _ _ given course)]].
  destruct (includes (Student.courses student) id) eqn:Hi;
    [left; split; [reflexivity|
       now apply (enroll_already_enrolled _ _ _ given course Hc Hf student)]
    |right; split; [reflexivity|]].
  destruct (nonEmpty (Course.prerequisites course)
            && negb (forallb (fun prereqId => includes (Student.courses student) prereqId)
                       (Course.prerequisites course)))%bool eqn:Hp.
  - left. apply andb_true_iff in Hp as [Hne Hp]. apply negb_true_iff in Hp.
    assert (exists p, In p (Course.prerequisites course)
                      /\ includes (Student.courses student) p = false) as (p & Hin & Hn).
    { clear - Hp. induction (Course.prerequisites course) as [|q l IH];
        [discriminate|]. cbn in Hp. apply andb_false_iff in Hp as [Hq|Hl].
      - exists q. split; [now left|exact Hq].
      - destruct (IH Hl) as (p & Hin & Hn). exists p. split; [now right|exact Hn]. }
    split; [exists p; now split|].
    now apply (enroll_prerequisite_missing _ _ _ given course Hc Hf student Hs Hi p).
  - right. split.
    + apply andb_false_iff in Hp as [Hp|Hp].
      * destruct (Course.prerequisites course); [intros p []|discriminate].
      * apply negb_false_iff in Hp. now rewrite forallb_forall in Hp.
    + rewrite (enroll_checks_passed _ _ _ given course Hc Hf student Hs Hi Hp).
      destruct (Course.validate _); [right|left]; repeat split.
Qed.



(** ** Blocked deletions *)

(** Claim C5, as amended.  Deleting a department, class or course that
    exists and is still referenced fails with a Conflict (status 400) and
    leaves the store as it was.  The message states the counts of the
    referencing classes, students and courses for a department, and the
    count of the referencing students for a class and for a course; a
    course that no student takes but that other courses list as a
    prerequisite is reported with the names of those courses. *)
Theorem blocked_deletion_changes_nothing (id : Id) (st : Store) :
  (forall department,
     findById Department._id id (departments st) = Some department ->
     let classCount :=
       countDocuments (fun c => String.eqb (Class.department c) id) (classes st) in
     let studentCount :=
       countDocuments (fun s => String.eqb (Student.department s) id) (students st) in
     let courseCount :=
       countDocuments (fun c => String.eqb (Course.department c) id) (courses st) in
     (0 < classCount \/ 0 < studentCount \/ 0 < courseCount)%nat ->
     let r := DepartmentController.deleteDepartment id st in
     fst r = st /\ failsWith (snd r) 400 Taxonomy.Conflict
     /\ content (snd r) = Error (DepartmentInUse classCount studentCount courseCount)
     /\ reportedCounts (snd r) = Some [classCount; studentCount; courseCount])
  /\ (forall classData,
        findById Class._id id (classes st) = Some classData ->
        let studentCount :=
          countDocuments (fun s => String.eqb (Student.class s) id) (students st) in
        (0 < studentCount)%nat ->
        let r := ClassController.deleteClass id st in
        fst r = st /\ failsWith (snd r) 400 Taxonomy.Conflict
        /\ content (snd r) = Error (ClassHasStudents studentCount)
        /\ reportedCounts (snd r) = Some [studentCount])
  /\ (forall course,
        findById Course._id id (courses st) = Some course ->
        let studentCount :=
          countDocuments (fun s => includes (Student.courses s) id) (students st) in
        let dependentCourses :=
          filter (fun c => includes (Course.prerequisites c) id) (courses st) in
        let r := CourseController.deleteCourse id st in
        ((0 < studentCount)%nat ->
         fst r = st /\ failsWith (snd r) 400 Taxonomy.Conflict
         /\ content (snd r) = Error (CourseHasStudents studentCount)
         /\ reportedCounts (snd r) = Some [studentCount])
        /\ (studentCount = 0%nat -> dependentCourses <> [] ->
            fst r = st /\ failsWith (snd r) 400 Taxonomy.Conflict
            /\ content (snd r)
               = Error (CourseIsPrerequisite (map Course.courseName dependentCourses)))).
Proof.
  split; [|split].
  - intros department Hd classCount studentCount courseCount Hblock r. subst r.
    unfold DepartmentController.deleteDepartment,
      DepartmentController.deleteDepartmentBody. run. rewrite Hd.
    fold classCount studentCount courseCount.
    assert (E : (Nat.ltb 0 classCount || Nat.ltb 0 studentCount
                 || Nat.ltb 0 courseCount)%bool = true).
    { destruct Hblock as [H | [H | H]]; apply Nat.ltb_lt in H; rewrite H;
        repeat rewrite orb_true_r; reflexivity. }
    rewrite E. cbn. repeat split.
  - intros classData Hc studentCount Hblock r. subst r.
    unfold ClassController.deleteClass, ClassController.deleteClassBody. run.
    rewrite Hc. fold studentCount. apply Nat.ltb_lt in Hblock. rewrite Hblock.
    cbn. repeat split.
  - intros course Hc studentCount dependentCourses r. subst r.
    unfold CourseController.deleteCourse, CourseController.deleteCourseBody. run.
    rewrite Hc. fold studentCount dependentCourses. split.
    + intros Hblock. apply Nat.ltb_lt in Hblock. rewrite Hblock. cbn. repeat split.
    + intros Hzero Hdep. rewrite Hzero. subst dependentCourses. cbn.
      destruct (filter _ (courses st)) as [|c l]; [contradiction|]. cbn.
      repeat split.
Qed.

Lemma blocked_deletion_changes_nothing_witness :
  (0 < countDocuments (fun s => String.eqb (Student.class s) "c1")
         (students Sample.twoStudents))%nat
  /\ let r := ClassController.deleteClass "c1" Sample.twoStudents in
     fst r = Sample.twoStudents /\ failsWith (snd r) 400 Taxonomy.Conflict
     /\ content (snd r) = Error (ClassHasStudents 1)
     /\ reportedCounts (snd r) = Some [1%nat].
Proof.
  split; [vm_compute; lia|].
  apply (proj1 (proj2 (blocked_deletion_changes_nothing "c1" Sample.twoStudents))
           (Sample.classA 1)).
  - reflexivity.
  - vm_compute; lia.
Defined.

(** Claim C5 as stated fails: a course that is only blocked by the courses
    that list it as a prerequisite is refused with their names; the
    message states no count. *)
Lemma deleteCourse_prerequisite_block_states_names :
  let r := CourseController.deleteCourse "k1" Sample.empty in
  findById Course._id "k1" (courses Sample.empty) = Some (Sample.intro 0)
  /\ In (Sample.algorithms 0) (courses Sample.empty)
  /\ In "k1" (Course.prerequisites (Sample.algorithms 0))
  /\ fst r = Sample.empty
  /\ failsWith (snd r) 400 Taxonomy.Conflict
  /\ content (snd r) = Error (CourseIsPrerequisite ["Algorithms"])
  /\ reportedCounts (snd r) = None.
Proof.
  cbv zeta. split; [reflexivity|]. split; [right; left; reflexivity|].
  split; [left; reflexivity|]. split; [reflexivity|].
  split; [vm_compute; repeat split|]. split; reflexivity.
Qed.

(** ** Withdrawing and enrolling again *)

(** A withdrawal that succeeds has found the course and the student, and
    has written the filtered course list and the floored counter. *)
Lemma withdrawStudent_success (id studentId : Id) (st : Store) :
  success (snd (CourseController.withdrawStudent id studentId st)) = true ->
  exists course student,
    findById Course._id id (courses st) = Some course
    /\ findById Student._id studentId (students st) = Some student
    /\ includes (Student.courses student) id = true
    /\ fst (CourseController.withdrawStudent id studentId st)
       = withCourses
           (updateOne Course._id
              (Course.setEnrolledStudents
                 (Z.max 0 (Course.enrolledStudents course - 1)) course)
              (courses st))
           (withStudents
              (updateOne Student._id
                 (Student.setCourses
                    (filter (fun courseId => negb (String.eqb courseId id))
                       (Student.courses student))
                    student)
                 (students st))
              st).
Proof.
  unfold CourseController.withdrawStudent, CourseController.withdrawStudentBody. run.
  destruct (falsy studentId); [discriminate|].
  destruct (findById Course._id id (courses st)) as [course|]; [|discriminate].
  destruct (findById Student._id studentId (students st)) as [student|];
    [|discriminate].
  destruct (includes (Student.courses student) id) eqn:Hi; [|discriminate].
  cbn [negb]. unfold CourseController.saveLoadedStudent,
    CourseController.saveLoadedCourse.
  cbn [withStudents departments classes courses students].
  destruct (Course.validate _); [|discriminate].
  intros _. exists course, student. repeat split; auto.
Qed.

(** An enrolment that succeeds has found the course and the student, and
    has written the extended course list and the incremented counter. *)
Lemma enrollStudent_success (id studentId : Id) (st : Store) :
  success (snd (CourseController.enrollStudent id studentId st)) = true ->
  exists course student,
    findById Course._id id (courses st) = Some course
    /\ findById Student._id studentId (students st) = Some student
    /\ courses (fst (CourseController.enrollStudent id studentId st))
       = updateOne Course._id
           (Course.setEnrolledStudents (Course.enrolledStudents course + 1) course)
           (courses st).
Proof.
  intros S.
  assert (given : falsy studentId = false).
  { revert S. unfold CourseController.enrollStudent,
      CourseController.enrollStudentBody. run.
    destruct (falsy studentId); [discriminate|reflexivity]. }
  destruct (enrollStudent_cases id studentId st given)
    as [(Hc & E) | (course & Hc & [(Hf & E) | (Hf & [(Hs & E) | (student & Hs &
          [(Hi & E) | (Hi & [((p & Hp & Hn) & E) | (Hmet & [(F & E) | (S' & Es & Ec)])])])])])];
    try (rewrite E in S; discriminate S).
  - rewrite F in S. discriminate S.
  - exists course, student. auto.
Qed.

(** Claim C6, as amended.  After a successful withdrawal followed by a
    successful enrolment of the same student in the same course the counter
    [enrolledStudents] is [max 0 (e - 1) + 1], where [e] is its value
    before the withdrawal: it is back at [e] whenever [e] was at least one. *)
Theorem withdraw_then_enroll (id studentId : Id) (st : Store) (course : Course.doc) :
  findById Course._id id (courses st) = Some course ->
  let r1 := CourseController.withdrawStudent id studentId st in
  let r2 := CourseController.enrollStudent id studentId (fst r1) in
  success (snd r1) = true ->
  success (snd r2) = true ->
  exists course',
    findById Course._id id (courses (fst r2)) = Some course'
    /\ Course.enrolledStudents course'
       = Z.max 0 (Course.enrolledStudents course - 1) + 1
    /\ (1 <= Course.enrolledStudents course ->
        Course.enrolledStudents course' = Course.enrolledStudents course).
Proof.
  intros Hc r1 r2 S1 S2. subst r1 r2.
  destruct (withdrawStudent_success id studentId st S1)
    as (course0 & student & Hc0 & Hs & Hi & E).
  rewrite Hc in Hc0. injection Hc0 as <-.
  destruct (enrollStudent_success id studentId _ S2) as (c1 & s1 & Hc1 & _ & Ec).
  exists (Course.setEnrolledStudents (Course.enrolledStudents c1 + 1) c1).
  split.
  { rewrite Ec. pose proof (findById_key _ _ _ _ Hc1) as K. rewrite <- K at 1.
    change (Course._id c1)
      with (Course._id (Course.setEnrolledStudents
                          (Course.enrolledStudents c1 + 1) c1)) at 1.
    eapply findById_updateOne. cbn. rewrite K. exact Hc1. }
  assert (Ec1 : c1 = Course.setEnrolledStudents
                       (Z.max 0 (Course.enrolledStudents course - 1)) course).
  { rewrite E in Hc1. cbn [withCourses courses] in Hc1.
    pose proof (findById_key _ _ _ _ Hc) as K.
    assert (F : findById Course._id id
                  (updateOne Course._id
                     (Course.setEnrolledStudents
                        (Z.max 0 (Course.enrolledStudents course - 1)) course)
                     (courses st))
                = Some (Course.setEnrolledStudents
                          (Z.max 0 (Course.enrolledStudents course - 1)) course)).
    { rewrite <- K at 1.
      change (Course._id course)
        with (Course._id (Course.setEnrolledStudents
                            (Z.max 0 (Course.enrolledStudents course - 1)) course)) at 1.
      eapply findById_updateOne. cbn. rewrite K. exact Hc. }
    rewrite F in Hc1. now injection Hc1. }
  rewrite Ec1. cbn. split; [reflexivity|lia].
Qed.

Lemma withdraw_then_enroll_witness :
  let st := fst (StudentController.createStudent "a0" Sample.dan Sample.empty) in
  findById Course._id "k1" (courses st) = Some (Sample.intro 1)
  /\ exists course',
       findById Course._id "k1"
         (courses (fst (CourseController.enrollStudent "k1" "a0"
                          (fst (CourseController.withdrawStudent "k1" "a0" st)))))
       = Some course'
       /\ Course.enrolledStudents course'
          = Z.max 0 (Course.enrolledStudents (Sample.intro 1) - 1) + 1
       /\ (1 <= Course.enrolledStudents (Sample.intro 1) ->
           Course.enrolledStudents course'
           = Course.enrolledStudents (Sample.intro 1)).
Proof.
  cbv zeta. split; [reflexivity|].
  apply (withdraw_then_enroll "k1" "a0"
           (fst (StudentController.createStudent "a0" Sample.dan Sample.empty))
           (Sample.intro 1)); reflexivity.
Defined.

(** Claim C6 as stated fails where the counter has drifted to zero: the
    student that the bulk endpoint enrolled withdraws and enrols again, both
    with success, and the counter ends at one, not at its former zero. *)
Lemma withdraw_then_enroll_from_zero :
  let st :=
    fst (StudentController.bulkCreateStudents Sample.ids [Sample.dan] Sample.empty) in
  let r1 := CourseController.withdrawStudent "k1" "a0" st in
  let r2 := CourseController.enrollStudent "k1" "a0" (fst r1) in
  (exists s, findById Student._id "a0" (students st) = Some s
             /\ includes (Student.courses s) "k1" = true)
  /\ findById Course._id "k1" (courses st) = Some (Sample.intro 0)
  /\ success (snd r1) = true
  /\ success (snd r2) = true
  /\ findById Course._id "k1" (courses (fst r2)) = Some (Sample.intro 1)
  /\ Course.enrolledStudents (Sample.intro 1) <> Course.enrolledStudents (Sample.intro 0).
Proof.
  cbv zeta. split; [exists (Sample.student "a0" Sample.dan); split; reflexivity|].
  repeat split; try reflexivity. cbn. lia.
Qed.

(** ** The setters commute with the case conversions of the handlers *)

Section Setters.

Variable f : ascii -> ascii.
Hypothesis keepsSpace : forall c, isSpace (f c) = isSpace c.
Hypothesis idempotent : forall c, f (f c) = f c.





End Setters.










(** ** The bulk endpoint *)






Section BulkSteps.

Import StudentController.

Variables (newIds : nat -> Id) (i : nat) (rest : list StudentData.body).
Variables (d : StudentData.body) (st : Store).
Variables (successes : list BulkSuccess) (errors : list BulkError).



End BulkSteps.







(** ** Prerequisites *)

Section Resolve.

Context {D : Type} (key : D -> Id).

Lemma NoDup_map_filter (p : D -> bool) (l : list D) :
  NoDup (map key l) -> NoDup (map key (filter p l)).
Proof.
  induction l as [|d l IH]; cbn; [constructor|].
  intros H. inversion H as [|? ? Hd Hl]; subst.
  destruct (p d); cbn; [|now apply IH].
  constructor; [|now apply IH].
  intros Hin. apply Hd. apply in_map_iff in Hin as (x & Hx & Hf).
  apply filter_In in Hf as [Hf _]. apply in_map_iff. now exists x.
Qed.

(** With unique identifiers, [find({ _id: { $in: ids } })] returns as many
    documents as there are ids only if every id resolves. *)
Lemma findIn_all_resolve (ids : list Id) (l : list D) :
  NoDup (map key l) ->
  List.length (findIn key ids l) = List.length ids ->
  forall x, In x ids -> exists d, In d l /\ key d = x.
Proof.
  intros Hnd Hlen x Hx.
  assert (Hincl : incl ids (map key (findIn key ids l))).
  { apply NoDup_length_incl.
    - now apply NoDup_map_filter.
    - rewrite length_map. lia.
    - intros y Hy. apply in_map_iff in Hy as (d & <- & Hd).
      apply filter_In in Hd as [_ Hd]. now apply includes_In. }
  apply Hincl in Hx. apply in_map_iff in Hx as (d & Hk & Hd).
  apply filter_In in Hd as [Hd _]. now exists d.
Qed.

End Resolve.

(** A creation that succeeds has appended the new document, whose id no
    course of the collection had. *)
Lemma createCourse_success (newId : Id) (b : CourseData.body) (st : Store) :
  success (snd (CourseController.createCourse newId b st)) = true ->
  courses (fst (CourseController.createCourse newId b st))
    = courses st ++ [CourseController.newCourse newId b]
  /\ (forall c, In c (courses st) -> Course._id c <> newId)
  /\ (hasCourses (CourseData.prerequisites b) = true ->
      List.length (findIn Course._id (requested (CourseData.prerequisites b)) (courses st))
      = List.length (requested (CourseData.prerequisites b))).
Proof.
  unfold CourseController.createCourse, CourseController.createCourseBody. run.
  destruct (find _ (courses st)); [discriminate|].
  destruct (findByIdOpt Department._id _ _); [|discriminate].
  destruct (hasCourses (CourseData.prerequisites b)) eqn:Hh; cbn [andb].
  - destruct (Nat.eqb_spec
                (List.length (findIn Course._id (requested (CourseData.prerequisites b))
                                (courses st)))
                (List.length (requested (CourseData.prerequisites b)))) as [E|E];
      cbn [negb]; [|discriminate].
    unfold insertCourse.
    destruct (CourseController.validateNew b ++ Course.validate _); [|discriminate].
    destruct (existsb _ (courses st)) eqn:Hex; [discriminate|]. cbn [orb].
    destruct (courseKeyTaken _ _); [discriminate|]. cbn. intros _.
    split; [reflexivity|]. split; [|auto].
    intros c Hc Hid. apply not_true_iff_false in Hex. apply Hex.
    apply existsb_exists. exists c. split; [exact Hc|]. now apply String.eqb_eq.
  - unfold insertCourse.
    destruct (CourseController.validateNew b ++ Course.validate _); [|discriminate].
    destruct (existsb _ (courses st)) eqn:Hex; [discriminate|]. cbn [orb].
    destruct (courseKeyTaken _ _); [discriminate|]. cbn. intros _.
    split; [reflexivity|]. split; [|discriminate].
    intros c Hc Hid. apply not_true_iff_false in Hex. apply Hex.
    apply existsb_exists. exists c. split; [exact Hc|]. now apply String.eqb_eq.
Qed.

Lemma checkCourseCode_keeps (course : Course.doc) (b b1 : CoursePatch.body) (st st1 : Store) :
  CourseController.checkCourseCode course b st = (st1, Continue b1) ->
  st1 = st /\ CoursePatch.prerequisites b1 = CoursePatch.prerequisites b.
Proof.
  unfold CourseController.checkCourseCode.
  destruct (changed _ _); run.
  - destruct (find _ _); [discriminate|]. intros [= <- <-]. now split.
  - intros [= <- <-]. now split.
Qed.

(** An update that succeeds has replaced the document by the patched one;
    a prerequisite list in the patch does not hold the id of the course. *)
Lemma updateCourse_success (id : Id) (b : CoursePatch.body) (st : Store) :
  success (snd (CourseController.updateCourse id b st)) = true ->
  exists course b1,
    findById Course._id id (courses st) = Some course
    /\ CoursePatch.prerequisites b1 = CoursePatch.prerequisites b
    /\ (forall l, CoursePatch.prerequisites b = Some l ->
                  includes l (Course._id course) = false)
    /\ courses (fst (CourseController.updateCourse id b st))
       = updateOne Course._id (CourseController.applyPatch b1 course) (courses st).
Proof.
  unfold CourseController.updateCourse, CourseController.updateCourseBody. run.
  destruct (findById Course._id id (courses st)) as [course|] eqn:Hc; [|discriminate].
  destruct (CourseController.checkCourseCode course b st) as [st1 [b1| |]] eqn:Hcode;
    [|unfold CourseController.checkCourseCode in Hcode; run;
      destruct (changed _ _); [destruct (find _ _)|]; try discriminate;
      injection Hcode as <- <-; discriminate
     |unfold CourseController.checkCourseCode in Hcode; run;
      destruct (changed _ _); [destruct (find _ _)|]; discriminate].
  destruct (checkCourseCode_keeps _ _ _ _ _ Hcode) as [-> Hpre].
  destruct (CourseController.maxBelowEnrolled course b1); [discriminate|].
  unfold CourseController.checkPrerequisites. rewrite Hpre.
  destruct (CoursePatch.prerequisites b) as [l|] eqn:Hl; run.
  - destruct (negb _); [discriminate|].
    destruct (includes l (Course._id course)) eqn:Hself; [discriminate|].
    unfold saveCourse.
    destruct (CourseController.validatePatched _ _ ++ Course.validate _); [|discriminate].
    destruct (courseKeyTaken _ _); [discriminate|]. cbn. intros _.
    exists course, b1. repeat split; auto. now intros l' [= <-].
  - unfold saveCourse.
    destruct (CourseController.validatePatched _ _ ++ Course.validate _); [|discriminate].
    destruct (courseKeyTaken _ _); [discriminate|]. cbn. intros _.
    exists course, b1. repeat split; auto. discriminate.
Qed.

Lemma find_app_none {A} (p : A -> bool) (l l' : list A) :
  find p l = None -> find p (l ++ l') = find p l'.
Proof.
  induction l as [|x l IH]; cbn; [reflexivity|].
  destruct (p x); [discriminate|exact IH].
Qed.

(** On ids in canonical form: after a successful creation the new course
    does not list its own id among its prerequisites, and after a
    successful update whose body carries a prerequisite list the updated
    course does not either; hence a store in which no course is its own
    prerequisite stays so through every successful creation and every
    successful update that spells its ids so.  (Identifiers are unique
    within the collection, as the [_id] index guarantees.) *)
Lemma canonical_prerequisites_exclude_the_course :
  (forall newId b st,
     NoDup (map Course._id (courses st)) ->
     success (snd (CourseController.createCourse newId b st)) = true ->
     let st' := fst (CourseController.createCourse newId b st) in
     findById Course._id newId (courses st') = Some (CourseController.newCourse newId b)
     /\ includes (Course.prerequisites (CourseController.newCourse newId b)) newId = false
     /\ (noSelfPrerequisite st -> noSelfPrerequisite st'))
  /\ (forall id b st,
        success (snd (CourseController.updateCourse id b st)) = true ->
        let st' := fst (CourseController.updateCourse id b st) in
        (forall l, CoursePatch.prerequisites b = Some l ->
           exists course',
             findById Course._id id (courses st') = Some course'
             /\ Course.prerequisites course' = l
             /\ includes l id = false)
        /\ (noSelfPrerequisite st -> noSelfPrerequisite st')).
Proof.
  split.
  - intros newId b st Hnd S st'. subst st'.
    destruct (createCourse_success newId b st S) as (E & Hfresh & Hres).
    assert (Hself : includes (Course.prerequisites (CourseController.newCourse newId b))
                      newId = false).
    { cbn [CourseController.newCourse Course.prerequisites].
      change (match CourseData.prerequisites b with Some l => l | None => [] end)
        with (requested (CourseData.prerequisites b)).
      destruct (hasCourses (CourseData.prerequisites b)) eqn:Hh.
      - apply not_true_iff_false. intros Hin. apply includes_In in Hin.
        destruct (findIn_all_resolve Course._id _ _ Hnd (Hres eq_refl) newId Hin)
          as (c & Hc & Hid).
        exact (Hfresh c Hc Hid).
      - unfold hasCourses, requested in *.
        destruct (CourseData.prerequisites b) as [[|x l]|]; try reflexivity.
        discriminate Hh. }
    rewrite E. split; [|split; [exact Hself|]].
    + unfold findById.
      destruct (find (fun d => String.eqb (Course._id d) newId) (courses st))
        as [c|] eqn:Hf.
      * apply find_some in Hf as [Hc Hid]. apply String.eqb_eq in Hid.
        destruct (Hfresh c Hc Hid).
      * rewrite (find_app_none _ _ _ Hf). cbn. now rewrite String.eqb_refl.
    + intros Hinv c Hc. unfold noSelfPrerequisite in Hinv. rewrite E in Hc.
      apply in_app_or in Hc as [Hc|[<-|[]]]; [now apply Hinv|].
      exact Hself.
  - intros id b st S st'. subst st'.
    destruct (updateCourse_success id b st S) as (course & b1 & Hc & Hpre & Hno & E).
    pose proof (findById_key _ _ _ _ Hc) as K.
    rewrite E. split.
    + intros l Hl. exists (CourseController.applyPatch b1 course). split; [|split].
      * rewrite <- K at 1.
        change (Course._id course)
          with (Course._id (CourseController.applyPatch b1 course)) at 1.
        eapply findById_updateOne. cbn. rewrite K. exact Hc.
      * cbn. now rewrite Hpre, Hl.
      * rewrite <- K. now apply Hno.
    + intros Hinv c Hin. unfold noSelfPrerequisite in Hinv. rewrite ?E in Hin.
      apply In_updateOne in Hin as [->|Hin]; [|now apply Hinv].
      cbn [CourseController.applyPatch Course.prerequisites Course._id].
      rewrite Hpre. destruct (CoursePatch.prerequisites b) as [l|] eqn:Hl.
      * now apply Hno.
      * apply Hinv. exact (findById_In _ _ _ _ Hc).
Qed.

Lemma course_is_never_its_own_prerequisite_witness :
  NoDup (map Course._id (courses Sample.empty))
  /\ success (snd (CourseController.createCourse "k3" Sample.databases Sample.empty))
     = true
  /\ includes
       (Course.prerequisites (CourseController.newCourse "k3" Sample.databases)) "k3"
     = false
  /\ success (snd (CourseController.updateCourse "k2" Sample.renameAlgorithms
                     Sample.empty)) = true
  /\ noSelfPrerequisite Sample.empty
  /\ noSelfPrerequisite
       (fst (CourseController.updateCourse "k2" Sample.renameAlgorithms Sample.empty)).
Proof.
  assert (Hnd : NoDup (map Course._id (courses Sample.empty))).
  { cbn. constructor; [intros [H|[]]; discriminate H|].
    constructor; [intros []|constructor]. }
  assert (Hinv : noSelfPrerequisite Sample.empty).
  { intros c [<-|[<-|[]]]; reflexivity. }
  split; [exact Hnd|]. split; [reflexivity|]. split.
  { exact (proj1 (proj2 (proj1 canonical_prerequisites_exclude_the_course
                           "k3" Sample.databases Sample.empty Hnd eq_refl))). }
  split; [reflexivity|]. split; [exact Hinv|].
  exact (proj2 (proj2 canonical_prerequisites_exclude_the_course
                  "k2" Sample.renameAlgorithms Sample.empty eq_refl) Hinv).
Defined.

(** ** The statistics reports *)

Section Pipelines.

Context {A B : Type}.

Lemma Forall_insertDesc (P : A -> Prop) (f : A -> Z) (x : A) (l : list A) :
  P x -> Forall P l -> Forall P (insertDesc f x l).
Proof.
  intros Hx Hl. induction Hl as [|y r Hy Hr IH]; cbn; [now repeat constructor|].
  destruct (f y <=? f x); repeat constructor; auto.
Qed.

Lemma Forall_sortDesc (P : A -> Prop) (f : A -> Z) (l : list A) :
  Forall P l -> Forall P (sortDesc f l).
Proof.
  unfold sortDesc. induction 1 as [|x r Hx Hr IH]; cbn; [constructor|].
  now apply Forall_insertDesc.
Qed.

Lemma project_Forall (f : A -> option B) (P : B -> Prop) (l : list A) :
  forall rows,
  project f l = Some rows ->
  (forall x y, In x l -> f x = Some y -> P y) ->
  Forall P rows.
Proof.
  induction l as [|x l IH]; cbn; intros rows E H.
  - injection E as <-. constructor.
  - destruct (f x) as [y|] eqn:Ex; [|discriminate].
    destruct (project f l) as [ys|]; [|discriminate].
    injection E as <-. constructor.
    + apply (H x y); auto.
    + apply IH; auto. intros x' y' Hin. apply H. now right.
Qed.

Lemma project_total (f : A -> option B) (l : list A) :
  (forall x, In x l -> f x <> None) -> exists rows, project f l = Some rows.
Proof.
  induction l as [|x l IH]; cbn; intros H; [now exists []|].
  destruct (f x) as [y|] eqn:Ex; [|destruct (H x (or_introl eq_refl) Ex)].
  destruct IH as (ys & ->); [intros x' Hx'; apply H; now right|].
  now exists (y :: ys).
Qed.

Lemma firstsBy_In (same : A -> A -> bool) (l : list A) (x : A) :
  In x (firstsBy same l) -> In x l.
Proof.
  induction l as [|y l IH]; cbn; [tauto|].
  intros [->|H]; [now left|]. apply filter_In in H as [H _]. right. now apply IH.
Qed.

Lemma sumOf_cons (f : A -> Z) (x : A) (l : list A) :
  sumOf f (x :: l) = f x + sumOf f l.
Proof. reflexivity. Qed.

Lemma sumOf_nonneg (f : A -> Z) (l : list A) :
  (forall x, In x l -> 0 <= f x) -> 0 <= sumOf f l.
Proof.
  induction l as [|x l IH]; intros H; [cbn; lia|]. rewrite sumOf_cons.
  assert (0 <= f x) by (apply H; now left).
  assert (0 <= sumOf f l) by (apply IH; intros w Hw; apply H; now right).
  lia.
Qed.

Lemma sumOf_lower (f : A -> Z) (l : list A) (y : A) :
  (forall x, In x l -> 0 <= f x) -> In y l -> f y <= sumOf f l.
Proof.
  induction l as [|x l IH]; intros H Hy; [destruct Hy|]. rewrite sumOf_cons.
  assert (0 <= f x) by (apply H; now left).
  assert (0 <= sumOf f l)
    by (apply sumOf_nonneg; intros w Hw; apply H; now right).
  destruct Hy as [->|Hy]; [lia|].
  assert (f y <= sumOf f l)
    by (apply IH; auto; intros w Hw; apply H; now right).
  lia.
Qed.

End Pipelines.

Lemma divide_percent (a b : Z) (q : double) :
  divide a b = Some q -> multiply q hundred = percent a b.
Proof.
  unfold divide, percent. destruct (b =? 0); [discriminate|]. now intros [= <-].
Qed.

Lemma divide_defined (a b : Z) : b <> 0 -> divide a b <> None.
Proof.
  unfold divide. intros H. apply Z.eqb_neq in H. rewrite H. discriminate.
Qed.

Lemma rate_guardedPercent (enrolled capacity : Z) :
  CourseController.rate enrolled capacity = Some (guardedPercent enrolled capacity).
Proof.
  unfold CourseController.rate, guardedPercent, divide, percent.
  destruct (capacity =? 0); reflexivity.
Qed.

Lemma lookupUnwind_In {A B} (matches : A -> B -> bool) (l : list A) (from : list B)
    (x : A * B) :
  In x (lookupUnwind matches l from) <->
  In (fst x) l /\ In (snd x) from /\ matches (fst x) (snd x) = true.
Proof.
  unfold lookupUnwind. rewrite in_flat_map. split.
  - intros (a & Ha & H). apply in_map_iff in H as (b & <- & Hb).
    apply filter_In in Hb as [Hb Hm]. now repeat split.
  - intros (Ha & Hb & Hm). exists (fst x). split; [exact Ha|].
    apply in_map_iff. exists (snd x). split; [now destruct x|].
    apply filter_In. now split.
Qed.

Section SortedRows.

Context {A : Type} (f : A -> Z).

Lemma In_insertDesc (x y : A) (l : list A) :
  In y (insertDesc f x l) <-> y = x \/ In y l.
Proof.
  induction l as [|z l IH]; cbn; [intuition|].
  destruct (f z <=? f x); cbn; [intuition|]. rewrite IH. intuition.
Qed.

Lemma In_sortDesc (y : A) (l : list A) : In y (sortDesc f l) <-> In y l.
Proof.
  unfold sortDesc. induction l as [|x l IH]; cbn; [tauto|].
  rewrite In_insertDesc, IH. intuition.
Qed.

End SortedRows.

Lemma project_In {A B} (f : A -> option B) (l : list A) (rows : list B) :
  project f l = Some rows ->
  forall y, In y rows <-> exists x, In x l /\ f x = Some y.
Proof.
  revert rows. induction l as [|x l IH]; cbn; intros rows E y.
  - injection E as <-. split; [intros []|intros (x & [] & _)].
  - destruct (f x) as [y0|] eqn:Ex; [|discriminate].
    destruct (project f l) as [ys|]; [|discriminate].
    injection E as <-. cbn. rewrite (IH ys eq_refl y). split.
    + intros [<-|(x' & Hx' & E')]; [exists x; auto|exists x'; auto].
    + intros (x' & [<-|Hx'] & E'); [left; congruence|right; exists x'; auto].
Qed.

Lemma project_each {A B} (f : A -> option B) (l : list A) (rows : list B) (x : A) :
  project f l = Some rows -> In x l -> exists y, f x = Some y /\ In y rows.
Proof.
  revert rows. induction l as [|z l IH]; cbn; intros rows E; [intros []|].
  destruct (f z) as [y0|] eqn:Ez; [|discriminate].
  destruct (project f l) as [ys|]; [|discriminate].
  injection E as <-. intros [<-|Hx].
  - exists y0. split; [exact Ez|now left].
  - destruct (IH ys eq_refl Hx) as (y & Ey & Hy). exists y. split; [exact Ey|now right].
Qed.

Section GroupsByKey.

Context {A : Type} (key : A -> string).

(** Every document is in the group of one of the first documents. *)
Lemma firstsBy_covers (l : list A) (x : A) :
  In x l -> exists g, In g (firstsBy (sameKey key) l) /\ key g = key x.
Proof.
  induction l as [|y l IH]; [intros []|].
  intros [->|Hx]; [exists x; split; [now left|reflexivity]|].
  destruct (IH Hx) as (g & Hg & Hk). cbn [firstsBy].
  destruct (String.eqb_spec (key g) (key y)) as [E|E].
  - exists y. split; [now left|congruence].
  - exists g. split; [|exact Hk]. right. apply filter_In. split; [exact Hg|].
    unfold sameKey. apply negb_true_iff. now apply String.eqb_neq.
Qed.

(** No two first documents have the same key. *)
Lemma firstsBy_distinct (l : list A) : NoDup (map key (firstsBy (sameKey key) l)).
Proof.
  induction l as [|y l IH]; cbn [firstsBy map]; constructor.
  - intros H. apply in_map_iff in H as (g & Hk & Hg).
    apply filter_In in Hg as [_ Hg]. unfold sameKey in Hg.
    rewrite Hk, String.eqb_refl in Hg. discriminate.
  - induction (firstsBy (sameKey key) l) as [|g r IHr]; cbn; [constructor|].
    inversion IH as [|? ? Hg Hr]; subst.
    destruct (negb (sameKey key g y)); cbn; [constructor|]; auto.
    intros H. apply Hg. apply in_map_iff in H as (z & Hz & Hin).
    apply filter_In in Hin as [Hin _]. apply in_map_iff. now exists z.
Qed.

End GroupsByKey.

Lemma sumOf_app {A} (f : A -> Z) (l l' : list A) :
  sumOf f (l ++ l') = sumOf f l + sumOf f l'.
Proof.
  induction l as [|x l IH]; [reflexivity|]. cbn [app]. rewrite !sumOf_cons, IH. lia.
Qed.

Lemma filter_key_absent {D} (key : D -> Id) (id : Id) (l : list D) :
  ~ In id (map key l) -> filter (fun x => String.eqb (key x) id) l = [].
Proof.
  induction l as [|x l IH]; [reflexivity|]. cbn. intros H.
  destruct (String.eqb_spec (key x) id) as [E|E]; [destruct H; now left|].
  apply IH. intros Hin. apply H. now right.
Qed.

(** The groups of a pipeline that joins a collection with the departments
    and groups by department. *)
Section Joined.

Context {A : Type} (ref : A -> Id).

Variable departments : list Department.doc.
Hypothesis uniqueIds : NoDup (map Department._id departments).

Lemma department_unique (d d' : Department.doc) :
  In d departments -> In d' departments ->
  Department._id d = Department._id d' -> d = d'.
Proof.
  clear ref. induction departments as [|x l IH]; [intros []|].
  inversion uniqueIds as [|? ? Hx Hl]; subst.
  intros [->|Hd] [->|Hd'] E; auto.
  - destruct Hx. rewrite E. now apply in_map.
  - destruct Hx. rewrite <- E. now apply in_map.
Qed.

Lemma matching_department (d : Department.doc) :
  In d departments ->
  filter (fun d' => String.eqb (Department._id d') (Department._id d)) departments
  = [d].
Proof.
  clear ref. induction departments as [|x l IH]; [intros []|].
  inversion uniqueIds as [|? ? Hx Hl]; subst. cbn.
  intros [->|Hd].
  - rewrite String.eqb_refl. f_equal. now apply filter_key_absent.
  - destruct (String.eqb_spec (Department._id x) (Department._id d)) as [E|E].
    + destruct Hx. rewrite E. now apply in_map.
    + now apply IH.
Qed.

Lemma group_sum (F : A -> Z) (l : list A) (d : Department.doc) :
  In d departments ->
  sumOf (fun x => F (fst x))
    (filter (fun x => String.eqb (ref (fst x)) (Department._id d)) (joined ref departments l))
  = sumOf F (filter (fun a => String.eqb (ref a) (Department._id d)) l).
Proof.
  intros Hd. unfold joined, lookupUnwind.
  induction l as [|a l IH]; [reflexivity|].
  cbn [flat_map filter]. rewrite filter_app, sumOf_app, IH.
  destruct (String.eqb_spec (ref a) (Department._id d)) as [E|E].
  - rewrite E, (matching_department d Hd). cbn. rewrite E, String.eqb_refl.
    unfold sumOf. cbn. lia.
  - replace (filter _ (map (fun b => (a, b)) _)) with (@nil (A * Department.doc)).
    + unfold sumOf. cbn. lia.
    + symmetry. induction (filter _ departments) as [|b r IHr]; [reflexivity|].
      cbn. apply String.eqb_neq in E. now rewrite E.
Qed.

End Joined.

(** ** The rows of the class report *)

Lemma classesOf_In (id : Id) (st : Store) (c : Class.doc) :
  In c (classesOf id st) <-> In c (classes st) /\ Class.department c = id.
Proof.
  unfold classesOf. rewrite filter_In, String.eqb_eq. reflexivity.
Qed.

Lemma departmentClassStats_rows (st : Store) (rows : list DepartmentClassRow) :
  NoDup (map Department._id (departments st)) ->
  ClassController.departmentClassStats st = Some rows ->
  (forall row, In row rows ->
     exists d, In d (departments st)
               /\ classesOf (Department._id d) st <> []
               /\ classRowOf st d row)
  /\ (forall d, In d (departments st) ->
        classesOf (Department._id d) st <> [] ->
        exists row, In row rows /\ classRowOf st d row).
Proof.
  intros U. unfold ClassController.departmentClassStats.
  change (lookupUnwind _ (classes st) (departments st))
    with (joined Class.department (departments st) (classes st)).
  set (groups := firstsBy ClassController.sameClassDepartment _).
  destruct (project _ groups) as [rs|] eqn:E; [|discriminate].
  cbn [option_map]. intros [= <-].
  assert (Row : forall g row,
            In g groups ->
            (match divide
                     (sumOf (fun x => Class.currentStrength (fst x))
                        (filter (fun x => ClassController.sameClassDepartment x g)
                           (joined Class.department (departments st) (classes st))))
                     (sumOf (fun x => Class.capacity (fst x))
                        (filter (fun x => ClassController.sameClassDepartment x g)
                           (joined Class.department (departments st) (classes st))))
             with
             | Some q =>
                 Some {| dcDepartment := Class.department (fst g);
                         dcDepartmentName := Department.departmentName (snd g);
                         dcDepartmentCode := Department.departmentCode (snd g);
                         classCount :=
                           sumOf (fun _ => 1)
                             (filter (fun x => ClassController.sameClassDepartment x g)
                                (joined Class.department (departments st) (classes st)));
                         dcTotalCapacity :=
                           sumOf (fun x => Class.capacity (fst x))
                             (filter (fun x => ClassController.sameClassDepartment x g)
                                (joined Class.department (departments st) (classes st)));
                         dcTotalStudents :=
                           sumOf (fun x => Class.currentStrength (fst x))
                             (filter (fun x => ClassController.sameClassDepartment x g)
                                (joined Class.department (departments st) (classes st)));
                         dcAvailableSeats :=
                           sumOf (fun x => Class.capacity (fst x))
                             (filter (fun x => ClassController.sameClassDepartment x g)
                                (joined Class.department (departments st) (classes st)))
                           - sumOf (fun x => Class.currentStrength (fst x))
                               (filter (fun x => ClassController.sameClassDepartment x g)
                                  (joined Class.department (departments st) (classes st)));
                         utilizationRate := multiply q hundred |}
             | None => None
             end) = Some row ->
            In (snd g) (departments st)
            /\ In (fst g) (classesOf (Department._id (snd g)) st)
            /\ classRowOf st (snd g) row).
  { intros g row Hg. apply firstsBy_In in Hg.
    apply lookupUnwind_In in Hg as (Hc & Hd & Hm). apply String.eqb_eq in Hm.
    unfold ClassController.sameClassDepartment. rewrite <- Hm.
    rewrite !(group_sum Class.department (departments st) U _ _ (snd g) Hd).
    pose proof (group_sum Class.department (departments st) U (fun _ => 1)
                  (classes st) (snd g) Hd) as Hn.
    cbv beta in Hn. rewrite Hn.
    destruct (divide _ _) as [q|] eqn:D; [|discriminate].
    intros [= <-]. split; [exact Hd|]. split; [now apply classesOf_In|].
    unfold classRowOf, classesOf. cbn. repeat split.
    now apply divide_percent. }
  split.
  - intros row Hrow. apply In_sortDesc in Hrow.
    apply (project_In _ _ _ E) in Hrow as (g & Hg & Eg).
    destruct (Row g row Hg Eg) as (Hd & Hc & Hr).
    exists (snd g). split; [exact Hd|]. split; [|exact Hr].
    intros N. rewrite N in Hc. destruct Hc.
  - intros d Hd Hne.
    destruct (classesOf (Department._id d) st) as [|c r] eqn:Ec; [now destruct Hne|].
    assert (Hc : In c (classesOf (Department._id d) st)) by (rewrite Ec; now left).
    apply classesOf_In in Hc as [Hc Hk].
    assert (Hj : In (c, d) (joined Class.department (departments st) (classes st))).
    { apply lookupUnwind_In. cbn. repeat split; auto. now apply String.eqb_eq. }
    destruct (firstsBy_covers (fun x => Class.department (fst x)) _ _ Hj)
      as (g & Hg & Kg).
    change (firstsBy (sameKey (fun x => Class.department (fst x))) _)
      with groups in Hg.
    destruct (project_each _ _ _ g E Hg) as (row & Eg & Hrow).
    destruct (Row g row Hg Eg) as (Hd' & _ & Hr).
    assert (snd g = d) as <-.
    { apply (department_unique (departments st) U); auto.
      pose proof Hg as Hg'. apply firstsBy_In in Hg'.
      apply lookupUnwind_In in Hg' as (_ & _ & Hm). apply String.eqb_eq in Hm.
      cbn in Kg. congruence. }
    exists row. split; [now apply In_sortDesc|exact Hr].
Qed.

(** ** The rows of the course report *)

Lemma coursesOf_In (id : Id) (st : Store) (c : Course.doc) :
  In c (coursesOf id st) <-> In c (courses st) /\ Course.department c = id.
Proof.
  unfold coursesOf. rewrite filter_In, String.eqb_eq. reflexivity.
Qed.

Lemma departmentCourseStats_rows (st : Store) :
  NoDup (map Department._id (departments st)) ->
  exists rows,
    CourseController.departmentCourseStats st = Some rows
    /\ (forall row, In row rows ->
          exists d, In d (departments st)
                    /\ coursesOf (Department._id d) st <> []
                    /\ courseRowOf st d row)
    /\ (forall d, In d (departments st) ->
          coursesOf (Department._id d) st <> [] ->
          exists row, In row rows /\ courseRowOf st d row).
Proof.
  intros U. unfold CourseController.departmentCourseStats.
  change (lookupUnwind _ (courses st) (departments st))
    with (joined Course.department (departments st) (courses st)).
  set (groups := firstsBy CourseController.sameCourseDepartment _).
  match goal with
  | |- context [project ?f groups] =>
      destruct (project_total f groups) as (rs & E);
        [intros g _; rewrite rate_guardedPercent; discriminate|]
  end.
  rewrite E. cbn [option_map]. eexists. split; [reflexivity|].
  assert (Row : forall g row,
            In g groups ->
            (match CourseController.rate
                     (sumOf (fun x => Course.enrolledStudents (fst x))
                        (filter (fun x => CourseController.sameCourseDepartment x g)
                           (joined Course.department (departments st) (courses st))))
                     (sumOf (fun x => CourseController.capacityOf (fst x))
                        (filter (fun x => CourseController.sameCourseDepartment x g)
                           (joined Course.department (departments st) (courses st))))
             with
             | Some r =>
                 Some {| dkDepartment := Course.department (fst g);
                         dkDepartmentName := Department.departmentName (snd g);
                         dkDepartmentCode := Department.departmentCode (snd g);
                         courseCount :=
                           sumOf (fun _ => 1)
                             (filter (fun x => CourseController.sameCourseDepartment x g)
                                (joined Course.department (departments st) (courses st)));
                         dkTotalCapacity :=
                           sumOf (fun x => CourseController.capacityOf (fst x))
                             (filter (fun x => CourseController.sameCourseDepartment x g)
                                (joined Course.department (departments st) (courses st)));
                         dkTotalEnrolled :=
                           sumOf (fun x => Course.enrolledStudents (fst x))
                             (filter (fun x => CourseController.sameCourseDepartment x g)
                                (joined Course.department (departments st) (courses st)));
                         dkAvailableSeats :=
                           sumOf (fun x => CourseController.capacityOf (fst x))
                             (filter (fun x => CourseController.sameCourseDepartment x g)
                                (joined Course.department (departments st) (courses st)))
                           - sumOf (fun x => Course.enrolledStudents (fst x))
                               (filter (fun x => CourseController.sameCourseDepartment x g)
                                  (joined Course.department (departments st) (courses st)));
                         dkEnrollmentRate := r |}
             | None => None
             end) = Some row ->
            In (snd g) (departments st)
            /\ In (fst g) (coursesOf (Department._id (snd g)) st)
            /\ courseRowOf st (snd g) row).
  { intros g row Hg. apply firstsBy_In in Hg.
    apply lookupUnwind_In in Hg as (Hc & Hd & Hm). apply String.eqb_eq in Hm.
    unfold CourseController.sameCourseDepartment. rewrite <- Hm.
    rewrite !(group_sum Course.department (departments st) U _ _ (snd g) Hd).
    pose proof (group_sum Course.department (departments st) U (fun _ => 1)
                  (courses st) (snd g) Hd) as Hn.
    cbv beta in Hn. rewrite Hn. rewrite rate_guardedPercent.
    intros [= <-]. split; [exact Hd|]. split; [now apply coursesOf_In|].
    unfold courseRowOf, coursesOf. cbn. repeat split. }
  split.
  - intros row Hrow. apply In_sortDesc in Hrow.
    apply (project_In _ _ _ E) in Hrow as (g & Hg & Eg).
    destruct (Row g row Hg Eg) as (Hd & Hc & Hr).
    exists (snd g). split; [exact Hd|]. split; [|exact Hr].
    intros N. rewrite N in Hc. destruct Hc.
  - intros d Hd Hne.
    destruct (coursesOf (Department._id d) st) as [|c r] eqn:Ec; [now destruct Hne|].
    assert (Hc : In c (coursesOf (Department._id d) st)) by (rewrite Ec; now left).
    apply coursesOf_In in Hc as [Hc Hk].
    assert (Hj : In (c, d) (joined Course.department (departments st) (courses st))).
    { apply lookupUnwind_In. cbn. repeat split; auto. now apply String.eqb_eq. }
    destruct (firstsBy_covers (fun x => Course.department (fst x)) _ _ Hj)
      as (g & Hg & Kg).
    change (firstsBy (sameKey (fun x => Course.department (fst x))) _)
      with groups in Hg.
    destruct (project_each _ _ _ g E Hg) as (row & Eg & Hrow).
    destruct (Row g row Hg Eg) as (Hd' & _ & Hr).
    assert (snd g = d) as <-.
    { apply (department_unique (departments st) U); auto.
      pose proof Hg as Hg'. apply firstsBy_In in Hg'.
      apply lookupUnwind_In in Hg' as (_ & _ & Hm). apply String.eqb_eq in Hm.
      cbn in Kg. congruence. }
    exists row. split; [now apply In_sortDesc|exact Hr].
Qed.

(** ** The rows of the student report *)

Lemma countWhere_exists {A} (p : A -> bool) (l : list A) :
  0 < countWhere p l <-> exists x, In x l /\ p x = true.
Proof.
  unfold countWhere. induction l as [|y l IH]; [cbn; split; [lia|intros (x & [] & _)]|].
  rewrite sumOf_cons.
  assert (0 <= sumOf (fun x => if p x then 1 else 0) l).
  { apply sumOf_nonneg. intros x _. destruct (p x); lia. }
  split.
  - intros H0. destruct (p y) eqn:E; [exists y; split; [now left|exact E]|].
    destruct (proj1 IH) as (x & Hx & Px); [lia|]. exists x. split; [now right|exact Px].
  - intros (x & [->|Hx] & Px); [rewrite Px; lia|].
    assert (0 < sumOf (fun x => if p x then 1 else 0) l)
      by (apply IH; now exists x).
    destruct (p y); lia.
Qed.

Lemma classStats_rows (st : Store) (rows : list StudentClassRow) :
  StudentController.classStats st = Some rows ->
  (forall row, In row rows ->
     exists c, In c (classes st)
               /\ 0 < studentsOfClass (Class._id c) st
               /\ studentRowOf st c row)
  /\ (forall c, In c (classes st) ->
        0 < studentsOfClass (Class._id c) st ->
        exists row, In row rows /\ studentRowOf st c row).
Proof.
  unfold StudentController.classStats.
  set (groups := lookupUnwind _ (firstsBy StudentController.sameClass (students st))
                   (classes st)).
  destruct (project _ groups) as [rs|] eqn:E; [|discriminate].
  cbn [option_map]. intros [= <-].
  assert (Row : forall gc row,
            In gc groups ->
            (match divide
                     (countWhere (fun s => StudentController.sameClass s (fst gc))
                        (students st))
                     (Class.capacity (snd gc))
             with
             | Some q =>
                 Some {| scClass := Class._id (snd gc);
                         scClassName := Class.className (snd gc);
                         scSection := Class.section (snd gc);
                         scStudentCount :=
                           countWhere (fun s => StudentController.sameClass s (fst gc))
                             (students st);
                         scCapacity := Class.capacity (snd gc);
                         percentageFull := multiply q hundred |}
             | None => None
             end) = Some row ->
            In (snd gc) (classes st)
            /\ 0 < studentsOfClass (Class._id (snd gc)) st
            /\ studentRowOf st (snd gc) row).
  { intros gc row Hg. apply lookupUnwind_In in Hg as (Hs & Hc & Hm).
    apply String.eqb_eq in Hm. apply firstsBy_In in Hs.
    unfold StudentController.sameClass. rewrite <- Hm.
    change (countWhere _ (students st)) with (studentsOfClass (Class._id (snd gc)) st).
    destruct (divide _ _) as [q|] eqn:D; [|discriminate].
    intros [= <-]. split; [exact Hc|]. split.
    - unfold studentsOfClass. apply countWhere_exists. exists (fst gc).
      split; [exact Hs|]. rewrite Hm. apply String.eqb_refl.
    - unfold studentRowOf. cbn. repeat split. now apply divide_percent. }
  split.
  - intros row Hrow. apply In_sortDesc in Hrow.
    apply (project_In _ _ _ E) in Hrow as (g & Hg & Eg).
    destruct (Row g row Hg Eg) as (Hc & Hp & Hr). now exists (snd g).
  - intros c Hc Hp.
    assert (exists s, In s (students st) /\ Student.class s = Class._id c)
      as (s & Hs & Hk).
    { apply countWhere_exists in Hp as (s & Hs & Hk).
      exists s. split; [exact Hs|now apply String.eqb_eq]. }
    destruct (firstsBy_covers Student.class _ _ Hs) as (g & Hg & Kg).
    assert (Hj : In (g, c) groups).
    { apply lookupUnwind_In. cbn. repeat split; auto.
      apply String.eqb_eq. congruence. }
    destruct (project_each _ _ _ (g, c) E Hj) as (row & Eg & Hrow).
    destruct (Row (g, c) row Hj Eg) as (_ & _ & Hr).
    exists row. split; [now apply In_sortDesc|exact Hr].
Qed.

(** ** The overviews *)

Lemma classOverview_figures (l : list Class.doc) (stats : list ClassOverview) :
  ClassController.classOverview l = Some stats ->
  let ov := hd ClassController.zeroClassOverview stats in
  totalClasses ov = sumOf (fun _ => 1) l
  /\ classTotalStudents ov = sumOf Class.currentStrength l
  /\ classTotalCapacity ov = sumOf Class.capacity l
  /\ classAvailableSeats ov = classTotalCapacity ov - classTotalStudents ov
  /\ (l <> [] ->
      overallUtilization ov = percent (classTotalStudents ov) (classTotalCapacity ov)).
Proof.
  unfold ClassController.classOverview. destruct l as [|c r].
  - intros [= <-]. cbn. repeat split. now intros [].
  - destruct (divide _ _) as [q|] eqn:E; [|discriminate].
    intros [= <-]. cbn [hd totalClasses classTotalStudents classTotalCapacity
                           classAvailableSeats overallUtilization].
    repeat split. intros _. now apply divide_percent.
Qed.

Lemma courseOverview_figures (l : list Course.doc) :
  exists stats,
    CourseController.courseOverview l = Some stats
    /\ let ov := hd CourseController.zeroCourseOverview stats in
       totalCourses ov = sumOf (fun _ => 1) l
       /\ courseTotalEnrolled ov = sumOf Course.enrolledStudents l
       /\ courseTotalCapacity ov = sumOf CourseController.capacityOf l
       /\ courseAvailableSeats ov = courseTotalCapacity ov - courseTotalEnrolled ov
       /\ enrollmentRate ov
          = guardedPercent (courseTotalEnrolled ov) (courseTotalCapacity ov).
Proof.
  unfold CourseController.courseOverview. destruct l as [|c r].
  - exists []. cbn. repeat split.
  - rewrite rate_guardedPercent. eexists. split; [reflexivity|].
    cbn [hd totalCourses courseTotalEnrolled courseTotalCapacity
            courseAvailableSeats enrollmentRate].
    repeat split.
Qed.

Lemma departmentOverview_defined (l : list Department.doc) :
  DepartmentController.departmentOverview l <> None.
Proof.
  unfold DepartmentController.departmentOverview. destruct l as [|d r]; [discriminate|].
  destruct (sumOf Department.totalFaculty (d :: r) =? 0) eqn:E; [discriminate|].
  unfold divide. rewrite E. discriminate.
Qed.

Section ValidClasses.

Variable st : Store.
Hypothesis capacityValid : forall c, In c (classes st) -> 1 <= Class.capacity c.

Lemma classOverview_defined : ClassController.classOverview (classes st) <> None.
Proof.
  unfold ClassController.classOverview.
  destruct (classes st) as [|c r] eqn:E; [discriminate|].
  assert (Class.capacity c <= sumOf Class.capacity (c :: r)).
  { apply sumOf_lower; [|now left]. intros x Hx.
    specialize (capacityValid x Hx). lia. }
  assert (1 <= Class.capacity c) by (apply capacityValid; now left).
  destruct (divide _ _) eqn:D; [discriminate|].
  apply divide_defined in D; [destruct D|lia].
Qed.

Lemma departmentClassStats_defined :
  ClassController.departmentClassStats st <> None.
Proof.
  unfold ClassController.departmentClassStats.
  match goal with
  | |- context [project ?f ?l] => destruct (project_total f l) as (rs & E)
  end; [|rewrite E; discriminate].
  intros g Hg. apply firstsBy_In in Hg.
  set (joined := lookupUnwind _ (classes st) (departments st)) in *.
  set (group := filter (fun x => ClassController.sameClassDepartment x g) joined).
  assert (Hin : In g group).
  { apply filter_In. split; [exact Hg|].
    unfold ClassController.sameClassDepartment. apply String.eqb_refl. }
  assert (Hcap : forall x, In x group -> 1 <= Class.capacity (fst x)).
  { intros x Hx. apply filter_In in Hx as [Hx _].
    apply lookupUnwind_In in Hx as [Hx _]. now apply capacityValid. }
  assert (Class.capacity (fst g) <= sumOf (fun x => Class.capacity (fst x)) group).
  { apply (sumOf_lower (fun x => Class.capacity (fst x))); [|exact Hin].
    intros x Hx. specialize (Hcap x Hx). lia. }
  specialize (Hcap g Hin).
  destruct (divide _ _) eqn:D; [discriminate|].
  apply divide_defined in D; [destruct D|lia].
Qed.

Lemma classStats_defined : StudentController.classStats st <> None.
Proof.
  unfold StudentController.classStats.
  match goal with
  | |- context [project ?f ?l] => destruct (project_total f l) as (rs & E)
  end; [|rewrite E; discriminate].
  intros gc Hgc. apply lookupUnwind_In in Hgc as (_ & Hc & _).
  specialize (capacityValid _ Hc).
  destruct (divide _ _) eqn:D; [discriminate|].
  apply divide_defined in D; [destruct D|lia].
Qed.

End ValidClasses.

(** Claim C8, as amended.  Each of the four statistics handlers returns the
    store it was given.  On a collection without documents it answers 200
    with the zeroed overview and empty lists.  The totals of a report are
    the sums over the documents of the store: over all of them in the
    overview, and in the rows over the classes or the courses of one
    department and over the students of one class, with a row for each
    department that has a class or a course and for each class that has a
    student (department ids being unique).  Every rate of a report is the
    double that [enrolled / capacity * 100] gives on the totals beside it:
    the quotient is rounded, and so is its product with 100.  The rate is
    zero where the capacity total is zero: in the course report by its
    guard; in the class and the student report, which divide without a
    guard, on the stores in which every class has the capacity of at
    least one that its schema requires, where such a total is zero on an
    empty collection only and the reports are always returned. *)
Theorem statistics_reports (st : Store) :
  NoDup (map Department._id (departments st)) ->
  (fst (ClassController.getClassStats st) = st
   /\ fst (CourseController.getCourseStats st) = st
   /\ fst (StudentController.getStudentStats st) = st
   /\ fst (DepartmentController.getDepartmentStats st) = st)
  /\ ((classes st = [] ->
       snd (ClassController.getClassStats st)
       = ok 200 (ClassStats ClassController.zeroClassOverview [] []))
      /\ (courses st = [] ->
          snd (CourseController.getCourseStats st)
          = ok 200 (CourseStats CourseController.zeroCourseOverview [] [] []))
      /\ (students st = [] ->
          snd (StudentController.getStudentStats st)
          = ok 200 (StudentStats StudentController.zeroStudentOverview [] []))
      /\ (departments st = [] ->
          snd (DepartmentController.getDepartmentStats st)
          = ok 200 (DepartmentStats DepartmentController.zeroDepartmentOverview [] [])))
  /\ (forall overview departmentWise distribution,
        snd (ClassController.getClassStats st)
        = ok 200 (ClassStats overview departmentWise distribution) ->
        classTotalStudents overview = sumOf Class.currentStrength (classes st)
        /\ classTotalCapacity overview = sumOf Class.capacity (classes st)
        /\ (classes st <> [] ->
            overallUtilization overview
            = percent (classTotalStudents overview) (classTotalCapacity overview))
        /\ (forall row, In row departmentWise ->
              exists d, In d (departments st)
                        /\ classesOf (Department._id d) st <> []
                        /\ classRowOf st d row)
        /\ (forall d, In d (departments st) ->
              classesOf (Department._id d) st <> [] ->
              exists row, In row departmentWise /\ classRowOf st d row))
  /\ (exists overview departmentWise types semesters,
        snd (CourseController.getCourseStats st)
        = ok 200 (CourseStats overview departmentWise types semesters)
        /\ courseTotalEnrolled overview = sumOf Course.enrolledStudents (courses st)
        /\ courseTotalCapacity overview = sumOf CourseController.capacityOf (courses st)
        /\ (courseTotalCapacity overview = 0 -> enrollmentRate overview = zero)
        /\ (courseTotalCapacity overview <> 0 ->
            enrollmentRate overview
            = percent (courseTotalEnrolled overview) (courseTotalCapacity overview))
        /\ (forall row, In row departmentWise ->
              exists d, In d (departments st)
                        /\ coursesOf (Department._id d) st <> []
                        /\ courseRowOf st d row)
        /\ (forall d, In d (departments st) ->
              coursesOf (Department._id d) st <> [] ->
              exists row, In row departmentWise /\ courseRowOf st d row))
  /\ (forall overview perDepartment perClass,
        snd (StudentController.getStudentStats st)
        = ok 200 (StudentStats overview perDepartment perClass) ->
        (forall row, In row perClass ->
           exists c, In c (classes st)
                     /\ 0 < studentsOfClass (Class._id c) st
                     /\ studentRowOf st c row)
        /\ (forall c, In c (classes st) ->
              0 < studentsOfClass (Class._id c) st ->
              exists row, In row perClass /\ studentRowOf st c row))
  /\ success (snd (DepartmentController.getDepartmentStats st)) = true
  /\ ((forall c, In c (classes st) -> 1 <= Class.capacity c) ->
      (exists overview departmentWise distribution,
         snd (ClassController.getClassStats st)
         = ok 200 (ClassStats overview departmentWise distribution)
         /\ overallUtilization overview
            = guardedPercent (classTotalStudents overview)
                (classTotalCapacity overview)
         /\ (forall row, In row departmentWise ->
               utilizationRate row
               = guardedPercent (dcTotalStudents row) (dcTotalCapacity row)))
      /\ (exists overview perDepartment perClass,
            snd (StudentController.getStudentStats st)
            = ok 200 (StudentStats overview perDepartment perClass)
            /\ (forall row, In row perClass ->
                  percentageFull row
                  = guardedPercent (scStudentCount row) (scCapacity row)))).
Proof.
  intros U. split; [|split; [|split; [|split; [|split; [|split]]]]].
  - unfold ClassController.getClassStats, CourseController.getCourseStats,
      StudentController.getStudentStats, DepartmentController.getDepartmentStats.
    repeat split.
    + destruct (ClassController.classOverview _);
        destruct (ClassController.departmentClassStats st); reflexivity.
    + destruct (CourseController.courseOverview _);
        destruct (CourseController.departmentCourseStats st); reflexivity.
    + destruct (StudentController.classStats st); reflexivity.
    + destruct (DepartmentController.departmentOverview _); reflexivity.
  - repeat split; intros E.
    + unfold ClassController.getClassStats, ClassController.departmentClassStats.
      now rewrite E.
    + unfold CourseController.getCourseStats, CourseController.departmentCourseStats.
      now rewrite E.
    + unfold StudentController.getStudentStats, StudentController.classStats,
        StudentController.departmentStats.
      now rewrite E.
    + unfold DepartmentController.getDepartmentStats,
        DepartmentController.detailedStats.
      now rewrite E.
  - intros overview departmentWise distribution.
    unfold ClassController.getClassStats.
    destruct (ClassController.classOverview _) as [stats|] eqn:Eo; [|discriminate].
    destruct (ClassController.departmentClassStats _) as [rows|] eqn:Ed;
      [|discriminate].
    cbn. intros [= <- <- <-].
    destruct (classOverview_figures _ _ Eo) as (_ & H1 & H2 & _ & H3).
    destruct (departmentClassStats_rows st rows U Ed) as [Hs Hc].
    repeat split; auto.
  - unfold CourseController.getCourseStats.
    destruct (courseOverview_figures (courses st))
      as (stats & -> & _ & H1 & H2 & _ & H3).
    destruct (departmentCourseStats_rows st U) as (rows & -> & Hs & Hc).
    cbn. do 4 eexists. split; [reflexivity|].
    split; [exact H1|]. split; [exact H2|].
    split; [|split; [|split; [exact Hs|exact Hc]]].
    + intros Z0. rewrite H3, Z0. reflexivity.
    + intros N. rewrite H3. unfold guardedPercent.
      apply Z.eqb_neq in N. now rewrite N.
  - intros overview perDepartment perClass.
    unfold StudentController.getStudentStats.
    destruct (StudentController.classStats st) as [rows|] eqn:Es; [|discriminate].
    cbn. intros [= <- <- <-]. now apply classStats_rows.
  - unfold DepartmentController.getDepartmentStats.
    pose proof (departmentOverview_defined (departments st)) as H.
    destruct (DepartmentController.departmentOverview _); [reflexivity|now destruct H].
  - intros Hcap. split.
    + unfold ClassController.getClassStats.
      pose proof (classOverview_defined st Hcap) as H1.
      pose proof (departmentClassStats_defined st Hcap) as H2.
      destruct (ClassController.classOverview _) as [stats|] eqn:Eo;
        [|now destruct H1].
      destruct (ClassController.departmentClassStats _) as [rows|] eqn:Ed;
        [|now destruct H2].
      cbn [snd]. do 3 eexists. split; [reflexivity|].
      destruct (classOverview_figures _ _ Eo) as (_ & T1 & T2 & _ & T3).
      cbv zeta in T1, T2, T3. split.
      * destruct (classes st) as [|c r] eqn:Ec.
        { unfold ClassController.classOverview in Eo. now injection Eo as <-. }
        rewrite T3 by discriminate.
        unfold guardedPercent.
        replace (_ =? 0) with false; [reflexivity|]. symmetry. apply Z.eqb_neq.
        rewrite T2.
        assert (Class.capacity c <= sumOf Class.capacity (c :: r)).
        { apply sumOf_lower; [|now left]. intros x Hx.
          specialize (Hcap x Hx). lia. }
        assert (1 <= Class.capacity c) by (apply Hcap; now left).
        lia.
      * intros row Hrow.
        destruct (proj1 (departmentClassStats_rows st rows U Ed) row Hrow)
          as (d & _ & Hne & (_ & _ & _ & _ & Rc & _ & _ & Rr)).
        rewrite Rr. unfold guardedPercent.
        replace (_ =? 0) with false; [reflexivity|]. symmetry. apply Z.eqb_neq.
        rewrite Rc.
        destruct (classesOf (Department._id d) st) as [|c r] eqn:Ec;
          [now destruct Hne|].
        assert (Hall : forall x, In x (c :: r) -> 1 <= Class.capacity x).
        { intros x Hx. rewrite <- Ec in Hx. apply classesOf_In in Hx as [Hx _].
          now apply Hcap. }
        assert (Class.capacity c <= sumOf Class.capacity (c :: r)).
        { apply sumOf_lower; [|now left]. intros x Hx.
          specialize (Hall x Hx). lia. }
        assert (1 <= Class.capacity c) by (apply Hall; now left).
        lia.
    + unfold StudentController.getStudentStats.
      pose proof (classStats_defined st Hcap) as H.
      destruct (StudentController.classStats st) as [rows|] eqn:Es;
        [|now destruct H].
      cbn [snd]. do 3 eexists. split; [reflexivity|].
      intros row Hrow.
      destruct (proj1 (classStats_rows st rows Es) row Hrow)
        as (c & Hc & _ & (_ & _ & _ & _ & Rc & Rr)).
      rewrite Rr. unfold guardedPercent.
      replace (_ =? 0) with false; [reflexivity|]. symmetry. apply Z.eqb_neq.
      rewrite Rc. specialize (Hcap c Hc). lia.
Qed.

Lemma statistics_reports_witness :
  NoDup (map Department._id (departments Sample24.twoStudents))
  /\ (forall c, In c (classes Sample24.twoStudents) -> 1 <= Class.capacity c)
  /\ success (snd (ClassController.getClassStats Sample24.twoStudents)) = true
  /\ success (snd (StudentController.getStudentStats Sample24.twoStudents)) = true.
Proof.
  assert (U : NoDup (map Department._id (departments Sample24.twoStudents))).
  { repeat constructor. intros []. }
  assert (H : forall c, In c (classes Sample24.twoStudents) -> 1 <= Class.capacity c).
  { intros c [<-|[<-|[]]]; cbn; lia. }
  split; [exact U|]. split; [exact H|].
  destruct (proj2 (proj2 (proj2 (proj2 (proj2 (proj2
              (statistics_reports Sample24.twoStudents U)))))) H)
    as [(o1 & d1 & s1 & E1 & _) (o2 & d2 & s2 & E2 & _)].
  rewrite E1, E2. split; reflexivity.
Defined.

(** Claim C8 as stated fails: of a hundred seats twenty-nine are taken, and
    the class report gives the overall utilization that double precision
    gives for 29 / 100 * 100, a number below 29 (it prints as
    28.999999999999996), where the figure of the claim is 29. *)
Lemma class_utilization_is_rounded :
  exists overview departmentWise distribution q,
    snd (ClassController.getClassStats Sample24.hall)
    = ok 200 (ClassStats overview departmentWise distribution)
    /\ classTotalStudents overview = 29
    /\ classTotalCapacity overview = 100
    /\ valueOf (overallUtilization overview) = Some q
    /\ (specUtilization 29 100 == 29)%Q
    /\ (q < specUtilization 29 100)%Q
    /\ (q == 8162774324609023 # 281474976710656)%Q.
Proof.
  do 3 eexists. exists (8162774324609023 # 281474976710656)%Q.
  split; [vm_compute; reflexivity|]. split; [reflexivity|]. split; [reflexivity|].
  split; [vm_compute; reflexivity|]. split; [reflexivity|]. split; reflexivity.
Qed.

(** The class report has no guard on its divisions: on a class document
    with capacity zero, which the validators of the schema never let into
    the collection, the pipeline fails and the handler answers 500. *)
Lemma getClassStats_zero_capacity :
  ClassController.getClassStats (withClasses [Sample.noSeats] Sample.empty)
  = (withClasses [Sample.noSeats] Sample.empty, pipelineFailed)
  /\ Class.validate Sample.noSeats = ["Capacity must be at least 1"].
Proof. split; reflexivity. Qed.


(** ** The single-student handlers keep the counters *)

Lemma countersMatch_spec (st : Store) :
  countersMatch st = true <->
  (forall c, In c (classes st) ->
     Class.currentStrength c = studentsOfClass (Class._id c) st)
  /\ (forall d, In d (departments st) ->
        Department.totalStudents d = studentsOfDepartment (Department._id d) st)
  /\ (forall c, In c (courses st) ->
        Course.enrolledStudents c = studentsOfCourse (Course._id c) st).
Proof.
  unfold countersMatch. rewrite !andb_true_iff, !forallb_forall.
  split.
  - intros ((H1 & H2) & H3). repeat split; intros x Hx; apply Z.eqb_eq; auto.
  - intros (H1 & H2 & H3). repeat split; intros x Hx; apply Z.eqb_eq; auto.
Qed.

Section Counting.

Context {A : Type} (p : A -> bool).

Lemma countWhere_cons (x : A) (l : list A) :
  countWhere p (x :: l) = (if p x then 1 else 0) + countWhere p l.
Proof. reflexivity. Qed.

Lemma countWhere_app (l l' : list A) :
  countWhere p (l ++ l') = countWhere p l + countWhere p l'.
Proof.
  induction l as [|x l IH]; [reflexivity|].
  cbn [app]. rewrite !countWhere_cons, IH. lia.
Qed.

Lemma countWhere_snoc (l : list A) (x : A) :
  countWhere p (l ++ [x]) = countWhere p l + (if p x then 1 else 0).
Proof. rewrite countWhere_app, countWhere_cons. cbn. lia. Qed.

End Counting.

Lemma countWhere_delete (p : Student.doc -> bool) (id : Id) (l : list Student.doc)
    (s : Student.doc) :
  findById Student._id id l = Some s ->
  countWhere p (findByIdAndDelete Student._id id l)
  = countWhere p l - (if p s then 1 else 0).
Proof.
  unfold findById. induction l as [|x l IH]; cbn [find findByIdAndDelete];
    [discriminate|].
  destruct (String.eqb (Student._id x) id).
  - intros [= ->]. rewrite countWhere_cons. lia.
  - intros H. rewrite !countWhere_cons, (IH H). lia.
Qed.

Section UniqueKeys.

Context {D : Type} (key : D -> Id).

Lemma In_updateOne_unique (d x y : D) (l : list D) :
  NoDup (map key l) ->
  findById key (key d) l = Some x ->
  In y (updateOne key d l) ->
  y = d \/ (In y l /\ key y <> key d).
Proof.
  unfold findById. induction l as [|z l IH]; cbn; [discriminate|].
  intros Hnd. inversion Hnd as [|? ? Hz Hl]; subst.
  destruct (String.eqb_spec (key z) (key d)) as [E|E].
  - intros _ [<-|Hy]; [now left|]. right. split; [now right|].
    intros Ey. apply Hz. rewrite E, <- Ey. now apply in_map.
  - intros Hf [<-|Hy]; [right; split; [now left|exact E]|].
    destruct (IH Hl Hf Hy) as [->|[Hin Hk]]; [now left|].
    right. split; [now right|exact Hk].
Qed.

Lemma findById_none_keys (id : Id) (l : list D) (y : D) :
  findById key id l = None -> In y l -> key y <> id.
Proof.
  unfold findById. intros H Hy E.
  pose proof (find_none _ _ H y Hy) as N. cbn in N.
  apply String.eqb_neq in N. contradiction.
Qed.

Lemma updateMany_nil (upd : D -> D) (l : list D) : updateMany key [] upd l = l.
Proof. unfold updateMany. cbn. apply map_id. Qed.

Lemma In_updateMany (ids : list Id) (upd : D -> D) (l : list D) (y : D) :
  In y (updateMany key ids upd l) ->
  exists x, In x l /\ y = (if includes ids (key x) then upd x else x).
Proof.
  unfold updateMany. intros H. apply in_map_iff in H as (x & <- & Hx). now exists x.
Qed.

End UniqueKeys.

(** A creation that succeeds has found the class and the department, has
    appended the student and has added one to each counter. *)
Lemma createStudent_success (newId : Id) (b : StudentData.body) (st : Store) :
  success (snd (StudentController.createStudent newId b st)) = true ->
  exists classExists departmentExists,
    findByIdOpt Class._id (StudentData.class b) (classes st) = Some classExists
    /\ findByIdOpt Department._id (StudentData.department b) (departments st)
       = Some departmentExists
    /\ fst (StudentController.createStudent newId b st)
       = {| departments :=
              updateOne Department._id
                (Department.setTotalStudents
                   (Department.totalStudents departmentExists + 1) departmentExists)
                (departments st);
            classes :=
              updateOne Class._id
                (Class.setCurrentStrength
                   (Class.currentStrength classExists + 1) classExists)
                (classes st);
            courses :=
              updateMany Course._id (requested (StudentData.courses b))
                (StudentController.incEnrolled 1) (courses st);
            students :=
              students st
              ++ [StudentController.newStudent newId
                    (StudentController.normalised b)] |}.
Proof.
  unfold StudentController.createStudent, StudentController.createStudentBody. run.
  destruct (Student.findOneByRollNumber _ _); [discriminate|].
  destruct (Student.findOneByEmail _ _); [discriminate|].
  destruct (findByIdOpt Class._id _ _) as [classExists|]; [|discriminate].
  destruct (Class.capacity classExists <=? Class.currentStrength classExists);
    [discriminate|].
  destruct (findByIdOpt Department._id _ _) as [departmentExists|]; [|discriminate].
  destruct (hasCourses (StudentData.courses b)
            && negb (Nat.eqb _ _))%bool; [discriminate|].
  destruct (hasCourses (StudentData.courses b) && nonEmpty _)%bool; [discriminate|].
  unfold insertStudent.
  destruct (StudentController.validateNew _); [|destruct l; discriminate].
  destruct (existsb _ _ || studentKeyTaken _ _)%bool; [discriminate|].
  unfold saveClass. cbn [withStudents departments classes courses students].
  destruct (Class.validate _); [|discriminate].
  unfold saveDepartment. cbn [withClasses departments classes courses students].
  destruct (Department.validate _); [|discriminate].
  cbn [withDepartments departments classes courses students].
  intros _. exists classExists, departmentExists.
  split; [reflexivity|]. split; [reflexivity|].
  destruct (hasCourses (StudentData.courses b)) eqn:Hh; cbn.
  - reflexivity.
  - unfold hasCourses in Hh. unfold requested.
    destruct (StudentData.courses b) as [[|k l]|]; try discriminate Hh;
      now rewrite updateMany_nil.
Qed.

Lemma findByIdOpt_key {D} (key : D -> Id) (o : option Id) (l : list D) (d : D) :
  findByIdOpt key o l = Some d ->
  o = Some (key d) /\ findById key (key d) l = Some d.
Proof.
  destruct o as [id|]; cbn; [|discriminate]. intros H.
  pose proof (findById_key _ _ _ _ H) as K. subst id. now split.
Qed.

(** On a store whose counters match, a creation that succeeds leaves them
    matching: this is what the bulk endpoint does not do. *)
Lemma createStudent_keeps_counters (newId : Id) (b : StudentData.body) (st : Store) :
  NoDup (map Class._id (classes st)) ->
  NoDup (map Department._id (departments st)) ->
  countersMatch st = true ->
  success (snd (StudentController.createStudent newId b st)) = true ->
  countersMatch (fst (StudentController.createStudent newId b st)) = true.
Proof.
  intros NDc NDd Hinv S.
  destruct (createStudent_success newId b st S) as (cls & dept & Hc & Hd & E).
  apply countersMatch_spec in Hinv as (Ic & Idp & Ik).
  destruct (findByIdOpt_key _ _ _ _ Hc) as [Ec Fc].
  destruct (findByIdOpt_key _ _ _ _ Hd) as [Ed Fd].
  rewrite E. apply countersMatch_spec.
  unfold studentsOfClass, studentsOfDepartment, studentsOfCourse.
  cbn [departments classes courses students].
  split; [|split].
  - intros c Hin. rewrite countWhere_snoc.
    cbn [StudentController.newStudent StudentController.normalised
         Student.class StudentData.class]. rewrite Ec.
    apply (In_updateOne_unique Class._id _ cls) in Hin as [->|[Hin Hk]]; auto.
    + cbn [Class._id Class.setCurrentStrength Class.currentStrength].
      rewrite String.eqb_refl, (Ic cls (findById_In _ _ _ _ Fc)). reflexivity.
    + cbn [Class._id Class.setCurrentStrength] in Hk.
      apply not_eq_sym, String.eqb_neq in Hk. rewrite Hk, (Ic c Hin).
      unfold studentsOfClass. lia.
  - intros d Hin. rewrite countWhere_snoc.
    cbn [StudentController.newStudent StudentController.normalised
         Student.department StudentData.department]. rewrite Ed.
    apply (In_updateOne_unique Department._id _ dept) in Hin as [->|[Hin Hk]]; auto.
    + cbn [Department._id Department.setTotalStudents Department.totalStudents].
      rewrite String.eqb_refl, (Idp dept (findById_In _ _ _ _ Fd)). reflexivity.
    + cbn [Department._id Department.setTotalStudents] in Hk.
      apply not_eq_sym, String.eqb_neq in Hk. rewrite Hk, (Idp d Hin).
      unfold studentsOfDepartment. lia.
  - intros c Hin. rewrite countWhere_snoc.
    cbn [StudentController.newStudent StudentController.normalised
         Student.courses StudentData.courses].
    change (match StudentData.courses b with Some l => l | None => [] end)
      with (requested (StudentData.courses b)).
    apply In_updateMany in Hin as (x & Hx & ->).
    destruct (includes (requested (StudentData.courses b)) (Course._id x)) eqn:Hi.
    + cbn [StudentController.incEnrolled Course.setEnrolledStudents
           Course.enrolledStudents Course._id].
      rewrite Hi, (Ik x Hx). reflexivity.
    + rewrite Hi, (Ik x Hx). unfold studentsOfCourse. lia.
Qed.

(** A deletion that succeeds has taken one from the counter of the class
    and of the department, where they resolve, and from the counter of
    every course of the student, and has removed the document. *)
Lemma deleteStudent_success (id : Id) (st : Store) :
  success (snd (StudentController.deleteStudent id st)) = true ->
  exists student,
    findById Student._id id (students st) = Some student
    /\ fst (StudentController.deleteStudent id st)
       = {| departments :=
              match findById Department._id (Student.department student)
                      (departments st) with
              | Some d =>
                  updateOne Department._id
                    (Department.setTotalStudents (Department.totalStudents d - 1) d)
                    (departments st)
              | None => departments st
              end;
            classes :=
              match findById Class._id (Student.class student) (classes st) with
              | Some c =>
                  updateOne Class._id
                    (Class.setCurrentStrength (Class.currentStrength c - 1) c)
                    (classes st)
              | None => classes st
              end;
            courses :=
              updateMany Course._id (Student.courses student)
                (StudentController.incEnrolled (-1)) (courses st);
            students := findByIdAndDelete Student._id id (students st) |}.
Proof.
  unfold StudentController.deleteStudent, StudentController.deleteStudentBody. run.
  destruct (findById Student._id id (students st)) as [student|]; [|discriminate].
  intros S. exists student. split; [reflexivity|]. revert S.
  assert (Hk : forall l,
             (if nonEmpty (Student.courses student)
              then updateMany Course._id (Student.courses student)
                     (StudentController.incEnrolled (-1)) l
              else l)
             = updateMany Course._id (Student.courses student)
                 (StudentController.incEnrolled (-1)) l).
  { intros l. destruct (Student.courses student); cbn [nonEmpty];
      [now rewrite updateMany_nil|reflexivity]. }
  destruct (findById Class._id (Student.class student) (classes st)) as [c|].
  - unfold saveClass. destruct (Class.validate _); [|discriminate].
    cbn [withClasses departments classes courses students].
    destruct (findById Department._id (Student.department student) (departments st))
      as [d|].
    + unfold saveDepartment. destruct (Department.validate _); [|discriminate].
      cbn [withDepartments departments classes courses students]. intros _.
      rewrite <- (Hk (courses st)).
      destruct (nonEmpty (Student.courses student)); reflexivity.
    + intros _. rewrite <- (Hk (courses st)).
      destruct (nonEmpty (Student.courses student)); reflexivity.
  - destruct (findById Department._id (Student.department student) (departments st))
      as [d|].
    + unfold saveDepartment. destruct (Department.validate _); [|discriminate].
      cbn [withDepartments departments classes courses students]. intros _.
      rewrite <- (Hk (courses st)).
      destruct (nonEmpty (Student.courses student)); destruct st; reflexivity.
    + intros _. rewrite <- (Hk (courses st)).
      destruct (nonEmpty (Student.courses student)); destruct st; reflexivity.
Qed.

Lemma deleteStudent_keeps_counters (id : Id) (st : Store) :
  NoDup (map Class._id (classes st)) ->
  NoDup (map Department._id (departments st)) ->
  countersMatch st = true ->
  success (snd (StudentController.deleteStudent id st)) = true ->
  countersMatch (fst (StudentController.deleteStudent id st)) = true.
Proof.
  intros NDc NDd Hinv S.
  destruct (deleteStudent_success id st S) as (student & Hs & E).
  apply countersMatch_spec in Hinv as (Ic & Idp & Ik).
  rewrite E. apply countersMatch_spec.
  unfold studentsOfClass, studentsOfDepartment, studentsOfCourse.
  cbn [departments classes courses students].
  split; [|split].
  - intros c Hin. rewrite (countWhere_delete _ _ _ _ Hs).
    destruct (findById Class._id (Student.class student) (classes st)) as [cls|] eqn:Fc.
    + pose proof (findById_key _ _ _ _ Fc) as K.
      apply (In_updateOne_unique Class._id _ cls) in Hin as [->|[Hin Hk]]; auto;
        cbn [Class._id Class.setCurrentStrength Class.currentStrength] in *.
      * rewrite K, String.eqb_refl, (Ic cls (findById_In _ _ _ _ Fc)), K. reflexivity.
      * rewrite K in Hk. apply not_eq_sym, String.eqb_neq in Hk.
        rewrite Hk, (Ic c Hin). unfold studentsOfClass. lia.
      * cbn. now rewrite K.
    + pose proof (findById_none_keys _ _ _ c Fc Hin) as Hk.
      apply not_eq_sym, String.eqb_neq in Hk. rewrite Hk, (Ic c Hin).
      unfold studentsOfClass. lia.
  - intros d Hin. rewrite (countWhere_delete _ _ _ _ Hs).
    destruct (findById Department._id (Student.department student) (departments st))
      as [dept|] eqn:Fd.
    + pose proof (findById_key _ _ _ _ Fd) as K.
      apply (In_updateOne_unique Department._id _ dept) in Hin as [->|[Hin Hk]]; auto;
        cbn [Department._id Department.setTotalStudents Department.totalStudents] in *.
      * rewrite K, String.eqb_refl, (Idp dept (findById_In _ _ _ _ Fd)), K. reflexivity.
      * rewrite K in Hk. apply not_eq_sym, String.eqb_neq in Hk.
        rewrite Hk, (Idp d Hin). unfold studentsOfDepartment. lia.
      * cbn. now rewrite K.
    + pose proof (findById_none_keys _ _ _ d Fd Hin) as Hk.
      apply not_eq_sym, String.eqb_neq in Hk. rewrite Hk, (Idp d Hin).
      unfold studentsOfDepartment. lia.
  - intros c Hin. rewrite (countWhere_delete _ _ _ _ Hs).
    apply In_updateMany in Hin as (x & Hx & ->).
    destruct (includes (Student.courses student) (Course._id x)) eqn:Hi.
    + cbn [StudentController.incEnrolled Course.setEnrolledStudents
           Course.enrolledStudents Course._id].
      rewrite Hi, (Ik x Hx). unfold studentsOfCourse. lia.
    + rewrite Hi, (Ik x Hx). unfold studentsOfCourse. lia.
Qed.

(** *** The update *)

Lemma saveClass_saved (c : Class.doc) (st st' : Store) :
  saveClass c st = Saved st' ->
  st' = withClasses (updateOne Class._id c (classes st)) st.
Proof.
  unfold saveClass. destruct (Class.validate c); [|discriminate]. now intros [= <-].
Qed.

Lemma saveDepartment_saved (d : Department.doc) (st st' : Store) :
  saveDepartment d st = Saved st' ->
  st' = withDepartments (updateOne Department._id d (departments st)) st.
Proof.
  unfold saveDepartment. destruct (Department.validate d); [|discriminate].
  now intros [= <-].
Qed.

Section UpdatePhases.

Import StudentController.

Variables (student : Student.doc).

Lemma checkEmail_keeps (b b1 : StudentPatch.body) (st st1 : Store) :
  checkEmail student b st = (st1, Continue b1) ->
  st1 = st
  /\ StudentPatch.class b1 = StudentPatch.class b
  /\ StudentPatch.department b1 = StudentPatch.department b
  /\ StudentPatch.courses b1 = StudentPatch.courses b.
Proof.
  unfold checkEmail. destruct (changed _ _); run.
  - destruct (find _ _); [discriminate|]. intros [= <- <-]. now repeat split.
  - intros [= <- <-]. now repeat split.
Qed.

Lemma checkRollNumber_keeps (b b1 : StudentPatch.body) (st st1 : Store) :
  checkRollNumber student b st = (st1, Continue b1) ->
  st1 = st
  /\ StudentPatch.class b1 = StudentPatch.class b
  /\ StudentPatch.department b1 = StudentPatch.department b
  /\ StudentPatch.courses b1 = StudentPatch.courses b.
Proof.
  unfold checkRollNumber. destruct (changed _ _); run.
  - destruct (find _ _); [discriminate|]. intros [= <- <-]. now repeat split.
  - intros [= <- <-]. now repeat split.
Qed.

Lemma handleClassChange_writes (b : StudentPatch.body) (st st1 : Store) (u : unit) :
  handleClassChange student b st = (st1, Continue u) ->
  departments st1 = departments st
  /\ courses st1 = courses st
  /\ students st1 = students st
  /\ classes st1
     = match changed (StudentPatch.class b) (Student.class student) with
       | Some newId => classesAfterMove (Student.class student) newId (classes st)
       | None => classes st
       end
  /\ (forall newId,
        changed (StudentPatch.class b) (Student.class student) = Some newId ->
        findById Class._id newId (classes st) <> None).
Proof.
  unfold handleClassChange, classesAfterMove, afterMove, addStrength.
  destruct (changed _ _) as [newId|]; run.
  2:{ intros [= <- _]. repeat split. discriminate. }
  destruct (findById Class._id newId (classes st)) as [newClass|] eqn:Fn;
    [|discriminate].
  destruct (Class.capacity newClass <=? Class.currentStrength newClass);
    [discriminate|].
  assert (Hn : forall n, Some newId = Some n -> findById Class._id n (classes st) <> None).
  { intros n [= <-]. rewrite Fn. discriminate. }
  destruct (findById Class._id (Student.class student) (classes st)) as [oldClass|].
  - destruct (saveClass (Class.setCurrentStrength (Class.currentStrength oldClass - 1)
                           oldClass) st) as [st2|] eqn:S1; [|discriminate].
    apply saveClass_saved in S1. subst st2.
    destruct (saveClass _ _) as [st3|] eqn:S2; [|discriminate].
    apply saveClass_saved in S2. subst st3.
    intros [= <- _]. repeat split. exact Hn.
  - destruct (saveClass _ _) as [st3|] eqn:S2; [|discriminate].
    apply saveClass_saved in S2. subst st3.
    intros [= <- _]. repeat split. exact Hn.
Qed.

Lemma handleDepartmentChange_writes (b : StudentPatch.body) (st st1 : Store) (u : unit) :
  handleDepartmentChange student b st = (st1, Continue u) ->
  classes st1 = classes st
  /\ courses st1 = courses st
  /\ students st1 = students st
  /\ departments st1
     = match changed (StudentPatch.department b) (Student.department student) with
       | Some newId =>
           departmentsAfterMove (Student.department student) newId (departments st)
       | None => departments st
       end
  /\ (forall newId,
        changed (StudentPatch.department b) (Student.department student) = Some newId ->
        findById Department._id newId (departments st) <> None).
Proof.
  unfold handleDepartmentChange, departmentsAfterMove, afterMove, addStudents.
  destruct (changed _ _) as [newId|]; run.
  2:{ intros [= <- _]. repeat split. discriminate. }
  destruct (findById Department._id newId (departments st)) as [newDepartment|] eqn:Fn;
    [|discriminate].
  assert (Hn : forall n, Some newId = Some n ->
                         findById Department._id n (departments st) <> None).
  { intros n [= <-]. rewrite Fn. discriminate. }
  destruct (findById Department._id (Student.department student) (departments st))
    as [oldDepartment|].
  - destruct (saveDepartment
                (Department.setTotalStudents
                   (Department.totalStudents oldDepartment - 1) oldDepartment) st)
      as [st2|] eqn:S1; [|discriminate].
    apply saveDepartment_saved in S1. subst st2.
    destruct (saveDepartment _ _) as [st3|] eqn:S2; [|discriminate].
    apply saveDepartment_saved in S2. subst st3.
    intros [= <- _]. repeat split. exact Hn.
  - destruct (saveDepartment _ _) as [st3|] eqn:S2; [|discriminate].
    apply saveDepartment_saved in S2. subst st3.
    intros [= <- _]. repeat split. exact Hn.
Qed.

Lemma handleCoursesChange_writes (b : StudentPatch.body) (st st1 : Store) (u : unit) :
  handleCoursesChange student b st = (st1, Continue u) ->
  classes st1 = classes st
  /\ departments st1 = departments st
  /\ students st1 = students st
  /\ courses st1
     = match StudentPatch.courses b with
       | Some newCourses =>
           coursesAfterChange (Student.courses student) newCourses (courses st)
       | None => courses st
       end.
Proof.
  unfold handleCoursesChange, coursesAfterChange.
  destruct (StudentPatch.courses b) as [newCourses|]; run.
  2:{ intros [= <- _]. repeat split. }
  set (toRemove := filter (fun c => negb (includes newCourses c)) (Student.courses student)).
  set (toAdd := filter (fun c => negb (includes (Student.courses student) c)) newCourses).
  destruct toRemove as [|r rs] eqn:Er; cbn [nonEmpty].
  - destruct toAdd as [|a l] eqn:Ea; cbn [nonEmpty].
    + intros [= <- _]. repeat split. now rewrite !updateMany_nil.
    + destruct (nonEmpty (filter Course.isFull _)); [discriminate|].
      intros [= <- _]. repeat split. cbn [incCourses withCourses courses].
      now rewrite updateMany_nil.
  - destruct toAdd as [|a l] eqn:Ea; cbn [nonEmpty].
    + intros [= <- _]. repeat split. cbn [incCourses withCourses courses].
      now rewrite updateMany_nil.
    + cbn [incCourses withCourses departments classes courses students].
      destruct (nonEmpty (filter Course.isFull _)); [discriminate|].
      intros [= <- _]. repeat split.
Qed.

End UpdatePhases.

Section MoveCounts.

Context {D : Type} (key : D -> Id) (counter : D -> Z) (add : Z -> D -> D).
Hypothesis key_add : forall k d, key (add k d) = key d.
Hypothesis counter_add : forall k d, counter (add k d) = counter d + k.

Variables (oldId newId : Id) (l : list D).
Variables (before after : Id -> Z).
Hypothesis unique : NoDup (map key l).
Hypothesis differ : oldId <> newId.
Hypothesis matches : forall d, In d l -> counter d = before (key d).
Hypothesis gained : after newId = before newId + 1.
Hypothesis lost : after oldId = before oldId - 1.
Hypothesis others : forall id, id <> oldId -> id <> newId -> after id = before id.

(** After a move between two different references the counters match the
    new counts. *)
Lemma afterMove_matches (d : D) :
  findById key newId l <> None ->
  In d (afterMove key add oldId newId l) -> counter d = after (key d).
Proof.
  unfold afterMove. intros Hn.
  destruct (findById key newId l) as [newDoc|] eqn:Fn; [clear Hn|now destruct Hn].
  pose proof (findById_key _ _ _ _ Fn) as Kn.
  destruct (findById key oldId l) as [oldDoc|] eqn:Fo.
  - pose proof (findById_key _ _ _ _ Fo) as Ko. intros Hin.
    apply (In_updateOne_unique key _ newDoc) in Hin as [->|[Hin Hk]].
    + rewrite counter_add, key_add, Kn, gained, (matches _ (findById_In _ _ _ _ Fn)), Kn.
      reflexivity.
    + rewrite key_add, Kn in Hk.
      apply (In_updateOne_unique key _ oldDoc) in Hin as [->|[Hin Hk']]; auto.
      * rewrite counter_add, key_add, Ko, lost,
          (matches _ (findById_In _ _ _ _ Fo)), Ko. lia.
      * rewrite key_add, Ko in Hk'. rewrite (others _ Hk' Hk). now apply matches.
      * now rewrite key_add, Ko.
    + now rewrite updateOne_keys.
    + rewrite key_add, Kn, findById_updateOne_other; [exact Fn|].
      rewrite key_add, Ko. exact differ.
  - intros Hin.
    apply (In_updateOne_unique key _ newDoc) in Hin as [->|[Hin Hk]]; auto.
    + rewrite counter_add, key_add, Kn, gained, (matches _ (findById_In _ _ _ _ Fn)), Kn.
      reflexivity.
    + rewrite key_add, Kn in Hk.
      rewrite (others _ (findById_none_keys _ _ _ _ Fo Hin) Hk). now apply matches.
    + now rewrite key_add, Kn.
Qed.

End MoveCounts.

Lemma countWhere_updateOne (p : Student.doc -> bool) (s s' : Student.doc)
    (l : list Student.doc) :
  findById Student._id (Student._id s') l = Some s ->
  countWhere p (updateOne Student._id s' l)
  = countWhere p l - (if p s then 1 else 0) + (if p s' then 1 else 0).
Proof.
  unfold findById. induction l as [|x l IH]; cbn [find updateOne]; [discriminate|].
  destruct (String.eqb (Student._id x) (Student._id s')).
  - intros [= ->]. rewrite !countWhere_cons. lia.
  - intros H. rewrite !countWhere_cons, (IH H). lia.
Qed.

Lemma includes_filter (q : Id -> bool) (l : list Id) (x : Id) :
  includes (filter q l) x = (includes l x && q x)%bool.
Proof.
  unfold includes. induction l as [|y l IH]; cbn; [reflexivity|].
  destruct (q y) eqn:Qy; cbn; rewrite IH.
  - destruct (String.eqb_spec x y) as [->|]; cbn; [now rewrite Qy|reflexivity].
  - destruct (String.eqb_spec x y) as [->|]; cbn; [|reflexivity].
    rewrite Qy. now rewrite andb_false_r.
Qed.

Lemma catchValidation_fails (e : SaveError) : success (catchValidation e) = false.
Proof. now destruct e. Qed.

Section UpdateReturns.

Import StudentController.

Variable student : Student.doc.

Lemma checkEmail_returns (b : StudentPatch.body) (st st1 : Store) (r : Response) :
  checkEmail student b st = (st1, Return r) -> success r = false.
Proof.
  unfold checkEmail. destruct (changed _ _); run; [|discriminate].
  destruct (find _ _); [|discriminate]. now intros [= _ <-].
Qed.

Lemma checkRollNumber_returns (b : StudentPatch.body) (st st1 : Store) (r : Response) :
  checkRollNumber student b st = (st1, Return r) -> success r = false.
Proof.
  unfold checkRollNumber. destruct (changed _ _); run; [|discriminate].
  destruct (find _ _); [|discriminate]. now intros [= _ <-].
Qed.

Lemma handleClassChange_returns (b : StudentPatch.body) (st st1 : Store) (r : Response) :
  handleClassChange student b st = (st1, Return r) -> success r = false.
Proof.
  unfold handleClassChange. destruct (changed _ _); run; [|discriminate].
  destruct (findById Class._id _ _); [|now intros [= _ <-]].
  destruct (_ <=? _); [now intros [= _ <-]|].
  destruct (findById Class._id _ _).
  - destruct (saveClass _ st); [|discriminate]. destruct (saveClass _ _); discriminate.
  - destruct (saveClass _ _); discriminate.
Qed.

Lemma handleDepartmentChange_returns (b : StudentPatch.body) (st st1 : Store)
    (r : Response) :
  handleDepartmentChange student b st = (st1, Return r) -> success r = false.
Proof.
  unfold handleDepartmentChange. destruct (changed _ _); run; [|discriminate].
  destruct (findById Department._id _ _); [|now intros [= _ <-]].
  destruct (findById Department._id _ _).
  - destruct (saveDepartment _ st); [|discriminate].
    destruct (saveDepartment _ _); discriminate.
  - destruct (saveDepartment _ _); discriminate.
Qed.

Lemma handleCoursesChange_returns (b : StudentPatch.body) (st st1 : Store)
    (r : Response) :
  handleCoursesChange student b st = (st1, Return r) -> success r = false.
Proof.
  unfold handleCoursesChange. destruct (StudentPatch.courses b); run; [|discriminate].
  destruct (nonEmpty (filter _ (Student.courses student))); cbn;
    (destruct (nonEmpty (filter _ l)); [|discriminate]);
    (destruct (nonEmpty (filter Course.isFull _)); [now intros [= _ <-]|discriminate]).
Qed.

End UpdateReturns.

(** An update that succeeds has gone through every phase and has written
    the patched document. *)
Lemma updateStudent_success (id : Id) (b : StudentPatch.body) (st : Store) :
  success (snd (StudentController.updateStudent id b st)) = true ->
  exists student b2,
    findById Student._id id (students st) = Some student
    /\ StudentPatch.class b2 = StudentPatch.class b
    /\ StudentPatch.department b2 = StudentPatch.department b
    /\ StudentPatch.courses b2 = StudentPatch.courses b
    /\ StudentController.validatePatched b2 (StudentController.applyPatch b2 student) = []
    /\ (forall newId,
          changed (StudentPatch.class b) (Student.class student) = Some newId ->
          findById Class._id newId (classes st) <> None)
    /\ (forall newId,
          changed (StudentPatch.department b) (Student.department student) = Some newId ->
          findById Department._id newId (departments st) <> None)
    /\ fst (StudentController.updateStudent id b st)
       = {| departments :=
              match changed (StudentPatch.department b) (Student.department student) with
              | Some newId =>
                  departmentsAfterMove (Student.department student) newId
                    (departments st)
              | None => departments st
              end;
            classes :=
              match changed (StudentPatch.class b) (Student.class student) with
              | Some newId =>
                  classesAfterMove (Student.class student) newId (classes st)
              | None => classes st
              end;
            courses :=
              match StudentPatch.courses b with
              | Some newCourses =>
                  coursesAfterChange (Student.courses student) newCourses (courses st)
              | None => courses st
              end;
            students :=
              updateOne Student._id (StudentController.applyPatch b2 student)
                (students st) |}.
Proof.
  unfold StudentController.updateStudent, StudentController.updateStudentBody. run.
  destruct (findById Student._id id (students st)) as [student|] eqn:Hs;
    [|discriminate].
  destruct (StudentController.checkEmail student b st) as [st1 [b1|r|e]] eqn:P1;
    [|cbn; intros S; rewrite (checkEmail_returns _ _ _ _ _ P1) in S; discriminate
     |cbn; rewrite catchValidation_fails; discriminate].
  apply checkEmail_keeps in P1 as (-> & C1 & D1 & K1).
  destruct (StudentController.checkRollNumber student b1 st) as [st2 [b2|r|e]] eqn:P2;
    [|cbn; intros S; rewrite (checkRollNumber_returns _ _ _ _ _ P2) in S; discriminate
     |cbn; rewrite catchValidation_fails; discriminate].
  apply checkRollNumber_keeps in P2 as (-> & C2 & D2 & K2).
  rewrite C1 in C2. rewrite D1 in D2. rewrite K1 in K2.
  destruct (StudentController.handleClassChange student b2 st) as [st3 [u3|r|e]] eqn:P3;
    [|cbn; intros S; rewrite (handleClassChange_returns _ _ _ _ _ P3) in S; discriminate
     |cbn; rewrite catchValidation_fails; discriminate].
  apply handleClassChange_writes in P3 as (Pd3 & Pk3 & Ps3 & Pc3 & Fc3).
  destruct (StudentController.handleDepartmentChange student b2 st3)
    as [st4 [u4|r|e]] eqn:P4;
    [|cbn; intros S; rewrite (handleDepartmentChange_returns _ _ _ _ _ P4) in S;
      discriminate
     |cbn; rewrite catchValidation_fails; discriminate].
  apply handleDepartmentChange_writes in P4 as (Pc4 & Pk4 & Ps4 & Pd4 & Fd4).
  destruct (StudentController.handleCoursesChange student b2 st4)
    as [st5 [u5|r|e]] eqn:P5;
    [|cbn; intros S; rewrite (handleCoursesChange_returns _ _ _ _ _ P5) in S;
      discriminate
     |cbn; rewrite catchValidation_fails; discriminate].
  apply handleCoursesChange_writes in P5 as (Pc5 & Pd5 & Ps5 & Pk5).
  unfold saveStudent.
  destruct (StudentController.validatePatched b2 _) eqn:V;
    [|cbn; discriminate].
  destruct (studentKeyTaken _ _); [cbn; discriminate|].
  intros _. exists student, b2.
  split; [reflexivity|]. split; [exact C2|]. split; [exact D2|]. split; [exact K2|].
  split; [exact V|].
  split; [intros n Hn; apply Fc3; now rewrite C2|].
  split; [intros n Hn; rewrite <- Pd3; apply Fd4; now rewrite D2|].
  cbn [fst]. unfold withStudents.
  rewrite Ps5, Ps4, Ps3, Pd5, Pd4, Pd3, Pc5, Pc4, Pc3, Pk5, Pk4, Pk3.
  now rewrite C2, D2, K2.
Qed.

Lemma changed_some (o : option string) (current n : string) :
  changed o current = Some n -> o = Some n /\ n <> current.
Proof.
  unfold changed. destruct o as [x|]; [|discriminate].
  destruct (falsy x); cbn; [discriminate|].
  destruct (String.eqb_spec x current); cbn; [discriminate|].
  intros [= <-]. now split.
Qed.

Lemma changed_none (o : option string) (current : string) :
  changed o current = None -> o = None \/ o = Some EmptyString \/ o = Some current.
Proof.
  unfold changed. destruct o as [x|]; [|now left].
  destruct (falsy x) eqn:F.
  - unfold falsy in F. apply String.eqb_eq in F. subst x. right. now left.
  - cbn [negb andb].
    destruct (String.eqb_spec x current) as [->|]; cbn [negb]; [|discriminate].
    intros _. right. now right.
Qed.

Lemma validatePatched_references (b : StudentPatch.body) (s : Student.doc) :
  StudentController.validatePatched b s = [] ->
  falsy (Student.class s) = false /\ falsy (Student.department s) = false.
Proof.
  unfold StudentController.validatePatched. intros H.
  repeat (apply app_eq_nil in H as [? H]).
  destruct (falsy (Student.class s)); [discriminate|].
  destruct (falsy (Student.department s)); [discriminate|]. now split.
Qed.

Lemma updated_course (ids : list Id) (k : Z) (x : Course.doc) :
  let y := if includes ids (Course._id x)
           then StudentController.incEnrolled k x else x in
  Course._id y = Course._id x
  /\ Course.enrolledStudents y
     = Course.enrolledStudents x + (if includes ids (Course._id x) then k else 0).
Proof.
  cbv zeta. destruct (includes ids (Course._id x)); cbn; split; auto; lia.
Qed.

(** On a store whose counters match, an update that succeeds leaves them
    matching. *)
Lemma updateStudent_keeps_counters (id : Id) (b : StudentPatch.body) (st : Store) :
  NoDup (map Class._id (classes st)) ->
  NoDup (map Department._id (departments st)) ->
  countersMatch st = true ->
  success (snd (StudentController.updateStudent id b st)) = true ->
  countersMatch (fst (StudentController.updateStudent id b st)) = true.
Proof.
  intros NDc NDd Hinv S.
  destruct (updateStudent_success id b st S)
    as (student & b2 & Hs & C & D & K & V & Fc & Fd & E).
  apply countersMatch_spec in Hinv as (Ic & Idp & Ik).
  apply validatePatched_references in V as [Vc Vd].
  cbn [StudentController.applyPatch Student.class Student.department] in Vc, Vd.
  rewrite C in Vc. rewrite D in Vd.
  set (student' := StudentController.applyPatch b2 student) in *.
  assert (Hs' : findById Student._id (Student._id student') (students st) = Some student).
  { cbn. rewrite (findById_key _ _ _ _ Hs). exact Hs. }
  rewrite E. apply countersMatch_spec.
  unfold studentsOfClass, studentsOfDepartment, studentsOfCourse.
  cbn [departments classes courses students].
  split; [|split].
  - destruct (changed (StudentPatch.class b) (Student.class student)) as [n|] eqn:Ch.
    + destruct (changed_some _ _ _ Ch) as [Eb Hne].
      assert (Ec : Student.class student' = n).
      { subst student'. cbn. now rewrite C, Eb. }
      intros c Hin.
      apply (afterMove_matches Class._id Class.currentStrength addStrength
               (fun k d => eq_refl) (fun k d => eq_refl)
               (Student.class student) n (classes st)
               (fun i => studentsOfClass i st)
               (fun i => countWhere (fun s => String.eqb (Student.class s) i)
                           (updateOne Student._id student' (students st))));
        auto.
      * unfold studentsOfClass. rewrite (countWhere_updateOne _ _ _ _ Hs'), Ec.
        rewrite String.eqb_refl. apply not_eq_sym, String.eqb_neq in Hne.
        rewrite Hne. lia.
      * unfold studentsOfClass. rewrite (countWhere_updateOne _ _ _ _ Hs'), Ec.
        rewrite String.eqb_refl. apply String.eqb_neq in Hne. rewrite Hne. lia.
      * intros i H1 H2. unfold studentsOfClass.
        rewrite (countWhere_updateOne _ _ _ _ Hs'), Ec.
        apply not_eq_sym, String.eqb_neq in H1. apply not_eq_sym, String.eqb_neq in H2.
        rewrite H1, H2. lia.
    + assert (Ec : Student.class student' = Student.class student).
      { subst student'. cbn. rewrite C.
        destruct (changed_none _ _ Ch) as [->|[Eb| ->]]; try reflexivity.
        rewrite Eb in Vc. discriminate Vc. }
      intros c Hin. rewrite (countWhere_updateOne _ _ _ _ Hs'), Ec, (Ic c Hin).
      unfold studentsOfClass. lia.
  - destruct (changed (StudentPatch.department b) (Student.department student))
      as [n|] eqn:Ch.
    + destruct (changed_some _ _ _ Ch) as [Eb Hne].
      assert (Ec : Student.department student' = n).
      { subst student'. cbn. now rewrite D, Eb. }
      intros d Hin.
      apply (afterMove_matches Department._id Department.totalStudents addStudents
               (fun k d => eq_refl) (fun k d => eq_refl)
               (Student.department student) n (departments st)
               (fun i => studentsOfDepartment i st)
               (fun i => countWhere (fun s => String.eqb (Student.department s) i)
                           (updateOne Student._id student' (students st))));
        auto.
      * unfold studentsOfDepartment. rewrite (countWhere_updateOne _ _ _ _ Hs'), Ec.
        rewrite String.eqb_refl. apply not_eq_sym, String.eqb_neq in Hne.
        rewrite Hne. lia.
      * unfold studentsOfDepartment. rewrite (countWhere_updateOne _ _ _ _ Hs'), Ec.
        rewrite String.eqb_refl. apply String.eqb_neq in Hne. rewrite Hne. lia.
      * intros i H1 H2. unfold studentsOfDepartment.
        rewrite (countWhere_updateOne _ _ _ _ Hs'), Ec.
        apply not_eq_sym, String.eqb_neq in H1. apply not_eq_sym, String.eqb_neq in H2.
        rewrite H1, H2. lia.
    + assert (Ec : Student.department student' = Student.department student).
      { subst student'. cbn. rewrite D.
        destruct (changed_none _ _ Ch) as [->|[Eb| ->]]; try reflexivity.
        rewrite Eb in Vd. discriminate Vd. }
      intros d Hin. rewrite (countWhere_updateOne _ _ _ _ Hs'), Ec, (Idp d Hin).
      unfold studentsOfDepartment. lia.
  - intros c Hin. rewrite (countWhere_updateOne _ _ _ _ Hs').
    assert (Ek : Student.courses student'
                 = match StudentPatch.courses b with
                   | Some l => l
                   | None => Student.courses student
                   end).
    { subst student'. cbn. now rewrite K. }
    rewrite Ek. destruct (StudentPatch.courses b) as [newCourses|].
    + unfold coursesAfterChange in Hin.
      apply In_updateMany in Hin as (y & Hy & Ec).
      apply In_updateMany in Hy as (x & Hx & Ey).
      destruct (updated_course
                  (filter (fun c => negb (includes newCourses c))
                     (Student.courses student)) (-1) x) as [K1 E1].
      rewrite <- Ey in K1, E1.
      destruct (updated_course
                  (filter (fun c => negb (includes (Student.courses student) c))
                     newCourses) 1 y) as [K2 E2].
      rewrite <- Ec in K2, E2.
      rewrite E2, K2, E1, K1, !includes_filter, (Ik x Hx).
      destruct (includes newCourses (Course._id x)) eqn:Hn;
        destruct (includes (Student.courses student) (Course._id x)) eqn:Ho;
        cbn [andb negb]; unfold studentsOfCourse; lia.
    + rewrite (Ik c Hin). unfold studentsOfCourse. lia.
Qed.

Section Keys.

Context {D : Type} (key : D -> Id) (add : Z -> D -> D).
Hypothesis key_add : forall k d, key (add k d) = key d.

Lemma afterMove_keys (oldId newId : Id) (l : list D) :
  map key (afterMove key add oldId newId l) = map key l.
Proof.
  unfold afterMove. destruct (findById key newId l); [|reflexivity].
  rewrite updateOne_keys. destruct (findById key oldId l); [|reflexivity].
  apply updateOne_keys.
Qed.

End Keys.

(** The single-student requests leave the identifiers of the classes and of
    the departments as they are. *)
Lemma serve_keys (q : StudentRequest) (st : Store) :
  success (snd (serve q st)) = true ->
  map Class._id (classes (fst (serve q st))) = map Class._id (classes st)
  /\ map Department._id (departments (fst (serve q st)))
     = map Department._id (departments st).
Proof.
  destruct q as [newId body|id body|id]; cbn [serve]; intros S.
  - destruct (createStudent_success newId body st S) as (c & d & _ & _ & ->).
    cbn. now rewrite !updateOne_keys.
  - destruct (updateStudent_success id body st S)
      as (student & b2 & _ & _ & _ & _ & _ & _ & _ & ->).
    cbn. split.
    + destruct (changed (StudentPatch.class body) _); [|reflexivity].
      now apply afterMove_keys.
    + destruct (changed (StudentPatch.department body) _); [|reflexivity].
      now apply afterMove_keys.
  - destruct (deleteStudent_success id st S) as (student & _ & ->).
    cbn. split.
    + destruct (findById Class._id _ _); [apply updateOne_keys|reflexivity].
    + destruct (findById Department._id _ _); [apply updateOne_keys|reflexivity].
Qed.

(** On ids in canonical form: any sequence of successful create, update
    and delete requests for single students keeps every counter equal to
    the number of referencing students; the bulk endpoint is the path that
    does not. *)
Lemma canonical_requests_keep_counters (qs : list StudentRequest) :
  forall st st',
  NoDup (map Class._id (classes st)) ->
  NoDup (map Department._id (departments st)) ->
  countersMatch st = true ->
  serveAll qs st = Some st' ->
  countersMatch st' = true.
Proof.
  induction qs as [|q qs IH]; cbn [serveAll]; intros st st' NDc NDd Hinv.
  - now intros [= <-].
  - destruct (success (snd (serve q st))) eqn:S; [|discriminate].
    destruct (serve_keys q st S) as [Kc Kd].
    apply IH; [now rewrite Kc|now rewrite Kd|].
    destruct q as [newId body|id body|id]; cbn [serve] in *.
    + now apply createStudent_keeps_counters.
    + now apply updateStudent_keeps_counters.
    + now apply deleteStudent_keeps_counters.
Qed.

(** * Further properties of the handlers *)

(** ** Lists of keys *)

Lemma distinct_NoDup (l : list string) : distinct l = true <-> NoDup l.
Proof.
  induction l as [|x l IH]; cbn.
  - split; [constructor|reflexivity].
  - rewrite andb_true_iff, negb_true_iff, IH. split.
    + intros [Hx Hl]. constructor; [|exact Hl].
      intros Hin. apply includes_In in Hin. congruence.
    + intros H. inversion H as [|? ? Hx Hl]; subst. split; [|exact Hl].
      destruct (includes l x) eqn:E; [|reflexivity].
      apply includes_In in E. contradiction.
Qed.

Lemma resolves_In {D} (key : D -> Id) (id : Id) (l : list D) :
  resolves key id l = true <-> In id (map key l).
Proof.
  unfold resolves. split.
  - destruct (findById key id l) as [d|] eqn:E; [|discriminate]. intros _.
    apply in_map_iff. exists d.
    split; [now apply (findById_key key id l)|now apply (findById_In key id l)].
  - intros H. apply in_map_iff in H as (d & <- & Hd).
    destruct (findById key (key d) l) eqn:E; [reflexivity|].
    now destruct (findById_none_keys key _ _ d E Hd).
Qed.

(** Two lists of documents with the same keys resolve the same ids. *)
Lemma resolves_keys {D} (key : D -> Id) (id : Id) (l l' : list D) :
  map key l' = map key l -> resolves key id l' = resolves key id l.
Proof.
  intros E. apply eq_true_iff_eq. now rewrite !resolves_In, E.
Qed.

Section Writes.

Context {D : Type} (key : D -> Id).

Lemma map_updateOne {B} (f : D -> B) (d x : D) (l : list D) :
  findById key (key d) l = Some x -> f d = f x ->
  map f (updateOne key d l) = map f l.
Proof.
  unfold findById. induction l as [|y r IH]; cbn; [discriminate|].
  destruct (String.eqb (key y) (key d)); cbn.
  - intros [= ->] E. now rewrite E.
  - intros H E. now rewrite IH.
Qed.

Lemma updateOne_absent (d : D) (l : list D) :
  findById key (key d) l = None -> updateOne key d l = l.
Proof.
  unfold findById. induction l as [|y r IH]; cbn; [reflexivity|].
  destruct (String.eqb (key y) (key d)); [discriminate|].
  intros H. now rewrite IH.
Qed.

Lemma In_findByIdAndDelete (id : Id) (l : list D) (x : D) :
  In x (findByIdAndDelete key id l) -> In x l.
Proof.
  induction l as [|y r IH]; cbn; [tauto|].
  destruct (String.eqb (key y) id); cbn; intuition.
Qed.

Lemma NoDup_map_delete {B} (f : D -> B) (id : Id) (l : list D) :
  NoDup (map f l) -> NoDup (map f (findByIdAndDelete key id l)).
Proof.
  induction l as [|y r IH]; cbn; [constructor|].
  intros H. inversion H as [|? ? Hy Hr]; subst.
  destruct (String.eqb (key y) id); [exact Hr|]. cbn.
  constructor; [|now apply IH].
  intros Hin. apply Hy. apply in_map_iff in Hin as (x & E & Hx).
  apply in_map_iff. exists x. split; [exact E|now apply In_findByIdAndDelete in Hx].
Qed.

(** Deleting by id leaves every other id where it was. *)
Lemma resolves_delete (id p : Id) (l : list D) :
  p <> id ->
  resolves key p (findByIdAndDelete key id l) = resolves key p l.
Proof.
  intros N. unfold resolves, findById.
  induction l as [|y r IH]; cbn; [reflexivity|].
  destruct (String.eqb_spec (key y) id) as [E|E]; cbn.
  - destruct (String.eqb_spec (key y) p); [congruence|reflexivity].
  - destruct (String.eqb (key y) p); [reflexivity|exact IH].
Qed.

Lemma Forall_updateOne (P : D -> Prop) (d : D) (l : list D) :
  P d -> Forall P l -> Forall P (updateOne key d l).
Proof.
  intros Hd H. apply Forall_forall. intros x Hx.
  apply In_updateOne in Hx as [->|Hx]; [exact Hd|].
  now apply (proj1 (Forall_forall P l) H).
Qed.

Lemma Forall_delete (P : D -> Prop) (id : Id) (l : list D) :
  Forall P l -> Forall P (findByIdAndDelete key id l).
Proof.
  intros H. apply Forall_forall. intros x Hx.
  apply In_findByIdAndDelete in Hx. now apply (proj1 (Forall_forall P l) H).
Qed.

Lemma Forall_updateMany (P : D -> Prop) (ids : list Id) (upd : D -> D) (l : list D) :
  (forall x, In x l -> includes ids (key x) = true -> P (upd x)) ->
  Forall P l -> Forall P (updateMany key ids upd l).
Proof.
  intros Hu H. apply Forall_forall. intros y Hy.
  apply In_updateMany in Hy as (x & Hx & ->).
  destruct (includes ids (key x)) eqn:E; [now apply Hu|].
  now apply (proj1 (Forall_forall P l) H).
Qed.

Lemma map_updateMany {B} (f : D -> B) (ids : list Id) (upd : D -> D) (l : list D) :
  (forall x, f (upd x) = f x) ->
  map f (updateMany key ids upd l) = map f l.
Proof.
  intros E. unfold updateMany. rewrite map_map. apply map_ext.
  intros x. now destruct (includes ids (key x)).
Qed.

End Writes.

Lemma forallb_Forall {A} (p : A -> bool) (l : list A) :
  forallb p l = true <-> Forall (fun x => p x = true) l.
Proof. rewrite forallb_forall, Forall_forall. reflexivity. Qed.

(** Destructs the scrutinee of a [match] or of an [if] of the goal. *)
Ltac step :=
  match goal with
  | |- context [match ?x with _ => _ end] =>
      lazymatch x with
      | context [match _ with _ => _ end] => fail
      | _ => destruct x eqn:?; cbn beta iota zeta
      end
  end.

Ltac stores :=
  cbn [fst snd departments classes courses students
       withDepartments withClasses withCourses withStudents] in *.

(** ** Unique keys of the students *)

Lemma NoDup_snoc {A} (l : list A) (x : A) :
  NoDup l -> ~ In x l -> NoDup (l ++ [x]).
Proof.
  intros Hl Hx. induction l as [|y l IH]; cbn; [constructor; [tauto|constructor]|].
  inversion Hl as [|? ? Hy Hl']; subst. constructor.
  - rewrite in_app_iff. cbn. intros [H|[H|[]]]; [contradiction|].
    subst. apply Hx. now left.
  - apply IH; [exact Hl'|]. intros H. apply Hx. now right.
Qed.

Lemma NoDup_map_updateOne {D B} (key : D -> Id) (f : D -> B) (d : D) (l : list D) :
  NoDup (map key l) -> NoDup (map f l) ->
  (forall x, In x l -> key x <> key d -> f x <> f d) ->
  NoDup (map f (updateOne key d l)).
Proof.
  induction l as [|y r IH]; cbn; [constructor|].
  intros Hk Hf Hd.
  inversion Hk as [|? ? Hky Hkr]; subst. inversion Hf as [|? ? Hfy Hfr]; subst.
  destruct (String.eqb_spec (key y) (key d)) as [E|E]; cbn.
  - constructor; [|exact Hfr]. intros Hin.
    apply in_map_iff in Hin as (x & Ex & Hx).
    apply (Hd x); [now right| |exact Ex].
    intros Ek. apply Hky. rewrite E, <- Ek. now apply in_map.
  - constructor; [|apply IH; auto].
    intros Hin. apply in_map_iff in Hin as (x & Ex & Hx).
    apply In_updateOne in Hx as [->|Hx].
    + apply (Hd y); [now left|exact E|now symmetry].
    + apply Hfy. rewrite <- Ex. now apply in_map.
Qed.

Lemma uniqueStudentKeys_spec (st : Store) :
  uniqueStudentKeys st = true <->
  NoDup (map Student._id (students st))
  /\ NoDup (map Student.rollNumber (students st))
  /\ NoDup (map Student.email (students st)).
Proof.
  unfold uniqueStudentKeys. rewrite !andb_true_iff, !distinct_NoDup. tauto.
Qed.

Lemma studentKeyTaken_false (s : Student.doc) (l : list Student.doc) :
  studentKeyTaken s l = false ->
  forall x, In x l -> Student._id x <> Student._id s ->
    Student.rollNumber x <> Student.rollNumber s
    /\ Student.email x <> Student.email s.
Proof.
  unfold studentKeyTaken. intros H x Hx Hid.
  assert (N := proj2 (not_true_iff_false _) H).
  split; intros E; apply N; apply existsb_exists; exists x;
    (split; [exact Hx|]); apply andb_true_iff;
    (split; [apply negb_true_iff; now apply String.eqb_neq|]);
    apply orb_true_iff; [left|right]; now apply String.eqb_eq.
Qed.

Lemma unique_insert (s : Student.doc) (st st' : Store) :
  (existsb (fun x => String.eqb (Student._id x) (Student._id s)) (students st)
   || studentKeyTaken s (students st))%bool = false ->
  uniqueStudentKeys st = true ->
  students st' = students st ++ [s] ->
  uniqueStudentKeys st' = true.
Proof.
  intros G H E. apply orb_false_iff in G as [Gid Gkey].
  apply uniqueStudentKeys_spec in H as (Hi & Hr & He).
  assert (Fresh : forall x, In x (students st) -> Student._id x <> Student._id s).
  { intros x Hx N. apply (proj2 (not_true_iff_false _) Gid).
    apply existsb_exists. exists x. split; [exact Hx|now apply String.eqb_eq]. }
  apply uniqueStudentKeys_spec. rewrite E, !map_app. cbn [map].
  repeat split; apply NoDup_snoc; auto; intros Hin;
    apply in_map_iff in Hin as (x & Ex & Hx);
    destruct (studentKeyTaken_false _ _ Gkey x Hx (Fresh x Hx)) as [Nr Ne];
    [now apply (Fresh x Hx)|now apply Nr|now apply Ne].
Qed.

Lemma unique_update (s : Student.doc) (st st' : Store) :
  studentKeyTaken s (students st) = false ->
  uniqueStudentKeys st = true ->
  students st' = updateOne Student._id s (students st) ->
  uniqueStudentKeys st' = true.
Proof.
  intros G H E. apply uniqueStudentKeys_spec in H as (Hi & Hr & He).
  apply uniqueStudentKeys_spec. rewrite E, updateOne_keys.
  repeat split; [exact Hi| |];
    apply (NoDup_map_updateOne Student._id); auto; intros x Hx Hid;
    now destruct (studentKeyTaken_false _ _ G x Hx Hid).
Qed.

Lemma unique_delete (id : Id) (st st' : Store) :
  uniqueStudentKeys st = true ->
  students st' = findByIdAndDelete Student._id id (students st) ->
  uniqueStudentKeys st' = true.
Proof.
  intros H E. apply uniqueStudentKeys_spec in H as (Hi & Hr & He).
  apply uniqueStudentKeys_spec. rewrite E.
  repeat split; now apply NoDup_map_delete.
Qed.

Lemma unique_setCourses (id : Id) (s : Student.doc) (l : list Id) (st st' : Store) :
  findById Student._id id (students st) = Some s ->
  uniqueStudentKeys st = true ->
  students st' = updateOne Student._id (Student.setCourses l s) (students st) ->
  uniqueStudentKeys st' = true.
Proof.
  intros F H E. apply uniqueStudentKeys_spec in H as (Hi & Hr & He).
  assert (F' : findById Student._id (Student._id (Student.setCourses l s)) (students st)
               = Some s).
  { cbn. now rewrite (findById_key _ _ _ _ F). }
  apply uniqueStudentKeys_spec. rewrite E.
  now rewrite !(map_updateOne Student._id _ _ s _ F').
Qed.

Lemma createStudent_unique (newId : Id) (b : StudentData.body) (st : Store) :
  uniqueStudentKeys st = true ->
  uniqueStudentKeys (fst (StudentController.createStudent newId b st)) = true.
Proof.
  intros H.
  unfold StudentController.createStudent, StudentController.createStudentBody,
    insertStudent, saveClass, saveDepartment. run.
  repeat step; stores; try assumption;
    now apply (unique_insert (StudentController.newStudent newId
                                (StudentController.normalised b)) st).
Qed.

(** What the phases of the update leave as it is, whatever their outcome. *)
Section UpdateFrames.

Import StudentController.

Variables (student : Student.doc) (b : StudentPatch.body) (st : Store).

Lemma checkEmail_store : fst (checkEmail student b st) = st.
Proof. unfold checkEmail. run. repeat step; reflexivity. Qed.

Lemma checkRollNumber_store : fst (checkRollNumber student b st) = st.
Proof. unfold checkRollNumber. run. repeat step; reflexivity. Qed.

Lemma handleClassChange_frame :
  let st1 := fst (handleClassChange student b st) in
  departments st1 = departments st /\ courses st1 = courses st
  /\ students st1 = students st
  /\ map Class._id (classes st1) = map Class._id (classes st).
Proof.
  unfold handleClassChange, saveClass. run.
  repeat step; stores; repeat split; rewrite ?updateOne_keys; reflexivity.
Qed.

Lemma handleDepartmentChange_frame :
  let st1 := fst (handleDepartmentChange student b st) in
  classes st1 = classes st /\ courses st1 = courses st
  /\ students st1 = students st
  /\ map Department._id (departments st1) = map Department._id (departments st).
Proof.
  unfold handleDepartmentChange, saveDepartment. run.
  repeat step; stores; repeat split; rewrite ?updateOne_keys; reflexivity.
Qed.

Lemma handleCoursesChange_frame :
  let st1 := fst (handleCoursesChange student b st) in
  departments st1 = departments st /\ classes st1 = classes st
  /\ students st1 = students st
  /\ map Course._id (courses st1) = map Course._id (courses st)
  /\ map Course.courseCode (courses st1) = map Course.courseCode (courses st)
  /\ map Course.prerequisites (courses st1) = map Course.prerequisites (courses st).
Proof.
  unfold handleCoursesChange, incCourses. run.
  repeat step; stores; repeat split;
    rewrite ?(map_updateMany Course._id) by reflexivity; reflexivity.
Qed.

End UpdateFrames.

(** The store when the last phase of the update begins, where it does. *)
Lemma updateStudent_phases (id : Id) (b : StudentPatch.body) (st : Store) :
  fst (StudentController.updateStudent id b st) = st
  \/ exists student b2 st3,
       findById Student._id id (students st) = Some student
       /\ students st3 = students st
       /\ map Class._id (classes st3) = map Class._id (classes st)
       /\ map Department._id (departments st3) = map Department._id (departments st)
       /\ map Course._id (courses st3) = map Course._id (courses st)
       /\ map Course.courseCode (courses st3) = map Course.courseCode (courses st)
       /\ map Course.prerequisites (courses st3)
          = map Course.prerequisites (courses st)
       /\ (fst (StudentController.updateStudent id b st) = st3
           \/ (success (snd (StudentController.updateStudent id b st)) = true
               /\ studentKeyTaken (StudentController.applyPatch b2 student) (students st3)
                  = false
               /\ StudentController.validatePatched b2
                    (StudentController.applyPatch b2 student) = []
               /\ StudentPatch.class b2 = StudentPatch.class b
               /\ StudentPatch.department b2 = StudentPatch.department b
               /\ StudentPatch.courses b2 = StudentPatch.courses b
               /\ fst (StudentController.updateStudent id b st)
                  = withStudents
                      (updateOne Student._id
                         (StudentController.applyPatch b2 student) (students st3))
                      st3)).
Proof.
  unfold StudentController.updateStudent, StudentController.updateStudentBody. run.
  destruct (findById Student._id id (students st)) as [student|] eqn:Hs;
    [|now left].
  pose proof (checkEmail_store student b st) as E1.
  destruct (StudentController.checkEmail student b st) as [st0 [b1| |]] eqn:C1;
    cbn [fst] in E1; subst st0; try now left.
  pose proof (checkEmail_keeps student b b1 st st C1) as (_ & Kc1 & Kd1 & Kk1).
  pose proof (checkRollNumber_store student b1 st) as E2.
  destruct (StudentController.checkRollNumber student b1 st) as [st0 [b2| |]] eqn:C2;
    cbn [fst] in E2; subst st0; try now left.
  pose proof (checkRollNumber_keeps student b1 b2 st st C2) as (_ & Kc2 & Kd2 & Kk2).
  right. exists student, b2.
  pose proof (handleClassChange_frame student b2 st) as (Fd1 & Fk1 & Fs1 & Fc1).
  destruct (StudentController.handleClassChange student b2 st) as [st1 o1] eqn:P1.
  cbn [fst] in *.
  pose proof (handleDepartmentChange_frame student b2 st1) as (Fc2 & Fk2 & Fs2 & Fd2).
  pose proof (handleCoursesChange_frame student b2
                (fst (StudentController.handleDepartmentChange student b2 st1)))
    as (Fd3 & Fc3 & Fs3 & Fi3 & Fo3 & Fp3).
  destruct o1 as [[]| |].
  2,3: exists st1; repeat split; try congruence; now left.
  destruct (StudentController.handleDepartmentChange student b2 st1) as [st2 o2] eqn:P2.
  cbn [fst] in *.
  destruct o2 as [[]| |].
  2,3: exists st2; repeat split; try congruence; now left.
  destruct (StudentController.handleCoursesChange student b2 st2) as [st3 o3] eqn:P3.
  cbn [fst] in *. exists st3.
  repeat split; try congruence.
  destruct o3 as [[]| |]; try now left.
  unfold saveStudent.
  destruct (StudentController.validatePatched b2 _) eqn:V; [|now left].
  destruct (studentKeyTaken _ (students st3)) eqn:T; [now left|].
  right. cbn. repeat split; congruence.
Qed.

Lemma uniqueStudentKeys_students (st st' : Store) :
  students st' = students st -> uniqueStudentKeys st' = uniqueStudentKeys st.
Proof. unfold uniqueStudentKeys. now intros ->. Qed.

Lemma updateStudent_unique (id : Id) (b : StudentPatch.body) (st : Store) :
  uniqueStudentKeys st = true ->
  uniqueStudentKeys (fst (StudentController.updateStudent id b st)) = true.
Proof.
  intros H.
  destruct (updateStudent_phases id b st)
    as [->|(student & b2 & st3 & _ & Es & _ & _ & _ & _ & _ &
            [->|(_ & T & _ & _ & _ & _ & ->)])]; [exact H| |].
  - now rewrite (uniqueStudentKeys_students st st3 Es).
  - apply (unique_update (StudentController.applyPatch b2 student) st3);
      [exact T| |reflexivity].
    now rewrite (uniqueStudentKeys_students st st3 Es).
Qed.

Lemma deleteStudent_unique (id : Id) (st : Store) :
  uniqueStudentKeys st = true ->
  uniqueStudentKeys (fst (StudentController.deleteStudent id st)) = true.
Proof.
  intros H.
  unfold StudentController.deleteStudent, StudentController.deleteStudentBody,
    saveClass, saveDepartment, StudentController.incCourses. run.
  repeat step; stores; try assumption; now apply (unique_delete id st).
Qed.

Lemma bulkLoop_unique (newIds : nat -> Id) (l : list StudentData.body) :
  forall i st successes errors,
  uniqueStudentKeys st = true ->
  uniqueStudentKeys (fst (StudentController.bulkLoop newIds i l st successes errors))
  = true.
Proof.
  induction l as [|d l IH]; intros i st successes errors H; cbn [StudentController.bulkLoop].
  - exact H.
  - unfold insertStudent. repeat step; apply IH; try assumption.
    now apply (unique_insert
                 (StudentController.newStudent (newIds i)
                    (StudentController.normalised d)) st).
Qed.

Lemma bulkCreateStudents_unique (newIds : nat -> Id) (l : list StudentData.body)
    (st : Store) :
  uniqueStudentKeys st = true ->
  uniqueStudentKeys (fst (StudentController.bulkCreateStudents newIds l st)) = true.
Proof.
  intros H. unfold StudentController.bulkCreateStudents.
  destruct (Nat.eqb _ 0); [exact H|]. destruct (Nat.ltb 100 _); [exact H|].
  pose proof (bulkLoop_unique newIds l 0 st [] [] H) as U.
  destruct (StudentController.bulkLoop newIds 0 l st [] []) as [st' [successes errors]].
  exact U.
Qed.

Lemma enrollStudent_unique (id studentId : Id) (st : Store) :
  uniqueStudentKeys st = true ->
  uniqueStudentKeys (fst (CourseController.enrollStudent id studentId st)) = true.
Proof.
  intros H.
  unfold CourseController.enrollStudent, CourseController.enrollStudentBody,
    CourseController.saveLoadedStudent, CourseController.saveLoadedCourse. run.
  repeat step; stores; try assumption;
    match goal with
    | F : findById Student._id studentId (students st) = Some ?s |- _ =>
        eapply (unique_setCourses studentId s _ st);
          [eassumption|assumption|reflexivity]
    end.
Qed.

Lemma withdrawStudent_unique (id studentId : Id) (st : Store) :
  uniqueStudentKeys st = true ->
  uniqueStudentKeys (fst (CourseController.withdrawStudent id studentId st)) = true.
Proof.
  intros H.
  unfold CourseController.withdrawStudent, CourseController.withdrawStudentBody,
    CourseController.saveLoadedStudent, CourseController.saveLoadedCourse. run.
  repeat step; stores; try assumption;
    match goal with
    | F : findById Student._id studentId (students st) = Some ?s |- _ =>
        eapply (unique_setCourses studentId s _ st);
          [eassumption|assumption|reflexivity]
    end.
Qed.

(** The handlers of the other collections do not write students. *)
Lemma other_handlers_students (q : Request) (st : Store) :
  match q with
  | PostCourse _ _ | PutCourse _ _ | DeleteCourse _
  | DeleteClass _ | DeleteDepartment _ => students (fst (handle q st)) = students st
  | _ => True
  end.
Proof.
  destruct q; try exact I; cbn [handle].
  - unfold CourseController.createCourse, CourseController.createCourseBody,
      insertCourse. run. repeat step; reflexivity.
  - unfold CourseController.updateCourse, CourseController.updateCourseBody,
      CourseController.checkCourseCode, CourseController.checkPrerequisites,
      saveCourse. run. repeat step; reflexivity.
  - unfold CourseController.deleteCourse, CourseController.deleteCourseBody. run.
    repeat step; reflexivity.
  - unfold ClassController.deleteClass, ClassController.deleteClassBody. run.
    repeat step; reflexivity.
  - unfold DepartmentController.deleteDepartment,
      DepartmentController.deleteDepartmentBody. run.
    repeat step; reflexivity.
Qed.

(** No request of the interface makes two students share an [_id], a roll
    number or an email: the unique keys of the student collection stay
    unique after every request, whether it succeeds or fails. *)
Theorem student_keys_stay_unique (q : Request) (st : Store) :
  uniqueStudentKeys st = true ->
  uniqueStudentKeys (fst (handle q st)) = true.
Proof.
  intros H. pose proof (other_handlers_students q st) as O.
  destruct q as [[newId body|id body|id]|newIds drafts| | | | | | |];
    try (now rewrite (uniqueStudentKeys_students st _ O)); cbn [handle serve].
  - now apply createStudent_unique.
  - now apply updateStudent_unique.
  - now apply deleteStudent_unique.
  - now apply bulkCreateStudents_unique.
  - now apply enrollStudent_unique.
  - now apply withdrawStudent_unique.
Qed.

Lemma student_keys_stay_unique_witness :
  uniqueStudentKeys Sample.twoStudents = true
  /\ uniqueStudentKeys
       (fst (handle (PostBulk Sample.ids [Sample.dan; Sample.ann]) Sample.twoStudents))
     = true.
Proof.
  split; [reflexivity|].
  apply (student_keys_stay_unique
           (PostBulk Sample.ids [Sample.dan; Sample.ann]) Sample.twoStudents).
  reflexivity.
Defined.

(** ** What the requests leave of the course collection *)

Lemma sameCourseKeys_refl (st : Store) : sameCourseKeys st st.
Proof. now repeat split. Qed.

Lemma sameCourseKeys_courses (st st' : Store) :
  courses st' = courses st -> sameCourseKeys st st'.
Proof. unfold sameCourseKeys. now intros ->. Qed.

Lemma sameCourseKeys_inc (ids : list Id) (k : Z) (st st' : Store) :
  courses st' = updateMany Course._id ids (StudentController.incEnrolled k) (courses st) ->
  sameCourseKeys st st'.
Proof.
  unfold sameCourseKeys. intros ->.
  now rewrite !(map_updateMany Course._id) by reflexivity.
Qed.

Lemma sameCourseKeys_counter (id : Id) (c : Course.doc) (n : Z) (st st' : Store) :
  findById Course._id id (courses st) = Some c ->
  courses st' = updateOne Course._id (Course.setEnrolledStudents n c) (courses st) ->
  sameCourseKeys st st'.
Proof.
  unfold sameCourseKeys. intros F ->.
  assert (F' : findById Course._id (Course._id (Course.setEnrolledStudents n c))
                 (courses st) = Some c).
  { cbn. now rewrite (findById_key _ _ _ _ F). }
  now rewrite !(map_updateOne Course._id _ _ c _ F').
Qed.

(** Only the three handlers that create, update and delete a course change
    the ids, the codes or the prerequisite lists of the courses. *)
Lemma courses_frame (q : Request) (st : Store) :
  match q with
  | PostCourse _ _ | PutCourse _ _ | DeleteCourse _ => True
  | _ => sameCourseKeys st (fst (handle q st))
  end.
Proof.
  destruct q as [[newId body|id body|id]|newIds drafts| | | |id studentId
                |id studentId|id|id]; try exact I; cbn [handle serve].
  - unfold StudentController.createStudent, StudentController.createStudentBody,
      insertStudent, saveClass, saveDepartment, StudentController.incCourses. run.
    repeat step; stores;
      first [apply sameCourseKeys_refl
            |now apply sameCourseKeys_courses
            |now apply (sameCourseKeys_inc (requested (StudentData.courses body)) 1)].
  - destruct (updateStudent_phases id body st)
      as [->|(student & b2 & st3 & _ & _ & _ & _ & Ei & Ec & Ep &
              [->|(_ & _ & _ & _ & _ & _ & ->)])];
      [apply sameCourseKeys_refl| |]; now repeat split.
  - unfold StudentController.deleteStudent, StudentController.deleteStudentBody,
      saveClass, saveDepartment, StudentController.incCourses. run.
    repeat step; stores;
      first [apply sameCourseKeys_refl
            |now apply sameCourseKeys_courses
            |match goal with
             | F : findById Student._id id (students st) = Some ?s |- _ =>
                 now apply (sameCourseKeys_inc (Student.courses s) (-1))
             end].
  - unfold StudentController.bulkCreateStudents.
    destruct (Nat.eqb _ 0); [apply sameCourseKeys_refl|].
    destruct (Nat.ltb 100 _); [apply sameCourseKeys_refl|].
    assert (K : forall l i s successes errors,
              courses (fst (StudentController.bulkLoop newIds i l s successes errors))
              = courses s).
    { induction l as [|d l IH]; intros i s successes errors;
        cbn [StudentController.bulkLoop]; [reflexivity|].
      unfold insertStudent. repeat step; rewrite IH; reflexivity. }
    specialize (K drafts 0%nat st [] []).
    destruct (StudentController.bulkLoop newIds 0 drafts st [] [])
      as [st' [successes errors]].
    now apply sameCourseKeys_courses.
  - unfold CourseController.enrollStudent, CourseController.enrollStudentBody,
      CourseController.saveLoadedStudent, CourseController.saveLoadedCourse. run.
    repeat step; stores;
      first [apply sameCourseKeys_refl
            |now apply sameCourseKeys_courses
            |match goal with
             | F : findById Course._id id (courses st) = Some ?c |- _ =>
                 now apply (sameCourseKeys_counter id c
                              (Course.enrolledStudents c + 1))
             end].
  - unfold CourseController.withdrawStudent, CourseController.withdrawStudentBody,
      CourseController.saveLoadedStudent, CourseController.saveLoadedCourse. run.
    repeat step; stores;
      first [apply sameCourseKeys_refl
            |now apply sameCourseKeys_courses
            |match goal with
             | F : findById Course._id id (courses st) = Some ?c |- _ =>
                 now apply (sameCourseKeys_counter id c
                              (Z.max 0 (Course.enrolledStudents c - 1)))
             end].
  - unfold ClassController.deleteClass, ClassController.deleteClassBody. run.
    repeat step; stores; first [apply sameCourseKeys_refl|now apply sameCourseKeys_courses].
  - unfold DepartmentController.deleteDepartment,
      DepartmentController.deleteDepartmentBody. run.
    repeat step; stores; first [apply sameCourseKeys_refl|now apply sameCourseKeys_courses].
Qed.

(** ** The three writes of the course controller *)

(** [createCourse] writes once: where it changes the store it has appended
    the new course, after each of its checks passed. *)
Lemma createCourse_cases (newId : Id) (b : CourseData.body) (st : Store) :
  let r := CourseController.createCourse newId b st in
  (success (snd r) = false /\ fst r = st)
  \/ (success (snd r) = true
      /\ findByIdOpt Department._id (CourseData.department b) (departments st) <> None
      /\ (hasCourses (CourseData.prerequisites b) = true ->
          List.length (findIn Course._id (requested (CourseData.prerequisites b))
                         (courses st))
          = List.length (requested (CourseData.prerequisites b)))
      /\ Course.validate (CourseController.newCourse newId b) = []
      /\ (existsb (fun x => String.eqb (Course._id x) newId) (courses st)
          || courseKeyTaken (CourseController.newCourse newId b) (courses st))%bool
         = false
      /\ fst r = withCourses (courses st ++ [CourseController.newCourse newId b]) st).
Proof.
  unfold CourseController.createCourse, CourseController.createCourseBody,
    insertCourse. run.
  repeat step; stores; try (left; split; reflexivity).
  all: right; repeat split; try assumption; try discriminate.
  all: try (intros Hh; match goal with
                      | H : (_ && negb (Nat.eqb _ _))%bool = false |- _ =>
                          apply andb_false_iff in H as [H|H];
                          [congruence|apply negb_false_iff in H;
                                      now apply Nat.eqb_eq in H]
                      end).
  all: match goal with
       | H : (_ ++ Course.validate _)%list = [] |- _ =>
           now apply app_eq_nil in H
       end.
Qed.

(** [updateCourse] writes once: where it changes the store it has replaced
    the course by the patched document, after each of its checks passed. *)
Lemma updateCourse_cases (id : Id) (b : CoursePatch.body) (st : Store) :
  let r := CourseController.updateCourse id b st in
  (success (snd r) = false /\ fst r = st)
  \/ (success (snd r) = true
      /\ exists course b1,
           findById Course._id id (courses st) = Some course
           /\ CoursePatch.prerequisites b1 = CoursePatch.prerequisites b
           /\ CoursePatch.maxStudents b1 = CoursePatch.maxStudents b
           /\ CoursePatch.enrolledStudents b1 = CoursePatch.enrolledStudents b
           /\ CourseController.maxBelowEnrolled course b1 = false
           /\ (forall l, CoursePatch.prerequisites b = Some l ->
                 List.length (findIn Course._id l (courses st)) = List.length l
                 /\ includes l (Course._id course) = false)
           /\ Course.validate (CourseController.applyPatch b1 course) = []
           /\ courseKeyTaken (CourseController.applyPatch b1 course) (courses st)
              = false
           /\ fst r
              = withCourses
                  (updateOne Course._id (CourseController.applyPatch b1 course)
                     (courses st))
                  st).
Proof.
  unfold CourseController.updateCourse, CourseController.updateCourseBody. run.
  destruct (findById Course._id id (courses st)) as [course|] eqn:Hc;
    [|left; split; reflexivity].
  assert (K : exists st1 o,
            CourseController.checkCourseCode course b st = (st1, o)
            /\ st1 = st
            /\ match o with
               | Continue b1 =>
                   CoursePatch.prerequisites b1 = CoursePatch.prerequisites b
                   /\ CoursePatch.maxStudents b1 = CoursePatch.maxStudents b
                   /\ CoursePatch.enrolledStudents b1 = CoursePatch.enrolledStudents b
               | Return r => success r = false
               | Throw _ => False
               end).
  { unfold CourseController.checkCourseCode. run.
    repeat step; eexists _, _; (split; [reflexivity|]); cbn; repeat split. }
  destruct K as (st1 & o & -> & -> & K).
  destruct o as [b1|r|e]; [|left; now split|destruct K].
  destruct K as (Kp & Km & Ke).
  destruct (CourseController.maxBelowEnrolled course b1) eqn:Hm;
    [left; split; reflexivity|].
  unfold CourseController.checkPrerequisites. rewrite Kp.
  unfold saveCourse. run.
  repeat step; stores; try (left; split; reflexivity).
  all: right; (split; [reflexivity|]); exists course, b1;
    repeat split; try assumption; try discriminate.
  all: try match goal with H : Some _ = Some _ |- _ => injection H as <- end.
  all: try assumption.
  all: try match goal with
           | H : (_ ++ Course.validate _)%list = [] |- _ =>
               now apply app_eq_nil in H
           end.
  all: match goal with
       | H : negb (Nat.eqb _ _) = false |- _ =>
           apply negb_false_iff in H; now apply Nat.eqb_eq in H
       end.
Qed.

(** [deleteCourse] writes once: where it changes the store it has removed
    the course, which no student took and no course required. *)
Lemma deleteCourse_cases (id : Id) (st : Store) :
  let r := CourseController.deleteCourse id st in
  (success (snd r) = false /\ fst r = st)
  \/ (success (snd r) = true
      /\ filter (fun s => includes (Student.courses s) id) (students st) = []
      /\ filter (fun c => includes (Course.prerequisites c) id) (courses st) = []
      /\ fst r = withCourses (findByIdAndDelete Course._id id (courses st)) st).
Proof.
  unfold CourseController.deleteCourse, CourseController.deleteCourseBody,
    countDocuments. run.
  repeat step; stores; try (left; split; reflexivity).
  right. repeat split.
  - destruct (filter _ (students st)); [reflexivity|discriminate].
  - destruct (filter _ (courses st)); [reflexivity|discriminate].
Qed.

(** ** Unique keys of the courses *)

Lemma uniqueCourseKeys_spec (st : Store) :
  uniqueCourseKeys st = true <->
  NoDup (map Course._id (courses st)) /\ NoDup (map Course.courseCode (courses st)).
Proof.
  unfold uniqueCourseKeys. rewrite andb_true_iff, !distinct_NoDup. tauto.
Qed.

Lemma uniqueCourseKeys_same (st st' : Store) :
  sameCourseKeys st st' -> uniqueCourseKeys st' = uniqueCourseKeys st.
Proof. unfold uniqueCourseKeys. now intros (-> & -> & _). Qed.

Lemma courseKeyTaken_false (c : Course.doc) (l : list Course.doc) :
  courseKeyTaken c l = false ->
  forall x, In x l -> Course._id x <> Course._id c ->
    Course.courseCode x <> Course.courseCode c.
Proof.
  unfold courseKeyTaken. intros H x Hx Hid E.
  apply (proj2 (not_true_iff_false _) H). apply existsb_exists. exists x.
  split; [exact Hx|]. apply andb_true_iff.
  split; [apply negb_true_iff; now apply String.eqb_neq|now apply String.eqb_eq].
Qed.

(** No request of the interface makes two courses share an [_id] or a
    course code: the unique keys of the course collection stay unique after
    every request, whether it succeeds or fails. *)
Theorem course_keys_stay_unique (q : Request) (st : Store) :
  uniqueCourseKeys st = true ->
  uniqueCourseKeys (fst (handle q st)) = true.
Proof.
  intros H. pose proof (courses_frame q st) as F.
  destruct q as [q|newIds drafts|newId body|id body|id| | | |];
    try (now rewrite (uniqueCourseKeys_same st _ F)); cbn [handle].
  - destruct (createCourse_cases newId body st) as [[_ ->]|(_ & _ & _ & _ & G & ->)];
      [exact H|].
    apply orb_false_iff in G as [Gid Gkey].
    apply uniqueCourseKeys_spec in H as [Hi Hc].
    assert (Fresh : forall x, In x (courses st) -> Course._id x <> newId).
    { intros x Hx N. apply (proj2 (not_true_iff_false _) Gid).
      apply existsb_exists. exists x. split; [exact Hx|now apply String.eqb_eq]. }
    apply uniqueCourseKeys_spec. stores. rewrite !map_app. cbn [map].
    split; apply NoDup_snoc; auto; intros Hin;
      apply in_map_iff in Hin as (x & Ex & Hx).
    + now apply (Fresh x Hx).
    + now apply (courseKeyTaken_false _ _ Gkey x Hx (Fresh x Hx)).
  - destruct (updateCourse_cases id body st)
      as [[_ ->]|(_ & course & b1 & _ & _ & _ & _ & _ & _ & _ & G & ->)]; [exact H|].
    apply uniqueCourseKeys_spec in H as [Hi Hc].
    apply uniqueCourseKeys_spec. stores. rewrite updateOne_keys.
    split; [exact Hi|].
    apply (NoDup_map_updateOne Course._id); auto.
    intros x Hx Hid. now apply (courseKeyTaken_false _ _ G).
  - destruct (deleteCourse_cases id st) as [[_ ->]|(_ & _ & _ & ->)]; [exact H|].
    apply uniqueCourseKeys_spec in H as [Hi Hc].
    apply uniqueCourseKeys_spec. stores. split; now apply NoDup_map_delete.
Qed.

Lemma course_keys_stay_unique_witness :
  uniqueCourseKeys Sample.twoStudents = true
  /\ uniqueCourseKeys
       (fst (handle (PostCourse "k3" Sample.databases) Sample.twoStudents)) = true.
Proof.
  split; [reflexivity|].
  apply (course_keys_stay_unique (PostCourse "k3" Sample.databases) Sample.twoStudents).
  reflexivity.
Defined.

(** ** Prerequisites that resolve *)

Lemma prerequisitesResolve_spec (st : Store) :
  prerequisitesResolve st = true <->
  forall ps, In ps (map Course.prerequisites (courses st)) ->
  forall p, In p ps -> In p (map Course._id (courses st)).
Proof.
  unfold prerequisitesResolve. rewrite forallb_forall. split.
  - intros H ps Hps p Hp. apply in_map_iff in Hps as (c & <- & Hc).
    specialize (H c Hc). rewrite forallb_forall in H.
    now apply resolves_In, H.
  - intros H c Hc. apply forallb_forall. intros p Hp.
    apply resolves_In. apply (H (Course.prerequisites c)); [now apply in_map|exact Hp].
Qed.

Lemma prerequisitesResolve_same (st st' : Store) :
  sameCourseKeys st st' -> prerequisitesResolve st' = prerequisitesResolve st.
Proof.
  intros (Ei & _ & Ep). apply eq_true_iff_eq.
  now rewrite !prerequisitesResolve_spec, Ei, Ep.
Qed.

(** With unique course ids, every prerequisite of every course is a course
    of the collection after every request, if it was so before: a course
    is created or updated only with prerequisites that exist, and is
    deleted only when no course requires it. *)
Theorem prerequisites_stay_resolved (q : Request) (st : Store) :
  distinct (map Course._id (courses st)) = true ->
  prerequisitesResolve st = true ->
  prerequisitesResolve (fst (handle q st)) = true.
Proof.
  intros U H. apply distinct_NoDup in U. pose proof (courses_frame q st) as F.
  destruct q as [q|newIds drafts|newId body|id body|id| | | |];
    try (now rewrite (prerequisitesResolve_same st _ F)); cbn [handle].
  - destruct (createCourse_cases newId body st) as [[_ ->]|(_ & _ & L & _ & _ & ->)];
      [exact H|].
    rewrite prerequisitesResolve_spec in H. apply prerequisitesResolve_spec. stores.
    rewrite !map_app. intros ps Hps p Hp. apply in_or_app.
    apply in_app_or in Hps as [Hps|[<-|[]]]; [left; now apply (H ps)|].
    left. cbn in Hp.
    destruct (CourseData.prerequisites body) as [l|] eqn:El; [|destruct Hp].
    assert (Hh : hasCourses (Some l) = true) by (destruct l; [destruct Hp|reflexivity]).
    destruct (findIn_all_resolve Course._id l (courses st) U (L Hh) p Hp)
      as (d & Hd & <-).
    now apply in_map.
  - destruct (updateCourse_cases id body st)
      as [[_ ->]|(_ & course & b1 & Hc & Kp & _ & _ & _ & L & _ & _ & ->)];
      [exact H|].
    rewrite prerequisitesResolve_spec in H. apply prerequisitesResolve_spec. stores.
    rewrite updateOne_keys. intros ps Hps p Hp.
    apply in_map_iff in Hps as (c & <- & Hin).
    apply In_updateOne in Hin as [->|Hin];
      [|apply (H (Course.prerequisites c)); [now apply in_map|exact Hp]].
    cbn in Hp. rewrite Kp in Hp.
    destruct (CoursePatch.prerequisites body) as [l|] eqn:El.
    + destruct (L l eq_refl) as [Len _].
      destruct (findIn_all_resolve Course._id l (courses st) U Len p Hp)
        as (d & Hd & <-).
      now apply in_map.
    + apply (H (Course.prerequisites course)); [|exact Hp].
      apply in_map. now apply (findById_In Course._id id).
  - destruct (deleteCourse_cases id st) as [[_ ->]|(_ & _ & Dep & ->)]; [exact H|].
    rewrite prerequisitesResolve_spec in H. apply prerequisitesResolve_spec. stores.
    intros ps Hps p Hp. apply in_map_iff in Hps as (c & <- & Hin).
    apply In_findByIdAndDelete in Hin.
    assert (Hne : p <> id).
    { intros ->. assert (Hf : In c (filter (fun c => includes (Course.prerequisites c) id)
                                      (courses st))).
      { apply filter_In. split; [exact Hin|now apply includes_In]. }
      rewrite Dep in Hf. destruct Hf. }
    apply resolves_In. rewrite (resolves_delete Course._id id p _ Hne).
    apply resolves_In. apply (H (Course.prerequisites c)); [now apply in_map|exact Hp].
Qed.

Lemma prerequisites_stay_resolved_witness :
  distinct (map Course._id (courses Sample.twoStudents)) = true
  /\ prerequisitesResolve Sample.twoStudents = true
  /\ prerequisitesResolve
       (fst (handle (PutCourse "k2" Sample.renameAlgorithms) Sample.twoStudents)) = true.
Proof.
  split; [reflexivity|]. split; [reflexivity|].
  apply (prerequisites_stay_resolved (PutCourse "k2" Sample.renameAlgorithms)
           Sample.twoStudents); reflexivity.
Defined.

(** ** Students whose class and department exist *)

Lemma studentsPlaced_spec (st : Store) :
  studentsPlaced st = true <->
  forall s, In s (students st) ->
    In (Student.class s) (map Class._id (classes st))
    /\ In (Student.department s) (map Department._id (departments st)).
Proof.
  unfold studentsPlaced. rewrite forallb_forall. split.
  - intros H s Hs. specialize (H s Hs). apply andb_true_iff in H as [Hc Hd].
    split; now apply resolves_In.
  - intros H s Hs. destruct (H s Hs) as [Hc Hd]. apply andb_true_iff.
    split; now apply resolves_In.
Qed.

Section Placed.

Variables st st' : Store.
Hypothesis placed : studentsPlaced st = true.
Hypothesis sameClasses : map Class._id (classes st') = map Class._id (classes st).
Hypothesis sameDepartments :
  map Department._id (departments st') = map Department._id (departments st).

Lemma placed_same : students st' = students st -> studentsPlaced st' = true.
Proof.
  intros E. rewrite studentsPlaced_spec in placed. apply studentsPlaced_spec.
  rewrite E, sameClasses, sameDepartments. exact placed.
Qed.

Lemma placed_insert (s : Student.doc) :
  resolves Class._id (Student.class s) (classes st) = true ->
  resolves Department._id (Student.department s) (departments st) = true ->
  students st' = students st ++ [s] -> studentsPlaced st' = true.
Proof.
  intros Hc Hd E. rewrite studentsPlaced_spec in placed. apply studentsPlaced_spec.
  rewrite E, sameClasses, sameDepartments. intros x Hx.
  apply in_app_or in Hx as [Hx|[<-|[]]]; [now apply placed|].
  split; now apply resolves_In.
Qed.

Lemma placed_update (s : Student.doc) :
  resolves Class._id (Student.class s) (classes st) = true ->
  resolves Department._id (Student.department s) (departments st) = true ->
  students st' = updateOne Student._id s (students st) -> studentsPlaced st' = true.
Proof.
  intros Hc Hd E. rewrite studentsPlaced_spec in placed. apply studentsPlaced_spec.
  rewrite E, sameClasses, sameDepartments. intros x Hx.
  apply In_updateOne in Hx as [->|Hx]; [|now apply placed].
  split; now apply resolves_In.
Qed.

Lemma placed_delete (id : Id) :
  students st' = findByIdAndDelete Student._id id (students st) ->
  studentsPlaced st' = true.
Proof.
  intros E. rewrite studentsPlaced_spec in placed. apply studentsPlaced_spec.
  rewrite E, sameClasses, sameDepartments. intros x Hx.
  apply In_findByIdAndDelete in Hx. now apply placed.
Qed.

End Placed.

Lemma placed_found (st : Store) (id : Id) (s : Student.doc) :
  studentsPlaced st = true ->
  findById Student._id id (students st) = Some s ->
  resolves Class._id (Student.class s) (classes st) = true
  /\ resolves Department._id (Student.department s) (departments st) = true.
Proof.
  intros H F. rewrite studentsPlaced_spec in H.
  destruct (H s (findById_In _ _ _ _ F)). split; now apply resolves_In.
Qed.

Lemma findByIdOpt_resolves {D} (key : D -> Id) (o : option Id) (l : list D) (d : D) :
  findByIdOpt key o l = Some d ->
  resolves key (match o with Some c => c | None => EmptyString end) l = true.
Proof.
  intros H. destruct (findByIdOpt_key key o l d H) as [-> F].
  unfold resolves. now rewrite F.
Qed.

Lemma createStudent_placed (newId : Id) (b : StudentData.body) (st : Store) :
  studentsPlaced st = true ->
  studentsPlaced (fst (StudentController.createStudent newId b st)) = true.
Proof.
  intros H.
  unfold StudentController.createStudent, StudentController.createStudentBody,
    insertStudent, saveClass, saveDepartment, StudentController.incCourses. run.
  repeat step; stores; try assumption.
  all: apply (placed_insert st _ H) with
         (s := StudentController.newStudent newId (StudentController.normalised b));
    stores; rewrite ?updateOne_keys; try reflexivity.
  all: match goal with
       | |- resolves Class._id _ _ = true =>
           eapply (findByIdOpt_resolves Class._id); eassumption
       | |- resolves Department._id _ _ = true =>
           eapply (findByIdOpt_resolves Department._id); eassumption
       end.
Qed.

Lemma updateStudent_placed (id : Id) (b : StudentPatch.body) (st : Store) :
  studentsPlaced st = true ->
  studentsPlaced (fst (StudentController.updateStudent id b st)) = true.
Proof.
  intros H.
  destruct (updateStudent_phases id b st)
    as [->|(student & b2 & st3 & Hs & Es & Ec & Ed & _ & _ & _ &
            [->|(S & _ & V & Kc & Kd & _ & ->)])]; [exact H| |].
  - now apply (placed_same st st3).
  - destruct (updateStudent_success id b st S)
      as (student' & _ & Hs' & _ & _ & _ & _ & Fc & Fd & _).
    rewrite Hs in Hs'. injection Hs' as <-.
    destruct (placed_found st id student H Hs) as [Pc Pd].
    apply validatePatched_references in V as [Vc Vd].
    cbn [StudentController.applyPatch Student.class Student.department] in Vc, Vd.
    apply (placed_update st _ H) with (s := StudentController.applyPatch b2 student);
      stores; try assumption; [| |now rewrite Es];
      cbn [StudentController.applyPatch Student.class Student.department].
    + rewrite Kc in *.
      destruct (changed (StudentPatch.class b) (Student.class student)) as [n|] eqn:Ch.
      * destruct (changed_some _ _ _ Ch) as [-> _].
        specialize (Fc n eq_refl). unfold resolves.
        now destruct (findById Class._id n (classes st)).
      * destruct (changed_none _ _ Ch) as [E|[E|E]]; rewrite E in *;
          [exact Pc|cbn in Vc; discriminate Vc|exact Pc].
    + rewrite Kd in *.
      destruct (changed (StudentPatch.department b) (Student.department student))
        as [n|] eqn:Ch.
      * destruct (changed_some _ _ _ Ch) as [-> _].
        specialize (Fd n eq_refl). unfold resolves.
        now destruct (findById Department._id n (departments st)).
      * destruct (changed_none _ _ Ch) as [E|[E|E]]; rewrite E in *;
          [exact Pd|cbn in Vd; discriminate Vd|exact Pd].
Qed.

Lemma deleteStudent_placed (id : Id) (st : Store) :
  studentsPlaced st = true ->
  studentsPlaced (fst (StudentController.deleteStudent id st)) = true.
Proof.
  intros H.
  unfold StudentController.deleteStudent, StudentController.deleteStudentBody,
    saveClass, saveDepartment, StudentController.incCourses. run.
  repeat step; stores; try assumption.
  all: first [solve [apply (placed_delete st _ H) with (id := id);
                     stores; rewrite ?updateOne_keys; reflexivity]
             |solve [apply (placed_same st _ H);
                     stores; rewrite ?updateOne_keys; reflexivity]].
Qed.

Lemma enrollStudent_placed (id studentId : Id) (st : Store) :
  studentsPlaced st = true ->
  studentsPlaced (fst (CourseController.enrollStudent id studentId st)) = true.
Proof.
  intros H.
  unfold CourseController.enrollStudent, CourseController.enrollStudentBody,
    CourseController.saveLoadedStudent, CourseController.saveLoadedCourse. run.
  repeat step; stores; try assumption.
  all: match goal with
       | F : findById Student._id _ (students _) = Some ?x |- _ =>
           destruct (placed_found st studentId x H F) as [Pc Pd];
           apply (placed_update st _ H) with
             (s := Student.setCourses (Student.courses x ++ [id]) x);
           stores; try reflexivity; first [exact Pc|exact Pd]
       end.
Qed.

Lemma withdrawStudent_placed (id studentId : Id) (st : Store) :
  studentsPlaced st = true ->
  studentsPlaced (fst (CourseController.withdrawStudent id studentId st)) = true.
Proof.
  intros H.
  unfold CourseController.withdrawStudent, CourseController.withdrawStudentBody,
    CourseController.saveLoadedStudent, CourseController.saveLoadedCourse. run.
  repeat step; stores; try assumption.
  all: match goal with
       | F : findById Student._id _ (students _) = Some ?x |- _ =>
           destruct (placed_found st studentId x H F) as [Pc Pd];
           eapply (placed_update st _ H) with (s := Student.setCourses _ x);
           stores; try reflexivity; assumption
       end.
Qed.

Lemma countDocuments_zero {A} (p : A -> bool) (l : list A) (x : A) :
  Nat.ltb 0 (countDocuments p l) = false -> In x l -> p x = false.
Proof.
  unfold countDocuments. intros H Hx.
  destruct (p x) eqn:E; [|reflexivity].
  assert (Hf : In x (filter p l)) by (apply filter_In; now split).
  destruct (filter p l); [destruct Hf|discriminate].
Qed.

Lemma deleteClass_placed (id : Id) (st : Store) :
  studentsPlaced st = true ->
  studentsPlaced (fst (ClassController.deleteClass id st)) = true.
Proof.
  intros H.
  unfold ClassController.deleteClass, ClassController.deleteClassBody. run.
  repeat step; stores; try assumption.
  rewrite studentsPlaced_spec in H. apply studentsPlaced_spec. stores.
  intros s Hs. destruct (H s Hs) as [Hc Hd]. split; [|exact Hd].
  apply resolves_In. rewrite resolves_delete; [now apply resolves_In|].
  intros E. pose proof (countDocuments_zero _ _ s Heqb Hs) as N. cbn in N.
  apply String.eqb_neq in N. contradiction.
Qed.

Lemma deleteDepartment_placed (id : Id) (st : Store) :
  studentsPlaced st = true ->
  studentsPlaced (fst (DepartmentController.deleteDepartment id st)) = true.
Proof.
  intros H.
  unfold DepartmentController.deleteDepartment,
    DepartmentController.deleteDepartmentBody. run.
  repeat step; stores; try assumption.
  rewrite studentsPlaced_spec in H. apply studentsPlaced_spec. stores.
  intros s Hs. destruct (H s Hs) as [Hc Hd]. split; [exact Hc|].
  apply resolves_In. rewrite resolves_delete; [now apply resolves_In|].
  intros E. apply orb_false_iff in Heqb as [Heqb _].
  apply orb_false_iff in Heqb as [_ Heqb].
  pose proof (countDocuments_zero _ _ s Heqb Hs) as N. cbn in N.
  apply String.eqb_neq in N. contradiction.
Qed.

(** The handlers of the course collection do not write students, classes or
    departments. *)
Lemma course_handlers_placed (q : Request) (st : Store) :
  studentsPlaced st = true ->
  match q with
  | PostCourse _ _ | PutCourse _ _ | DeleteCourse _ =>
      studentsPlaced (fst (handle q st)) = true
  | _ => True
  end.
Proof.
  intros H. destruct q as [| |newId body|id body|id| | | |]; try exact I; cbn [handle].
  - now destruct (createCourse_cases newId body st) as [[_ ->]|(_ & _ & _ & _ & _ & ->)].
  - now destruct (updateCourse_cases id body st)
      as [[_ ->]|(_ & course & b1 & _ & _ & _ & _ & _ & _ & _ & _ & ->)].
  - now destruct (deleteCourse_cases id st) as [[_ ->]|(_ & _ & _ & ->)].
Qed.

(** Apart from the bulk endpoint, no request leaves a student whose class or
    department does not exist, if there was none before: a student is
    created in or moved to a class and a department that exist, and a class
    or a department is deleted only when no student is in it. *)
Theorem students_stay_placed (q : Request) (st : Store) :
  isBulk q = false ->
  studentsPlaced st = true ->
  studentsPlaced (fst (handle q st)) = true.
Proof.
  intros B H. pose proof (course_handlers_placed q st H) as C.
  destruct q as [[newId body|id body|id]|newIds drafts| | | |id studentId
                |id studentId|id|id]; try exact C; try discriminate B;
    cbn [handle serve].
  - now apply createStudent_placed.
  - now apply updateStudent_placed.
  - now apply deleteStudent_placed.
  - now apply enrollStudent_placed.
  - now apply withdrawStudent_placed.
  - now apply deleteClass_placed.
  - now apply deleteDepartment_placed.
Qed.

Lemma students_stay_placed_witness :
  isBulk (DeleteClass "c2") = false
  /\ studentsPlaced Sample.twoStudents = true
  /\ studentsPlaced (fst (handle (DeleteClass "c2") Sample.twoStudents)) = true.
Proof.
  split; [reflexivity|]. split; [reflexivity|].
  apply (students_stay_placed (DeleteClass "c2") Sample.twoStudents); reflexivity.
Defined.

(** ** What the bulk loop and the update leave alone *)

Lemma bulkLoop_frame (newIds : nat -> Id) (l : list StudentData.body) :
  forall i st successes errors,
  let st' := fst (StudentController.bulkLoop newIds i l st successes errors) in
  departments st' = departments st /\ classes st' = classes st
  /\ courses st' = courses st.
Proof.
  induction l as [|d l IH]; intros i st successes errors;
    cbn [StudentController.bulkLoop]; [now repeat split|].
  unfold insertStudent. repeat step;
    match goal with
    | |- context [StudentController.bulkLoop newIds ?i l ?s ?a ?b] =>
        destruct (IH i s a b) as (-> & -> & ->)
    end; now repeat split.
Qed.

(** An invariant that every phase of the update keeps, and that does not
    depend on the students, holds after the update. *)
Lemma updateStudent_keeps (P : Store -> Prop) (id : Id) (b : StudentPatch.body)
    (st : Store) :
  (forall student b st, P st ->
     P (fst (StudentController.handleClassChange student b st))) ->
  (forall student b st, P st ->
     P (fst (StudentController.handleDepartmentChange student b st))) ->
  (forall student b st, P st ->
     P (fst (StudentController.handleCoursesChange student b st))) ->
  (forall l st, P st -> P (withStudents l st)) ->
  P st -> P (fst (StudentController.updateStudent id b st)).
Proof.
  intros Kc Kd Kk Ks H.
  unfold StudentController.updateStudent, StudentController.updateStudentBody. run.
  destruct (findById Student._id id (students st)) as [student|]; [|exact H].
  pose proof (checkEmail_store student b st) as E1.
  destruct (StudentController.checkEmail student b st) as [st0 [b1| |]];
    cbn [fst] in E1; subst st0; try exact H.
  pose proof (checkRollNumber_store student b1 st) as E2.
  destruct (StudentController.checkRollNumber student b1 st) as [st0 [b2| |]];
    cbn [fst] in E2; subst st0; try exact H.
  specialize (Kc student b2 st H).
  destruct (StudentController.handleClassChange student b2 st) as [st1 [[]| |]];
    cbn [fst] in Kc; try exact Kc.
  specialize (Kd student b2 st1 Kc).
  destruct (StudentController.handleDepartmentChange student b2 st1) as [st2 [[]| |]];
    cbn [fst] in Kd; try exact Kd.
  specialize (Kk student b2 st2 Kd).
  destruct (StudentController.handleCoursesChange student b2 st2) as [st3 [[]| |]];
    cbn [fst] in Kk; try exact Kk.
  unfold saveStudent. repeat step; stores; try exact Kk. now apply Ks.
Qed.

(** ** Requests that fail without a trace *)

Lemma validStore_spec (st : Store) :
  validStore st = true <->
  (forall c, In c (classes st) -> Class.validate c = [])
  /\ (forall d, In d (departments st) -> Department.validate d = [])
  /\ (forall c, In c (courses st) -> Course.validate c = []).
Proof.
  unfold validStore. rewrite !andb_true_iff, !forallb_forall.
  assert (E : forall l : list string, negb (nonEmpty l) = true <-> l = []).
  { intros [|x l]; cbn; split; congruence. }
  split.
  - intros ((Hc & Hd) & Hk). repeat split; intros x Hx; apply E; auto.
  - intros (Hc & Hd & Hk). repeat split; intros x Hx; apply E; auto.
Qed.

Lemma validate_strength (c : Class.doc) (n : Z) :
  Class.validate c = [] -> 0 <= n ->
  Class.validate (Class.setCurrentStrength n c) = [].
Proof.
  unfold Class.validate. cbn. intros V Hn.
  destruct (Class.capacity c <? 1); [discriminate|].
  destruct (100 <? Class.capacity c); [discriminate|].
  destruct (Z.ltb_spec (Class.currentStrength c) 0); [discriminate|].
  destruct (Z.ltb_spec n 0); [lia|reflexivity].
Qed.

Lemma validate_strength_nonneg (c : Class.doc) :
  Class.validate c = [] -> 0 <= Class.currentStrength c.
Proof.
  unfold Class.validate. intros V.
  destruct (Class.capacity c <? 1); [discriminate|].
  destruct (100 <? Class.capacity c); [discriminate|].
  destruct (Z.ltb_spec (Class.currentStrength c) 0); [discriminate|]. lia.
Qed.

Lemma validate_total (d : Department.doc) (n : Z) :
  Department.validate d = [] -> 0 <= n ->
  Department.validate (Department.setTotalStudents n d) = [].
Proof.
  unfold Department.validate. cbn. intros V Hn.
  destruct (Department.totalFaculty d <? 0); [discriminate|].
  destruct (Z.ltb_spec (Department.totalStudents d) 0); [discriminate|].
  destruct (Z.ltb_spec n 0); [lia|reflexivity].
Qed.

Lemma validate_total_nonneg (d : Department.doc) :
  Department.validate d = [] -> 0 <= Department.totalStudents d.
Proof.
  unfold Department.validate. intros V.
  destruct (Department.totalFaculty d <? 0); [discriminate|].
  destruct (Z.ltb_spec (Department.totalStudents d) 0); [discriminate|]. lia.
Qed.

Lemma validate_enrolled (c : Course.doc) (n : Z) :
  Course.validate c = [] -> 0 <= n ->
  Course.validate (Course.setEnrolledStudents n c) = [].
Proof.
  unfold Course.validate. cbn. intros V Hn.
  destruct (Course.maxStudents c) as [m|].
  - destruct (m <? 1); [discriminate|]. destruct (100 <? m); [discriminate|].
    destruct (Z.ltb_spec (Course.enrolledStudents c) 0); [discriminate|].
    destruct (Z.ltb_spec n 0); [lia|reflexivity].
  - destruct (Z.ltb_spec (Course.enrolledStudents c) 0); [discriminate|].
    destruct (Z.ltb_spec n 0); [lia|reflexivity].
Qed.

Lemma validate_enrolled_nonneg (c : Course.doc) :
  Course.validate c = [] -> 0 <= Course.enrolledStudents c.
Proof.
  unfold Course.validate. intros V.
  destruct (Z.ltb_spec (Course.enrolledStudents c) 0); [|lia].
  now apply app_eq_nil in V as [_ V].
Qed.

Lemma findByIdOpt_In {D} (key : D -> Id) (o : option Id) (l : list D) (d : D) :
  findByIdOpt key o l = Some d -> In d l.
Proof.
  intros H. destruct (findByIdOpt_key key o l d H) as [_ F].
  now apply (findById_In key (key d)).
Qed.

Lemma createStudent_all_or_nothing (newId : Id) (b : StudentData.body) (st : Store) :
  validStore st = true ->
  success (snd (StudentController.createStudent newId b st)) = false ->
  fst (StudentController.createStudent newId b st) = st.
Proof.
  intros V. apply validStore_spec in V as (Vc & Vd & _).
  unfold StudentController.createStudent, StudentController.createStudentBody,
    insertStudent, saveClass, saveDepartment, StudentController.incCourses. run.
  repeat step; stores; intros S; try reflexivity; try discriminate S; exfalso.
  all: match goal with
       | F : findByIdOpt Class._id _ _ = Some ?c,
         E : Class.validate (Class.setCurrentStrength _ ?c) = _ :: _ |- _ =>
           pose proof (Vc c (findByIdOpt_In _ _ _ _ F)) as Vx;
           rewrite (validate_strength c _ Vx) in E;
           [discriminate E|pose proof (validate_strength_nonneg c Vx); lia]
       | F : findByIdOpt Department._id _ _ = Some ?d,
         E : Department.validate (Department.setTotalStudents _ ?d) = _ :: _ |- _ =>
           pose proof (Vd d (findByIdOpt_In _ _ _ _ F)) as Vx;
           rewrite (validate_total d _ Vx) in E;
           [discriminate E|pose proof (validate_total_nonneg d Vx); lia]
       end.
Qed.

Lemma enrollStudent_all_or_nothing (id studentId : Id) (st : Store) :
  validStore st = true ->
  success (snd (CourseController.enrollStudent id studentId st)) = false ->
  fst (CourseController.enrollStudent id studentId st) = st.
Proof.
  intros V. apply validStore_spec in V as (_ & _ & Vk).
  unfold CourseController.enrollStudent, CourseController.enrollStudentBody,
    CourseController.saveLoadedStudent, CourseController.saveLoadedCourse. run.
  repeat step; stores; intros S; try reflexivity; try discriminate S; exfalso.
  match goal with
  | F : findById Course._id _ _ = Some ?c,
    E : Course.validate (Course.setEnrolledStudents _ ?c) = _ :: _ |- _ =>
      pose proof (Vk c (findById_In _ _ _ _ F)) as Vx;
      rewrite (validate_enrolled c _ Vx) in E;
      [discriminate E|pose proof (validate_enrolled_nonneg c Vx); lia]
  end.
Qed.

Lemma withdrawStudent_all_or_nothing (id studentId : Id) (st : Store) :
  validStore st = true ->
  success (snd (CourseController.withdrawStudent id studentId st)) = false ->
  fst (CourseController.withdrawStudent id studentId st) = st.
Proof.
  intros V. apply validStore_spec in V as (_ & _ & Vk).
  unfold CourseController.withdrawStudent, CourseController.withdrawStudentBody,
    CourseController.saveLoadedStudent, CourseController.saveLoadedCourse. run.
  repeat step; stores; intros S; try reflexivity; try discriminate S; exfalso.
  match goal with
  | F : findById Course._id _ _ = Some ?c,
    E : Course.validate (Course.setEnrolledStudents _ ?c) = _ :: _ |- _ =>
      pose proof (Vk c (findById_In _ _ _ _ F)) as Vx;
      rewrite (validate_enrolled c _ Vx) in E; [discriminate E|lia]
  end.
Qed.

(** On a store whose documents pass their validators, a request to create
    a student, to create, update or delete a course, to enrol or withdraw a
    student, or to delete a class or a department either succeeds or leaves
    the store exactly as it was.  (The update and the deletion of a student
    and the bulk creation are the handlers that can fail after a write.) *)
Theorem failed_request_changes_nothing (q : Request) (st : Store) :
  writesAtOnce q = true ->
  validStore st = true ->
  success (snd (handle q st)) = false ->
  fst (handle q st) = st.
Proof.
  intros W V.
  destruct q as [[newId body|id body|id]|newIds drafts|newId body|id body|id
                |id studentId|id studentId|id|id]; try discriminate W;
    cbn [handle serve].
  - now apply createStudent_all_or_nothing.
  - destruct (createCourse_cases newId body st) as [[_ E]|[S _]];
      [intros _; exact E|intros F; rewrite F in S; discriminate S].
  - destruct (updateCourse_cases id body st) as [[_ E]|[S _]];
      [intros _; exact E|intros F; rewrite F in S; discriminate S].
  - destruct (deleteCourse_cases id st) as [[_ E]|[S _]];
      [intros _; exact E|intros F; rewrite F in S; discriminate S].
  - now apply enrollStudent_all_or_nothing.
  - now apply withdrawStudent_all_or_nothing.
  - unfold ClassController.deleteClass, ClassController.deleteClassBody. run.
    repeat step; stores; intros S; try reflexivity; discriminate S.
  - unfold DepartmentController.deleteDepartment,
      DepartmentController.deleteDepartmentBody. run.
    repeat step; stores; intros S; try reflexivity; discriminate S.
Qed.

Lemma failed_request_changes_nothing_witness :
  writesAtOnce (PostEnroll "k1" "s1") = true
  /\ validStore Sample.twoStudents = true
  /\ success (snd (handle (PostEnroll "k1" "s1") Sample.twoStudents)) = false
  /\ fst (handle (PostEnroll "k1" "s1") Sample.twoStudents) = Sample.twoStudents.
Proof.
  split; [reflexivity|]. split; [reflexivity|]. split; [reflexivity|].
  apply (failed_request_changes_nothing (PostEnroll "k1" "s1") Sample.twoStudents);
    reflexivity.
Defined.

(** ** Deleting a student when the counters match *)

Lemma countWhere_positive {A} (p : A -> bool) (l : list A) (x : A) :
  In x l -> p x = true -> 1 <= countWhere p l.
Proof.
  intros Hx Hp. unfold countWhere.
  pose proof (sumOf_lower (fun y => if p y then 1 else 0) l x) as L.
  cbn in L. rewrite Hp in L. apply L; [|exact Hx].
  intros y _. destruct (p y); lia.
Qed.

(** On a store whose documents pass their validators and whose counters
    match, the deletion of a student that exists always succeeds: it
    answers 200 with the id, the name and the roll number of the student,
    and the document is removed. *)
Theorem deleteStudent_succeeds (id : Id) (st : Store) (student : Student.doc) :
  validStore st = true ->
  countersMatch st = true ->
  findById Student._id id (students st) = Some student ->
  snd (StudentController.deleteStudent id st)
  = ok 200 (StudentDeleted id (Student.name student) (Student.rollNumber student))
  /\ students (fst (StudentController.deleteStudent id st))
     = findByIdAndDelete Student._id id (students st).
Proof.
  intros V M Hs. apply validStore_spec in V as (Vc & Vd & _).
  apply countersMatch_spec in M as (Mc & Md & _).
  pose proof (findById_In _ _ _ _ Hs) as Hin.
  unfold StudentController.deleteStudent, StudentController.deleteStudentBody,
    StudentController.incCourses. run. rewrite Hs.
  assert (Sc : forall c, findById Class._id (Student.class student) (classes st) = Some c ->
               saveClass (Class.setCurrentStrength (Class.currentStrength c - 1) c) st
               = Saved (withClasses
                          (updateOne Class._id
                             (Class.setCurrentStrength (Class.currentStrength c - 1) c)
                             (classes st)) st)).
  { intros c F. unfold saveClass.
    pose proof (findById_In _ _ _ _ F) as Hc.
    rewrite validate_strength; [reflexivity|now apply Vc|].
    rewrite (Mc c Hc). unfold studentsOfClass.
    pose proof (countWhere_positive
                  (fun s => String.eqb (Student.class s) (Student.class student))
                  (students st) student Hin (String.eqb_refl _)) as P.
    rewrite (findById_key _ _ _ _ F). lia. }
  assert (Sd : forall d s,
               departments s = departments st ->
               findById Department._id (Student.department student) (departments st)
               = Some d ->
               saveDepartment
                 (Department.setTotalStudents (Department.totalStudents d - 1) d) s
               = Saved (withDepartments
                          (updateOne Department._id
                             (Department.setTotalStudents
                                (Department.totalStudents d - 1) d)
                             (departments s)) s)).
  { intros d s _ F. unfold saveDepartment.
    pose proof (findById_In _ _ _ _ F) as Hd.
    rewrite validate_total; [reflexivity|now apply Vd|].
    rewrite (Md d Hd). unfold studentsOfDepartment.
    pose proof (countWhere_positive
                  (fun s => String.eqb (Student.department s)
                              (Student.department student))
                  (students st) student Hin (String.eqb_refl _)) as P.
    rewrite (findById_key _ _ _ _ F). lia. }
  destruct (findById Class._id (Student.class student) (classes st)) as [c|] eqn:Fc;
    [rewrite (Sc c eq_refl)|]; stores;
    (destruct (findById Department._id (Student.department student) (departments st))
       as [d|] eqn:Fd;
     [rewrite (Sd d) by first [reflexivity|assumption]|]); stores;
    destruct (nonEmpty (Student.courses student)); cbn; split; reflexivity.
Qed.

Lemma deleteStudent_succeeds_witness :
  validStore Sample.twoStudents = true
  /\ countersMatch Sample.twoStudents = true
  /\ findById Student._id "s5" (students Sample.twoStudents)
     = Some (Sample.student "s5" Sample.eve)
  /\ snd (StudentController.deleteStudent "s5" Sample.twoStudents)
     = ok 200 (StudentDeleted "s5" (Student.name (Sample.student "s5" Sample.eve))
                 (Student.rollNumber (Sample.student "s5" Sample.eve)))
  /\ students (fst (StudentController.deleteStudent "s5" Sample.twoStudents))
     = findByIdAndDelete Student._id "s5" (students Sample.twoStudents).
Proof.
  split; [reflexivity|]. split; [reflexivity|]. split; [reflexivity|].
  apply (deleteStudent_succeeds "s5" Sample.twoStudents
           (Sample.student "s5" Sample.eve)); reflexivity.
Defined.

(** ** Withdrawing *)

Lemma withdrawStudent_enrolled (id studentId : Id) (st : Store)
    (course : Course.doc) (student : Student.doc) :
  falsy studentId = false ->
  findById Course._id id (courses st) = Some course ->
  findById Student._id studentId (students st) = Some student ->
  includes (Student.courses student) id = true ->
  let unenrolled :=
    withStudents
      (updateOne Student._id
         (Student.setCourses
            (filter (fun courseId => negb (String.eqb courseId id))
               (Student.courses student))
            student)
         (students st)) st in
  let course' :=
    Course.setEnrolledStudents (Z.max 0 (Course.enrolledStudents course - 1)) course in
  CourseController.withdrawStudent id studentId st
  = match Course.validate course' with
    | [] => (withCourses (updateOne Course._id course' (courses st)) unenrolled,
             ok 200 (Withdrawn studentId id))
    | msgs => (unenrolled, fail 500 (ServerError (ValidationError msgs)))
    end.
Proof.
  intros G Hc Hs Hi. cbv zeta.
  unfold CourseController.withdrawStudent, CourseController.withdrawStudentBody,
    CourseController.saveLoadedStudent, CourseController.saveLoadedCourse. run.
  rewrite G, Hc, Hs, Hi. cbn [negb]. stores.
  rewrite (findById_key _ _ _ _ Hc), (findById_key _ _ _ _ Hs).
  destruct (Course.validate _); reflexivity.
Qed.

(** The decision list of [withdrawStudent] on ids in canonical form. *)
Lemma withdrawStudent_decisions (id studentId : Id) (st : Store) :
  let r := CourseController.withdrawStudent id studentId st in
  (falsy studentId = true -> r = (st, fail 400 StudentIdRequired))
  /\ (falsy studentId = false ->
      (findById Course._id id (courses st) = None ->
       r = (st, fail 404 CourseNotFound))
      /\ forall course,
         findById Course._id id (courses st) = Some course ->
         (findById Student._id studentId (students st) = None ->
          r = (st, fail 404 StudentNotFound))
         /\ forall student,
            findById Student._id studentId (students st) = Some student ->
            (includes (Student.courses student) id = false ->
             r = (st, fail 400 NotEnrolled))
            /\ (includes (Student.courses student) id = true ->
                (exists student',
                   findById Student._id studentId (students (fst r)) = Some student'
                   /\ includes (Student.courses student') id = false)
                /\ (success (snd r) = true ->
                    snd r = ok 200 (Withdrawn studentId id)
                    /\ findById Course._id id (courses (fst r))
                       = Some (Course.setEnrolledStudents
                                 (Z.max 0 (Course.enrolledStudents course - 1))
                                 course))
                /\ (success (snd r) = false ->
                    status (snd r) = 500 /\ courses (fst r) = courses st))).
Proof.
  cbv zeta. split; [|intros G; split; [|intros course Hc; split;
                                         [|intros student Hs; split]]].
  - intros G. unfold CourseController.withdrawStudent,
      CourseController.withdrawStudentBody. run. now rewrite G.
  - intros Hc. unfold CourseController.withdrawStudent,
      CourseController.withdrawStudentBody. run. now rewrite G, Hc.
  - intros Hs. unfold CourseController.withdrawStudent,
      CourseController.withdrawStudentBody. run. now rewrite G, Hc, Hs.
  - intros Hi. unfold CourseController.withdrawStudent,
      CourseController.withdrawStudentBody. run. now rewrite G, Hc, Hs, Hi.
  - intros Hi. rewrite (withdrawStudent_enrolled id studentId st course student G Hc Hs Hi).
    set (student' := Student.setCourses _ student).
    assert (Hs' : findById Student._id studentId
                    (updateOne Student._id student' (students st)) = Some student').
    { pose proof (findById_key _ _ _ _ Hs) as K.
      replace studentId with (Student._id student') by exact K.
      apply (findById_updateOne Student._id student' student).
      cbn. rewrite K. exact Hs. }
    assert (Hi' : includes (Student.courses student') id = false).
    { subst student'. cbn [Student.courses Student.setCourses].
      rewrite includes_filter, String.eqb_refl. apply andb_false_r. }
    destruct (Course.validate _) eqn:V; stores.
    + split; [exists student'; now split|]. split; [|discriminate].
      intros _. split; [reflexivity|].
      pose proof (findById_key _ _ _ _ Hc) as K.
      set (course' := Course.setEnrolledStudents _ course).
      replace id with (Course._id course') by exact K.
      apply (findById_updateOne Course._id course' course).
      cbn. rewrite K. exact Hc.
    + split; [exists student'; now split|]. split; [discriminate|].
      intros _. split; reflexivity.
Qed.

(** ** Enrolling, then withdrawing *)





(** ** The course list of an update is not checked *)

Lemma filter_nil {A} (p : A -> bool) (l : list A) :
  (forall x, In x l -> p x = false) -> filter p l = [].
Proof.
  induction l as [|x l IH]; intros H; [reflexivity|]. cbn.
  rewrite (H x (or_introl eq_refl)). apply IH. intros y Hy. apply H. now right.
Qed.

Lemma findIn_unknown (ids : list Id) (l : list Course.doc) :
  (forall k, In k ids -> resolves Course._id k l = false) ->
  findIn Course._id ids l = [].
Proof.
  intros N. apply filter_nil. intros c Hc.
  destruct (includes ids (Course._id c)) eqn:I; [|reflexivity].
  apply includes_In in I. specialize (N _ I).
  assert (R : resolves Course._id (Course._id c) l = true)
    by (apply resolves_In; now apply in_map).
  congruence.
Qed.

(** [updateStudent] stores the course list of the request as it is: a list
    of ids none of which is a course is accepted with status 200, and the
    student then lists courses that do not exist (where [createStudent]
    refuses such a list with 404). *)
Theorem updateStudent_accepts_unknown_courses (id : Id) (l : list Id) (st : Store)
    (student : Student.doc) :
  findById Student._id id (students st) = Some student ->
  StudentController.validatePatched (coursesOnly l) student = [] ->
  studentKeyTaken student (students st) = false ->
  (forall k, In k l -> resolves Course._id k (courses st) = false) ->
  let r := StudentController.updateStudent id (coursesOnly l) st in
  status (snd r) = 200 /\ success (snd r) = true
  /\ findById Student._id id (students (fst r)) = Some (Student.setCourses l student).
Proof.
  intros Hs V T N. cbv zeta.
  pose proof (findById_key _ _ _ _ Hs) as K.
  assert (F : forall s, students s = students st ->
              findById Student._id id
                (updateOne Student._id (Student.setCourses l student) (students s))
              = Some (Student.setCourses l student)).
  { intros s ->. replace id with (Student._id (Student.setCourses l student)) by exact K.
    apply (findById_updateOne Student._id _ student). cbn. now rewrite K. }
  assert (P1 : StudentController.checkEmail student (coursesOnly l) st
               = (st, Continue (coursesOnly l))) by reflexivity.
  assert (P2 : StudentController.checkRollNumber student (coursesOnly l) st
               = (st, Continue (coursesOnly l))) by reflexivity.
  assert (P3 : StudentController.handleClassChange student (coursesOnly l) st
               = (st, Continue tt)) by reflexivity.
  assert (P4 : StudentController.handleDepartmentChange student (coursesOnly l) st
               = (st, Continue tt)) by reflexivity.
  assert (P5 : exists st3,
               StudentController.handleCoursesChange student (coursesOnly l) st
               = (st3, Continue tt) /\ students st3 = students st).
  { unfold StudentController.handleCoursesChange, StudentController.incCourses.
    cbn [coursesOnly StudentPatch.courses]. run.
    set (toRemove := filter (fun c => negb (includes l c)) (Student.courses student)).
    set (toAdd := filter (fun c => negb (includes (Student.courses student) c)) l).
    assert (E : forall cs, map Course._id cs = map Course._id (courses st) ->
                findIn Course._id toAdd cs = []).
    { intros cs Ek. apply findIn_unknown. intros k Hk.
      rewrite (resolves_keys Course._id k (courses st) cs Ek). apply N.
      subst toAdd. now apply filter_In in Hk as [Hk _]. }
    destruct (nonEmpty toRemove); destruct (nonEmpty toAdd); stores;
      rewrite ?E by (rewrite ?(map_updateMany Course._id) by reflexivity; reflexivity);
      cbn [filter nonEmpty]; eexists; split; reflexivity. }
  destruct P5 as (st3 & P5 & E3).
  unfold StudentController.updateStudent, StudentController.updateStudentBody. run.
  rewrite Hs, P1, P2, P3, P4, P5. unfold saveStudent.
  change (StudentController.validatePatched (coursesOnly l)
            (StudentController.applyPatch (coursesOnly l) student))
    with (StudentController.validatePatched (coursesOnly l) student).
  rewrite V.
  change (StudentController.applyPatch (coursesOnly l) student)
    with (Student.setCourses l student).
  change (studentKeyTaken (Student.setCourses l student) (students st3))
    with (studentKeyTaken student (students st3)).
  rewrite E3, T. stores. rewrite <- E3.
  split; [reflexivity|]. split; [reflexivity|]. now apply F.
Qed.

Lemma updateStudent_accepts_unknown_courses_witness :
  let r := StudentController.updateStudent "s1" (coursesOnly ["k9"]) Sample.twoStudents in
  resolves Course._id "k9" (courses Sample.twoStudents) = false
  /\ status (snd r) = 200 /\ success (snd r) = true
  /\ findById Student._id "s1" (students (fst r))
     = Some (Student.setCourses ["k9"] (Sample.student "s1" Sample.ann)).
Proof.
  cbv zeta. split; [reflexivity|].
  apply (updateStudent_accepts_unknown_courses "s1" ["k9"] Sample.twoStudents
           (Sample.student "s1" Sample.ann)); try reflexivity.
  intros k [<-|[]]. reflexivity.
Defined.

(** ** Breakdowns that add up *)

Section Groups.

Context {A : Type} (rank : A -> Z).


Lemma filter_filter (p q : A -> bool) (l : list A) :
  filter p (filter q l) = filter q (filter p l).
Proof.
  induction l as [|x l IH]; [reflexivity|]. cbn.
  destruct (p x) eqn:P, (q x) eqn:Q; cbn; rewrite ?P, ?Q, IH; reflexivity.
Qed.

Lemma filter_idem (p : A -> bool) (l : list A) : filter p (filter p l) = filter p l.
Proof.
  induction l as [|x l IH]; [reflexivity|]. cbn.
  destruct (p x) eqn:P; cbn; rewrite ?P, IH; reflexivity.
Qed.

Lemma filter_length_le (p : A -> bool) (l : list A) :
  (List.length (filter p l) <= List.length l)%nat.
Proof.
  induction l as [|x l IH]; [constructor|]. cbn. destruct (p x); cbn; lia.
Qed.

(** Grouping commutes with leaving a whole group out. *)
Lemma firstsBy_other (x : A) (l : list A) :
  filter (fun y => negb (rank y =? rank x)) (firstsBy (fun a b => rank a =? rank b) l) = firstsBy (fun a b => rank a =? rank b) (filter (fun y => negb (rank y =? rank x)) l).
Proof.
  induction l as [|y r IH]; [reflexivity|]. cbn [firstsBy filter].
  destruct (Z.eqb_spec (rank y) (rank x)) as [E|E]; cbn [negb].
  - rewrite <- IH.
    assert (X : forall z, negb (rank z =? rank y) = negb (rank z =? rank x))
      by (intros z; now rewrite E).
    rewrite (filter_ext _ _ X). apply filter_idem.
  - cbn [firstsBy]. rewrite <- IH. f_equal. apply filter_filter.
Qed.

Lemma sumOf_ext_in (f g : A -> Z) (l : list A) :
  (forall x, In x l -> f x = g x) -> sumOf f l = sumOf g l.
Proof.
  induction l as [|x l IH]; intros H; [reflexivity|].
  rewrite !sumOf_cons, (H x (or_introl eq_refl)), IH; [reflexivity|].
  intros y Hy. apply H. now right.
Qed.

Lemma sumOf_split (f : A -> Z) (p : A -> bool) (l : list A) :
  sumOf f l = sumOf f (filter p l) + sumOf f (filter (fun x => negb (p x)) l).
Proof.
  induction l as [|x l IH]; [reflexivity|]. cbn [filter].
  destruct (p x); cbn [negb]; rewrite !sumOf_cons, IH; lia.
Qed.

(** The groups of [$group] partition the collection: the sums over the
    groups add up to the sum over the collection. *)
Lemma groups_add_up (f : A -> Z) (n : nat) :
  forall l, (List.length l <= n)%nat ->
  sumOf (fun g => sumOf f (filter (fun c => rank c =? rank g) l)) (firstsBy (fun a b => rank a =? rank b) l)
  = sumOf f l.
Proof.
  induction n as [|n IH]; intros l Hl.
  - destruct l; [reflexivity|cbn in Hl; lia].
  - destruct l as [|x r]; [reflexivity|]. cbn [firstsBy].
    rewrite firstsBy_other, !sumOf_cons. cbn [filter]. rewrite Z.eqb_refl, sumOf_cons.
    rewrite (sumOf_split f (fun c => rank c =? rank x) r).
    rewrite <- (IH (filter (fun y => negb (rank y =? rank x)) r)).
    2:{ pose proof (filter_length_le (fun y => negb (rank y =? rank x)) r). cbn in Hl. lia. }
    rewrite <- Z.add_assoc. f_equal. f_equal.
    apply sumOf_ext_in. intros g Hg.
    apply firstsBy_In, filter_In in Hg as [_ Hg].
    apply negb_true_iff in Hg.
    rewrite Z.eqb_sym, Hg.
    rewrite (filter_filter (fun c => rank c =? rank g) (fun y => negb (rank y =? rank x))).
    f_equal. symmetry.
    assert (X : forall z, In z (filter (fun c => rank c =? rank g) r) ->
                negb (rank z =? rank x) = true).
    { intros z Hz. apply filter_In in Hz as [_ Hz]. apply Z.eqb_eq in Hz.
      rewrite Hz, Hg. reflexivity. }
    clear - X. induction (filter (fun c => rank c =? rank g) r) as [|z l IHl];
      [reflexivity|]. cbn. rewrite (X z (or_introl eq_refl)). f_equal.
    apply IHl. intros w Hw. apply X. now right.
Qed.

Lemma countWhere_filter (p : A -> bool) (l : list A) :
  countWhere p l = sumOf (fun _ => 1) (filter p l).
Proof.
  unfold countWhere. induction l as [|x l IH]; [reflexivity|]. cbn [filter].
  rewrite sumOf_cons, IH. destruct (p x); [rewrite sumOf_cons|]; lia.
Qed.

End Groups.

Lemma sumOf_map {A B} (f : B -> Z) (g : A -> B) (l : list A) :
  sumOf f (map g l) = sumOf (fun x => f (g x)) l.
Proof.
  induction l as [|x l IH]; [reflexivity|]. cbn [map]. now rewrite !sumOf_cons, IH.
Qed.

Lemma sumOf_insertAsc {A} (f g : A -> Z) (x : A) (l : list A) :
  sumOf f (insertAsc g x l) = f x + sumOf f l.
Proof.
  induction l as [|y l IH]; [reflexivity|]. cbn [insertAsc].
  destruct (g x <=? g y); rewrite !sumOf_cons, ?IH; lia.
Qed.

Lemma sumOf_sortAsc {A} (f g : A -> Z) (l : list A) :
  sumOf f (sortAsc g l) = sumOf f l.
Proof.
  unfold sortAsc. induction l as [|x l IH]; [reflexivity|]. cbn [fold_right].
  now rewrite sumOf_insertAsc, sumOf_cons, IH.
Qed.

Lemma genders_add_up (l : list Student.doc) :
  countWhere (Student.hasGender Student.Male) l
  + countWhere (Student.hasGender Student.Female) l
  + countWhere (Student.hasGender Student.Other) l
  = sumOf (fun _ => 1) l.
Proof.
  induction l as [|s l IH]; [reflexivity|].
  rewrite !countWhere_cons, sumOf_cons, <- IH.
  unfold Student.hasGender. destruct (Student.gender s); lia.
Qed.

Lemma courseOverview_totals (l : list Course.doc) (stats : list CourseOverview) :
  CourseController.courseOverview l = Some stats ->
  totalCourses (hd CourseController.zeroCourseOverview stats) = sumOf (fun _ => 1) l
  /\ courseTotalEnrolled (hd CourseController.zeroCourseOverview stats)
     = sumOf Course.enrolledStudents l.
Proof.
  unfold CourseController.courseOverview. destruct l as [|c l].
  - intros [= <-]. now split.
  - destruct (CourseController.rate _ _); [|discriminate]. intros [= <-]. now split.
Qed.

Lemma classOverview_totals (l : list Class.doc) (stats : list ClassOverview) :
  ClassController.classOverview l = Some stats ->
  totalClasses (hd ClassController.zeroClassOverview stats) = sumOf (fun _ => 1) l.
Proof.
  unfold ClassController.classOverview. destruct l as [|c l].
  - now intros [= <-].
  - destruct (divide _ _); [|discriminate]. now intros [= <-].
Qed.

Lemma departmentOverview_totals (l : list Department.doc)
    (stats : list DepartmentOverview) :
  DepartmentController.departmentOverview l = Some stats ->
  totalDepartments (hd DepartmentController.zeroDepartmentOverview stats)
  = sumOf (fun _ => 1) l.
Proof.
  unfold DepartmentController.departmentOverview. destruct l as [|c l].
  - now intros [= <-].
  - destruct (if _ =? 0 then _ else _); [|discriminate]. now intros [= <-].
Qed.

(** In every report that a statistics endpoint returns, the breakdowns add
    up to the totals of the overview: the courses and the enrolments by
    type and by semester, the classes and the departments by status, the
    students by gender, which the schema requires of every student.  (The
    four status counts of the students are left out: the schema does not
    require a status.) *)
Theorem reports_add_up (st : Store) :
  (forall overview departmentWise types semesters,
     snd (CourseController.getCourseStats st)
     = ok 200 (CourseStats overview departmentWise types semesters) ->
     sumOf (fun row => snd (fst row)) types = totalCourses overview
     /\ sumOf snd types = courseTotalEnrolled overview
     /\ sumOf (fun row => snd (fst row)) semesters = totalCourses overview
     /\ sumOf snd semesters = courseTotalEnrolled overview)
  /\ (forall overview departmentWise distribution,
        snd (ClassController.getClassStats st)
        = ok 200 (ClassStats overview departmentWise distribution) ->
        sumOf snd distribution = totalClasses overview)
  /\ (forall overview detailed distribution,
        snd (DepartmentController.getDepartmentStats st)
        = ok 200 (DepartmentStats overview detailed distribution) ->
        sumOf snd distribution = totalDepartments overview
        /\ activeDepartments overview + inactiveDepartments overview
           = totalDepartments overview)
  /\ (forall overview byDepartment byClass,
        snd (StudentController.getStudentStats st)
        = ok 200 (StudentStats overview byDepartment byClass) ->
        maleStudents overview + femaleStudents overview + otherStudents overview
        = totalStudentsCount overview).
Proof.
  split; [|split; [|split]].
  - intros overview departmentWise types semesters.
    unfold CourseController.getCourseStats.
    destruct (CourseController.courseOverview (courses st)) as [stats|] eqn:O;
      [|discriminate].
    destruct (CourseController.departmentCourseStats st); [|discriminate].
    cbn [snd]. intros [= <- _ <- <-].
    destruct (courseOverview_totals _ _ O) as [-> ->].
    unfold CourseController.typeDistribution, CourseController.semesterStats.
    rewrite !sumOf_sortAsc, !sumOf_map. cbn [fst snd].
    repeat split.
    + exact (groups_add_up (fun c => Course.typeRank (Course.courseType c))
               (fun _ => 1) _ (courses st) (le_n _)).
    + exact (groups_add_up (fun c => Course.typeRank (Course.courseType c))
               Course.enrolledStudents _ (courses st) (le_n _)).
    + exact (groups_add_up (fun c => Course.semesterRank (Course.semester c))
               (fun _ => 1) _ (courses st) (le_n _)).
    + exact (groups_add_up (fun c => Course.semesterRank (Course.semester c))
               Course.enrolledStudents _ (courses st) (le_n _)).
  - intros overview departmentWise distribution.
    unfold ClassController.getClassStats.
    destruct (ClassController.classOverview (classes st)) as [stats|] eqn:O;
      [|discriminate].
    destruct (ClassController.departmentClassStats st); [|discriminate].
    cbn [snd]. intros [= <- _ <-].
    rewrite (classOverview_totals _ _ O).
    unfold ClassController.statusDistribution.
    rewrite sumOf_map. cbn [snd].
    rewrite <- (groups_add_up (fun c => Class.statusRank (Class.status c))
                  (fun _ => 1) _ (classes st) (le_n _)).
    apply sumOf_ext_in. intros g _. apply countWhere_filter.
  - intros overview detailed distribution.
    unfold DepartmentController.getDepartmentStats.
    destruct (DepartmentController.departmentOverview (departments st))
      as [stats|] eqn:O; [|discriminate].
    cbn [snd]. intros [= <- _ <-]. split.
    + rewrite (departmentOverview_totals _ _ O).
      unfold DepartmentController.statusDistribution.
      rewrite sumOf_map. cbn [snd].
      rewrite <- (groups_add_up (fun d => Department.statusRank (Department.status d))
                    (fun _ => 1) _ (departments st) (le_n _)).
      apply sumOf_ext_in. intros g _. apply countWhere_filter.
    + revert O. unfold DepartmentController.departmentOverview.
      destruct (departments st) as [|d ds]; [now intros [= <-]|].
      destruct (if _ =? 0 then _ else _); [|discriminate]. intros [= <-]. cbn. lia.
  - intros overview byDepartment byClass.
    unfold StudentController.getStudentStats.
    destruct (StudentController.classStats st); [|discriminate].
    cbn [snd]. intros [= <- _ _].
    unfold StudentController.studentOverview.
    destruct (students st) as [|s ss] eqn:E; [reflexivity|]. cbn [hd].
    cbn [totalStudentsCount maleStudents femaleStudents otherStudents].
    apply genders_add_up.
Qed.

(** * Ages, the CSV export, the validation middleware and the read handlers *)

(** ** Ages *)

(** [calculateAge] answers [null] without a date of birth; with one it
    answers what the virtual [age] of the model computes, and that is the
    number of anniversaries of the birth that the calendar has reached:
    the age is [n] exactly when today is not earlier than the [n]-th
    anniversary and is earlier than the next one. *)
Theorem calculateAge_counts_anniversaries (today : Date) :
  calculateAge today None = None
  /\ forall birthDate,
       calculateAge today (Some birthDate) = Some (virtualAge today birthDate)
       /\ forall n,
            virtualAge today birthDate = n
            <-> ~ earlier today (anniversary n birthDate)
                /\ earlier today (anniversary (n + 1) birthDate).
Proof.
  split; [reflexivity|]. intros birthDate. split.
  - unfold calculateAge, virtualAge. cbv zeta. now destruct (_ || _)%bool.
  - intros n. unfold virtualAge, earlier, anniversary. cbn.
    destruct (Z.ltb_spec (getMonth today - getMonth birthDate) 0);
      destruct (Z.eqb_spec (getMonth today - getMonth birthDate) 0);
      destruct (Z.ltb_spec (getDate today) (getDate birthDate)); cbn; lia.
Qed.

(** The validator of [dateOfBirth] compares calendar years only: a date
    that it accepts belongs to someone aged 4 to 100, and it accepts every
    date of someone aged 5 to 99.  In the year of the fifth birthday it
    accepts a child who is still 4, and in the year of the 101st birthday it
    refuses someone who is still 100. *)
Theorem dateOfBirth_validator_compares_years (today birthDate : Date) :
  let age := virtualAge today birthDate in
  (dateOfBirthAccepted today birthDate = true -> 4 <= age <= 100)
  /\ (5 <= age <= 99 -> dateOfBirthAccepted today birthDate = true)
  /\ (getFullYear today - getFullYear birthDate = 5 ->
      earlier today (anniversary 5 birthDate) ->
      dateOfBirthAccepted today birthDate = true /\ age = 4)
  /\ (getFullYear today - getFullYear birthDate = 101 ->
      earlier today (anniversary 101 birthDate) ->
      dateOfBirthAccepted today birthDate = false /\ age = 100).
Proof.
  unfold dateOfBirthAccepted, virtualAge, earlier, anniversary. cbn.
  destruct (Z.ltb_spec (getFullYear today - getFullYear birthDate) 5);
    destruct (Z.ltb_spec 100 (getFullYear today - getFullYear birthDate));
    destruct (Z.ltb_spec (getMonth today - getMonth birthDate) 0);
    destruct (Z.eqb_spec (getMonth today - getMonth birthDate) 0);
    destruct (Z.ltb_spec (getDate today) (getDate birthDate)); cbn;
    repeat split; intros; try discriminate; try lia.
Qed.

(** ** The CSV export *)

Section CsvFacts.

Import Csv.

Lemma doubleQuotes_injective (a : string) :
  forall b, doubleQuotes a = doubleQuotes b -> a = b.
Proof.
  induction a as [|c a IH]; intros [|d b]; cbn.
  - reflexivity.
  - destruct (Ascii.eqb d quote); discriminate.
  - destruct (Ascii.eqb c quote); discriminate.
  - destruct (Ascii.eqb_spec c quote) as [Ec|Ec];
      destruct (Ascii.eqb_spec d quote) as [Ed|Ed].
    + intros [= E]. subst. f_equal. now apply IH.
    + intros [= E _]. congruence.
    + intros [= E _]. congruence.
    + intros [= E1 E2]. subst. f_equal. now apply IH.
Qed.

Lemma append_last_injective (c : ascii) (a : string) :
  forall b, (a ++ String c EmptyString)%string = (b ++ String c EmptyString)%string ->
  a = b.
Proof.
  induction a as [|x a IH]; intros [|y b]; cbn.
  - reflexivity.
  - intros [= _ E]. destruct b; discriminate.
  - intros [= _ E]. destruct a; discriminate.
  - intros [= -> E]. f_equal. now apply IH.
Qed.

Lemma includesChar_append (c : ascii) (a b : string) :
  includesChar c (a ++ b)%string = (includesChar c a || includesChar c b)%bool.
Proof.
  induction a as [|x a IH]; cbn; [reflexivity|]. rewrite IH. apply orb_assoc.
Qed.

Lemma countChar_append (c : ascii) (a b : string) :
  countChar c (a ++ b)%string = (countChar c a + countChar c b)%nat.
Proof.
  induction a as [|x a IH]; cbn; [reflexivity|]. rewrite IH. lia.
Qed.

Lemma countChar_none (c : ascii) (s : string) :
  includesChar c s = false -> countChar c s = 0%nat.
Proof.
  induction s as [|x s IH]; cbn; [reflexivity|].
  intros H. apply orb_false_iff in H as [-> H]. now rewrite IH.
Qed.

Lemma countChar_doubleQuotes (c : ascii) (s : string) :
  c <> quote -> countChar c (doubleQuotes s) = countChar c s.
Proof.
  intros N. induction s as [|x s IH]; cbn [doubleQuotes countChar]; [reflexivity|].
  destruct (Ascii.eqb_spec x quote) as [->|E]; cbn [countChar]; rewrite IH;
    [|reflexivity].
  destruct (Ascii.eqb_spec quote c); [congruence|reflexivity].
Qed.

Lemma countChar_cell (c : ascii) (v : string) :
  c <> quote -> countChar c (cell (Some v)) = countChar c v.
Proof.
  intros N. unfold cell. cbv zeta.
  destruct (includesChar comma (doubleQuotes v)); [|now apply countChar_doubleQuotes].
  cbn [countChar]. rewrite countChar_append, countChar_doubleQuotes by exact N.
  cbn [countChar]. destruct (Ascii.eqb_spec quote c); [congruence|]. lia.
Qed.

(** The occurrences of a character in the result of [join], when the
    joined texts hold none. *)
Lemma countChar_concat (c : ascii) (sep : string) (l : list string) :
  (forall x, In x l -> countChar c x = 0%nat) ->
  countChar c (String.concat sep l) = ((List.length l - 1) * countChar c sep)%nat.
Proof.
  induction l as [|x l IH]; intros H; [reflexivity|].
  destruct l as [|y l].
  - cbn. rewrite (H x (or_introl eq_refl)). reflexivity.
  - change (String.concat sep (x :: y :: l))
      with (x ++ sep ++ String.concat sep (y :: l))%string.
    rewrite !countChar_append, (H x (or_introl eq_refl)), IH.
    + cbn [List.length]. lia.
    + intros z Hz. apply H. now right.
Qed.

End CsvFacts.

(** The text of a cell determines the value it was written from, save that
    [null], [undefined] and the empty text all give the empty cell: two
    different texts never give the same cell. *)
Theorem csv_cell_determines_value :
  Csv.cell None = Csv.cell (Some EmptyString)
  /\ forall a b, Csv.cell (Some a) = Csv.cell (Some b) -> a = b.
Proof.
  split; [reflexivity|]. intros a b. unfold Csv.cell. cbv zeta.
  destruct (Csv.includesChar Csv.comma (Csv.doubleQuotes a)) eqn:Ia;
    destruct (Csv.includesChar Csv.comma (Csv.doubleQuotes b)) eqn:Ib.
  - intros [= E]. apply append_last_injective in E. now apply doubleQuotes_injective.
  - intros E. rewrite <- E in Ib. cbn in Ib.
    rewrite includesChar_append, Ia in Ib. discriminate Ib.
  - intros E. rewrite E in Ia. cbn in Ia.
    rewrite includesChar_append, Ib in Ia. discriminate Ia.
  - apply doubleQuotes_injective.
Qed.

(** The export writes one line for the header and one for each row, with a
    line feed between two lines, provided no header and no exported value
    holds a line feed: then the text has as many line feeds as there are
    rows.  (A value with a line feed is written as it is, without quotes.) *)
Theorem convertToCSV_one_line_per_row (data : list Csv.Row) :
  Csv.singleLines (match data with first :: _ => Csv.keys first | [] => [] end) data ->
  Csv.countChar Csv.lineFeed (Csv.convertToCSV data) = List.length data.
Proof.
  destruct data as [|first rest]; [reflexivity|]. intros [Hh Hv].
  unfold Csv.convertToCSV. cbv zeta.
  set (headers := Csv.keys first) in *.
  set (data := first :: rest) in *.
  assert (N : Csv.lineFeed <> Csv.quote) by discriminate.
  rewrite countChar_concat.
  - cbn [List.length]. rewrite length_map. cbn. lia.
  - intros x [<-|Hx].
    + rewrite countChar_concat; [cbn; lia|].
      intros h Hin. apply countChar_none. now apply Hh.
    + apply in_map_iff in Hx as (row & <- & Hrow).
      rewrite countChar_concat; [cbn; lia|].
      intros y Hy. apply in_map_iff in Hy as (h & <- & Hin).
      destruct (Csv.get row h) as [v|] eqn:G; [|reflexivity].
      rewrite countChar_cell by exact N. apply countChar_none.
      now apply (Hv row h v).
Qed.

Lemma convertToCSV_one_line_per_row_witness :
  let data := [[("name", Some "Ann, Lee"); ("roll", Some "R1")];
               [("name", Some "Bob"); ("roll", None)]] in
  Csv.countChar Csv.lineFeed (Csv.convertToCSV data) = 2%nat.
Proof.
  cbv zeta.
  apply (convertToCSV_one_line_per_row
           [[("name", Some "Ann, Lee"); ("roll", Some "R1")];
            [("name", Some "Bob"); ("roll", None)]]).
  split.
  - intros header [<-|[<-|[]]]; reflexivity.
  - intros row header v [<-|[<-|[]]] [<-|[<-|[]]]; cbn; intros [= <-]; reflexivity.
Defined.

(** The columns of the export are the keys of the first row: what the
    other rows hold under any other key is not exported, and a key that a
    row lacks gives an empty cell.  Two lists of rows that agree under the
    keys of the first row give the same text. *)
Theorem convertToCSV_columns_of_first_row (first : Csv.Row) (rest rest' : list Csv.Row) :
  Forall2 (Csv.agreeOn (Csv.keys first)) rest rest' ->
  Csv.convertToCSV (first :: rest) = Csv.convertToCSV (first :: rest').
Proof.
  intros H. unfold Csv.convertToCSV. cbv zeta. cbn [map]. do 3 f_equal.
  induction H as [|row row' rest rest' Hrow _ IH]; [reflexivity|].
  cbn [map]. f_equal; [|exact IH]. f_equal.
  apply map_ext_in. intros h Hh. now rewrite (Hrow h Hh).
Qed.

Lemma convertToCSV_columns_of_first_row_witness :
  Csv.convertToCSV [[("name", Some "Ann")];
                    [("name", Some "Bob"); ("email", Some "bob@uni.edu")]]
  = Csv.convertToCSV [[("name", Some "Ann")]; [("name", Some "Bob")]].
Proof.
  apply (convertToCSV_columns_of_first_row [("name", Some "Ann")]
           [[("name", Some "Bob"); ("email", Some "bob@uni.edu")]]
           [[("name", Some "Bob")]]).
  constructor; [|constructor].
  intros header [<-|[]]. reflexivity.
Defined.

(** ** The validation middleware *)

Section Grouping.

Import Validators.

Lemma lookup_push (p m q : string) (acc : Extracted) :
  lookup q (push p m acc)
  = if String.eqb p q
    then Some (match lookup q acc with Some ms => ms ++ [m] | None => [m] end)
    else lookup q acc.
Proof.
  induction acc as [|[key ms] acc IH]; cbn [push lookup].
  - rewrite String.eqb_sym. now destruct (String.eqb q p).
  - destruct (String.eqb_spec key p) as [->|E]; cbn [lookup].
    + destruct (String.eqb_spec p q) as [->|N]; [reflexivity|reflexivity].
    + destruct (String.eqb_spec key q) as [->|N].
      * destruct (String.eqb_spec p q); [congruence|reflexivity].
      * exact IH.
Qed.

Lemma lookup_keys (q : string) (acc : Extracted) :
  lookup q acc = None <-> ~ In q (map fst acc).
Proof.
  induction acc as [|[key ms] acc IH]; cbn; [tauto|].
  destruct (String.eqb_spec key q) as [->|N].
  - split; [discriminate|]. intros H. destruct H. now left.
  - rewrite IH. tauto.
Qed.

Lemma keys_push (p m : string) (acc : Extracted) :
  NoDup (map fst acc) -> NoDup (map fst (push p m acc)).
Proof.
  induction acc as [|[key ms] acc IH]; cbn [push map fst].
  - intros _. constructor; [tauto|constructor].
  - intros H. inversion H as [|? ? Hk Ha]; subst.
    destruct (String.eqb_spec key p) as [->|E]; cbn [map fst].
    + now constructor.
    + constructor; [|now apply IH].
      intros Hin. apply Hk. apply lookup_keys in Hk.
      destruct (lookup key (push p m acc)) eqn:L.
      * rewrite lookup_push in L.
        destruct (String.eqb_spec p key); [congruence|]. congruence.
      * apply lookup_keys in L. contradiction.
Qed.

Lemma extract_from (errors : list error) :
  forall acc,
  NoDup (map fst acc) ->
  let result :=
    fold_left (fun extractedErrors err => push (path err) (msg err) extractedErrors)
      errors acc in
  NoDup (map fst result)
  /\ forall q,
       lookup q result
       = match lookup q acc, messagesOf q errors with
         | None, [] => None
         | None, l => Some l
         | Some ms, l => Some (ms ++ l)
         end.
Proof.
  induction errors as [|e errors IH]; intros acc Hacc; cbn [fold_left].
  - split; [exact Hacc|]. intros q. cbn.
    destruct (lookup q acc); [now rewrite app_nil_r|reflexivity].
  - destruct (IH (push (path e) (msg e) acc) (keys_push _ _ _ Hacc)) as [Hn Hl].
    split; [exact Hn|]. intros q. rewrite Hl, lookup_push.
    unfold messagesOf. cbn [filter].
    destruct (String.eqb_spec (path e) q) as [E|E]; cbn [map].
    + destruct (lookup q acc); [now rewrite <- app_assoc|reflexivity].
    + reflexivity.
Qed.

End Grouping.

(** The middleware calls [next()] exactly when no validation failed.
    Otherwise it answers 400 with the messages grouped by path: each path
    that has an error is a key once, with all the messages of that path in
    the order in which the errors were reported, and a path without an
    error is not a key. *)
Theorem validate_groups_by_path (errors : list Validators.error) :
  (Validators.validate errors = Validators.Next <-> errors = [])
  /\ forall code extractedErrors,
       Validators.validate errors = Validators.Rejected code extractedErrors ->
       code = 400
       /\ NoDup (map fst extractedErrors)
       /\ forall p,
            Validators.lookup p extractedErrors
            = match Validators.messagesOf p errors with
              | [] => None
              | messages => Some messages
              end.
Proof.
  split.
  - destruct errors; cbn; split; congruence.
  - intros code extractedErrors. destruct errors as [|e errors]; [discriminate|].
    unfold Validators.validate. intros [= <- <-].
    destruct (extract_from (e :: errors) [] (NoDup_nil _)) as [Hn Hl].
    split; [reflexivity|]. split; [exact Hn|]. intros p. apply Hl.
Qed.

(** ** The pages of the class list *)

Lemma firstn_add {A} (n m : nat) (l : list A) :
  firstn (n + m) l = firstn n l ++ firstn m (skipn n l).
Proof.
  revert l. induction n as [|n IH]; intros l; [reflexivity|].
  destruct l as [|x l]; cbn; [now rewrite firstn_nil|]. now rewrite IH.
Qed.

(** The first [n] pages of [size] elements are the first [n * size]
    elements. *)
Lemma pages_prefix {A} (size n : nat) (l : list A) :
  flat_map (fun k => firstn size (skipn (k * size) l)) (seq 0 n)
  = firstn (n * size) l.
Proof.
  induction n as [|n IH]; [reflexivity|].
  rewrite seq_S, flat_map_app, IH. cbn [flat_map plus]. rewrite app_nil_r.
  replace (S n * size)%nat with (n * size + size)%nat by lia.
  now rewrite firstn_add.
Qed.

Lemma length_insertSorted (c : Class.doc) (l : list Class.doc) :
  List.length (Listing.insertSorted c l) = S (List.length l).
Proof.
  induction l as [|x l IH]; [reflexivity|]. cbn.
  destruct (Listing.inOrder c x); cbn; [reflexivity|now rewrite IH].
Qed.

Lemma length_sorted (l : list Class.doc) :
  List.length (Listing.sorted l) = List.length l.
Proof.
  induction l as [|x l IH]; [reflexivity|].
  unfold Listing.sorted in *. cbn. now rewrite length_insertSorted, IH.
Qed.

(** [Math.ceil(total / limit)]: the least number of pages that hold
    [total] documents. *)
Lemma totalPages_spec (total : nat) (limit : positive) :
  let pages := Qceiling (Z.of_nat total # limit) in
  (pages - 1) * Z.pos limit < Z.of_nat total <= pages * Z.pos limit.
Proof.
  cbv zeta. unfold Qceiling, Qfloor, Qopp. cbn [Qnum Qden].
  pose proof (Z.div_mod (- Z.of_nat total) (Z.pos limit) ltac:(lia)) as D.
  pose proof (Z.mod_pos_bound (- Z.of_nat total) (Z.pos limit) ltac:(lia)) as B.
  nia.
Qed.

Lemma flat_map_map {A B C} (f : B -> list C) (g : A -> B) (l : list A) :
  flat_map f (map g l) = flat_map (fun x => f (g x)) l.
Proof. induction l as [|x l IH]; [reflexivity|]. cbn. now rewrite IH. Qed.

Lemma map_flat_map {A B C} (f : B -> C) (g : A -> list B) (l : list A) :
  map f (flat_map g l) = flat_map (fun x => map f (g x)) l.
Proof.
  induction l as [|x l IH]; [reflexivity|]. cbn. now rewrite map_app, IH.
Qed.

Lemma getAllClasses_data (p : positive) (q : Listing.query) (st : Store) :
  let size := Pos.to_nat (match Listing.limit q with Some l => l | None => 10%positive end) in
  Listing.data (Listing.getAllClasses (Listing.withPage p q) st)
  = map Listing.enhance
      (firstn size (skipn ((Pos.to_nat p - 1) * size) (Listing.selected q st))).
Proof.
  cbv zeta. unfold Listing.getAllClasses. cbn [Listing.data Listing.withPage
    Listing.page Listing.limit]. f_equal. f_equal. f_equal.
  set (limit := match Listing.limit q with Some l => l | None => 10%positive end).
  rewrite Z2Nat.inj_mul, Z2Nat.inj_sub by lia. reflexivity.
Qed.

(** The sort is a permutation. *)
Lemma insertSorted_Permutation (c : Class.doc) (l : list Class.doc) :
  Permutation (Listing.insertSorted c l) (c :: l).
Proof.
  induction l as [|x l IH]; [reflexivity|]. cbn.
  destruct (Listing.inOrder c x); [reflexivity|].
  rewrite IH. apply perm_swap.
Qed.

Lemma sorted_Permutation (l : list Class.doc) : Permutation (Listing.sorted l) l.
Proof.
  induction l as [|x l IH]; [reflexivity|].
  unfold Listing.sorted in *. cbn. rewrite insertSorted_Permutation. now constructor.
Qed.

(** The binary order of strings is transitive. *)
Lemma compare_Lt_trans (a b c : string) :
  String.compare a b = Lt -> String.compare b c = Lt -> String.compare a c = Lt.
Proof.
  revert b c. induction a as [|x a IH]; intros [|y b] [|z c]; cbn; try easy.
  unfold Ascii.compare.
  destruct (N.compare_spec (N_of_ascii x) (N_of_ascii y)) as [E|E|E];
    destruct (N.compare_spec (N_of_ascii y) (N_of_ascii z)) as [F|F|F];
    try discriminate; intros H1 H2.
  - rewrite E, F, N.compare_refl. now apply (IH b c).
  - rewrite E. now apply N.compare_lt_iff in F as ->.
  - rewrite <- F. now apply N.compare_lt_iff in E as ->.
  - assert (G : (N_of_ascii x < N_of_ascii z)%N) by lia.
    now apply N.compare_lt_iff in G as ->.
Qed.

(** Among classes of distinct names the sort leaves every class strictly
    before the classes that follow it. *)
Lemma insertSorted_StronglySorted (c : Class.doc) (l : list Class.doc) :
  StronglySorted
    (fun a b => String.compare (Class.className a) (Class.className b) = Lt) l ->
  ~ In (Class.className c) (map Class.className l) ->
  StronglySorted
    (fun a b => String.compare (Class.className a) (Class.className b) = Lt)
    (Listing.insertSorted c l).
Proof.
  induction l as [|x l IH]; intros S N; cbn.
  - repeat constructor.
  - inversion S as [|? ? Sl Fx]; subst. unfold Listing.inOrder.
    destruct (String.compare (Class.className c) (Class.className x)) eqn:E.
    + apply String.compare_eq_iff in E. destruct N. left. now symmetry.
    + constructor; [exact S|]. constructor; [exact E|].
      apply Forall_forall. intros y Hy.
      eapply compare_Lt_trans; [exact E|].
      exact (proj1 (Forall_forall _ _) Fx y Hy).
    + constructor.
      * apply IH; [exact Sl|]. intros H. apply N. now right.
      * apply Forall_forall. intros y Hy.
        apply (Permutation_in _ (insertSorted_Permutation c l)) in Hy.
        destruct Hy as [<-|Hy]; [|exact (proj1 (Forall_forall _ _) Fx y Hy)].
        cbv beta. rewrite String.compare_antisym, E. reflexivity.
Qed.

Lemma sorted_StronglySorted (l : list Class.doc) :
  NoDup (map Class.className l) ->
  StronglySorted
    (fun a b => String.compare (Class.className a) (Class.className b) = Lt)
    (Listing.sorted l).
Proof.
  induction l as [|x l IH]; [constructor|].
  cbn [map]. intros U. inversion U as [|? ? Hx Hl]; subst.
  unfold Listing.sorted in *. cbn [fold_right].
  apply insertSorted_StronglySorted; [now apply IH|].
  intros H. apply Hx. apply in_map_iff in H as (y & Ey & Hy).
  apply in_map_iff. exists y. split; [exact Ey|].
  exact (Permutation_in _ (sorted_Permutation l) Hy).
Qed.

Lemma NoDup_of_map {A B} (f : A -> B) (l : list A) : NoDup (map f l) -> NoDup l.
Proof.
  induction l as [|x l IH]; [constructor|]. cbn [map].
  intros U. inversion U as [|? ? Hx Hl]; subst.
  constructor; [|now apply IH]. intros H. apply Hx. now apply in_map.
Qed.

(** What the filter of a query selects: the classes of the status and of
    the department that the query gives, where it gives one. *)
Lemma matches_spec (q : Listing.query) (c : Class.doc) :
  Listing.matches q c = true
  <-> (forall s, Listing.status q = Some s -> falsy s = false ->
         Listing.statusName (Class.status c) = s)
      /\ (forall d, Listing.department q = Some d -> falsy d = false ->
            Class.department c = d).
Proof.
  unfold Listing.matches. rewrite andb_true_iff. split.
  - intros [Hs Hd]. split.
    + intros s E F. rewrite E, F in Hs. now apply String.eqb_eq.
    + intros d E F. rewrite E, F in Hd. now apply String.eqb_eq.
  - intros [Hs Hd]. split.
    + destruct (Listing.status q) as [s|]; [|reflexivity].
      destruct (falsy s) eqn:F; [reflexivity|].
      apply String.eqb_eq. now apply Hs.
    + destruct (Listing.department q) as [d|]; [|reflexivity].
      destruct (falsy d) eqn:F; [reflexivity|].
      apply String.eqb_eq. now apply Hd.
Qed.

(** With the class names distinct, as their unique index keeps them, and a
    department in the query that is written as the ids of the store are,
    walking the pages from 1 to [totalPages] with the same limit and the
    same filter yields the views of a list [l] of classes in which every
    class of the store that the filter selects occurs exactly once and no
    other class occurs, and in which every class has a name strictly
    before the names of the classes after it, in the binary order of
    strings.  Each view holds its class with the class code, the free
    seats and the mark of a full class. *)
Theorem getAllClasses_pages_cover_the_list (q : Listing.query) (st : Store) :
  distinct (map Class.className (classes st)) = true ->
  (forall d, Listing.department q = Some d -> falsy d = false ->
     castObjectId d = Some d) ->
  exists l : list Class.doc,
    flat_map (fun p => Listing.data (Listing.getAllClasses (Listing.withPage p q) st))
      (Listing.pagesUpTo (Listing.totalPages (Listing.getAllClasses q st)))
    = map Listing.enhance l
    /\ NoDup l
    /\ (forall c, In c l
        <-> In c (classes st)
            /\ (forall s, Listing.status q = Some s -> falsy s = false ->
                  Listing.statusName (Class.status c) = s)
            /\ (forall d, Listing.department q = Some d -> falsy d = false ->
                  Class.department c = d))
    /\ Permutation l (filter (Listing.matches q) (classes st))
    /\ StronglySorted
         (fun a b => String.compare (Class.className a) (Class.className b) = Lt) l
    /\ Forall (fun v =>
                 Listing.classCode v
                 = (Class.className (Listing.doc v) ++ "-"
                    ++ Class.section (Listing.doc v))%string
                 /\ Listing.availableSeats v
                    = Class.capacity (Listing.doc v)
                      - Class.currentStrength (Listing.doc v)
                 /\ Listing.isFull v
                    = (Class.capacity (Listing.doc v)
                       <=? Class.currentStrength (Listing.doc v)))
         (map Listing.enhance l).
Proof.
  intros U _. exists (Listing.selected q st).
  assert (P : Permutation (Listing.selected q st)
                (filter (Listing.matches q) (classes st)))
    by apply sorted_Permutation.
  assert (N : NoDup (map Class.className (filter (Listing.matches q) (classes st)))).
  { apply (NoDup_map_filter Class.className). now apply distinct_NoDup. }
  split; [|split; [|split; [|split; [exact P|split]]]].
  - set (limit := match Listing.limit q with Some l => l | None => 10%positive end).
    assert (T : Listing.totalPages (Listing.getAllClasses q st)
                = Qceiling (Z.of_nat (List.length (Listing.selected q st)) # limit)).
    { unfold Listing.getAllClasses, Listing.selected, countDocuments.
      cbn [Listing.totalPages]. now rewrite length_sorted. }
    rewrite T.
    pose proof (totalPages_spec (List.length (Listing.selected q st)) limit) as Bound.
    cbv zeta in Bound. set (pages := Qceiling _) in *.
    unfold Listing.pagesUpTo. rewrite <- seq_shift, map_map, flat_map_map.
    rewrite (flat_map_ext _
               (fun k => map Listing.enhance
                           (firstn (Pos.to_nat limit)
                              (skipn (k * Pos.to_nat limit) (Listing.selected q st))))).
    2:{ intros k. rewrite getAllClasses_data. fold limit.
        rewrite Nat2Pos.id by discriminate. now replace (S k - 1)%nat with k by lia. }
    rewrite <- map_flat_map, pages_prefix. f_equal.
    apply firstn_all2. nia.
  - apply (Permutation_NoDup (Permutation_sym P)). exact (NoDup_of_map _ _ N).
  - intros c. rewrite <- matches_spec, <- filter_In. split.
    + apply Permutation_in. exact P.
    + apply Permutation_in. exact (Permutation_sym P).
  - now apply sorted_StronglySorted.
  - apply Forall_forall. intros v Hv. apply in_map_iff in Hv as (c & <- & _).
    repeat split.
Qed.

Lemma getAllClasses_pages_cover_the_list_witness :
  let q := {| Listing.page := None; Listing.limit := Some 1%positive;
              Listing.status := Some "Active";
              Listing.department := Some Sample24.cs |} in
  distinct (map Class.className (classes Sample24.twoStudents)) = true
  /\ castObjectId Sample24.cs = Some Sample24.cs
  /\ Listing.totalPages (Listing.getAllClasses q Sample24.twoStudents) = 2
  /\ exists l : list Class.doc,
       flat_map
         (fun p => Listing.data (Listing.getAllClasses (Listing.withPage p q)
                                   Sample24.twoStudents))
         (Listing.pagesUpTo
            (Listing.totalPages (Listing.getAllClasses q Sample24.twoStudents)))
       = map Listing.enhance l
       /\ Permutation l (classes Sample24.twoStudents)
       /\ StronglySorted
            (fun a b => String.compare (Class.className a) (Class.className b) = Lt) l.
Proof.
  split; [reflexivity|]. split; [reflexivity|]. split; [reflexivity|].
  destruct (getAllClasses_pages_cover_the_list
              {| Listing.page := None; Listing.limit := Some 1%positive;
                 Listing.status := Some "Active";
                 Listing.department := Some Sample24.cs |}
              Sample24.twoStudents)
    as (l & Hd & _ & _ & Hp & Hs & _).
  - reflexivity.
  - intros d [= <-] _. reflexivity.
  - exists l. split; [exact Hd|]. split; [exact Hp|exact Hs].
Defined.

Lemma nonempty_length {A} (l : list A) : l <> [] <-> (0 < List.length l)%nat.
Proof. destruct l; cbn; split; intros; try congruence; lia. Qed.

(** One page of the class list: the total is the number of selected
    classes whatever the page; the page holds at most [limit] classes;
    [hasNextPage] is true exactly when the next page holds a class, and
    [hasPrevPage] exactly when the page is not the first; a page after
    [totalPages] is empty (and is still answered). *)
Theorem getAllClasses_page_links (p : positive) (q : Listing.query) (st : Store) :
  let r := Listing.getAllClasses (Listing.withPage p q) st in
  Listing.total r = List.length (Listing.selected q st)
  /\ Listing.count r = List.length (Listing.data r)
  /\ Z.of_nat (Listing.count r) <= Listing.pageSize r
  /\ (Listing.hasNextPage r = true
      <-> Listing.data (Listing.getAllClasses (Listing.withPage (p + 1) q) st) <> [])
  /\ (Listing.hasPrevPage r = true <-> p <> 1%positive)
  /\ (Listing.totalPages r < Listing.pageNumber r -> Listing.data r = []).
Proof.
  cbv zeta. rewrite !getAllClasses_data. cbv zeta.
  set (limit := match Listing.limit q with Some l => l | None => 10%positive end).
  unfold Listing.getAllClasses.
  cbn [Listing.total Listing.count Listing.data Listing.pageSize Listing.hasNextPage
       Listing.hasPrevPage Listing.totalPages Listing.pageNumber Listing.withPage
       Listing.page Listing.limit].
  fold limit.
  assert (T : countDocuments (Listing.matches (Listing.withPage p q)) (classes st)
              = List.length (Listing.selected q st)).
  { unfold Listing.selected, countDocuments. now rewrite length_sorted. }
  rewrite T.
  pose proof (totalPages_spec (List.length (Listing.selected q st)) limit) as Bound.
  cbv zeta in Bound. set (pages := Qceiling _) in *.
  set (sel := Listing.selected q st) in *.
  assert (Sk : Z.to_nat ((Z.pos p - 1) * Z.pos limit)
               = ((Pos.to_nat p - 1) * Pos.to_nat limit)%nat).
  { rewrite Z2Nat.inj_mul, Z2Nat.inj_sub by lia. reflexivity. }
  rewrite Sk.
  split; [reflexivity|]. split; [reflexivity|]. split; [|split; [|split]].
  - rewrite length_map, length_firstn. lia.
  - rewrite Z.ltb_lt, nonempty_length, length_map, length_firstn, length_skipn. nia.
  - rewrite Z.ltb_lt. lia.
  - intros H. apply length_zero_iff_nil.
    rewrite length_map, length_firstn, length_skipn. nia.
Qed.

(** ** The detail views *)

Lemma countWhere_length {A} (p : A -> bool) (l : list A) :
  countWhere p l = Z.of_nat (List.length (filter p l)).
Proof.
  induction l as [|x l IH]; [reflexivity|]. rewrite countWhere_cons, IH. cbn [filter].
  destruct (p x); cbn [List.length]; lia.
Qed.

(** On a store whose counters match, the detail views agree with the
    counters: the number of students listed for a class is its
    [currentStrength], so that [availableSeats] is the capacity less the
    students listed and [isFull] says that no seat is available; the number
    of students listed for a course is its counter [enrolledStudents]; the
    student count of a department is its [totalStudents], of which the
    view lists the first ten. *)
Theorem detail_views_agree_with_counters (st : Store) :
  countersMatch st = true ->
  (forall id v,
     Detail.getClassById id st = Detail.Found v ->
     let cls := Listing.doc (Detail.classData v) in
     Z.of_nat (Detail.classStudentCount v) = Class.currentStrength cls
     /\ Listing.availableSeats (Detail.classData v)
        = Class.capacity cls - Z.of_nat (Detail.classStudentCount v)
     /\ (Listing.isFull (Detail.classData v) = true
         <-> Listing.availableSeats (Detail.classData v) <= 0))
  /\ (forall id v,
        Detail.getCourseById id st = Detail.Found v ->
        Z.of_nat (Detail.enrolledCount v) = Course.enrolledStudents (Detail.course v)
        /\ (forall m, Course.maxStudents (Detail.course v) = Some m ->
              Detail.courseAvailableSeats v = Some (m - Z.of_nat (Detail.enrolledCount v))
              /\ (Detail.courseIsFull v = true <-> m <= Z.of_nat (Detail.enrolledCount v))))
  /\ (forall id v,
        Detail.getDepartmentById id st = Detail.Found v ->
        Z.of_nat (Detail.studentCount v)
        = Department.totalStudents (Detail.department v)
        /\ List.length (Detail.studentList v) = Nat.min 10 (Detail.studentCount v)).
Proof.
  intros M. apply countersMatch_spec in M as (Mc & Md & Mk).
  split; [|split].
  - intros id v. unfold Detail.getClassById.
    destruct (findById Class._id id (classes st)) as [c|] eqn:F; [|discriminate].
    intros [= <-]. cbv zeta.
    cbn [Detail.classData Detail.classStudentCount Listing.enhance Listing.doc
         Listing.availableSeats Listing.isFull].
    rewrite (Mc c (findById_In _ _ _ _ F)), (findById_key _ _ _ _ F).
    unfold studentsOfClass. rewrite countWhere_length.
    split; [reflexivity|]. split; [reflexivity|]. rewrite Z.leb_le. lia.
  - intros id v. unfold Detail.getCourseById.
    destruct (findById Course._id id (courses st)) as [c|] eqn:F; [|discriminate].
    intros [= <-].
    cbn [Detail.course Detail.enrolledCount Detail.courseAvailableSeats
         Detail.courseIsFull].
    pose proof (Mk c (findById_In _ _ _ _ F)) as E.
    rewrite (findById_key _ _ _ _ F) in E. unfold studentsOfCourse in E.
    rewrite countWhere_length in E.
    split; [now rewrite E|]. intros m Hm. unfold Course.isFull. rewrite Hm. cbn.
    rewrite Z.leb_le, E. split; [reflexivity|lia].
  - intros id v. unfold Detail.getDepartmentById.
    destruct (findById Department._id id (departments st)) as [d|] eqn:F;
      [|discriminate].
    intros E.
    match type of E with
    | Detail.Found ?x = _ => assert (Ev : x = v) by congruence
    end.
    subst v. clear E.
    cbv beta iota delta [Detail.department Detail.studentCount Detail.studentList].
    rewrite (Md d (findById_In _ _ _ _ F)), (findById_key _ _ _ _ F).
    unfold studentsOfDepartment. rewrite countWhere_length.
    split; [reflexivity|]. apply length_firstn.
Qed.

Lemma detail_views_agree_with_counters_witness :
  countersMatch Sample.twoStudents = true
  /\ exists v,
       Detail.getClassById "c1" Sample.twoStudents = Detail.Found v
       /\ Z.of_nat (Detail.classStudentCount v)
          = Class.currentStrength (Listing.doc (Detail.classData v)).
Proof.
  split; [reflexivity|].
  eexists. split; [reflexivity|].
  apply (proj1 (detail_views_agree_with_counters Sample.twoStudents eq_refl) "c1").
  reflexivity.
Defined.

(** * The department collection *)

(** ** What the requests leave of the department collection *)

Lemma sameDepartmentKeys_refl (st : Store) : sameDepartmentKeys st st.
Proof. now repeat split. Qed.

Lemma sameDepartmentKeys_departments (st st' : Store) :
  departments st' = departments st -> sameDepartmentKeys st st'.
Proof. unfold sameDepartmentKeys. now intros ->. Qed.

Lemma sameDepartmentKeys_counter (id : Id) (d : Department.doc) (n : Z)
    (st0 st st' : Store) :
  findById Department._id id (departments st) = Some d ->
  sameDepartmentKeys st0 st ->
  departments st' = updateOne Department._id (Department.setTotalStudents n d)
                      (departments st) ->
  sameDepartmentKeys st0 st'.
Proof.
  unfold sameDepartmentKeys. intros F (Ei & En & Ec) ->.
  assert (F' : findById Department._id (Department._id (Department.setTotalStudents n d))
                 (departments st) = Some d).
  { cbn. now rewrite (findById_key _ _ _ _ F). }
  now rewrite !(map_updateOne Department._id _ _ d _ F').
Qed.

Lemma handleDepartmentChange_keys (student : Student.doc) (b : StudentPatch.body)
    (st0 st : Store) :
  sameDepartmentKeys st0 st ->
  sameDepartmentKeys st0
    (fst (StudentController.handleDepartmentChange student b st)).
Proof.
  intros H. unfold StudentController.handleDepartmentChange, saveDepartment. run.
  destruct (changed _ _) as [newDepartmentId|] eqn:C; [|exact H].
  assert (N : Student.department student <> newDepartmentId).
  { unfold changed in C.
    destruct (StudentPatch.department b) as [x|]; [|discriminate].
    destruct (falsy x); [discriminate|]. cbn in C.
    destruct (String.eqb_spec x (Student.department student)); [discriminate|].
    injection C as <-. congruence. }
  destruct (findById Department._id newDepartmentId (departments st))
    as [newDepartment|] eqn:Fn; [|exact H].
  destruct (findById Department._id (Student.department student) (departments st))
    as [oldDepartment|] eqn:Fo.
  - destruct (Department.validate (Department.setTotalStudents _ oldDepartment));
      [|exact H].
    cbn beta iota zeta.
    assert (H1 : sameDepartmentKeys st0
                   (withDepartments
                      (updateOne Department._id
                         (Department.setTotalStudents
                            (Department.totalStudents oldDepartment - 1) oldDepartment)
                         (departments st)) st)).
    { now apply (sameDepartmentKeys_counter (Student.department student)
                   oldDepartment (Department.totalStudents oldDepartment - 1)
                   st0 st). }
    destruct (Department.validate (Department.setTotalStudents _ newDepartment));
      [|exact H1].
    cbn beta iota zeta. stores.
    apply (sameDepartmentKeys_counter newDepartmentId newDepartment
             (Department.totalStudents newDepartment + 1) st0
             (withDepartments
                (updateOne Department._id
                   (Department.setTotalStudents
                      (Department.totalStudents oldDepartment - 1) oldDepartment)
                   (departments st)) st)); [|exact H1|reflexivity].
    stores. rewrite findById_updateOne_other; [exact Fn|].
    cbn. now rewrite (findById_key _ _ _ _ Fo).
  - cbn beta iota zeta.
    destruct (Department.validate (Department.setTotalStudents _ newDepartment));
      [|exact H].
    cbn beta iota zeta. stores.
    now apply (sameDepartmentKeys_counter newDepartmentId newDepartment
                 (Department.totalStudents newDepartment + 1) st0 st).
Qed.

(** Only the removal of a department changes the ids, the names or the codes
    of the departments among the requests of [handle]. *)
Lemma departments_frame (q : Request) (st : Store) :
  match q with
  | DeleteDepartment _ => True
  | _ => sameDepartmentKeys st (fst (handle q st))
  end.
Proof.
  destruct q as [[newId body|id body|id]|newIds drafts|newId body|id body|id
                |id studentId|id studentId|id|id]; try exact I; cbn [handle serve].
  - unfold StudentController.createStudent, StudentController.createStudentBody,
      insertStudent, saveClass, saveDepartment, StudentController.incCourses. run.
    repeat step; stores;
      first [apply sameDepartmentKeys_refl
            |now apply sameDepartmentKeys_departments
            |match goal with
             | F : findByIdOpt Department._id _ (departments st) = Some ?d |- _ =>
                 apply (sameDepartmentKeys_counter (Department._id d) d
                          (Department.totalStudents d + 1) st st);
                 [|apply sameDepartmentKeys_refl|reflexivity]
             end].
    all: match goal with
         | F : findByIdOpt _ ?o _ = Some _ |- _ =>
             unfold findByIdOpt in F; destruct o; [|discriminate];
             now rewrite (findById_key _ _ _ _ F)
         end.
  - apply (updateStudent_keeps (sameDepartmentKeys st)).
    + intros student b s H.
      destruct (handleClassChange_frame student b s) as (E & _).
      unfold sameDepartmentKeys in *. now rewrite E.
    + intros student b s H. now apply handleDepartmentChange_keys.
    + intros student b s H.
      destruct (handleCoursesChange_frame student b s) as (E & _).
      unfold sameDepartmentKeys in *. now rewrite E.
    + intros l s H. exact H.
    + apply sameDepartmentKeys_refl.
  - unfold StudentController.deleteStudent, StudentController.deleteStudentBody,
      saveClass, saveDepartment, StudentController.incCourses. run.
    repeat step; stores;
      first [apply sameDepartmentKeys_refl
            |now apply sameDepartmentKeys_departments
            |match goal with
             | F : findById Department._id ?i (departments st) = Some ?d |- _ =>
                 now apply (sameDepartmentKeys_counter i d
                              (Department.totalStudents d - 1) st st);
                 [exact F|apply sameDepartmentKeys_refl|reflexivity]
             end].
  - unfold StudentController.bulkCreateStudents.
    destruct (Nat.eqb _ 0); [apply sameDepartmentKeys_refl|].
    destruct (Nat.ltb 100 _); [apply sameDepartmentKeys_refl|].
    destruct (bulkLoop_frame newIds drafts 0 st [] []) as (Ed & _).
    destruct (StudentController.bulkLoop newIds 0 drafts st [] [])
      as [st' [successes errors]].
    now apply sameDepartmentKeys_departments.
  - destruct (createCourse_cases newId body st) as [[_ ->]|(_ & _ & _ & _ & _ & ->)];
      [apply sameDepartmentKeys_refl|now apply sameDepartmentKeys_departments].
  - destruct (updateCourse_cases id body st)
      as [[_ ->]|(_ & course & b1 & _ & _ & _ & _ & _ & _ & _ & _ & ->)];
      [apply sameDepartmentKeys_refl|now apply sameDepartmentKeys_departments].
  - destruct (deleteCourse_cases id st) as [[_ ->]|(_ & _ & _ & ->)];
      [apply sameDepartmentKeys_refl|now apply sameDepartmentKeys_departments].
  - unfold CourseController.enrollStudent, CourseController.enrollStudentBody,
      CourseController.saveLoadedStudent, CourseController.saveLoadedCourse. run.
    repeat step; stores;
      first [apply sameDepartmentKeys_refl|now apply sameDepartmentKeys_departments].
  - unfold CourseController.withdrawStudent, CourseController.withdrawStudentBody,
      CourseController.saveLoadedStudent, CourseController.saveLoadedCourse. run.
    repeat step; stores;
      first [apply sameDepartmentKeys_refl|now apply sameDepartmentKeys_departments].
  - unfold ClassController.deleteClass, ClassController.deleteClassBody. run.
    repeat step; stores;
      first [apply sameDepartmentKeys_refl|now apply sameDepartmentKeys_departments].
Qed.

(** ** Unique keys of the departments *)

Lemma uniqueDepartmentKeys_spec (st : Store) :
  uniqueDepartmentKeys st = true <->
  NoDup (map Department._id (departments st))
  /\ NoDup (map Department.departmentName (departments st))
  /\ NoDup (map Department.departmentCode (departments st)).
Proof.
  unfold uniqueDepartmentKeys. rewrite !andb_true_iff, !distinct_NoDup. tauto.
Qed.

Lemma uniqueDepartmentKeys_same (st st' : Store) :
  sameDepartmentKeys st st' -> uniqueDepartmentKeys st' = uniqueDepartmentKeys st.
Proof. unfold uniqueDepartmentKeys. now intros (-> & -> & ->). Qed.

Lemma departmentKeyTaken_false (d : Department.doc) (l : list Department.doc) :
  DepartmentWrites.departmentKeyTaken d l = false ->
  forall x, In x l -> Department._id x <> Department._id d ->
    Department.departmentName x <> Department.departmentName d
    /\ Department.departmentCode x <> Department.departmentCode d.
Proof.
  unfold DepartmentWrites.departmentKeyTaken. intros H x Hx Hid.
  assert (N := proj2 (not_true_iff_false _) H).
  split; intros E; apply N; apply existsb_exists; exists x;
    (split; [exact Hx|]); apply andb_true_iff;
    (split; [apply negb_true_iff; now apply String.eqb_neq|]);
    apply orb_true_iff; [left|right]; now apply String.eqb_eq.
Qed.

(** [createDepartment] writes once: where it changes the store it has
    appended the new department, whose keys no department had. *)
Lemma createDepartment_cases (newId : Id) (b : DepartmentData.body) (st : Store) :
  (fst (DepartmentWrites.createDepartment newId b st) = st
   /\ forall code d,
        snd (DepartmentWrites.createDepartment newId b st)
        <> DepartmentWrites.Stored code d)
  \/ ((existsb (fun x => String.eqb (Department._id x) newId) (departments st)
       || DepartmentWrites.departmentKeyTaken
            (DepartmentWrites.newDepartment newId b) (departments st))%bool = false
      /\ DepartmentWrites.createDepartment newId b st
         = (withDepartments
              (departments st ++ [DepartmentWrites.newDepartment newId b]) st,
            DepartmentWrites.Stored 201 (DepartmentWrites.newDepartment newId b))).
Proof.
  unfold DepartmentWrites.createDepartment, DepartmentWrites.insertDepartment,
    DepartmentWrites.caught.
  repeat step; try (left; split; [reflexivity|discriminate]).
  right. split; [assumption|reflexivity].
Qed.

(** [updateDepartment] writes once: where it changes the store it has
    replaced the department of the request by one that keeps its [_id] and
    whose name and code no other department has. *)
Lemma updateDepartment_cases (id : Id) (b : DepartmentPatch.body) (st : Store) :
  (fst (DepartmentWrites.updateDepartment id b st) = st
   /\ forall code d,
        snd (DepartmentWrites.updateDepartment id b st)
        <> DepartmentWrites.Stored code d)
  \/ exists department b1,
       findById Department._id id (departments st) = Some department
       /\ DepartmentWrites.departmentKeyTaken
            (DepartmentWrites.applyPatch b1 department) (departments st) = false
       /\ DepartmentWrites.updateDepartment id b st
          = (withDepartments
               (updateOne Department._id
                  (DepartmentWrites.applyPatch b1 department) (departments st)) st,
             DepartmentWrites.Stored 200 (DepartmentWrites.applyPatch b1 department)).
Proof.
  unfold DepartmentWrites.updateDepartment, DepartmentWrites.savePatched,
    DepartmentWrites.caught.
  destruct (findById Department._id id (departments st)) as [department|] eqn:F;
    [|left; split; [reflexivity|discriminate]].
  match goal with
  | |- context [match ?c with Some _ => _ | None => (st, _) end] =>
      destruct c as [b1|] eqn:C
  end; [|left; split; [reflexivity|discriminate]].
  repeat step; try (left; split; [reflexivity|discriminate]).
  right. exists department, b1. repeat split; assumption.
Qed.

(** No request makes two departments share an [_id], a name or a code: the
    unique keys of the department collection stay unique after the creation
    and the update of a department and after every request of [handle],
    whether the request succeeds or fails. *)
Theorem department_keys_stay_unique (st : Store) :
  uniqueDepartmentKeys st = true ->
  (forall newId b,
     uniqueDepartmentKeys (fst (DepartmentWrites.createDepartment newId b st)) = true)
  /\ (forall id b,
        uniqueDepartmentKeys (fst (DepartmentWrites.updateDepartment id b st)) = true)
  /\ (forall q, uniqueDepartmentKeys (fst (handle q st)) = true).
Proof.
  intros H. repeat split.
  - intros newId b.
    destruct (createDepartment_cases newId b st) as [[-> _]|(G & ->)]; [exact H|].
    apply orb_false_iff in G as [Gid Gkey].
    apply uniqueDepartmentKeys_spec in H as (Hi & Hn & Hc).
    assert (Fresh : forall x, In x (departments st) -> Department._id x <> newId).
    { intros x Hx N. apply (proj2 (not_true_iff_false _) Gid).
      apply existsb_exists. exists x. split; [exact Hx|now apply String.eqb_eq]. }
    apply uniqueDepartmentKeys_spec. stores. rewrite !map_app. cbn [map].
    repeat split; apply NoDup_snoc; auto; intros Hin;
      apply in_map_iff in Hin as (x & Ex & Hx);
      destruct (departmentKeyTaken_false _ _ Gkey x Hx (Fresh x Hx)) as [Nn Nc];
      [now apply (Fresh x Hx)|now apply Nn|now apply Nc].
  - intros id b.
    destruct (updateDepartment_cases id b st)
      as [[-> _]|(department & b1 & F & G & ->)]; [exact H|].
    apply uniqueDepartmentKeys_spec in H as (Hi & Hn & Hc).
    apply uniqueDepartmentKeys_spec. stores. rewrite updateOne_keys.
    repeat split; [exact Hi| |];
      apply (NoDup_map_updateOne Department._id); auto; intros x Hx Hid;
      now destruct (departmentKeyTaken_false _ _ G x Hx Hid).
  - intros q. pose proof (departments_frame q st) as F.
    destruct q as [q|newIds drafts|newId body|id body|id| | | |id];
      try (now rewrite (uniqueDepartmentKeys_same st _ F)); cbn [handle].
    apply uniqueDepartmentKeys_spec in H as (Hi & Hn & Hc).
    unfold DepartmentController.deleteDepartment,
      DepartmentController.deleteDepartmentBody. run.
    repeat step; apply uniqueDepartmentKeys_spec; stores;
      repeat split; try assumption; now apply NoDup_map_delete.
Qed.

Lemma department_keys_stay_unique_witness :
  uniqueDepartmentKeys Sample.twoStudents = true
  /\ uniqueDepartmentKeys
       (fst (DepartmentWrites.createDepartment "d2" DepartmentSample.physics
               Sample.twoStudents)) = true
  /\ uniqueDepartmentKeys
       (fst (DepartmentWrites.updateDepartment "d1" (DepartmentSample.rename "Computing")
               Sample.twoStudents)) = true
  /\ uniqueDepartmentKeys (fst (handle (DeleteDepartment "d1") Sample.twoStudents)) = true.
Proof.
  split; [reflexivity|].
  destruct (department_keys_stay_unique Sample.twoStudents) as (Hc & Hu & Hq);
    [reflexivity|].
  split; [apply Hc|split; [apply Hu|apply Hq]].
Defined.

(** ** Creating a department *)

Lemma find_snoc_new {A} (p : A -> bool) (l : list A) (x : A) :
  existsb p l = false -> p x = true -> find p (l ++ [x]) = Some x.
Proof.
  intros N T. induction l as [|y l IH]; cbn in *; [now rewrite T|].
  apply orb_false_iff in N as [-> N]. now apply IH.
Qed.

Lemma find_snoc_some {A} (p : A -> bool) (l : list A) (x : A) :
  p x = true -> find p (l ++ [x]) <> None.
Proof.
  intros T. induction l as [|y l IH]; cbn; [now rewrite T|].
  destruct (p y); [discriminate|exact IH].
Qed.

(** A department that [createDepartment] reports as created (status 201) is
    in the store: [getDepartmentById] finds it under the new id, and every
    later creation whose name, trimmed, or whose code, trimmed and in upper
    case, is the one it was stored with is refused with status 400 and
    changes nothing. *)
Theorem created_department_is_found_and_reserves_its_keys (newId : Id)
    (b : DepartmentData.body) (st st' : Store) (code : Z) (d : Department.doc) :
  DepartmentWrites.createDepartment newId b st = (st', DepartmentWrites.Stored code d) ->
  code = 201
  /\ (exists v, Detail.getDepartmentById newId st' = Detail.Found v
                /\ Detail.department v = d)
  /\ forall newId' b',
       DepartmentWrites.castDepartmentName (DepartmentData.departmentName b')
       = Department.departmentName d
       \/ DepartmentWrites.castDepartmentCode
            (toUpperCase (DepartmentData.departmentCode b'))
          = Department.departmentCode d ->
       DepartmentWrites.createDepartment newId' b' st'
       = (st', DepartmentWrites.Refused 400 DepartmentWrites.NameOrCodeExists).
Proof.
  intros E.
  destruct (createDepartment_cases newId b st) as [[_ N]|(G & E')].
  { exfalso. apply (N code d). now rewrite E. }
  rewrite E' in E. injection E as <- <- <-.
  apply orb_false_iff in G as [Gid _].
  split; [reflexivity|]. split.
  - unfold Detail.getDepartmentById, findById. stores.
    rewrite (find_snoc_new _ _ (DepartmentWrites.newDepartment newId b));
      [|exact Gid|apply String.eqb_refl].
    eexists. split; reflexivity.
  - intros newId' b' K. unfold DepartmentWrites.createDepartment. stores.
    match goal with
    | |- context [find ?p (?l ++ [?x])] =>
        pose proof (find_snoc_some p l x) as S; destruct (find p (l ++ [x]))
    end; [reflexivity|].
    exfalso. apply S; [|reflexivity].
    apply orb_true_iff. destruct K as [K|K]; [left|right];
      apply String.eqb_eq; now rewrite K.
Qed.

Lemma created_department_is_found_and_reserves_its_keys_witness :
  exists st' d,
    DepartmentWrites.createDepartment "d2" DepartmentSample.physics Sample.twoStudents
    = (st', DepartmentWrites.Stored 201 d)
    /\ Department.departmentCode d = "PHY"
    /\ DepartmentWrites.createDepartment "d3" DepartmentSample.physicsAgain st'
       = (st', DepartmentWrites.Refused 400 DepartmentWrites.NameOrCodeExists).
Proof.
  eexists. eexists. split; [reflexivity|]. split; [reflexivity|].
  eapply (created_department_is_found_and_reserves_its_keys "d2"
            DepartmentSample.physics Sample.twoStudents); [reflexivity|].
  right. reflexivity.
Defined.

(** * The course handlers on the ids of a request *)

(** ** Casting *)

Lemma length_mapString (f : ascii -> ascii) (s : string) :
  String.length (mapString f s) = String.length s.
Proof. induction s as [|c s IH]; cbn; congruence. Qed.

Lemma castObjectId_length (s : string) (id : Id) :
  castObjectId s = Some id ->
  String.length s = 24%nat /\ String.length id = 24%nat.
Proof.
  unfold castObjectId.
  destruct (Nat.eqb (String.length s) 24) eqn:L; [|discriminate].
  destruct (allHex s); [|discriminate]. cbn. intros [= <-].
  apply Nat.eqb_eq in L. unfold toLowerCase. now rewrite length_mapString.
Qed.

Lemma castObjectId_falsy (s : string) (id : Id) :
  castObjectId s = Some id -> falsy s = false /\ falsy id = false.
Proof.
  intros H. apply castObjectId_length in H as [Hs Hi].
  split; [destruct s|destruct id]; try discriminate; reflexivity.
Qed.

(** ** Enrolment *)


Ltac raw :=
  cbv beta delta [Raw.findByIdCast Raw.push throw] in *; run.






(** An id that is not an ObjectId does not resolve either, and is answered
    with the status 500 of the [catch] block. *)
Lemma enrollStudent_ill_formed_id :
  let r := Raw.enrollStudent "k1" Sample24.eve Sample24.twoStudents in
  fst r = Sample24.twoStudents
  /\ failsWith (snd r) 500 Taxonomy.StorageError
  /\ ~ failsWith (snd r) 404 Taxonomy.NotFound.
Proof.
  cbv zeta. split; [reflexivity|]. split.
  - vm_compute. repeat split.
  - intros (H & _). vm_compute in H. discriminate H.
Qed.

(** The test for a student who is already enrolled compares the string of
    the request with the canonical text of the ids of the student: with
    the id of the course written in upper case the test misses, and Eve,
    who takes Algorithms, is enrolled in it once more.  Her list then holds
    the course twice, and the counter says two where one student takes the
    course. *)
Lemma enrollStudent_upper_case_enrolls_again :
  let st := Sample24.bothCourses in
  let r := Raw.enrollStudent Sample24.ALGORITHMS Sample24.eve st in
  castObjectId Sample24.ALGORITHMS = Some Sample24.algorithms
  /\ countersMatch st = true
  /\ findById Student._id Sample24.eve (students st)
     = Some (Sample24.eveOde [Sample24.intro; Sample24.algorithms])
  /\ snd r = ok 200 (Enrolled Sample24.eve Sample24.algorithms)
  /\ findById Student._id Sample24.eve (students (fst r))
     = Some (Sample24.eveOde
               [Sample24.intro; Sample24.algorithms; Sample24.algorithms])
  /\ findById Course._id Sample24.algorithms (courses (fst r))
     = Some (Sample24.algorithmsCourse 2)
  /\ studentsOfCourse Sample24.algorithms (fst r) = 1
  /\ countersMatch (fst r) = false.
Proof. cbv zeta. repeat split; vm_compute; reflexivity. Qed.

(** ** The prerequisites of an update *)

(** Claim C9 fails on the code.  The update looks the prerequisites up with
    a query that casts the strings of the list, and then tests whether the
    list holds the course itself by comparing those strings with the
    canonical text of the id of the course.  With the id of Algorithms
    written in upper case in the list, the query finds the course, the test
    misses it, and the update is answered 200: Algorithms is stored as its
    own prerequisite.  With the id written in lower case the same request
    is refused with 'Course cannot be a prerequisite of itself'. *)
Theorem updateCourse_upper_case_self_prerequisite :
  let st := Sample24.twoStudents in
  let r := Raw.updateCourse Sample24.algorithms
             (Sample24.prerequisitesOnly [Sample24.ALGORITHMS]) st in
  noSelfPrerequisite st
  /\ castObjectId Sample24.ALGORITHMS = Some Sample24.algorithms
  /\ status (snd r) = 200 /\ success (snd r) = true
  /\ findById Course._id Sample24.algorithms (courses (fst r))
     = Some (Sample24.course Sample24.algorithms "Algorithms" "CS201"
               [Sample24.algorithms] 30 0)
  /\ ~ noSelfPrerequisite (fst r)
  /\ snd (Raw.updateCourse Sample24.algorithms
            (Sample24.prerequisitesOnly [Sample24.algorithms]) st)
     = fail 400 SelfPrerequisite.
Proof.
  cbv zeta. split.
  { intros c [<-|[<-|[]]]; reflexivity. }
  split; [reflexivity|]. split; [reflexivity|]. split; [reflexivity|].
  split; [reflexivity|]. split; [|reflexivity].
  intros H.
  specialize (H (Sample24.course Sample24.algorithms "Algorithms" "CS201"
                   [Sample24.algorithms] 30 0)).
  assert (E : includes [Sample24.algorithms] Sample24.algorithms = true) by reflexivity.
  cbn [Course.prerequisites Course._id Sample24.course] in H.
  rewrite H in E; [discriminate E|].
  vm_compute. right. left. reflexivity.
Qed.

(** ** Withdrawing *)

Lemma withdrawStudent_canonical (id studentId : string) (sid : Id) (st : Store) :
  castObjectId id = Some id ->
  castObjectId studentId = Some sid ->
  Raw.withdrawStudent id studentId st = CourseController.withdrawStudent id sid st.
Proof.
  intros Hc Hs.
  destruct (castObjectId_falsy _ _ Hs) as [F1 F2].
  unfold Raw.withdrawStudent, Raw.withdrawStudentBody, Raw.findByIdCast,
    CourseController.withdrawStudent, CourseController.withdrawStudentBody, throw.
  rewrite Hc, Hs, F1, F2. reflexivity.
Qed.

(** The decision list of [withdrawStudent]: 400 without a student id, and
    500 when the course id is not a string of 24 hexadecimal digits.  For a
    course id in canonical form: 404 when the course does not resolve; 500
    when the student id does not cast and 404 when it casts and does not
    resolve; 400 when the student does not take the course.  Otherwise
    every occurrence of the course id is removed from the student's
    courses, and the counter of the course is written as
    [max 0 (enrolledStudents - 1)]; the answer is 200 unless that write is
    refused by a validator of the course, in which case the student has
    left the course and the counter is as it was. *)
Theorem withdrawStudent_outcomes (id studentId : string) (st : Store) :
  let r := Raw.withdrawStudent id studentId st in
  (falsy studentId = true -> r = (st, fail 400 StudentIdRequired))
  /\ (falsy studentId = false ->
      (castObjectId id = None -> r = (st, fail 500 (ServerError castError)))
      /\ (castObjectId id = Some id ->
          (findById Course._id id (courses st) = None ->
           r = (st, fail 404 CourseNotFound))
          /\ forall course,
             findById Course._id id (courses st) = Some course ->
             (castObjectId studentId = None ->
              r = (st, fail 500 (ServerError castError)))
             /\ forall sid,
                castObjectId studentId = Some sid ->
                (findById Student._id sid (students st) = None ->
                 r = (st, fail 404 StudentNotFound))
                /\ forall student,
                   findById Student._id sid (students st) = Some student ->
                   (includes (Student.courses student) id = false ->
                    r = (st, fail 400 NotEnrolled))
                   /\ (includes (Student.courses student) id = true ->
                       (exists student',
                          findById Student._id sid (students (fst r)) = Some student'
                          /\ includes (Student.courses student') id = false)
                       /\ (success (snd r) = true ->
                           snd r = ok 200 (Withdrawn sid id)
                           /\ findById Course._id id (courses (fst r))
                              = Some (Course.setEnrolledStudents
                                        (Z.max 0 (Course.enrolledStudents course - 1))
                                        course))
                       /\ (success (snd r) = false ->
                           status (snd r) = 500 /\ courses (fst r) = courses st)))).
Proof.
  cbv zeta. split; [|intros G; split; [|intros Hc; split; [|intros course Hk; split]]].
  - intros G. unfold Raw.withdrawStudent, Raw.withdrawStudentBody. raw. now rewrite G.
  - intros Hc. unfold Raw.withdrawStudent, Raw.withdrawStudentBody. raw.
    now rewrite G, Hc.
  - intros Hk. unfold Raw.withdrawStudent, Raw.withdrawStudentBody. raw.
    now rewrite G, Hc, Hk.
  - intros Hs. unfold Raw.withdrawStudent, Raw.withdrawStudentBody. raw.
    now rewrite G, Hc, Hk, Hs.
  - intros sid Hs. rewrite (withdrawStudent_canonical id studentId sid st Hc Hs).
    destruct (castObjectId_falsy _ _ Hs) as [_ G'].
    destruct (withdrawStudent_decisions id sid st) as [_ D].
    destruct (D G') as [_ Dc]. exact (Dc course Hk).
Qed.

(** ** Enrolling, then withdrawing *)



(** With the id of the course written in upper case the enrolment
    succeeds, and the withdrawal that spells the id the same way is refused
    with 'Student is not enrolled in this course': the test compares the
    string of the request with the canonical text of the stored ids. *)
Lemma enroll_then_withdraw_upper_case :
  let st := Sample24.twoStudents in
  let r := Raw.enrollStudent Sample24.ALGORITHMS Sample24.eve st in
  snd r = ok 200 (Enrolled Sample24.eve Sample24.algorithms)
  /\ Raw.withdrawStudent Sample24.ALGORITHMS Sample24.eve (fst r)
     = (fst r, fail 400 NotEnrolled)
  /\ Raw.withdrawStudent Sample24.algorithms Sample24.eve (fst r)
     = (st, ok 200 (Withdrawn Sample24.eve Sample24.algorithms)).
Proof. cbv zeta. repeat split; vm_compute; reflexivity. Qed.

(** * The student handlers on the ids of a request *)

Lemma canonical_spec (s : string) : canonical s = true <-> castObjectId s = Some s.
Proof.
  unfold canonical. destruct (castObjectId s) as [id|]; [|easy].
  destruct (String.eqb_spec id s) as [->|N]; split; try easy.
  intros [= E]. contradiction.
Qed.

Lemma canonicalKey_cast (path : string) (o : option string) :
  canonicalKey o = true -> Raw.castKey o = o /\ Raw.castFailure path o = [].
Proof.
  destruct o as [s|]; [|easy]. cbn. intros H. apply canonical_spec in H.
  now rewrite H.
Qed.

Lemma canonical_castObjectIds (l : list string) :
  forallb canonical l = true -> castObjectIds l = Some l.
Proof.
  induction l as [|s l IH]; [reflexivity|]. cbn.
  intros H. apply andb_true_iff in H as [Hs Hl]. apply canonical_spec in Hs.
  now rewrite Hs, (IH Hl).
Qed.

Lemma canonicalKeys_cast (path : string) (o : option (list string)) :
  canonicalKeys o = true -> Raw.castKeys o = o /\ Raw.castFailures path o = [].
Proof.
  destruct o as [l|]; [|easy]. cbn. intros H.
  now rewrite (canonical_castObjectIds l H).
Qed.

Lemma forallb_filter {A} (p q : A -> bool) (l : list A) :
  forallb p l = true -> forallb p (filter q l) = true.
Proof.
  induction l as [|x l IH]; [reflexivity|]. cbn.
  intros H. apply andb_true_iff in H as [Hx Hl].
  destruct (q x); cbn; [rewrite Hx|]; now apply IH.
Qed.

(** ** Creating *)

Lemma castedData_canonical (b : StudentData.body) :
  canonicalKey (StudentData.class b) = true ->
  canonicalKey (StudentData.department b) = true ->
  canonicalKeys (StudentData.courses b) = true ->
  Raw.castedData b = b.
Proof.
  intros Hc Hd Hk. unfold Raw.castedData.
  destruct (canonicalKey_cast "class" _ Hc) as [-> ->].
  destruct (canonicalKey_cast "department" _ Hd) as [-> ->].
  destruct (canonicalKeys_cast "courses" _ Hk) as [-> ->].
  now destruct b.
Qed.

(** On a body whose ids are in canonical form the handler is the one of
    [StudentController]. *)
Lemma createStudent_canonical (newId : Id) (b : StudentData.body) (st : Store) :
  canonicalRequest (PostStudent newId b) = true ->
  Raw.createStudent newId b st = StudentController.createStudent newId b st.
Proof.
  cbn [canonicalRequest]. rewrite !andb_true_iff. intros [[Hc Hd] Hk].
  unfold Raw.createStudent, Raw.createStudentBody,
    StudentController.createStudent, StudentController.createStudentBody.
  rewrite (castedData_canonical b Hc Hd Hk).
  assert (Ek : castObjectIds (requested (StudentData.courses b))
               = Some (requested (StudentData.courses b))).
  { destruct (StudentData.courses b) as [l|]; [|reflexivity].
    now apply canonical_castObjectIds. }
  unfold Raw.castAll. rewrite Ek.
  unfold Raw.findByIdOptCast, Raw.findByIdCast.
  destruct (StudentData.class b) as [c|];
    [apply canonical_spec in Hc; rewrite Hc|];
    (destruct (StudentData.department b) as [d|];
     [apply canonical_spec in Hd; rewrite Hd|]); reflexivity.
Qed.

(** ** Updating *)

Lemma handleClassChange_canonical (student : Student.doc) (b : StudentPatch.body)
    (st : Store) :
  canonicalKey (StudentPatch.class b) = true ->
  Raw.handleClassChange student b st = StudentController.handleClassChange student b st.
Proof.
  intros H. unfold Raw.handleClassChange, StudentController.handleClassChange.
  destruct (StudentPatch.class b) as [c|]; [|reflexivity].
  apply canonical_spec in H. unfold changed.
  destruct (negb (falsy c) && negb (String.eqb c (Student.class student)))%bool;
    [|reflexivity].
  unfold Raw.findByIdCast. now rewrite H.
Qed.

Lemma handleDepartmentChange_canonical (student : Student.doc)
    (b : StudentPatch.body) (st : Store) :
  canonicalKey (StudentPatch.department b) = true ->
  Raw.handleDepartmentChange student b st
  = StudentController.handleDepartmentChange student b st.
Proof.
  intros H.
  unfold Raw.handleDepartmentChange, StudentController.handleDepartmentChange.
  destruct (StudentPatch.department b) as [d|]; [|reflexivity].
  apply canonical_spec in H. unfold changed.
  destruct (negb (falsy d) && negb (String.eqb d (Student.department student)))%bool;
    [|reflexivity].
  unfold Raw.findByIdCast. now rewrite H.
Qed.

Lemma handleCoursesChange_canonical (student : Student.doc) (b : StudentPatch.body)
    (st : Store) :
  canonicalKeys (StudentPatch.courses b) = true ->
  Raw.handleCoursesChange student b st
  = StudentController.handleCoursesChange student b st.
Proof.
  intros H. unfold Raw.handleCoursesChange, StudentController.handleCoursesChange.
  destruct (StudentPatch.courses b) as [l|]; [|reflexivity].
  cbn in H. cbv zeta. unfold Raw.castAll.
  match goal with
  | |- context [castObjectIds ?ids] =>
      assert (E : castObjectIds ids = Some ids)
        by (apply canonical_castObjectIds; now apply forallb_filter);
      rewrite E
  end.
  reflexivity.
Qed.

Lemma castedPatch_canonical (b : StudentPatch.body) :
  canonicalKey (StudentPatch.class b) = true ->
  canonicalKey (StudentPatch.department b) = true ->
  canonicalKeys (StudentPatch.courses b) = true ->
  Raw.castedPatch b = b.
Proof.
  intros Hc Hd Hk. unfold Raw.castedPatch.
  destruct (canonicalKey_cast "class" _ Hc) as [-> ->].
  destruct (canonicalKey_cast "department" _ Hd) as [-> ->].
  destruct (canonicalKeys_cast "courses" _ Hk) as [-> ->].
  now destruct b.
Qed.

(** The checks of the email and of the roll number leave the references
    of the body as they are. *)
Lemma checkEmail_keys (student : Student.doc) (b b1 : StudentPatch.body)
    (st st1 : Store) :
  StudentController.checkEmail student b st = (st1, Continue b1) ->
  StudentPatch.class b1 = StudentPatch.class b
  /\ StudentPatch.department b1 = StudentPatch.department b
  /\ StudentPatch.courses b1 = StudentPatch.courses b.
Proof.
  unfold StudentController.checkEmail.
  destruct (changed _ _) as [e|]; run.
  - destruct (find _ _); intros [= _ <-]. now cbn.
  - now intros [= _ <-].
Qed.

Lemma checkRollNumber_keys (student : Student.doc) (b b1 : StudentPatch.body)
    (st st1 : Store) :
  StudentController.checkRollNumber student b st = (st1, Continue b1) ->
  StudentPatch.class b1 = StudentPatch.class b
  /\ StudentPatch.department b1 = StudentPatch.department b
  /\ StudentPatch.courses b1 = StudentPatch.courses b.
Proof.
  unfold StudentController.checkRollNumber.
  destruct (changed _ _) as [e|]; run.
  - destruct (find _ _); intros [= _ <-]. now cbn.
  - now intros [= _ <-].
Qed.

Lemma bind_ext {A B} (h h' : Handler A) (k k' : A -> Handler B) (st : Store) :
  h st = h' st ->
  (forall a st', h' st = (st', Continue a) -> k a st' = k' a st') ->
  bind h k st = bind h' k' st.
Proof.
  intros Eh Ek. unfold bind. rewrite Eh.
  destruct (h' st) as [st' [a| |]] eqn:E; [now apply Ek|reflexivity|reflexivity].
Qed.

Lemma updateStudent_canonical (id : string) (b : StudentPatch.body) (st : Store) :
  canonicalRequest (PutStudent id b) = true ->
  Raw.updateStudent id b st = StudentController.updateStudent id b st.
Proof.
  cbn [canonicalRequest]. rewrite !andb_true_iff. intros [[[Hi Hc] Hd] Hk].
  apply canonical_spec in Hi.
  unfold Raw.updateStudent, StudentController.updateStudent, tryCatch.
  replace (Raw.updateStudentBody id b st)
    with (StudentController.updateStudentBody id b st); [reflexivity|].
  symmetry.
  unfold Raw.updateStudentBody, StudentController.updateStudentBody,
    Raw.findByIdCast.
  rewrite Hi. apply bind_ext; [reflexivity|].
  intros [student|] st0 _; [|reflexivity].
  apply bind_ext; [reflexivity|]. intros b1 st1 E1.
  destruct (checkEmail_keys _ _ _ _ _ E1) as (Kc1 & Kd1 & Kk1).
  apply bind_ext; [reflexivity|]. intros b2 st2 E2.
  destruct (checkRollNumber_keys _ _ _ _ _ E2) as (Kc2 & Kd2 & Kk2).
  rewrite <- Kc1, <- Kc2 in Hc. rewrite <- Kd1, <- Kd2 in Hd.
  rewrite <- Kk1, <- Kk2 in Hk.
  rewrite (castedPatch_canonical b2 Hc Hd Hk).
  apply bind_ext; [now apply handleClassChange_canonical|]. intros _ st3 _.
  apply bind_ext; [now apply handleDepartmentChange_canonical|]. intros _ st4 _.
  apply bind_ext; [now apply handleCoursesChange_canonical|]. intros _ st5 _.
  reflexivity.
Qed.

(** ** Deleting *)

Lemma deleteStudent_canonical (id : string) (st : Store) :
  canonicalRequest (DeleteStudent id) = true ->
  Raw.deleteStudent id st = StudentController.deleteStudent id st.
Proof.
  cbn [canonicalRequest]. intros Hi. apply canonical_spec in Hi.
  unfold Raw.deleteStudent, Raw.deleteStudentBody, Raw.findByIdAndDeleteCast,
    StudentController.deleteStudent, StudentController.deleteStudentBody,
    Raw.findByIdCast.
  now rewrite Hi.
Qed.

Lemma serve_canonical (q : StudentRequest) (st : Store) :
  canonicalRequest q = true -> Raw.serve q st = serve q st.
Proof.
  destruct q as [newId b|id b|id]; intros H; cbn [Raw.serve serve].
  - now apply createStudent_canonical.
  - now apply updateStudent_canonical.
  - now apply deleteStudent_canonical.
Qed.

Lemma serveAll_canonical (qs : list StudentRequest) (st : Store) :
  forallb canonicalRequest qs = true -> Raw.serveAll qs st = serveAll qs st.
Proof.
  revert st. induction qs as [|q qs IH]; intros st; [reflexivity|].
  cbn [forallb Raw.serveAll serveAll]. intros H.
  apply andb_true_iff in H as [Hq Hqs].
  rewrite (serve_canonical q st Hq). destruct (success _); [now apply IH|reflexivity].
Qed.

(** ** The counters under the requests for one student *)

(** Starting from a store with unique class and department ids in which
    every counter equals the number of students that refer to the
    document, any sequence of create, update and delete requests for
    single students that write their ids in canonical form (24 hexadecimal
    digits, the letters in lower case) and that all succeed leaves every
    counter equal to the number of referring students. *)
Theorem single_student_requests_keep_counters
    (qs : list StudentRequest) (st st' : Store) :
  forallb canonicalRequest qs = true ->
  NoDup (map Class._id (classes st)) ->
  NoDup (map Department._id (departments st)) ->
  countersMatch st = true ->
  Raw.serveAll qs st = Some st' ->
  countersMatch st' = true.
Proof.
  intros C Uc Ud M S. rewrite (serveAll_canonical qs st C) in S.
  exact (canonical_requests_keep_counters qs st st' Uc Ud M S).
Qed.

Lemma single_student_requests_keep_counters_witness :
  let qs := [PostStudent Sample24.cat Sample24.catMoss;
             PutStudent Sample24.ann (Sample24.classOnly Sample24.classB);
             DeleteStudent Sample24.eve] in
  exists st',
    forallb canonicalRequest qs = true
    /\ countersMatch Sample24.twoStudents = true
    /\ Raw.serveAll qs Sample24.twoStudents = Some st'
    /\ map Class.currentStrength (classes st') = [1; 1]
    /\ countersMatch st' = true.
Proof.
  cbv zeta. eexists.
  split; [reflexivity|]. split; [reflexivity|].
  split; [vm_compute; reflexivity|]. split; [reflexivity|].
  apply (single_student_requests_keep_counters
           [PostStudent Sample24.cat Sample24.catMoss;
            PutStudent Sample24.ann (Sample24.classOnly Sample24.classB);
            DeleteStudent Sample24.eve]
           Sample24.twoStudents).
  - reflexivity.
  - apply distinct_NoDup. reflexivity.
  - apply distinct_NoDup. reflexivity.
  - reflexivity.
  - vm_compute. reflexivity.
Defined.

(** With the id of the class of the student written in upper case the
    update finds a change of class, loads the one class twice, and the
    second [save()] writes the counter of its own copy: the request
    succeeds, the student stays in the class, and the class counts one
    student more than it has. *)
Lemma updateStudent_upper_case_class :
  let st := Sample24.twoStudents in
  let r := Raw.updateStudent Sample24.ann (Sample24.classOnly Sample24.CLASSA) st in
  countersMatch st = true
  /\ status (snd r) = 200
  /\ option_map Student.class (findById Student._id Sample24.ann (students (fst r)))
     = Some Sample24.classA
  /\ option_map Class.currentStrength
       (findById Class._id Sample24.classA (classes (fst r))) = Some 2
  /\ studentsOfClass Sample24.classA (fst r) = 1
  /\ countersMatch (fst r) = false.
Proof. cbv zeta. repeat split; vm_compute; reflexivity. Qed.
